(** * SymSPI: shallow embedding of the transport state machine

    The development follows [src/src/symspi.c].  The driver is a set of C
    functions working on one [struct symspi_dev] and on kernel services
    (GPIO lines, the SPI core, timers, work queues, the allocator).  It is
    embedded as follows.

    - C integers are [Z] with their wrap-around written out
      ([to_int], [to_uint], ...); pointers are addresses in [Z], [0] being
      [NULL]; [symspi->p] is an [option] (NULL or a private part).
    - The two structs of the driver are records with the fields of the
      source; the kernel services are a [trace] of the calls made, newest
      first, and a few environment readings kept in the [machine]
      (level of the peer flag line, clock, answer of the SPI core).
    - Every function is a computation in a small monad [M]: it threads the
      [machine] and ends in [Ret] (returned), [Spin] (a loop that never
      exits) or [Oops] (NULL private part dereferenced).
    - A function of the driver runs to its end without interleaving; where
      the source itself handles a race, the racing step is a parameter.
    - Printing to the kernel log is not modelled. *)

From Stdlib Require Import ZArith List Bool Lia.
From stdpp Require Import base list.
Import ListNotations.
Open Scope Z_scope.

(** ** Machine integers *)

Definition wrap_unsigned (bits x : Z) : Z := x mod 2 ^ bits.

Definition wrap_signed (bits x : Z) : Z :=
  (x + 2 ^ (bits - 1)) mod 2 ^ bits - 2 ^ (bits - 1).

Definition to_uchar : Z -> Z := wrap_unsigned 8.
Definition to_uint : Z -> Z := wrap_unsigned 32.
Definition to_int : Z -> Z := wrap_signed 32.
Definition to_ullong : Z -> Z := wrap_unsigned 64.

Definition INT_MAX : Z := 2147483647.
Definition INT_MIN : Z := -2147483648.

(** ** Constants of symspi.h and symspi.c *)

(* errno values used by the driver (asm-generic/errno-base.h, errno.h) *)
Definition ENOMEM : Z := 12.
Definition ENODEV : Z := 19.
Definition EPIPE : Z := 32.
Definition ENOLINK : Z := 67.
Definition EALREADY : Z := 114.
(* MAX_ERRNO of linux/err.h: the top 4095 addresses are error pointers *)
Definition MAX_ERRNO : Z := 4095.
(* SPI_READY of linux/spi/spi.h *)
Definition SPI_READY : Z := 128.

Definition SYMSPI_ERROR_TYPES_COUNT : Z := 14.

Definition SYMSPI_SUCCESS : Z := 0.
Definition SYMSPI_ERROR_LOGICAL : Z := 1.
Definition SYMSPI_ERROR_XFER_SIZE_MISMATCH : Z := 3.
Definition SYMSPI_ERROR_XFER_SIZE_ZERO : Z := 4.
Definition SYMSPI_ERROR_NO_MEMORY : Z := ENOMEM.
Definition SYMSPI_ERROR_OTHER_SIDE : Z := EPIPE.
Definition SYMSPI_ERROR_STATE : Z := 8.
Definition SYMSPI_ERROR_OVERLAP : Z := 9.
Definition SYMSPI_ERROR_SPI : Z := 10.
Definition SYMSPI_ERROR_NO_SPI : Z := ENODEV.
Definition SYMSPI_ERROR_NO_GPIO : Z := 12.
Definition SYMSPI_ERROR_NO_XFER : Z := 13.
Definition SYMSPI_ERROR_IRQ_ACQUISITION : Z := 14.
Definition SYMSPI_ERROR_ISR_SETUP : Z := 15.
Definition SYMSPI_ERROR_WAIT_OTHER_SIDE : Z := 16.
Definition SYMSPI_ERROR_WORKQUEUE_INIT : Z := 17.

Definition SYMSPI_MASTER_FLAG_ACTIVE_VALUE : Z := 1.
Definition SYMSPI_SLAVE_FLAG_ACTIVE_VALUE : Z := 1.
Definition SYMSPI_OUR_FLAG_INACTIVE_STATE_MIN_TIME_USEC : Z := 750.
Definition SYMSPI_OUR_FLAG_INACTIVE_STATE_MIN_TIME_VARIANCE_PERCENT : Z := 10.
Definition SYMSPI_THEIR_FLAG_WAIT_TIMEOUT_MSEC : Z := 60.
Definition SYMSPI_ERROR_RECOVERY_SILENCE_TIME_MS : Z := 10.
Definition SYMSPI_ERROR_RECOVERY_SILENCE_TIME_VARIANCE_PERCENT : Z := 5.
Definition SYMSPI_CLOSE_HW_WAIT_TIMEOUT_MSEC : Z := 500.
Definition SYMSPI_SPI_MASTER : bool := true.
Definition SYMSPI_MIN_ERR_REPORT_INTERVAL_MSEC : Z := 10000.
Definition SYMSPI_ERR_RATE_DECAY_RATE_MSEC_PER_HALF : Z := 2000.
Definition SYMSPI_ERR_RATE_DECAY_RATE_MIN : Z := 3.

Definition SYMSPI_INIT_LEVEL_PRIVATE_ALLOCATED : Z := 1.
Definition SYMSPI_INIT_LEVEL_XFER_CREATED : Z := 2.
Definition SYMSPI_INIT_LEVEL_WORKQUEUE_INIT : Z := 3.
Definition SYMSPI_INIT_LEVEL_GPIO_IRQS : Z := 4.
Definition SYMSPI_INIT_LEVEL_FULL : Z := 5.

Definition SYMSPI_INITIAL_XFER_ID : Z := 1.

Definition SYMSPI_STATE_COLD : Z := 0.
Definition SYMSPI_STATE_IDLE : Z := 1.
Definition SYMSPI_STATE_XFER_PREPARE : Z := 2.
Definition SYMSPI_STATE_WAITING_PREV : Z := 3.
Definition SYMSPI_STATE_WAITING_RDY : Z := 4.
Definition SYMSPI_STATE_XFER : Z := 5.
Definition SYMSPI_STATE_POSTPROCESSING : Z := 6.
Definition SYMSPI_STATE_ERROR : Z := 7.

Definition SYMSPI_PRIVATE_MAGIC : Z := 0x0E31553B.

(** ** Data structures *)

(* struct full_duplex_xfer, as symspi.c uses it.  [tx_bytes] is the content
   of the buffer [data_tx] points to. *)
Record full_duplex_xfer := {
  size_bytes : Z;
  data_tx : Z;
  tx_bytes : list Z;
  data_rx_buf : Z;
  xfers_counter : Z;
  id : Z;
  consumer_data : Z;
  done_callback : Z;
  fail_callback : Z
}.

Record symspi_error_rec := {
  err_num : Z;
  total_count : Z;
  unreported_count : Z;
  last_report_time_msec : Z;
  last_occurence_time_msec : Z;
  exp_avg_interval_msec : Z;
  last_reported : bool;
  err_per_sec_threshold : Z
}.

Record symspi_info := {
  other_side_indicated_errors : Z;
  other_side_no_reaction_errors : Z;
  xfers_done_ok : Z;
  their_flag_edges : Z
}.

(* the fields of struct spi_transfer the driver writes *)
Record spi_transfer := {
  tx_buf : Z;
  rx_buf : Z;
  len : Z
}.

(* the fields of struct spi_message the driver uses; [msg_spi] is [0]
   while the message is not set up *)
Record spi_message := {
  msg_spi : Z;
  status : Z
}.

Record symspi_dev_private := {
  next_xfer_id : Z;
  current_xfer : full_duplex_xfer;
  spi_xfer : spi_transfer;
  spi_msg : spi_message;
  work_queue : Z;
  state : Z;
  their_flag_drop_counter : Z;
  spi_master_mode : bool;
  hardware_spi_rdy : bool;
  their_flag_irq_number : Z;
  delayed_xfer_request : bool;
  close_request : bool;
  (* [done] count of the completion *)
  final_leave_xfer_completion : nat;
  last_error : Z;
  magic : Z;
  errors : list symspi_error_rec;
  init_level : Z;
  proc_root : Z;
  info_file : Z;
  info : symspi_info
}.

(* struct symspi_dev; [spi_mode] is [spi->mode] of the SPI device *)
Record symspi_dev := {
  xfer_accepted_callback : Z;
  spi : Z;
  spi_mode : Z;
  gpiod_our_flag : Z;
  gpiod_their_flag : Z;
  their_flag_wait_timeout_ms : Z;
  native_transfer_configuration_hook : Z;
  p : option symspi_dev_private
}.

Inductive work := xfer_work | postprocessing_work | recover_work.

(* what a consumer callback hands back: NULL, an error pointer, or a new
   xfer owned by the consumer *)
Inductive callback_ret :=
| CbNull
| CbErr
| CbXfer (x : full_duplex_xfer).

(* calls into the kernel and into the consumer, as the driver makes them *)
Inductive event :=
| EvGpioSetOurFlag (level : Z)
| EvDropCounterStore (v : Z)
| EvDropCounterAddFetch (v : Z)
| EvSpiAsync
| EvQueueWork (w : work)
| EvCancelWorkSync (w : work)
| EvModTimer
| EvDelTimer
| EvDelTimerSync
| EvUsleepRange (lo hi : Z)
| EvNativeHook
| EvDoneCallback (xfer_id : Z)
| EvFailCallback (xfer_id : Z) (error_code : Z)
| EvXferAccepted
| EvRequestIrq (irq flags : Z)
| EvFreeIrq (irq : Z)
| EvDestroyWorkqueue
| EvKfreePrivate.

(* the device and its surroundings *)
Record machine := {
  symspi : symspi_dev;
  (* raw level of the peer flag line *)
  their_flag_raw : Z;
  (* raw level last written to our flag line *)
  our_flag_raw : Z;
  (* ktime_get(), in nanoseconds *)
  ktime_ns : Z;
  (* what spi_async answers *)
  spi_async_result : Z;
  (* number of allocator calls made so far *)
  allocs : nat;
  trace : list event
}.

(* what the target and the consumer fix: the width of unsigned long, the
   two result codes of full_duplex_interface.h the driver returns, the
   allocator and the kernel calls of init, and the consumer callbacks
   addressed by their function pointers *)
Record platform := {
  BITS_PER_LONG : Z;
  FULL_DUPLEX_ERROR_NOT_READY : Z;
  FULL_DUPLEX_ERROR_NO_DEVICE_PROVIDED : Z;
  krealloc : nat -> Z -> Z -> Z;
  kzalloc_private : nat -> bool;
  alloc_workqueue : Z;
  gpiod_to_irq : Z -> Z;
  request_irq : Z -> Z -> Z;
  proc_mkdir : Z;
  proc_create_data : Z;
  call_done_callback : Z -> full_duplex_xfer -> Z -> Z -> callback_ret * bool;
  call_fail_callback : Z -> full_duplex_xfer -> Z -> Z -> Z -> callback_ret
}.

(** ** Field updates *)

Definition full_duplex_xfer_eta (x : full_duplex_xfer) : full_duplex_xfer :=
  {| size_bytes := size_bytes x; data_tx := data_tx x; tx_bytes := tx_bytes x;
     data_rx_buf := data_rx_buf x; xfers_counter := xfers_counter x;
     id := id x; consumer_data := consumer_data x;
     done_callback := done_callback x; fail_callback := fail_callback x |}.

Definition symspi_error_rec_eta (x : symspi_error_rec) : symspi_error_rec :=
  {| err_num := err_num x; total_count := total_count x;
     unreported_count := unreported_count x;
     last_report_time_msec := last_report_time_msec x;
     last_occurence_time_msec := last_occurence_time_msec x;
     exp_avg_interval_msec := exp_avg_interval_msec x;
     last_reported := last_reported x;
     err_per_sec_threshold := err_per_sec_threshold x |}.

Definition symspi_info_eta (x : symspi_info) : symspi_info :=
  {| other_side_indicated_errors := other_side_indicated_errors x;
     other_side_no_reaction_errors := other_side_no_reaction_errors x;
     xfers_done_ok := xfers_done_ok x;
     their_flag_edges := their_flag_edges x |}.

Definition symspi_dev_private_eta (x : symspi_dev_private)
  : symspi_dev_private :=
  {| next_xfer_id := next_xfer_id x; current_xfer := current_xfer x;
     spi_xfer := spi_xfer x; spi_msg := spi_msg x;
     work_queue := work_queue x; state := state x;
     their_flag_drop_counter := their_flag_drop_counter x;
     spi_master_mode := spi_master_mode x;
     hardware_spi_rdy := hardware_spi_rdy x;
     their_flag_irq_number := their_flag_irq_number x;
     delayed_xfer_request := delayed_xfer_request x;
     close_request := close_request x;
     final_leave_xfer_completion := final_leave_xfer_completion x;
     last_error := last_error x; magic := magic x; errors := errors x;
     init_level := init_level x; proc_root := proc_root x;
     info_file := info_file x; info := info x |}.

Definition symspi_dev_eta (x : symspi_dev) : symspi_dev :=
  {| xfer_accepted_callback := xfer_accepted_callback x; spi := spi x;
     spi_mode := spi_mode x; gpiod_our_flag := gpiod_our_flag x;
     gpiod_their_flag := gpiod_their_flag x;
     their_flag_wait_timeout_ms := their_flag_wait_timeout_ms x;
     native_transfer_configuration_hook :=
       native_transfer_configuration_hook x;
     p := p x |}.

Definition machine_eta (x : machine) : machine :=
  {| symspi := symspi x; their_flag_raw := their_flag_raw x;
     our_flag_raw := our_flag_raw x; ktime_ns := ktime_ns x;
     spi_async_result := spi_async_result x; allocs := allocs x;
     trace := trace x |}.

(* [setter eta f] builds [fun v x => x with f := v] out of the
   eta-expansion of the record *)
Ltac setter eta f :=
  let v := fresh "v" in
  let x := fresh "x" in
  intros v x;
  let e := eval cbv beta delta [eta] in (eta x) in
  match eval pattern (f x) in e with
  | ?g _ => let t := eval cbv beta in (g v) in exact t
  end.

Definition set_size_bytes : Z -> full_duplex_xfer -> full_duplex_xfer :=
  ltac:(setter full_duplex_xfer_eta size_bytes).
Definition set_data_tx : Z -> full_duplex_xfer -> full_duplex_xfer :=
  ltac:(setter full_duplex_xfer_eta data_tx).
Definition set_tx_bytes : list Z -> full_duplex_xfer -> full_duplex_xfer :=
  ltac:(setter full_duplex_xfer_eta tx_bytes).
Definition set_data_rx_buf : Z -> full_duplex_xfer -> full_duplex_xfer :=
  ltac:(setter full_duplex_xfer_eta data_rx_buf).
Definition set_xfers_counter : Z -> full_duplex_xfer -> full_duplex_xfer :=
  ltac:(setter full_duplex_xfer_eta xfers_counter).
Definition set_id : Z -> full_duplex_xfer -> full_duplex_xfer :=
  ltac:(setter full_duplex_xfer_eta id).
Definition set_consumer_data : Z -> full_duplex_xfer -> full_duplex_xfer :=
  ltac:(setter full_duplex_xfer_eta consumer_data).
Definition set_done_callback : Z -> full_duplex_xfer -> full_duplex_xfer :=
  ltac:(setter full_duplex_xfer_eta done_callback).
Definition set_fail_callback : Z -> full_duplex_xfer -> full_duplex_xfer :=
  ltac:(setter full_duplex_xfer_eta fail_callback).

Definition set_err_num : Z -> symspi_error_rec -> symspi_error_rec :=
  ltac:(setter symspi_error_rec_eta err_num).
Definition set_err_per_sec_threshold
  : Z -> symspi_error_rec -> symspi_error_rec :=
  ltac:(setter symspi_error_rec_eta err_per_sec_threshold).
Definition set_total_count : Z -> symspi_error_rec -> symspi_error_rec :=
  ltac:(setter symspi_error_rec_eta total_count).
Definition set_unreported_count : Z -> symspi_error_rec -> symspi_error_rec :=
  ltac:(setter symspi_error_rec_eta unreported_count).
Definition set_last_report_time_msec
  : Z -> symspi_error_rec -> symspi_error_rec :=
  ltac:(setter symspi_error_rec_eta last_report_time_msec).
Definition set_last_occurence_time_msec
  : Z -> symspi_error_rec -> symspi_error_rec :=
  ltac:(setter symspi_error_rec_eta last_occurence_time_msec).
Definition set_exp_avg_interval_msec
  : Z -> symspi_error_rec -> symspi_error_rec :=
  ltac:(setter symspi_error_rec_eta exp_avg_interval_msec).
Definition set_last_reported : bool -> symspi_error_rec -> symspi_error_rec :=
  ltac:(setter symspi_error_rec_eta last_reported).

Definition set_other_side_indicated_errors
  : Z -> symspi_info -> symspi_info :=
  ltac:(setter symspi_info_eta other_side_indicated_errors).
Definition set_other_side_no_reaction_errors
  : Z -> symspi_info -> symspi_info :=
  ltac:(setter symspi_info_eta other_side_no_reaction_errors).
Definition set_xfers_done_ok : Z -> symspi_info -> symspi_info :=
  ltac:(setter symspi_info_eta xfers_done_ok).
Definition set_their_flag_edges : Z -> symspi_info -> symspi_info :=
  ltac:(setter symspi_info_eta their_flag_edges).

Definition set_next_xfer_id
  : Z -> symspi_dev_private -> symspi_dev_private :=
  ltac:(setter symspi_dev_private_eta next_xfer_id).
Definition set_current_xfer
  : full_duplex_xfer -> symspi_dev_private -> symspi_dev_private :=
  ltac:(setter symspi_dev_private_eta current_xfer).
Definition set_spi_xfer
  : spi_transfer -> symspi_dev_private -> symspi_dev_private :=
  ltac:(setter symspi_dev_private_eta spi_xfer).
Definition set_spi_msg
  : spi_message -> symspi_dev_private -> symspi_dev_private :=
  ltac:(setter symspi_dev_private_eta spi_msg).
Definition set_work_queue : Z -> symspi_dev_private -> symspi_dev_private :=
  ltac:(setter symspi_dev_private_eta work_queue).
Definition set_state : Z -> symspi_dev_private -> symspi_dev_private :=
  ltac:(setter symspi_dev_private_eta state).
Definition set_their_flag_drop_counter
  : Z -> symspi_dev_private -> symspi_dev_private :=
  ltac:(setter symspi_dev_private_eta their_flag_drop_counter).
Definition set_spi_master_mode
  : bool -> symspi_dev_private -> symspi_dev_private :=
  ltac:(setter symspi_dev_private_eta spi_master_mode).
Definition set_hardware_spi_rdy
  : bool -> symspi_dev_private -> symspi_dev_private :=
  ltac:(setter symspi_dev_private_eta hardware_spi_rdy).
Definition set_their_flag_irq_number
  : Z -> symspi_dev_private -> symspi_dev_private :=
  ltac:(setter symspi_dev_private_eta their_flag_irq_number).
Definition set_delayed_xfer_request
  : bool -> symspi_dev_private -> symspi_dev_private :=
  ltac:(setter symspi_dev_private_eta delayed_xfer_request).
Definition set_close_request
  : bool -> symspi_dev_private -> symspi_dev_private :=
  ltac:(setter symspi_dev_private_eta close_request).
Definition set_final_leave_xfer_completion
  : nat -> symspi_dev_private -> symspi_dev_private :=
  ltac:(setter symspi_dev_private_eta final_leave_xfer_completion).
Definition set_last_error : Z -> symspi_dev_private -> symspi_dev_private :=
  ltac:(setter symspi_dev_private_eta last_error).
Definition set_magic : Z -> symspi_dev_private -> symspi_dev_private :=
  ltac:(setter symspi_dev_private_eta magic).
Definition set_errors
  : list symspi_error_rec -> symspi_dev_private -> symspi_dev_private :=
  ltac:(setter symspi_dev_private_eta errors).
Definition set_init_level : Z -> symspi_dev_private -> symspi_dev_private :=
  ltac:(setter symspi_dev_private_eta init_level).
Definition set_proc_root : Z -> symspi_dev_private -> symspi_dev_private :=
  ltac:(setter symspi_dev_private_eta proc_root).
Definition set_info_file : Z -> symspi_dev_private -> symspi_dev_private :=
  ltac:(setter symspi_dev_private_eta info_file).
Definition set_info
  : symspi_info -> symspi_dev_private -> symspi_dev_private :=
  ltac:(setter symspi_dev_private_eta info).

Definition set_p : option symspi_dev_private -> symspi_dev -> symspi_dev :=
  ltac:(setter symspi_dev_eta p).

Definition set_symspi : symspi_dev -> machine -> machine :=
  ltac:(setter machine_eta symspi).
Definition set_their_flag_raw : Z -> machine -> machine :=
  ltac:(setter machine_eta their_flag_raw).
Definition set_ktime_ns : Z -> machine -> machine :=
  ltac:(setter machine_eta ktime_ns).
Definition set_spi_async_result : Z -> machine -> machine :=
  ltac:(setter machine_eta spi_async_result).
Definition set_our_flag_raw : Z -> machine -> machine :=
  ltac:(setter machine_eta our_flag_raw).
Definition set_allocs : nat -> machine -> machine :=
  ltac:(setter machine_eta allocs).
Definition set_trace : list event -> machine -> machine :=
  ltac:(setter machine_eta trace).

(* the machine with its private part replaced *)
Definition set_private (pr : option symspi_dev_private) (m : machine)
  : machine :=
  set_symspi (set_p pr (symspi m)) m.

(** ** The monad of driver code *)

Inductive result (A : Type) : Type :=
| Ret (a : A) (m : machine)
| Spin (m : machine)
| Oops (m : machine).
Arguments Ret {A} a m.
Arguments Spin {A} m.
Arguments Oops {A} m.

Definition M (A : Type) : Type := machine -> result A.

Definition ret {A} (a : A) : M A := fun m => Ret a m.

Definition bind {A B} (c : M A) (k : A -> M B) : M B :=
  fun m =>
    match c m with
    | Ret a m' => k a m'
    | Spin m' => Spin m'
    | Oops m' => Oops m'
    end.

Declare Scope symspi_scope.
Delimit Scope symspi_scope with symspi.
Notation "x <- c ;; k" := (bind c (fun x => k))
  (at level 100, c at next level, right associativity) : symspi_scope.
Notation "c ;; k" := (bind c (fun _ => k))
  (at level 100, right associativity) : symspi_scope.
Open Scope symspi_scope.

(* the machine a computation ended in, whatever the outcome *)
Definition final {A} (r : result A) : machine :=
  match r with
  | Ret _ m => m
  | Spin m => m
  | Oops m => m
  end.

(* symspi->p->f *)
Definition rd {X} (f : symspi_dev_private -> X) : M X :=
  fun m =>
    match p (symspi m) with
    | Some pr => Ret (f pr) m
    | None => Oops m
    end.

(* symspi->p->... = ... *)
Definition wr (f : symspi_dev_private -> symspi_dev_private) : M unit :=
  fun m =>
    match p (symspi m) with
    | Some pr => Ret tt (set_private (Some (f pr)) m)
    | None => Oops m
    end.

(* a field of symspi itself *)
Definition rd_dev {X} (f : symspi_dev -> X) : M X :=
  fun m => Ret (f (symspi m)) m.

Definition rd_env {X} (f : machine -> X) : M X :=
  fun m => Ret (f m) m.

Definition emit (e : event) : M unit :=
  fun m => Ret tt (set_trace (e :: trace m) m).

(* a || b of C, on computations *)
Definition orelse (a b : M bool) : M bool :=
  x <- a ;; if x then ret true else b.

Section Driver.

(* [fuel] bounds the passes of the retry loop of the error handler;
   [xfer_done_race] is what the bus-completion callback does, when it runs
   on another CPU, between the two looks the error handler takes at the
   XFER state *)
Context (pf : platform) (fuel : nat) (xfer_done_race : M unit).

Definition to_ulong : Z -> Z := wrap_unsigned (BITS_PER_LONG pf).

(* IS_ERR and IS_ERR_OR_NULL of linux/err.h *)
Definition IS_ERR (ptr : Z) : bool :=
  2 ^ BITS_PER_LONG pf - MAX_ERRNO <=? to_ulong ptr.

Definition IS_ERR_OR_NULL (ptr : Z) : bool :=
  (ptr =? 0) || IS_ERR ptr.

(** ** Flag lines, timer, deferred work *)

Definition gpiod_set_raw_value_our_flag (level : Z) : M unit :=
  emit (EvGpioSetOurFlag level) ;;
  fun m => Ret tt (set_our_flag_raw level m).

Definition symspi_our_flag_set : M unit :=
  master <- rd spi_master_mode ;;
  gpiod_set_raw_value_our_flag
    (if master then SYMSPI_MASTER_FLAG_ACTIVE_VALUE
     else SYMSPI_SLAVE_FLAG_ACTIVE_VALUE).

Definition symspi_our_flag_drop : M unit :=
  master <- rd spi_master_mode ;;
  gpiod_set_raw_value_our_flag
    (if master then (if SYMSPI_MASTER_FLAG_ACTIVE_VALUE =? 0 then 1 else 0)
     else (if SYMSPI_SLAVE_FLAG_ACTIVE_VALUE =? 0 then 1 else 0)).

Definition symspi_their_flag_is_set : M bool :=
  master <- rd spi_master_mode ;;
  raw <- rd_env their_flag_raw ;;
  ret ((if master then SYMSPI_SLAVE_FLAG_ACTIVE_VALUE
        else SYMSPI_MASTER_FLAG_ACTIVE_VALUE) =? raw).

Definition symspi_wait_flag_silence_period : M unit :=
  let usecs := SYMSPI_OUR_FLAG_INACTIVE_STATE_MIN_TIME_USEC in
  let variance := SYMSPI_OUR_FLAG_INACTIVE_STATE_MIN_TIME_VARIANCE_PERCENT in
  if usecs =? 0 then ret tt
  else emit (EvUsleepRange (usecs * (100 - variance) / 100)
                           (usecs * (100 + variance) / 100)).

Definition __symspi_restart_timeout_timer : M unit := emit EvModTimer.
Definition __symspi_stop_timeout_timer : M unit := emit EvDelTimer.
Definition __symspi_stop_timeout_timer_sync : M unit := emit EvDelTimerSync.

Definition __symspi_schedule_work (w : work) : M unit :=
  emit (EvQueueWork w).

Definition __symspi_cancel_work_sync (w : work) : M unit :=
  emit (EvCancelWorkSync w).

Definition __symspi_is_closing : M bool := rd close_request.

(** ** State controller *)

(* __atomic_compare_exchange_n on the state word *)
Definition atomic_compare_exchange_state (expected_state dst_state : Z)
  : M bool :=
  cur <- rd state ;;
  if cur =? expected_state
  then wr (set_state dst_state) ;; ret true
  else ret false.

(* complete(&final_leave_xfer_completion) *)
Definition complete_final_leave_xfer : M unit :=
  wr (fun pr => set_final_leave_xfer_completion
                  (S (final_leave_xfer_completion pr)) pr).

Definition symspi_switch_strict (expected_state dst_state : Z) : M bool :=
  closing <- __symspi_is_closing ;;
  if closing then
    if negb (expected_state =? SYMSPI_STATE_XFER)
       || (dst_state =? SYMSPI_STATE_XFER)
    then ret false
    else
      atomic_compare_exchange_state expected_state dst_state ;;
      complete_final_leave_xfer ;;
      ret false
  else atomic_compare_exchange_state expected_state dst_state.

Definition symspi_switch_state_val_forced (dst_state : Z) : M Z :=
  old <- rd state ;;
  wr (set_state dst_state) ;;
  ret old.

(** ** Error ledger *)

(* the loop of __symspi_get_error_rec: index of the first record of
   [recs] whose err_num is [err_no], counting from [i] *)
Fixpoint find_error_rec (recs : list symspi_error_rec) (err_no : Z) (i : nat)
  : option nat :=
  match recs with
  | [] => None
  | e :: rest =>
      if err_num e =? err_no then Some i
      else find_error_rec rest err_no (S i)
  end.

Definition __symspi_get_error_rec (err_no : Z) : M (option nat) :=
  fun m =>
    match p (symspi m) with
    | None => Ret None m
    | Some pr =>
        if negb (magic pr =? SYMSPI_PRIVATE_MAGIC) then Ret None m
        else Ret (find_error_rec (errors pr) (to_uchar err_no) 0%nat) m
    end.

(* |a - b| the way the source takes it on unsigned operands *)
Definition msec_distance (now_msec last : Z) : Z :=
  to_uint (to_ulong (if last <=? now_msec then now_msec - last
                     else last - now_msec)).

(* the body of __symspi_error_report on the record found, at time
   [now_msec]: the updated record and the value returned *)
Definition error_rec_report (now_msec : Z) (e : symspi_error_rec)
  : symspi_error_rec * bool :=
  let e := set_total_count (to_uint (total_count e + 1)) e in
  let since_last_report_msec :=
    msec_distance now_msec (last_report_time_msec e) in
  let since_last_occurance_msec :=
    msec_distance now_msec (last_occurence_time_msec e) in
  let e := set_last_occurence_time_msec now_msec e in
  let decay_percent :=
    Z.max (Z.min (to_uint (50 * since_last_occurance_msec)
                  / SYMSPI_ERR_RATE_DECAY_RATE_MSEC_PER_HALF) 100)
          SYMSPI_ERR_RATE_DECAY_RATE_MIN in
  let threshold := err_per_sec_threshold e in
  let prev_rate := 1000 / Z.max (to_uint (exp_avg_interval_msec e)) 1 in
  let e :=
    set_exp_avg_interval_msec
      (Z.max (to_uint
                (to_ulong
                   (to_ulong ((100 - decay_percent) * exp_avg_interval_msec e)
                    + to_uint (decay_percent * since_last_occurance_msec))
                 / 100))
             1) e in
  let rate := to_uint (1000 / exp_avg_interval_msec e) in
  if (since_last_report_msec <? SYMSPI_MIN_ERR_REPORT_INTERVAL_MSEC)
     && negb ((prev_rate <? threshold) && (threshold <=? rate))
  then
    (set_last_reported false
       (set_unreported_count (to_uint (unreported_count e + 1)) e), false)
  else
    let e := set_last_reported true (set_last_report_time_msec now_msec e) in
    (if 0 <? unreported_count e then set_unreported_count 0 e else e, true).

(* (uint32_t)(ktime_divns(ktime_get(), 1000000U)) *)
Definition ktime_now_msec : M Z :=
  t <- rd_env ktime_ns ;;
  ret (to_uint (t / 1000000)).

Definition __symspi_error_report (err_no : Z) (sub_error_no : Z) : M bool :=
  e_ptr <- __symspi_get_error_rec err_no ;;
  match e_ptr with
  | None => ret true
  | Some i =>
      recs <- rd errors ;;
      match recs !! i with
      | None => ret true
      | Some e =>
          now_msec <- ktime_now_msec ;;
          let (e', verbose) := error_rec_report now_msec e in
          wr (set_errors (<[i := e']> recs)) ;;
          ret verbose
      end
  end.

Definition SYMSPI_SWITCH_STRICT (initial destination : Z) : M bool :=
  symspi_switch_strict initial destination.

(* one pass of the while (true) of __symspi_error_handle_; [true] when
   the pass ends in a return *)
Definition __symspi_error_handle_pass (err_no : Z) : M bool :=
  to_error <-
    orelse (SYMSPI_SWITCH_STRICT SYMSPI_STATE_IDLE SYMSPI_STATE_ERROR)
   (orelse (SYMSPI_SWITCH_STRICT SYMSPI_STATE_XFER_PREPARE SYMSPI_STATE_ERROR)
   (orelse (SYMSPI_SWITCH_STRICT SYMSPI_STATE_WAITING_PREV SYMSPI_STATE_ERROR)
   (orelse (SYMSPI_SWITCH_STRICT SYMSPI_STATE_WAITING_RDY SYMSPI_STATE_ERROR)
           (SYMSPI_SWITCH_STRICT SYMSPI_STATE_POSTPROCESSING
                                 SYMSPI_STATE_ERROR)))) ;;
  if to_error then
    wr (set_last_error err_no) ;;
    __symspi_schedule_work recover_work ;;
    ret true
  else
    in_error <- SYMSPI_SWITCH_STRICT SYMSPI_STATE_ERROR SYMSPI_STATE_ERROR ;;
    if in_error then ret true
    else
      in_xfer <- SYMSPI_SWITCH_STRICT SYMSPI_STATE_XFER SYMSPI_STATE_XFER ;;
      if in_xfer then
        wr (set_last_error err_no) ;;
        xfer_done_race ;;
        advanced <- SYMSPI_SWITCH_STRICT SYMSPI_STATE_POSTPROCESSING
                                         SYMSPI_STATE_ERROR ;;
        (if advanced then __symspi_schedule_work recover_work
         else ret tt) ;;
        ret true
      else
        SYMSPI_SWITCH_STRICT SYMSPI_STATE_COLD SYMSPI_STATE_COLD.

Fixpoint __symspi_error_handle_loop (n : nat) (err_no : Z) : M unit :=
  match n with
  | O => fun m => Spin m
  | S n' =>
      returned <- __symspi_error_handle_pass err_no ;;
      if returned then ret tt else __symspi_error_handle_loop n' err_no
  end.

(* [err_no] is an unsigned char parameter in the source *)
Definition __symspi_error_handle_ (err_no : Z) (sub_error_no : Z) : M unit :=
  let err_no := to_uchar err_no in
  if err_no =? SYMSPI_SUCCESS then ret tt
  else
    (if err_no =? SYMSPI_ERROR_OTHER_SIDE then
       wr (fun pr =>
             set_info (set_other_side_indicated_errors
                         (to_ullong (other_side_indicated_errors (info pr) + 1))
                         (info pr)) pr)
     else if err_no =? SYMSPI_ERROR_WAIT_OTHER_SIDE then
       wr (fun pr =>
             set_info (set_other_side_no_reaction_errors
                         (to_ullong
                            (other_side_no_reaction_errors (info pr) + 1))
                         (info pr)) pr)
     else ret tt) ;;
    __symspi_error_report err_no sub_error_no ;;
    __symspi_error_handle_loop fuel err_no.

(* the handler of the timeout timer.  from_timer gives the private part
   the timer is a member of, and the device pointer made up from it by
   container_of is one whose p field reads that private part; nothing
   below reads another field of the device.  The call is
   __symspi_error_handle(SYMSPI_ERROR_WAIT_OTHER_SIDE, 0). *)
Definition __symspi_other_side_wait_timeout : M unit :=
  fun m =>
    match p (symspi m) with
    | None => Ret tt m
    | Some pr =>
        if negb (magic pr =? SYMSPI_PRIVATE_MAGIC) then Ret tt m
        else __symspi_error_handle_ SYMSPI_ERROR_WAIT_OTHER_SIDE 0 m
    end.

(** ** Handshake protocol engine *)

(* __atomic_store_n(&symspi->p->their_flag_drop_counter, v, SEQ_CST) *)
Definition atomic_store_drop_counter (v : Z) : M unit :=
  wr (set_their_flag_drop_counter v) ;;
  emit (EvDropCounterStore v).

(* __atomic_add_fetch(&symspi->p->their_flag_drop_counter, 1, SEQ_CST) *)
Definition atomic_add_fetch_drop_counter : M Z :=
  c <- rd their_flag_drop_counter ;;
  let c' := to_int (c + 1) in
  wr (set_their_flag_drop_counter c') ;;
  emit (EvDropCounterAddFetch c') ;;
  ret c'.

Definition spi_async : M Z :=
  emit EvSpiAsync ;;
  rd_env spi_async_result.

Definition symspi_do_xfer : M Z :=
  atomic_store_drop_counter 0 ;;
  res <- spi_async ;;
  if res =? 0 then ret SYMSPI_SUCCESS
  else ret (- SYMSPI_ERROR_SPI).

(* the work behind xfer_work (initialised by __symspi_init_workqueue, and
   queued nowhere in the source): the device is taken from the work, a
   member of the private part, and the result of symspi_do_xfer is
   dropped *)
Definition symspi_do_xfer_work_wrapper : M unit :=
  symspi_do_xfer ;;
  ret tt.

Definition symspi_is_their_request : M bool :=
  c <- rd their_flag_drop_counter ;;
  if c =? 1 then symspi_their_flag_is_set else ret false.

Definition symspi_try_leave_waiting_rdy_sequence : M Z :=
  ok <- SYMSPI_SWITCH_STRICT SYMSPI_STATE_WAITING_RDY SYMSPI_STATE_XFER ;;
  if ok then __symspi_stop_timeout_timer ;; symspi_do_xfer
  else ret SYMSPI_SUCCESS.

Definition symspi_try_leave_waiting_prev_sequence : M Z :=
  master <- rd spi_master_mode ;;
  if negb master then
    __symspi_stop_timeout_timer ;; symspi_do_xfer
  else
    hw <- rd hardware_spi_rdy ;;
    if hw then
      ok <- SYMSPI_SWITCH_STRICT SYMSPI_STATE_WAITING_PREV SYMSPI_STATE_XFER ;;
      if ok then __symspi_stop_timeout_timer ;; symspi_do_xfer
      else ret SYMSPI_SUCCESS
    else
      ok <- SYMSPI_SWITCH_STRICT SYMSPI_STATE_WAITING_PREV
                                 SYMSPI_STATE_WAITING_RDY ;;
      if ok then
        __symspi_restart_timeout_timer ;;
        req <- symspi_is_their_request ;;
        if req then symspi_try_leave_waiting_rdy_sequence
        else ret SYMSPI_SUCCESS
      else ret SYMSPI_SUCCESS.

Definition symspi_try_to_error_sequence (internal_error : Z) : M Z :=
  c <- rd their_flag_drop_counter ;;
  let other_side_error := 1 <? c in
  if negb (internal_error =? SYMSPI_SUCCESS) || other_side_error then
    let err_no := if internal_error =? SYMSPI_SUCCESS
                  then SYMSPI_ERROR_OTHER_SIDE
                  else - internal_error in
    __symspi_error_handle_ err_no 0 ;;
    ret (- err_no)
  else ret SYMSPI_SUCCESS.

Definition symspi_xfer_prepare_to_waiting_prev_sequence : M Z :=
  symspi_our_flag_set ;;
  res <- symspi_try_to_error_sequence SYMSPI_SUCCESS ;;
  if negb (res =? SYMSPI_SUCCESS) then ret res
  else
    ok <- symspi_switch_strict SYMSPI_STATE_XFER_PREPARE
                               SYMSPI_STATE_WAITING_PREV ;;
    (if ok then __symspi_restart_timeout_timer else ret tt) ;;
    c <- rd their_flag_drop_counter ;;
    master <- rd spi_master_mode ;;
    if (c =? 1) || negb master
    then symspi_try_leave_waiting_prev_sequence
    else ret SYMSPI_SUCCESS.

(** ** Transfer buffer manager *)

Definition regions_overlap (r_1 size_1 r_2 size_2 : Z) : bool :=
  (r_2 <? r_1 + size_1) && (r_1 <=? r_2 + size_2 - 1).

Definition krealloc_call (ptr size : Z) : M Z :=
  fun m => Ret (krealloc pf (allocs m) ptr size) (set_allocs (S (allocs m)) m).

(* the xfer is passed by pointer in the source: the resized xfer is the
   value returned.  On the out_of_memory path both buffers are freed, the
   pointers are left as they are and the size becomes 0. *)
Definition symspi_do_resize_xfer (xfer : full_duplex_xfer)
    (new_size_bytes : Z) : M full_duplex_xfer :=
  if size_bytes xfer =? new_size_bytes then ret xfer
  else
    let xfer := set_size_bytes new_size_bytes xfer in
    let out_of_memory (x : full_duplex_xfer) :=
      set_size_bytes 0 (set_tx_bytes [] x) in
    if new_size_bytes =? 0 then ret (out_of_memory xfer)
    else
      tx <- krealloc_call (data_tx xfer) new_size_bytes ;;
      let xfer :=
        set_tx_bytes (firstn (Z.to_nat new_size_bytes) (tx_bytes xfer))
                     (set_data_tx tx xfer) in
      if tx =? 0 then ret (out_of_memory xfer)
      else
        rx <- krealloc_call (data_rx_buf xfer) new_size_bytes ;;
        let xfer := set_data_rx_buf rx xfer in
        if rx =? 0 then ret (out_of_memory xfer)
        else ret xfer.

Definition symspi_do_update_native_spi_xfer_data : M unit :=
  hook <- rd_dev native_transfer_configuration_hook ;;
  (if hook =? 0 then ret tt else emit EvNativeHook) ;;
  wr (fun pr =>
        let src := current_xfer pr in
        set_spi_xfer {| tx_buf := data_tx src; rx_buf := data_rx_buf src;
                        len := size_bytes src |} pr).

(* memcpy(dst, src, n) on buffer contents *)
Definition memcpy (dst src : list Z) (n : Z) : list Z :=
  firstn (Z.to_nat n) src ++ skipn (Z.to_nat n) dst.

Definition symspi_replace_xfer (new_xfer : full_duplex_xfer)
    (force_size_change : bool) : M Z :=
  curr_xfer <- rd current_xfer ;;
  if size_bytes new_xfer =? 0 then ret (- SYMSPI_ERROR_XFER_SIZE_ZERO)
  else if regions_overlap (data_tx curr_xfer) (size_bytes curr_xfer)
                          (data_tx new_xfer) (size_bytes new_xfer)
  then ret (- SYMSPI_ERROR_OVERLAP)
  else
    refused <-
      (if negb (size_bytes curr_xfer =? size_bytes new_xfer) then
         st <- rd state ;;
         if negb (st =? SYMSPI_STATE_XFER) && negb force_size_change
         then ret (Some (- SYMSPI_ERROR_XFER_SIZE_MISMATCH))
         else
           resized <- symspi_do_resize_xfer curr_xfer (size_bytes new_xfer) ;;
           wr (set_current_xfer resized) ;;
           if size_bytes resized =? 0
           then ret (Some (- SYMSPI_ERROR_NO_MEMORY))
           else ret None
       else ret None) ;;
    match refused with
    | Some err => ret err
    | None =>
        wr (fun pr =>
              let c := current_xfer pr in
              set_current_xfer
                (set_xfers_counter (xfers_counter new_xfer)
                (set_consumer_data (consumer_data new_xfer)
                (set_fail_callback (fail_callback new_xfer)
                (set_done_callback (done_callback new_xfer)
                (set_id (id new_xfer)
                (set_tx_bytes (memcpy (tx_bytes c) (tx_bytes new_xfer)
                                      (size_bytes c)) c)))))) pr) ;;
        symspi_do_update_native_spi_xfer_data ;;
        ret SYMSPI_SUCCESS
    end.

Definition symspi_get_next_xfer_id : M Z :=
  xfer_id <- rd next_xfer_id ;;
  wr (set_next_xfer_id (to_int (xfer_id + 1))) ;;
  if xfer_id <=? 0 then
    wr (set_next_xfer_id (SYMSPI_INITIAL_XFER_ID + 1)) ;;
    ret SYMSPI_INITIAL_XFER_ID
  else ret xfer_id.

Definition symspi_verify_consumer_input (xfer : option full_duplex_xfer)
    (check_xfer : bool) : M Z :=
  dev <- rd_dev (fun d => d) ;;
  if IS_ERR_OR_NULL (spi dev) then ret (- SYMSPI_ERROR_NO_SPI)
  else if IS_ERR_OR_NULL (gpiod_our_flag dev)
          || IS_ERR_OR_NULL (gpiod_their_flag dev)
  then ret (- SYMSPI_ERROR_NO_GPIO)
  else if negb check_xfer then ret SYMSPI_SUCCESS
  else
    match xfer with
    | None => ret (- SYMSPI_ERROR_NO_XFER)
    | Some x =>
        if size_bytes x =? 0 then ret (- SYMSPI_ERROR_NO_XFER)
        else if IS_ERR_OR_NULL (data_tx x) then ret (- SYMSPI_ERROR_NO_XFER)
        else ret SYMSPI_SUCCESS
    end.

(** ** Request API

    symspi_to_idle_sequence calls symspi_data_xchange(symspi, NULL, false),
    which reaches symspi_to_idle_sequence again only through an xfer that
    is not NULL.  The functions on that cycle are first written with the
    nested call as the argument [restart] ([_open]), then closed. *)

Definition is_some {A} (o : option A) : bool :=
  match o with Some _ => true | None => false end.

Definition symspi_to_idle_sequence_open (restart : M Z)
    (original_state : Z) (start_next_xfer : bool) (internal_error : Z)
  : M Z :=
  __symspi_stop_timeout_timer_sync ;;
  delayed <- rd delayed_xfer_request ;;
  let start_next_xfer := start_next_xfer || delayed in
  symspi_switch_strict original_state SYMSPI_STATE_IDLE ;;
  res <- (if negb (original_state =? SYMSPI_STATE_ERROR)
          then symspi_try_to_error_sequence internal_error
          else ret SYMSPI_SUCCESS) ;;
  if negb (res =? SYMSPI_SUCCESS) then ret res
  else
    delayed <- rd delayed_xfer_request ;;
    let start_next_xfer := start_next_xfer || delayed in
    wr (set_delayed_xfer_request false) ;;
    request <- (if start_next_xfer then ret true
                else symspi_is_their_request) ;;
    if request then restart else ret SYMSPI_SUCCESS.

(* the consumer's xfer is passed by pointer and written to: it is handed
   back next to the value returned *)
Definition symspi_update_xfer_sequence_open (restart : M Z)
    (xfer : option full_duplex_xfer) (original_state : Z)
    (force_size_change : bool) : M (Z * option full_duplex_xfer) :=
  match xfer with
  | None => ret (SYMSPI_SUCCESS, None)
  | Some x =>
      xfer_id <- symspi_get_next_xfer_id ;;
      let x := set_xfers_counter 0 (set_id xfer_id x) in
      res <- symspi_replace_xfer x force_size_change ;;
      if negb (res =? SYMSPI_SUCCESS) then
        let res :=
          if negb (res =? - SYMSPI_ERROR_LOGICAL)
             && negb (res =? - SYMSPI_ERROR_NO_MEMORY)
          then SYMSPI_SUCCESS else res in
        (if negb (original_state =? SYMSPI_STATE_ERROR)
         then symspi_to_idle_sequence_open restart original_state false res ;;
              ret tt
         else ret tt) ;;
        ret (res, Some x)
      else ret (res, Some x)
  end.

Definition symspi_idle_to_xfer_prepare_sequence_open (restart : M Z)
    (xfer : option full_duplex_xfer) (force_size_change : bool)
  : M (Z * option full_duplex_xfer) :=
  res <- symspi_verify_consumer_input xfer (is_some xfer) ;;
  if negb (res =? SYMSPI_SUCCESS) then ret (res, xfer)
  else
    ok <- symspi_switch_strict SYMSPI_STATE_IDLE SYMSPI_STATE_XFER_PREPARE ;;
    if negb ok then ret (- FULL_DUPLEX_ERROR_NOT_READY pf, xfer)
    else
      res <- symspi_try_to_error_sequence SYMSPI_SUCCESS ;;
      if negb (res =? SYMSPI_SUCCESS) then ret (res, xfer)
      else symspi_update_xfer_sequence_open restart xfer
             SYMSPI_STATE_XFER_PREPARE force_size_change.

Definition symspi_data_xchange_open (restart : M Z)
    (xfer : option full_duplex_xfer) (force_size_change : bool)
  : M (Z * option full_duplex_xfer) :=
  closing <- __symspi_is_closing ;;
  if closing then ret (- FULL_DUPLEX_ERROR_NOT_READY pf, xfer)
  else
    r <- symspi_idle_to_xfer_prepare_sequence_open restart xfer
           force_size_change ;;
    let (res, xfer') := r in
    if (res =? - FULL_DUPLEX_ERROR_NOT_READY pf) && negb (is_some xfer) then
      wr (set_delayed_xfer_request true) ;;
      ret (- FULL_DUPLEX_ERROR_NOT_READY pf, xfer')
    else if negb (res =? SYMSPI_SUCCESS) then ret (res, xfer')
    else
      res <- symspi_xfer_prepare_to_waiting_prev_sequence ;;
      match xfer' with
      | Some x => ret (if res =? SYMSPI_SUCCESS then id x else res, xfer')
      | None => ret (res, xfer')
      end.

(* symspi_data_xchange(symspi, NULL, false) *)
Definition symspi_data_xchange_default : M Z :=
  r <- symspi_data_xchange_open (ret SYMSPI_SUCCESS) None false ;;
  ret (fst r).

Definition symspi_to_idle_sequence : Z -> bool -> Z -> M Z :=
  symspi_to_idle_sequence_open symspi_data_xchange_default.

Definition symspi_update_xfer_sequence
  : option full_duplex_xfer -> Z -> bool -> M (Z * option full_duplex_xfer) :=
  symspi_update_xfer_sequence_open symspi_data_xchange_default.

Definition symspi_idle_to_xfer_prepare_sequence
  : option full_duplex_xfer -> bool -> M (Z * option full_duplex_xfer) :=
  symspi_idle_to_xfer_prepare_sequence_open symspi_data_xchange_default.

Definition symspi_data_xchange
  : option full_duplex_xfer -> bool -> M (Z * option full_duplex_xfer) :=
  symspi_data_xchange_open symspi_data_xchange_default.

Definition symspi_default_data_update (xfer : option full_duplex_xfer)
    (force_size_change : bool) : M (Z * option full_duplex_xfer) :=
  closing <- __symspi_is_closing ;;
  if closing then ret (- FULL_DUPLEX_ERROR_NOT_READY pf, xfer)
  else
    r <- symspi_idle_to_xfer_prepare_sequence xfer force_size_change ;;
    let (res, xfer') := r in
    if negb (res =? SYMSPI_SUCCESS) then ret (res, xfer')
    else
      res <- symspi_to_idle_sequence SYMSPI_STATE_XFER_PREPARE false
               SYMSPI_SUCCESS ;;
      ret (res, xfer').

Definition symspi_is_running : M bool :=
  fun m =>
    match p (symspi m) with
    | None => Ret false m
    | Some pr => Ret (negb (state pr =? SYMSPI_STATE_COLD)) m
    end.

(** ** Bus completion and interrupt glue *)

Definition symspi_spi_xfer_done_callback : M unit :=
  ok <- SYMSPI_SWITCH_STRICT SYMSPI_STATE_XFER SYMSPI_STATE_POSTPROCESSING ;;
  if negb ok then __symspi_error_handle_ SYMSPI_ERROR_LOGICAL 0
  else
    pending <- rd last_error ;;
    if negb (pending =? SYMSPI_SUCCESS)
    then __symspi_error_handle_ pending 0
    else
      st <- rd (fun pr => status (spi_msg pr)) ;;
      if negb (st =? 0) then __symspi_error_handle_ SYMSPI_ERROR_SPI st
      else
        wr (fun pr =>
              set_info (set_xfers_done_ok
                          (to_ullong (xfers_done_ok (info pr) + 1))
                          (info pr)) pr) ;;
        __symspi_schedule_work postprocessing_work.

Definition symspi_their_flag_drop_isr_sequence : M unit :=
  counter <- atomic_add_fetch_drop_counter ;;
  master <- rd spi_master_mode ;;
  if (counter =? 1) && master then
    symspi_try_leave_waiting_prev_sequence ;; ret tt
  else if 2 <=? counter then
    __symspi_error_handle_ SYMSPI_ERROR_OTHER_SIDE 0
  else
    (* counter <= 0 is only printed; counter == 1 on a slave is nothing *)
    ret tt.

Definition symspi_their_flag_set_isr_sequence : M unit :=
  ok <- SYMSPI_SWITCH_STRICT SYMSPI_STATE_IDLE SYMSPI_STATE_XFER_PREPARE ;;
  if ok then symspi_xfer_prepare_to_waiting_prev_sequence ;; ret tt
  else
    master <- rd spi_master_mode ;;
    hw <- rd hardware_spi_rdy ;;
    if master && negb hw
    then symspi_try_leave_waiting_rdy_sequence ;; ret tt
    else ret tt.

Definition symspi_their_flag_isr : M unit :=
  st <- rd state ;;
  if st =? SYMSPI_STATE_COLD then ret tt
  else
    set <- symspi_their_flag_is_set ;;
    (if set then symspi_their_flag_set_isr_sequence
     else symspi_their_flag_drop_isr_sequence) ;;
    wr (fun pr =>
          set_info (set_their_flag_edges
                      (to_ullong (their_flag_edges (info pr) + 1))
                      (info pr)) pr).

(** ** Recovery and postprocessing *)

Definition xfer_accepted (x : full_duplex_xfer) : M unit :=
  cb <- rd_dev xfer_accepted_callback ;;
  if cb =? 0 then ret tt else emit EvXferAccepted.

(* the end of a recovery that resumes: the error indication of the peer
   is dropped, last_error cleared, and the device goes back to Idle *)
Definition symspi_recovery_resume : M Z :=
  atomic_store_drop_counter 1 ;;
  wr (set_last_error SYMSPI_SUCCESS) ;;
  symspi_to_idle_sequence SYMSPI_STATE_ERROR true SYMSPI_SUCCESS.

(* the error indication to the peer and the silence after it *)
Definition symspi_recovery_signal : M unit :=
  __symspi_stop_timeout_timer_sync ;;
  symspi_our_flag_drop ;;
  symspi_wait_flag_silence_period ;;
  symspi_our_flag_set ;;
  symspi_wait_flag_silence_period ;;
  symspi_our_flag_drop ;;
  symspi_wait_flag_silence_period ;;
  symspi_our_flag_set ;;
  symspi_wait_flag_silence_period ;;
  symspi_our_flag_drop ;;
  symspi_wait_flag_silence_period ;;
  let idle_time_us := SYMSPI_ERROR_RECOVERY_SILENCE_TIME_MS * 1000 in
  let variance := SYMSPI_ERROR_RECOVERY_SILENCE_TIME_VARIANCE_PERCENT in
  emit (EvUsleepRange (idle_time_us * (100 - variance) / 100)
                      (idle_time_us * (100 + variance) / 100)).

(* current_xfer->fail_callback(...), when there is one *)
Definition symspi_recovery_ask_consumer (error_code : Z) : M callback_ret :=
  current <- rd current_xfer ;;
  next_id <- rd next_xfer_id ;;
  if IS_ERR_OR_NULL (fail_callback current) then ret CbNull
  else
    emit (EvFailCallback next_id error_code) ;;
    ret (call_fail_callback pf (fail_callback current) current next_id
           error_code (consumer_data current)).

Definition symspi_recovery_sequence : M Z :=
  fun m =>
    match p (symspi m) with
    | None => Ret (- ENODEV) m
    | Some pr =>
        if negb (magic pr =? SYMSPI_PRIVATE_MAGIC) then Ret (- ENODEV) m
        else if negb (state pr =? SYMSPI_STATE_ERROR)
        then Ret (- SYMSPI_ERROR_LOGICAL) m
        else
          (error_code <- rd last_error ;;
           symspi_recovery_signal ;;
           next_xfer <- symspi_recovery_ask_consumer error_code ;;
           match next_xfer with
           | CbErr => ret SYMSPI_SUCCESS
           | CbXfer x =>
               r <- symspi_update_xfer_sequence (Some x) SYMSPI_STATE_ERROR
                      true ;;
               xfer_accepted x ;;
               if negb (fst r =? SYMSPI_SUCCESS) then ret (fst r)
               else symspi_recovery_resume
           | CbNull => symspi_recovery_resume
           end) m
    end.

Definition symspi_inc_current_xfer_counter : M unit :=
  wr (fun pr =>
        let c := to_int (xfers_counter (current_xfer pr) + 1) in
        set_current_xfer
          (set_xfers_counter (if c <? 0 then 1 else c) (current_xfer pr)) pr).

Definition symspi_postprocessing_sequence : M unit :=
  st <- rd state ;;
  if negb (st =? SYMSPI_STATE_POSTPROCESSING) then ret tt
  else
    symspi_inc_current_xfer_counter ;;
    current <- rd current_xfer ;;
    next_id <- rd next_xfer_id ;;
    answer <-
      (if done_callback current =? 0 then ret (CbNull, false)
       else
         emit (EvDoneCallback next_id) ;;
         ret (call_done_callback pf (done_callback current) current next_id
                (consumer_data current))) ;;
    let (next_xfer, start_immediately) := answer in
    let finish :=
      symspi_our_flag_drop ;;
      symspi_wait_flag_silence_period ;;
      symspi_to_idle_sequence SYMSPI_STATE_POSTPROCESSING start_immediately
        SYMSPI_SUCCESS ;;
      ret tt in
    match next_xfer with
    | CbErr => ret tt
    | CbXfer x =>
        r <- symspi_update_xfer_sequence (Some x) SYMSPI_STATE_POSTPROCESSING
               true ;;
        xfer_accepted x ;;
        if negb (fst r =? SYMSPI_SUCCESS) then
          symspi_our_flag_drop ;;
          symspi_wait_flag_silence_period
        else finish
    | CbNull => finish
    end.

(** ** close *)

Definition symspi_close_qpio_irqs : M unit :=
  irq <- rd their_flag_irq_number ;;
  if irq <? 0 then ret tt
  else
    emit (EvFreeIrq irq) ;;
    wr (set_their_flag_irq_number (- ENOLINK)).

Definition symspi_xfer_free : M unit :=
  cur <- rd current_xfer ;;
  freed <- symspi_do_resize_xfer cur 0 ;;
  wr (set_current_xfer (set_consumer_data 0 (set_done_callback 0 freed))).

(* wait_for_completion_timeout: with nobody else running, the wait ends at
   once when the completion was signalled and times out when not *)
Definition wait_for_final_leave_xfer_completion : M bool :=
  n <- rd final_leave_xfer_completion ;;
  match n with
  | O => ret false
  | S n' => wr (set_final_leave_xfer_completion n') ;; ret true
  end.

Definition __SYMSPI_INIT_LEVEL (level : Z) : M unit :=
  wr (set_init_level level).

(* the labels of symspi_close, each falling through to the next *)
Definition __symspi_info_close : M unit :=
  f <- rd info_file ;;
  if IS_ERR_OR_NULL f then ret tt else wr (set_info_file 0).

Definition __symspi_procfs_close : M unit :=
  root <- rd proc_root ;;
  if IS_ERR_OR_NULL root then ret tt else wr (set_proc_root 0).

Definition close_full : M unit :=
  __symspi_info_close ;;
  __symspi_procfs_close ;;
  st <- rd state ;;
  (if st =? SYMSPI_STATE_XFER
   then wait_for_final_leave_xfer_completion ;; ret tt
   else ret tt) ;;
  __SYMSPI_INIT_LEVEL SYMSPI_INIT_LEVEL_GPIO_IRQS.

Definition close_gpio_irqs : M unit :=
  symspi_close_qpio_irqs ;;
  symspi_our_flag_drop ;;
  __symspi_stop_timeout_timer_sync ;;
  symspi_switch_state_val_forced SYMSPI_STATE_COLD ;;
  __SYMSPI_INIT_LEVEL SYMSPI_INIT_LEVEL_WORKQUEUE_INIT.

Definition close_workqueue_init : M unit :=
  __symspi_cancel_work_sync xfer_work ;;
  __symspi_cancel_work_sync postprocessing_work ;;
  __symspi_cancel_work_sync recover_work ;;
  emit EvDestroyWorkqueue ;;
  wr (set_work_queue 0) ;;
  __SYMSPI_INIT_LEVEL SYMSPI_INIT_LEVEL_XFER_CREATED.

Definition close_xfer_created : M unit :=
  wr (set_spi_msg {| msg_spi := 0; status := 0 |}) ;;
  symspi_xfer_free ;;
  symspi_do_update_native_spi_xfer_data ;;
  __SYMSPI_INIT_LEVEL SYMSPI_INIT_LEVEL_PRIVATE_ALLOCATED.

Definition close_private_allocated : M unit :=
  wr (set_magic 0) ;;
  emit EvKfreePrivate ;;
  fun m => Ret tt (set_private None m).

(* the labels of symspi_close above private_allocated, entered at the
   label of [level]; a level that is none of the five enters at full *)
Definition symspi_close_upper_labels (level : Z) : M unit :=
  let from (l : Z) (c : M unit) : M unit :=
    if (l <=? level)
       || (level <? SYMSPI_INIT_LEVEL_PRIVATE_ALLOCATED)
       || (SYMSPI_INIT_LEVEL_FULL <? level)
    then c else ret tt in
  from SYMSPI_INIT_LEVEL_FULL close_full ;;
  from SYMSPI_INIT_LEVEL_GPIO_IRQS close_gpio_irqs ;;
  from SYMSPI_INIT_LEVEL_WORKQUEUE_INIT close_workqueue_init ;;
  from SYMSPI_INIT_LEVEL_XFER_CREATED close_xfer_created.

Definition symspi_close_labels (level : Z) : M unit :=
  symspi_close_upper_labels level ;;
  close_private_allocated.

Definition symspi_close : M Z :=
  fun m =>
    match p (symspi m) with
    | None => Ret (- ENODEV) m
    | Some pr =>
        if negb (magic pr =? SYMSPI_PRIVATE_MAGIC) then Ret (- ENODEV) m
        else if close_request pr then Ret (- EALREADY) m
        else
          (wr (set_close_request true) ;;
           st <- rd state ;;
           if st =? SYMSPI_STATE_COLD then ret SYMSPI_SUCCESS
           else
             level <- rd init_level ;;
             symspi_close_labels level ;;
             ret SYMSPI_SUCCESS) m
    end.

(** ** init *)

Definition zero_xfer : full_duplex_xfer :=
  {| size_bytes := 0; data_tx := 0; tx_bytes := []; data_rx_buf := 0;
     xfers_counter := 0; id := 0; consumer_data := 0; done_callback := 0;
     fail_callback := 0 |}.

Definition zero_error_rec : symspi_error_rec :=
  {| err_num := 0; total_count := 0; unreported_count := 0;
     last_report_time_msec := 0; last_occurence_time_msec := 0;
     exp_avg_interval_msec := 0; last_reported := false;
     err_per_sec_threshold := 0 |}.

Definition zero_info : symspi_info :=
  {| other_side_indicated_errors := 0; other_side_no_reaction_errors := 0;
     xfers_done_ok := 0; their_flag_edges := 0 |}.

(* what kzalloc hands out *)
Definition zero_private : symspi_dev_private :=
  {| next_xfer_id := 0; current_xfer := zero_xfer;
     spi_xfer := {| tx_buf := 0; rx_buf := 0; len := 0 |};
     spi_msg := {| msg_spi := 0; status := 0 |};
     work_queue := 0; state := 0; their_flag_drop_counter := 0;
     spi_master_mode := false; hardware_spi_rdy := false;
     their_flag_irq_number := 0; delayed_xfer_request := false;
     close_request := false; final_leave_xfer_completion := 0%nat;
     last_error := 0; magic := 0;
     errors := repeat zero_error_rec (Z.to_nat SYMSPI_ERROR_TYPES_COUNT);
     init_level := 0; proc_root := 0; info_file := 0; info := zero_info |}.

(* SYMSPI_ERR_REC(idx, ERR_NAME, threshold).  The array has
   SYMSPI_ERROR_TYPES_COUNT = 14 records; the err_num of index 14 is the
   byte of init_level, which follows the array in the struct. *)
Definition SYMSPI_ERR_REC (idx : nat) (err threshold_err_per_sec : Z)
    (pr : symspi_dev_private) : symspi_dev_private :=
  match errors pr !! idx with
  | Some e =>
      set_errors
        (<[idx := set_err_per_sec_threshold threshold_err_per_sec
                    (set_err_num (to_uchar err) e)]> (errors pr)) pr
  | None => set_init_level (to_uchar err) pr
  end.

Definition __symspi_error_report_init : M unit :=
  wr (set_errors (repeat zero_error_rec (Z.to_nat SYMSPI_ERROR_TYPES_COUNT))) ;;
  wr (SYMSPI_ERR_REC 0 SYMSPI_ERROR_LOGICAL 0) ;;
  wr (SYMSPI_ERR_REC 1 SYMSPI_ERROR_XFER_SIZE_MISMATCH 0) ;;
  wr (SYMSPI_ERR_REC 2 SYMSPI_ERROR_XFER_SIZE_ZERO 0) ;;
  wr (SYMSPI_ERR_REC 3 SYMSPI_ERROR_NO_MEMORY 0) ;;
  wr (SYMSPI_ERR_REC 4 SYMSPI_ERROR_OTHER_SIDE 5) ;;
  wr (SYMSPI_ERR_REC 5 SYMSPI_ERROR_STATE 0) ;;
  wr (SYMSPI_ERR_REC 6 SYMSPI_ERROR_OVERLAP 0) ;;
  wr (SYMSPI_ERR_REC 7 SYMSPI_ERROR_SPI 0) ;;
  wr (SYMSPI_ERR_REC 8 SYMSPI_ERROR_NO_SPI 0) ;;
  wr (SYMSPI_ERR_REC 9 SYMSPI_ERROR_NO_GPIO 0) ;;
  wr (SYMSPI_ERR_REC 10 SYMSPI_ERROR_NO_XFER 0) ;;
  wr (SYMSPI_ERR_REC 11 SYMSPI_ERROR_IRQ_ACQUISITION 0) ;;
  wr (SYMSPI_ERR_REC 12 SYMSPI_ERROR_ISR_SETUP 0) ;;
  wr (SYMSPI_ERR_REC 13 SYMSPI_ERROR_WAIT_OTHER_SIDE 5) ;;
  wr (SYMSPI_ERR_REC 14 SYMSPI_ERROR_WORKQUEUE_INIT 0).

(* symspi_xfer_init_copy(&symspi->p->current_xfer, source) *)
Definition symspi_xfer_init_copy (source : full_duplex_xfer) : M Z :=
  let empty := set_id SYMSPI_INITIAL_XFER_ID zero_xfer in
  target <- symspi_do_resize_xfer empty (size_bytes source) ;;
  wr (set_current_xfer target) ;;
  if size_bytes target =? 0 then ret (- SYMSPI_ERROR_NO_MEMORY)
  else
    wr (set_current_xfer
          (set_consumer_data (consumer_data source)
          (set_done_callback (done_callback source)
          (set_tx_bytes (memcpy (tx_bytes target) (tx_bytes source)
                                (size_bytes source)) target)))) ;;
    ret SYMSPI_SUCCESS.

Definition __symspi_init_workqueue : M Z :=
  wr (set_work_queue (alloc_workqueue pf)) ;;
  if alloc_workqueue pf =? 0 then ret (- SYMSPI_ERROR_WORKQUEUE_INIT)
  else ret SYMSPI_SUCCESS.

Definition IRQF_TRIGGER_RISING : Z := 1.
Definition IRQF_TRIGGER_FALLING : Z := 2.

Definition symspi_init_gpio_irqs : M Z :=
  their <- rd_dev gpiod_their_flag ;;
  let irqnr := gpiod_to_irq pf their in
  if irqnr <? 0 then ret (- SYMSPI_ERROR_IRQ_ACQUISITION)
  else
    wr (set_their_flag_irq_number irqnr) ;;
    hw <- rd hardware_spi_rdy ;;
    let irq_flags :=
      Z.lor IRQF_TRIGGER_FALLING (if hw then 0 else IRQF_TRIGGER_RISING) in
    emit (EvRequestIrq irqnr irq_flags) ;;
    let r := request_irq pf irqnr irq_flags in
    if r <? 0 then
      wr (set_their_flag_irq_number r) ;;
      ret (- SYMSPI_ERROR_ISR_SETUP)
    else ret SYMSPI_SUCCESS.

Definition __symspi_procfs_init : M unit :=
  wr (set_proc_root (proc_mkdir pf)).

Definition __symspi_info_init : M unit :=
  wr (set_info zero_info) ;;
  root <- rd proc_root ;;
  if IS_ERR_OR_NULL root then wr (set_info_file 0)
  else wr (set_info_file (proc_create_data pf)).

(* symspi_init between the allocation of the private part and the switch
   to IDLE, one block per init level reached.  First the fields of the
   private part and the copy of the default xfer; the value is the result
   of symspi_xfer_init_copy. *)
Definition init_to_xfer_created (default_xfer : full_duplex_xfer) : M Z :=
  __SYMSPI_INIT_LEVEL SYMSPI_INIT_LEVEL_PRIVATE_ALLOCATED ;;
  wr (set_magic SYMSPI_PRIVATE_MAGIC) ;;
  wr (set_close_request true) ;;
  wr (set_last_error SYMSPI_SUCCESS) ;;
  wr (set_next_xfer_id SYMSPI_INITIAL_XFER_ID) ;;
  __symspi_error_report_init ;;
  symspi_xfer_init_copy default_xfer.

(* the id of the first xfer, the native SPI data, the work queue; the
   value is the result of __symspi_init_workqueue and the default xfer as
   written to *)
Definition init_to_workqueue_init (default_xfer : full_duplex_xfer)
  : M (Z * full_duplex_xfer) :=
  __SYMSPI_INIT_LEVEL SYMSPI_INIT_LEVEL_XFER_CREATED ;;
  wr (fun pr => set_current_xfer
                  (set_xfers_counter 0 (current_xfer pr)) pr) ;;
  xfer_id <- symspi_get_next_xfer_id ;;
  wr (fun pr => set_current_xfer (set_id xfer_id (current_xfer pr)) pr) ;;
  let default_xfer := set_id xfer_id (set_xfers_counter 0 default_xfer) in
  wr (set_spi_xfer {| tx_buf := 0; rx_buf := 0; len := 0 |}) ;;
  symspi_do_update_native_spi_xfer_data ;;
  dev_spi <- rd_dev spi ;;
  wr (set_spi_msg {| msg_spi := dev_spi; status := 0 |}) ;;
  res <- __symspi_init_workqueue ;;
  ret (res, default_xfer).

(* still cold: the drop counter, the steady configuration, our flag, the
   interrupt; the value is the result of symspi_init_gpio_irqs *)
Definition init_to_gpio_irqs : M Z :=
  __SYMSPI_INIT_LEVEL SYMSPI_INIT_LEVEL_WORKQUEUE_INIT ;;
  wr (set_state SYMSPI_STATE_COLD) ;;
  wr (set_their_flag_drop_counter 1) ;;
  wr (set_spi_master_mode SYMSPI_SPI_MASTER) ;;
  mode <- rd_dev spi_mode ;;
  wr (set_hardware_spi_rdy (negb (Z.land mode SPI_READY =? 0))) ;;
  wr (set_final_leave_xfer_completion 0%nat) ;;
  symspi_our_flag_drop ;;
  symspi_init_gpio_irqs.

(* make it run *)
Definition init_to_full : M unit :=
  __SYMSPI_INIT_LEVEL SYMSPI_INIT_LEVEL_GPIO_IRQS ;;
  __symspi_procfs_init ;;
  __symspi_info_init ;;
  __SYMSPI_INIT_LEVEL SYMSPI_INIT_LEVEL_FULL ;;
  wr (set_close_request false) ;;
  wr (set_state SYMSPI_STATE_IDLE).

(* the value is SYMSPI_SUCCESS or the error init returns after calling
   symspi_close *)
Definition symspi_init_private (default_xfer : full_duplex_xfer)
  : M (Z * full_duplex_xfer) :=
  res <- init_to_xfer_created default_xfer ;;
  if res <? 0 then symspi_close ;; ret (res, default_xfer)
  else
    r <- init_to_workqueue_init default_xfer ;;
    let (res, default_xfer) := r in
    if res <? 0 then
      symspi_close ;; ret (- SYMSPI_ERROR_WORKQUEUE_INIT, default_xfer)
    else
      res <- init_to_gpio_irqs ;;
      if negb (res =? SYMSPI_SUCCESS) then
        symspi_close ;; ret (res, default_xfer)
      else
        init_to_full ;;
        ret (SYMSPI_SUCCESS, default_xfer).

Definition kzalloc_private_call : M bool :=
  fun m => Ret (kzalloc_private pf (allocs m)) (set_allocs (S (allocs m)) m).

(* the default xfer is passed by pointer and written to: it is handed
   back next to the value returned *)
Definition symspi_init (default_xfer : option full_duplex_xfer)
  : M (Z * option full_duplex_xfer) :=
  res <- symspi_verify_consumer_input default_xfer true ;;
  if negb (res =? SYMSPI_SUCCESS) then ret (res, default_xfer)
  else
    match default_xfer with
    | None => ret (- SYMSPI_ERROR_NO_XFER, None)
    | Some dx =>
        old <- rd_dev p ;;
        let reuse :=
          match old with
          | Some pr => magic pr =? SYMSPI_PRIVATE_MAGIC
          | None => false
          end in
        if reuse then ret (SYMSPI_SUCCESS, default_xfer)
        else
          got <- kzalloc_private_call ;;
          if negb got then
            (fun m => Ret tt (set_private None m)) ;;
            symspi_close ;;
            ret (- SYMSPI_ERROR_NO_MEMORY, default_xfer)
          else
            (fun m => Ret tt (set_private (Some zero_private) m)) ;;
            r <- symspi_init_private dx ;;
            let (res, dx') := r in
            if negb (res =? SYMSPI_SUCCESS) then ret (res, Some dx')
            else
              set <- symspi_their_flag_is_set ;;
              (if set then symspi_data_xchange None false ;; ret tt
               else ret tt) ;;
              ret (SYMSPI_SUCCESS, Some dx')
    end.

(** ** reset *)

(* symspi && symspi->p && size_bytes && data_tx && data_rx_buf *)
Definition symspi_is_current_xfer_ok : M bool :=
  fun m =>
    match p (symspi m) with
    | None => Ret false m
    | Some pr =>
        Ret (negb (size_bytes (current_xfer pr) =? 0)
             && negb (data_tx (current_xfer pr) =? 0)
             && negb (data_rx_buf (current_xfer pr) =? 0)) m
    end.

(* symspi_xfer_init_copy(&tmp_xfer, source), the target being a local of
   the caller: the copy made is handed back next to the value returned *)
Definition symspi_xfer_init_copy_local (source : full_duplex_xfer)
  : M (Z * full_duplex_xfer) :=
  let empty := set_id SYMSPI_INITIAL_XFER_ID zero_xfer in
  target <- symspi_do_resize_xfer empty (size_bytes source) ;;
  if size_bytes target =? 0 then ret (- SYMSPI_ERROR_NO_MEMORY, target)
  else
    ret (SYMSPI_SUCCESS,
         set_consumer_data (consumer_data source)
           (set_done_callback (done_callback source)
              (set_tx_bytes (memcpy (tx_bytes target) (tx_bytes source)
                                    (size_bytes source)) target))).

(* the xfer of the consumer is written to by symspi_init; a NULL
   default_xfer stays NULL for the caller, the copy of the current xfer
   being a local of symspi_reset *)
Definition symspi_reset (default_xfer : option full_duplex_xfer)
  : M (Z * option full_duplex_xfer) :=
  ok <- symspi_is_current_xfer_ok ;;
  let init_with (dx : option full_duplex_xfer) (local : bool)
    : M (Z * option full_duplex_xfer) :=
    res <- symspi_verify_consumer_input dx true ;;
    if negb (res =? SYMSPI_SUCCESS) then ret (res, default_xfer)
    else
      symspi_close ;;
      r <- symspi_init dx ;;
      ret (fst r, if local then default_xfer else snd r) in
  if ok && negb (is_some default_xfer) then
    current <- rd current_xfer ;;
    c <- symspi_xfer_init_copy_local current ;;
    let (res, tmp_xfer) := c in
    if res <? 0 then ret (res, default_xfer)
    else init_with (Some tmp_xfer) true
  else init_with default_xfer false.

End Driver.

(** ** Observations on a machine *)

(* the state word of the machine, when there is a private part *)
Definition state_word (m : machine) : option Z :=
  option_map state (p (symspi m)).

(* the size of the current xfer of the machine *)
Definition current_size (m : machine) : option Z :=
  option_map (fun pr => size_bytes (current_xfer pr)) (p (symspi m)).

Definition last_error_word (m : machine) : option Z :=
  option_map last_error (p (symspi m)).

Definition drop_counter_word (m : machine) : option Z :=
  option_map their_flag_drop_counter (p (symspi m)).

Definition closing_word (m : machine) : option bool :=
  option_map close_request (p (symspi m)).

Definition has_private (m : machine) : Prop :=
  exists pr, p (symspi m) = Some pr.

(* [c] returns on every machine with a private part, and leaves one *)
Definition keeps_private {A} (c : M A) : Prop :=
  forall m, has_private m ->
  exists a m', c m = Ret a m' /\ has_private m'.

(* the private part after the bookkeeping of the error handler: only the
   statistics and the ledger differ *)
Definition ledger_updated (pr pr' : symspi_dev_private) : Prop :=
  pr' = set_info (info pr') (set_errors (errors pr') pr).

(* the states the error handler switches to Error at once *)
Definition goes_to_error_directly (st : Z) : Prop :=
  st = SYMSPI_STATE_IDLE \/ st = SYMSPI_STATE_XFER_PREPARE
  \/ st = SYMSPI_STATE_WAITING_PREV \/ st = SYMSPI_STATE_WAITING_RDY
  \/ st = SYMSPI_STATE_POSTPROCESSING.

(* the race the error handler provides for: the bus-completion callback
   gets its switch out of Xfer in between *)
Definition xfer_done_switch : M unit :=
  symspi_switch_strict SYMSPI_STATE_XFER SYMSPI_STATE_POSTPROCESSING ;;
  ret tt.

(** ** The drop counter and the operations of the driver *)

(* the drop counter, when there is one, is an int that is not negative *)
Definition counter_ok (m : machine) : Prop :=
  match drop_counter_word m with
  | Some c => 0 <= c <= INT_MAX
  | None => True
  end.

(* whatever the outcome of [c], it leaves no negative drop counter *)
Definition keeps_counter_ok {A} (c : M A) : Prop :=
  forall m, counter_ok m -> counter_ok (final (c m)).

(* the operations of the driver on a device: the calls of the consumer
   that take a device (symspi_init, symspi_close, symspi_reset,
   symspi_data_xchange, symspi_default_data_update, symspi_is_running),
   the interrupt of the peer flag, the completion callback of the bus, the
   handler of the timeout timer and the works (xfer_work, recover_work,
   postprocessing_work; the wrapper of recover_work only takes the device
   from the work and calls symspi_recovery_sequence).  What is left of the
   entry points of symspi.c does not run the protocol:
   symspi_get_global_device and symspi_iface hand out a pointer,
   __symspi_info_read prints the statistics, and symspi_probe and
   symspi_remove make and destroy the device structure itself (the latter
   by way of symspi_close). *)
Inductive operation :=
| OpInit (default_xfer : option full_duplex_xfer)
| OpClose
| OpReset (default_xfer : option full_duplex_xfer)
| OpDataXchange (xfer : option full_duplex_xfer) (force_size_change : bool)
| OpDefaultDataUpdate (xfer : option full_duplex_xfer)
    (force_size_change : bool)
| OpIsRunning
| OpTheirFlagIsr
| OpXferDoneCallback
| OpOtherSideWaitTimeout
| OpDoXferWork
| OpRecoveryWork
| OpPostprocessingWork.

Definition run_operation (pf : platform) (fuel : nat) (race : M unit)
    (op : operation) (m : machine) : machine :=
  match op with
  | OpInit default_xfer => final (symspi_init pf fuel race default_xfer m)
  | OpClose => final (symspi_close pf m)
  | OpReset default_xfer => final (symspi_reset pf fuel race default_xfer m)
  | OpDataXchange xfer force =>
      final (symspi_data_xchange pf fuel race xfer force m)
  | OpDefaultDataUpdate xfer force =>
      final (symspi_default_data_update pf fuel race xfer force m)
  | OpIsRunning => final (symspi_is_running m)
  | OpTheirFlagIsr => final (symspi_their_flag_isr pf fuel race m)
  | OpXferDoneCallback => final (symspi_spi_xfer_done_callback pf fuel race m)
  | OpOtherSideWaitTimeout =>
      final (__symspi_other_side_wait_timeout pf fuel race m)
  | OpDoXferWork => final (symspi_do_xfer_work_wrapper m)
  | OpRecoveryWork => final (symspi_recovery_sequence pf fuel race m)
  | OpPostprocessingWork =>
      final (symspi_postprocessing_sequence pf fuel race m)
  end.

(* [c] returns on every machine with a private part, and leaves the state
   word as it found it *)
Definition keeps_state {A} (c : M A) : Prop :=
  forall m pr, p (symspi m) = Some pr ->
  exists a m' pr',
    c m = Ret a m' /\ p (symspi m') = Some pr' /\ state pr' = state pr.

(* a master in the Error state, not closing, the peer flag low, with drop
   counter [c] *)
Definition in_error_with_counter (c : Z) (m : machine) : Prop :=
  exists pr,
    p (symspi m) = Some pr
    /\ state pr = SYMSPI_STATE_ERROR
    /\ close_request pr = false
    /\ spi_master_mode pr = true
    /\ their_flag_drop_counter pr = c
    /\ their_flag_raw m = 0.

(** ** The ledger update as the specification words it *)

(* alpha = clamp(floor(50 * dt / 2000), 3, 100) *)
Definition spec_alpha (dt : Z) : Z := Z.max 3 (Z.min 100 (50 * dt / 2000)).

(* interval' = max(((100 - alpha) * interval + alpha * dt) / 100, 1) *)
Definition spec_interval (interval dt : Z) : Z :=
  Z.max (((100 - spec_alpha dt) * interval + spec_alpha dt * dt) / 100) 1.

(* rate = 1000 / interval' *)
Definition spec_rate (interval' : Z) : Z := 1000 / interval'.
(** ** Valid input *)

(* the SPI device and the two flag lines of the device are there *)
Definition valid_device (pf : platform) (m : machine) : Prop :=
  IS_ERR_OR_NULL pf (spi (symspi m)) = false
  /\ IS_ERR_OR_NULL pf (gpiod_our_flag (symspi m)) = false
  /\ IS_ERR_OR_NULL pf (gpiod_their_flag (symspi m)) = false.

(* an xfer symspi_verify_consumer_input lets pass *)
Definition valid_xfer (pf : platform) (x : full_duplex_xfer) : Prop :=
  size_bytes x <> 0 /\ IS_ERR_OR_NULL pf (data_tx x) = false.

Definition delayed_word (m : machine) : option bool :=
  option_map delayed_xfer_request (p (symspi m)).

(** ** A machine after some steps *)

(* the private part replaced by [pr'] and [events] (newest first) added to
   the trace *)
Definition stepped (pr' : symspi_dev_private) (events : list event)
    (m : machine) : machine :=
  set_trace (events ++ trace m) (set_private (Some pr') m).

(* the raw level our flag is driven to when raised and when dropped *)
Definition our_flag_active (pr : symspi_dev_private) : Z :=
  if spi_master_mode pr then SYMSPI_MASTER_FLAG_ACTIVE_VALUE
  else SYMSPI_SLAVE_FLAG_ACTIVE_VALUE.

Definition our_flag_inactive (pr : symspi_dev_private) : Z :=
  if spi_master_mode pr
  then (if SYMSPI_MASTER_FLAG_ACTIVE_VALUE =? 0 then 1 else 0)
  else (if SYMSPI_SLAVE_FLAG_ACTIVE_VALUE =? 0 then 1 else 0).

(* the peer flag is raised, as symspi_their_flag_is_set reads it *)
Definition their_flag_raised (pr : symspi_dev_private) (m : machine) : bool :=
  (if spi_master_mode pr then SYMSPI_SLAVE_FLAG_ACTIVE_VALUE
   else SYMSPI_MASTER_FLAG_ACTIVE_VALUE) =? their_flag_raw m.

(* what symspi_do_xfer returns: spi_async accepted the message or not *)
Definition do_xfer_result (m : machine) : Z :=
  if spi_async_result m =? 0 then SYMSPI_SUCCESS else - SYMSPI_ERROR_SPI.

(* the private part once the bus transfer is submitted *)
Definition submitted (pr : symspi_dev_private) : symspi_dev_private :=
  set_their_flag_drop_counter 0 (set_state SYMSPI_STATE_XFER pr).

(* one more edge counted in the info counters *)
Definition count_edge (pr : symspi_dev_private) : symspi_dev_private :=
  set_info (set_their_flag_edges
              (to_ullong (their_flag_edges (info pr) + 1)) (info pr)) pr.

(* one more transfer counted as done *)
Definition count_xfer_done (pr : symspi_dev_private) : symspi_dev_private :=
  set_info (set_xfers_done_ok
              (to_ullong (xfers_done_ok (info pr) + 1)) (info pr)) pr.

(* the counter of the current xfer after symspi_inc_current_xfer_counter *)
Definition count_current_xfer (pr : symspi_dev_private)
  : symspi_dev_private :=
  let c := to_int (xfers_counter (current_xfer pr) + 1) in
  set_current_xfer
    (set_xfers_counter (if c <? 0 then 1 else c) (current_xfer pr)) pr.

(* the peer changes the level of its flag *)
Definition peer_raises_flag (m : machine) : machine :=
  set_their_flag_raw SYMSPI_SLAVE_FLAG_ACTIVE_VALUE m.

Definition peer_drops_flag (m : machine) : machine :=
  set_their_flag_raw
    (if SYMSPI_SLAVE_FLAG_ACTIVE_VALUE =? 0 then 1 else 0) m.

(** ** A nominal transfer, operation by operation *)

(* the consumer asks for a transfer; the peer raises its flag; the bus
   reports the transfer done; the postprocessing work runs; the peer drops
   its flag *)
Definition nominal_transfer (pf : platform) (fuel : nat) (race : M unit)
    (m : machine) : machine :=
  let run := run_operation pf fuel race in
  let m1 := run (OpDataXchange None false) m in
  let m2 := run OpTheirFlagIsr (peer_raises_flag m1) in
  let m3 := run OpXferDoneCallback m2 in
  let m4 := run OpPostprocessingWork m3 in
  run OpTheirFlagIsr (peer_drops_flag m4).

(** ** Properties of the private part kept by a computation *)

(* [c] returns on every machine whose private part satisfies [P], leaves a
   private part that satisfies [P], and leaves the fields of the device
   other than [p] as they were *)
Definition keeps_prop (P : symspi_dev_private -> Prop) {A} (c : M A)
  : Prop :=
  forall m pr, p (symspi m) = Some pr -> P pr ->
  exists a m' pr',
    c m = Ret a m' /\ p (symspi m') = Some pr' /\ P pr'
    /\ set_p None (symspi m') = set_p None (symspi m).

(* an init that was begun and not finished: valid magic, the closing
   latch still set, the state Cold *)
Definition init_unfinished (pr : symspi_dev_private) : Prop :=
  magic pr = SYMSPI_PRIVATE_MAGIC /\ close_request pr = true
  /\ state pr = SYMSPI_STATE_COLD.

(* a device symspi_init has brought up: valid magic, closing latch clear,
   out of Cold, init level full, the interrupt of the peer flag taken *)
Definition brought_up (pr : symspi_dev_private) : Prop :=
  magic pr = SYMSPI_PRIVATE_MAGIC /\ close_request pr = false
  /\ state pr <> SYMSPI_STATE_COLD
  /\ init_level pr = SYMSPI_INIT_LEVEL_FULL
  /\ 0 <= their_flag_irq_number pr.

(** ** An xfer of the consumer taken over *)

(* the id symspi_get_next_xfer_id hands out next *)
Definition next_id (pr : symspi_dev_private) : Z :=
  if next_xfer_id pr <=? 0 then SYMSPI_INITIAL_XFER_ID else next_xfer_id pr.

(* the private part once that id is handed out *)
Definition id_taken (pr : symspi_dev_private) : symspi_dev_private :=
  set_next_xfer_id
    (if next_xfer_id pr <=? 0 then SYMSPI_INITIAL_XFER_ID + 1
     else to_int (next_xfer_id pr + 1)) pr.

(* the xfer of the consumer as symspi_update_xfer_sequence writes to it *)
Definition stamped (pr : symspi_dev_private) (x : full_duplex_xfer)
  : full_duplex_xfer :=
  set_xfers_counter 0 (set_id (next_id pr) x).

(* the private part once [x], of the size of the current xfer, is taken
   over: the buffers stay, the TX data and the rest of [x] are copied, the
   native transfer is set to the buffers *)
Definition installed (x : full_duplex_xfer) (pr : symspi_dev_private)
  : symspi_dev_private :=
  let c := current_xfer pr in
  set_spi_xfer
    {| tx_buf := data_tx c; rx_buf := data_rx_buf c; len := size_bytes c |}
    (set_current_xfer
       (set_xfers_counter (xfers_counter x)
       (set_consumer_data (consumer_data x)
       (set_fail_callback (fail_callback x)
       (set_done_callback (done_callback x)
       (set_id (id x)
       (set_tx_bytes (memcpy (tx_bytes c) (tx_bytes x) (size_bytes c))
          c)))))) pr).

(* the call of the native transfer configuration hook, when there is one *)
Definition hook_events (m : machine) : list event :=
  if native_transfer_configuration_hook (symspi m) =? 0 then []
  else [EvNativeHook].

(* [x] can replace the current xfer of [pr] without a change of size *)
Definition fits (x : full_duplex_xfer) (pr : symspi_dev_private) : Prop :=
  size_bytes x <> 0
  /\ size_bytes (current_xfer pr) = size_bytes x
  /\ regions_overlap (data_tx (current_xfer pr))
       (size_bytes (current_xfer pr)) (data_tx x) (size_bytes x) = false.

(* [cur] holds what symspi_xfer_init_copy takes from [x]: the size, the
   TX data, the done callback and the consumer data; the fail callback is
   not among them *)
Definition copy_of (x cur : full_duplex_xfer) : Prop :=
  size_bytes cur = size_bytes x
  /\ tx_bytes cur = firstn (Z.to_nat (size_bytes x)) (tx_bytes x)
  /\ done_callback cur = done_callback x
  /\ consumer_data cur = consumer_data x
  /\ fail_callback cur = 0.

(* an init that is under way with the copy of [x] as current xfer *)
Definition init_under_way (x : full_duplex_xfer) (pr : symspi_dev_private)
  : Prop :=
  init_unfinished pr /\ copy_of x (current_xfer pr).

(* the call of xfer_accepted_callback, when the device has one *)
Definition accepted_events (m : machine) : list event :=
  if xfer_accepted_callback (symspi m) =? 0 then [] else [EvXferAccepted].

(** ** Concrete devices

    A 64-bit target with an allocator that never fails and a consumer
    without callbacks, and the device [symspi_init] makes of a fresh
    [struct symspi_dev] on it. *)

Definition demo_platform : platform :=
  {| BITS_PER_LONG := 64;
     FULL_DUPLEX_ERROR_NOT_READY := 2;
     FULL_DUPLEX_ERROR_NO_DEVICE_PROVIDED := 7;
     krealloc := fun n _ _ => 4096 + 256 * Z.of_nat n;
     kzalloc_private := fun _ => true;
     alloc_workqueue := 2048;
     gpiod_to_irq := fun _ => 42;
     request_irq := fun _ _ => 0;
     proc_mkdir := 1024;
     proc_create_data := 1280;
     call_done_callback := fun _ _ _ _ => (CbNull, false);
     call_fail_callback := fun _ _ _ _ _ => CbNull |}.

(* the default xfer of the scenarios: 64 bytes of 0x00 *)
Definition xfer_64_bytes : full_duplex_xfer :=
  {| size_bytes := 64; data_tx := 65536; tx_bytes := repeat 0 64;
     data_rx_buf := 0; xfers_counter := 0; id := 0; consumer_data := 0;
     done_callback := 0; fail_callback := 0 |}.

(* a consumer xfer of one byte, in a buffer of its own *)
Definition xfer_1_byte : full_duplex_xfer :=
  {| size_bytes := 1; data_tx := 131072; tx_bytes := [7];
     data_rx_buf := 0; xfers_counter := 0; id := 0; consumer_data := 0;
     done_callback := 0; fail_callback := 0 |}.

(* before init: no private part, peer flag low, five seconds after boot *)
Definition cold_machine : machine :=
  {| symspi := {| xfer_accepted_callback := 0; spi := 512; spi_mode := 0;
                  gpiod_our_flag := 768; gpiod_their_flag := 784;
                  their_flag_wait_timeout_ms := 0;
                  native_transfer_configuration_hook := 0; p := None |};
     their_flag_raw := 0; our_flag_raw := 0; ktime_ns := 5000000000;
     spi_async_result := 0; allocs := 0; trace := [] |}.

(* after symspi_init(dev, &xfer_64_bytes): Idle, drop counter 1 *)
Definition idle_machine : machine :=
  Eval vm_compute in
    set_trace []
      (final (symspi_init demo_platform 1 (ret tt) (Some xfer_64_bytes)
                cold_machine)).

Definition idle_private : symspi_dev_private :=
  Eval vm_compute in
    match p (symspi idle_machine) with
    | Some pr => pr
    | None => zero_private
    end.

(* the idle device with some fields of its private part changed *)
Definition idle_with (f : symspi_dev_private -> symspi_dev_private)
  : machine :=
  set_private (Some (f idle_private)) idle_machine.

(* the record of SYMSPI_ERROR_OTHER_SIDE as init leaves it: errors[4] *)
Definition other_side_rec : symspi_error_rec :=
  {| err_num := SYMSPI_ERROR_OTHER_SIDE; total_count := 0;
     unreported_count := 0; last_report_time_msec := 0;
     last_occurence_time_msec := 0; exp_avg_interval_msec := 0;
     last_reported := false; err_per_sec_threshold := 5 |}.

(* the idle device 42949673 ms (11 h 55 min 49.673 s) after boot *)
Definition idle_machine_after_12_hours : machine :=
  set_ktime_ns (42949673 * 1000000) idle_machine.

(* the idle device once symspi_close has latched close_request *)
Definition closing_idle_machine : machine :=
  idle_with (set_close_request true).

(* a device closed while its bus transfer is still running *)
Definition closing_xfer_private : symspi_dev_private :=
  set_close_request true (set_state SYMSPI_STATE_XFER idle_private).

Definition closing_xfer_machine : machine :=
  set_private (Some closing_xfer_private) idle_machine.

(* the record of [err_no] in the ledger of a machine *)
Definition ledger_rec (err_no : Z) (m : machine) : option symspi_error_rec :=
  match p (symspi m) with
  | Some pr =>
      match find_error_rec (errors pr) err_no 0%nat with
      | Some i => errors pr !! i
      | None => None
      end
  | None => None
  end.

(* the closing device in Xfer once the callback has made its switch and
   the ledger has counted the Logical error *)
Definition closing_xfer_after_callback : machine :=
  Eval vm_compute in
    final ((symspi_switch_strict SYMSPI_STATE_XFER
              SYMSPI_STATE_POSTPROCESSING ;;
            __symspi_error_report demo_platform SYMSPI_ERROR_LOGICAL 0)
             closing_xfer_machine).

(* a consumer whose fail callback forbids the resume: it answers with an
   error pointer *)
Definition halting_platform : platform :=
  {| BITS_PER_LONG := 64;
     FULL_DUPLEX_ERROR_NOT_READY := 2;
     FULL_DUPLEX_ERROR_NO_DEVICE_PROVIDED := 7;
     krealloc := fun n _ _ => 4096 + 256 * Z.of_nat n;
     kzalloc_private := fun _ => true;
     alloc_workqueue := 2048;
     gpiod_to_irq := fun _ => 42;
     request_irq := fun _ _ => 0;
     proc_mkdir := 1024;
     proc_create_data := 1280;
     call_done_callback := fun _ _ _ _ => (CbNull, false);
     call_fail_callback := fun _ _ _ _ _ => CbErr |}.

(* the default xfer of that consumer: 64 bytes and its fail callback *)
Definition xfer_with_fail_callback : full_duplex_xfer :=
  set_fail_callback 24576 xfer_64_bytes.

(* the device halted by its consumer: after init the consumer installs
   its xfer, a second falling edge of the peer flag raises OtherSide, and
   the recovery work is forbidden to resume *)
Definition halted_machine : machine :=
  Eval vm_compute in
    let run := run_operation halting_platform 1 (ret tt) in
    set_trace []
      (run OpRecoveryWork
         (run OpTheirFlagIsr
            (run (OpDefaultDataUpdate (Some xfer_with_fail_callback) false)
               (run (OpInit (Some xfer_64_bytes)) cold_machine)))).

(* a target where the work queue cannot be allocated *)
Definition no_workqueue_platform : platform :=
  {| BITS_PER_LONG := 64;
     FULL_DUPLEX_ERROR_NOT_READY := 2;
     FULL_DUPLEX_ERROR_NO_DEVICE_PROVIDED := 7;
     krealloc := fun n _ _ => 4096 + 256 * Z.of_nat n;
     kzalloc_private := fun _ => true;
     alloc_workqueue := 0;
     gpiod_to_irq := fun _ => 42;
     request_irq := fun _ _ => 0;
     proc_mkdir := 1024;
     proc_create_data := 1280;
     call_done_callback := fun _ _ _ _ => (CbNull, false);
     call_fail_callback := fun _ _ _ _ _ => CbNull |}.

(* what a symspi_init that could not get its work queue leaves behind *)
Definition unfinished_machine : machine :=
  Eval vm_compute in
    final (symspi_init no_workqueue_platform 1 (ret tt) (Some xfer_64_bytes)
             cold_machine).

Definition unfinished_private : symspi_dev_private :=
  Eval vm_compute in
    match p (symspi unfinished_machine) with
    | Some pr => pr
    | None => zero_private
    end.

(* a record of the ledger nothing was reported to *)
Definition fresh_rec (kind threshold : Z) : symspi_error_rec :=
  set_err_per_sec_threshold threshold (set_err_num kind zero_error_rec).

(* the 14 records of the ledger after __symspi_error_report_init *)
Definition initial_ledger : list symspi_error_rec :=
  [fresh_rec SYMSPI_ERROR_LOGICAL 0;
   fresh_rec SYMSPI_ERROR_XFER_SIZE_MISMATCH 0;
   fresh_rec SYMSPI_ERROR_XFER_SIZE_ZERO 0;
   fresh_rec SYMSPI_ERROR_NO_MEMORY 0;
   fresh_rec SYMSPI_ERROR_OTHER_SIDE 5;
   fresh_rec SYMSPI_ERROR_STATE 0;
   fresh_rec SYMSPI_ERROR_OVERLAP 0;
   fresh_rec SYMSPI_ERROR_SPI 0;
   fresh_rec SYMSPI_ERROR_NO_SPI 0;
   fresh_rec SYMSPI_ERROR_NO_GPIO 0;
   fresh_rec SYMSPI_ERROR_NO_XFER 0;
   fresh_rec SYMSPI_ERROR_IRQ_ACQUISITION 0;
   fresh_rec SYMSPI_ERROR_ISR_SETUP 0;
   fresh_rec SYMSPI_ERROR_WAIT_OTHER_SIDE 5].

(* a target that is out of memory for transfer buffers *)
Definition no_memory_platform : platform :=
  {| BITS_PER_LONG := 64;
     FULL_DUPLEX_ERROR_NOT_READY := 2;
     FULL_DUPLEX_ERROR_NO_DEVICE_PROVIDED := 7;
     krealloc := fun _ _ _ => 0;
     kzalloc_private := fun _ => true;
     alloc_workqueue := 2048;
     gpiod_to_irq := fun _ => 42;
     request_irq := fun _ _ => 0;
     proc_mkdir := 1024;
     proc_create_data := 1280;
     call_done_callback := fun _ _ _ _ => (CbNull, false);
     call_fail_callback := fun _ _ _ _ _ => CbNull |}.

(* a consumer whose done callback answers with an error pointer *)
Definition refusing_platform : platform :=
  {| BITS_PER_LONG := 64;
     FULL_DUPLEX_ERROR_NOT_READY := 2;
     FULL_DUPLEX_ERROR_NO_DEVICE_PROVIDED := 7;
     krealloc := fun n _ _ => 4096 + 256 * Z.of_nat n;
     kzalloc_private := fun _ => true;
     alloc_workqueue := 2048;
     gpiod_to_irq := fun _ => 42;
     request_irq := fun _ _ => 0;
     proc_mkdir := 1024;
     proc_create_data := 1280;
     call_done_callback := fun _ _ _ _ => (CbErr, false);
     call_fail_callback := fun _ _ _ _ _ => CbNull |}.

(* a consumer whose done callback answers with its next xfer *)
Definition feeding_platform : platform :=
  {| BITS_PER_LONG := 64;
     FULL_DUPLEX_ERROR_NOT_READY := 2;
     FULL_DUPLEX_ERROR_NO_DEVICE_PROVIDED := 7;
     krealloc := fun n _ _ => 4096 + 256 * Z.of_nat n;
     kzalloc_private := fun _ => true;
     alloc_workqueue := 2048;
     gpiod_to_irq := fun _ => 42;
     request_irq := fun _ _ => 0;
     proc_mkdir := 1024;
     proc_create_data := 1280;
     call_done_callback :=
       fun _ _ _ _ => (CbXfer (set_done_callback 20480 xfer_64_bytes), false);
     call_fail_callback := fun _ _ _ _ _ => CbNull |}.

(* the idle device of a consumer with a done callback, its transfer just
   done *)
Definition postprocessing_private : symspi_dev_private :=
  set_state SYMSPI_STATE_POSTPROCESSING
    (set_current_xfer (set_done_callback 20480 (current_xfer idle_private))
       idle_private).

Definition postprocessing_machine : machine :=
  set_private (Some postprocessing_private) idle_machine.
(** * Properties *)

(** ** Reading and writing the private part *)

Lemma private_of_set_private (o : option symspi_dev_private) (m : machine) :
  p (symspi (set_private o m)) = o.
Proof. reflexivity. Qed.

Lemma set_private_twice (a b : option symspi_dev_private) (m : machine) :
  set_private a (set_private b m) = set_private a m.
Proof. reflexivity. Qed.

Lemma rd_private {X} (f : symspi_dev_private -> X) m pr :
  p (symspi m) = Some pr -> rd f m = Ret (f pr) m.
Proof. intros H. unfold rd. now rewrite H. Qed.

Lemma wr_private (f : symspi_dev_private -> symspi_dev_private) m pr :
  p (symspi m) = Some pr -> wr f m = Ret tt (set_private (Some (f pr)) m).
Proof. intros H. unfold wr. now rewrite H. Qed.

(** ** State controller *)

Lemma atomic_compare_exchange_state_eq m pr expected_state dst_state :
  p (symspi m) = Some pr ->
  atomic_compare_exchange_state expected_state dst_state m =
    if state pr =? expected_state
    then Ret true (set_private (Some (set_state dst_state pr)) m)
    else Ret false m.
Proof.
  intros H. unfold atomic_compare_exchange_state, bind.
  rewrite (rd_private _ _ _ H).
  destruct (state pr =? expected_state); [|reflexivity].
  now rewrite (wr_private _ _ _ H).
Qed.

(* what symspi_switch_strict does, in one equation *)
Lemma symspi_switch_strict_eq m pr expected_state dst_state :
  p (symspi m) = Some pr ->
  symspi_switch_strict expected_state dst_state m =
    if close_request pr then
      if negb (expected_state =? SYMSPI_STATE_XFER)
         || (dst_state =? SYMSPI_STATE_XFER)
      then Ret false m
      else
        Ret false
          (set_private
             (Some (set_final_leave_xfer_completion
                      (S (final_leave_xfer_completion pr))
                      (if state pr =? expected_state
                       then set_state dst_state pr else pr))) m)
    else if state pr =? expected_state
    then Ret true (set_private (Some (set_state dst_state pr)) m)
    else Ret false m.
Proof.
  intros H. unfold symspi_switch_strict, __symspi_is_closing.
  unfold bind at 1. rewrite (rd_private _ _ _ H).
  destruct (close_request pr).
  - destruct (negb (expected_state =? SYMSPI_STATE_XFER)
              || (dst_state =? SYMSPI_STATE_XFER)); [reflexivity|].
    unfold bind at 1.
    rewrite (atomic_compare_exchange_state_eq _ _ _ _ H).
    unfold complete_final_leave_xfer, bind, ret.
    destruct (state pr =? expected_state).
    + now rewrite (wr_private _ _ _ (private_of_set_private _ _)).
    + now rewrite (wr_private _ _ _ H).
  - apply (atomic_compare_exchange_state_eq _ _ _ _ H).
Qed.

(** C4: while the closing latch is set, symspi_switch_strict changes the
    state only from Xfer to a destination other than Xfer: a call with
    expected state other than Xfer, or with destination Xfer, returns false
    and leaves the machine as it was; a call with expected state Xfer and a
    destination other than Xfer performs the compare-and-swap on the state
    word and fires the leave-Xfer completion. *)
Theorem switch_strict_closing_gate
    (m : machine) (pr : symspi_dev_private) (expected_state dst_state : Z) :
  p (symspi m) = Some pr ->
  close_request pr = true ->
  (expected_state <> SYMSPI_STATE_XFER \/ dst_state = SYMSPI_STATE_XFER ->
   symspi_switch_strict expected_state dst_state m = Ret false m)
  /\ (expected_state = SYMSPI_STATE_XFER /\ dst_state <> SYMSPI_STATE_XFER ->
      symspi_switch_strict expected_state dst_state m =
        Ret false
          (set_private
             (Some (set_final_leave_xfer_completion
                      (S (final_leave_xfer_completion pr))
                      (if state pr =? SYMSPI_STATE_XFER
                       then set_state dst_state pr else pr))) m))
  /\ (state_word (final (symspi_switch_strict expected_state dst_state m))
        <> Some (state pr) ->
      state pr = SYMSPI_STATE_XFER
      /\ dst_state <> SYMSPI_STATE_XFER
      /\ state_word (final (symspi_switch_strict expected_state dst_state m))
           = Some dst_state).
Proof.
  intros Hp Hc.
  rewrite (symspi_switch_strict_eq _ _ _ _ Hp), Hc.
  split; [|split].
  - intros [He|Hd].
    + apply Z.eqb_neq in He. now rewrite He.
    + apply Z.eqb_eq in Hd. rewrite Hd. now rewrite orb_true_r.
  - intros [He Hd]. subst expected_state.
    apply Z.eqb_neq in Hd. now rewrite Hd.
  - destruct (Z.eqb_spec expected_state SYMSPI_STATE_XFER) as [He|He];
      destruct (Z.eqb_spec dst_state SYMSPI_STATE_XFER) as [Hd|Hd];
      simpl; unfold state_word; try rewrite Hp; simpl; try congruence.
    subst expected_state.
    destruct (Z.eqb_spec (state pr) SYMSPI_STATE_XFER) as [Hs|Hs];
      simpl; try congruence.
    intros _. auto.
Qed.

Example idle_machine_is_idle :
  state_word idle_machine = Some SYMSPI_STATE_IDLE
  /\ p (symspi idle_machine) = Some idle_private
  /\ their_flag_drop_counter idle_private = 1
  /\ close_request idle_private = false
  /\ size_bytes (current_xfer idle_private) = 64.
Proof. repeat split. Qed.

Lemma switch_strict_closing_gate_witness :
  p (symspi (idle_with (fun pr => set_close_request true
                                    (set_state SYMSPI_STATE_XFER pr))))
    = Some (set_close_request true
                 (set_state SYMSPI_STATE_XFER idle_private))
  /\ state_word
       (final (symspi_switch_strict SYMSPI_STATE_XFER
                 SYMSPI_STATE_POSTPROCESSING
                 (idle_with (fun pr => set_close_request true
                                         (set_state SYMSPI_STATE_XFER pr)))))
     = Some SYMSPI_STATE_POSTPROCESSING.
Proof.
  split; [reflexivity|].
  destruct (switch_strict_closing_gate
              (idle_with (fun pr => set_close_request true
                                      (set_state SYMSPI_STATE_XFER pr)))
              (set_close_request true
                 (set_state SYMSPI_STATE_XFER idle_private))
              SYMSPI_STATE_XFER SYMSPI_STATE_POSTPROCESSING
              eq_refl eq_refl) as [_ [H _]].
  rewrite H; [reflexivity|].
  split; [reflexivity|discriminate].
Defined.

(** ** Transfer buffer manager *)

(* a machine whose private part is there, taken apart into its fields *)
Ltac open_machine m Hp :=
  let dev := fresh "dev" in
  let pp := fresh "pp" in
  destruct m as [dev ? ? ? ? ? ?];
  destruct dev as [? ? ? ? ? ? ? pp];
  simpl in Hp; subst pp.

(** C7, counterexample: in the Error state, replacing the 64-byte current
    xfer by a 1-byte xfer without force_size_change does not apply the
    change: it fails with XferSizeMismatch and the device is as before. *)
Lemma replace_xfer_in_error_state_refused :
  state_word (idle_with (set_state SYMSPI_STATE_ERROR))
    = Some SYMSPI_STATE_ERROR
  /\ symspi_replace_xfer demo_platform xfer_1_byte false
       (idle_with (set_state SYMSPI_STATE_ERROR))
     = Ret (- SYMSPI_ERROR_XFER_SIZE_MISMATCH)
           (idle_with (set_state SYMSPI_STATE_ERROR))
  /\ current_size (idle_with (set_state SYMSPI_STATE_ERROR)) = Some 64.
Proof. repeat split. Qed.

(** C7, as amended: a replacement that changes the size (new size not
    zero, TX buffers apart) is refused with XferSizeMismatch, the device
    left as it was, in every state other than Xfer, the Error state
    included, unless force_size_change is set; it is applied when the state
    is Xfer or force_size_change is set, provided the two buffers can be
    reallocated. *)
Theorem replace_xfer_size_change_gate
    (pf : platform) (m : machine) (pr : symspi_dev_private)
    (new_xfer : full_duplex_xfer) :
  p (symspi m) = Some pr ->
  size_bytes new_xfer <> 0 ->
  regions_overlap (data_tx (current_xfer pr)) (size_bytes (current_xfer pr))
                  (data_tx new_xfer) (size_bytes new_xfer) = false ->
  size_bytes (current_xfer pr) <> size_bytes new_xfer ->
  (state pr <> SYMSPI_STATE_XFER ->
   symspi_replace_xfer pf new_xfer false m
     = Ret (- SYMSPI_ERROR_XFER_SIZE_MISMATCH) m)
  /\ (forall force_size_change : bool,
        state pr = SYMSPI_STATE_XFER \/ force_size_change = true ->
        krealloc pf (allocs m) (data_tx (current_xfer pr))
                 (size_bytes new_xfer) <> 0 ->
        krealloc pf (S (allocs m)) (data_rx_buf (current_xfer pr))
                 (size_bytes new_xfer) <> 0 ->
        exists m',
          symspi_replace_xfer pf new_xfer force_size_change m
            = Ret SYMSPI_SUCCESS m'
          /\ current_size m' = Some (size_bytes new_xfer)
          /\ state_word m' = Some (state pr)).
Proof.
  intros Hp Hz Hov Hsz.
  apply Z.eqb_neq in Hz. apply Z.eqb_neq in Hsz.
  split.
  - intros Hst. apply Z.eqb_neq in Hst.
    unfold symspi_replace_xfer. unfold bind at 1.
    rewrite (rd_private _ _ _ Hp), Hz, Hov.
    unfold bind at 1. rewrite Hsz. cbn [negb].
    unfold bind at 1. rewrite (rd_private _ _ _ Hp), Hst.
    reflexivity.
  - intros force Hgate Htx Hrx.
    apply Z.eqb_neq in Htx. apply Z.eqb_neq in Hrx.
    assert (Hg : negb (state pr =? SYMSPI_STATE_XFER) && negb force = false).
    { destruct Hgate as [Hs|Hf].
      - apply Z.eqb_eq in Hs. now rewrite Hs.
      - subst force. apply andb_false_r. }
    destruct (native_transfer_configuration_hook (symspi m) =? 0) eqn:Hhook.
    all: open_machine m Hp.
    all: unfold symspi_replace_xfer, symspi_do_resize_xfer,
      symspi_do_update_native_spi_xfer_data, krealloc_call,
      bind, rd, wr, ret, rd_dev, emit.
    all: simpl; simpl in Htx, Hrx, Hhook.
    all: rewrite Hz, Hov, Hsz; simpl.
    all: rewrite Hg; simpl; rewrite Htx; simpl; rewrite Hrx; simpl.
    all: rewrite Hz; simpl; rewrite Hhook; simpl.
    all: eexists; (split; [reflexivity|]); split; reflexivity.
Qed.

Lemma replace_xfer_size_change_gate_witness :
  p (symspi (idle_with (set_state SYMSPI_STATE_ERROR)))
    = Some (set_state SYMSPI_STATE_ERROR idle_private)
  /\ size_bytes xfer_1_byte <> 0
  /\ state (set_state SYMSPI_STATE_ERROR idle_private) <> SYMSPI_STATE_XFER
  /\ symspi_replace_xfer demo_platform xfer_1_byte false
       (idle_with (set_state SYMSPI_STATE_ERROR))
     = Ret (- SYMSPI_ERROR_XFER_SIZE_MISMATCH)
           (idle_with (set_state SYMSPI_STATE_ERROR)).
Proof.
  split; [reflexivity|].
  split; [discriminate|].
  split; [discriminate|].
  apply (replace_xfer_size_change_gate demo_platform
           (idle_with (set_state SYMSPI_STATE_ERROR))
           (set_state SYMSPI_STATE_ERROR idle_private) xfer_1_byte).
  - reflexivity.
  - discriminate.
  - reflexivity.
  - discriminate.
  - discriminate.
Defined.

(** ** Error ledger *)

Lemma wrap_unsigned_small bits x :
  0 <= x < 2 ^ bits -> wrap_unsigned bits x = x.
Proof. intros H. unfold wrap_unsigned. now apply Z.mod_small. Qed.

Lemma msec_distance_abs pf now last :
  32 <= BITS_PER_LONG pf ->
  0 <= now < 2 ^ 32 -> 0 <= last < 2 ^ 32 ->
  msec_distance pf now last = Z.abs (now - last).
Proof.
  intros Hb Hn Hl. unfold msec_distance, to_uint, to_ulong.
  assert (2 ^ 32 <= 2 ^ BITS_PER_LONG pf) by (apply Z.pow_le_mono_r; lia).
  change (2 ^ 32) with 4294967296 in *.
  destruct (Z.leb_spec last now).
  - rewrite (wrap_unsigned_small (BITS_PER_LONG pf)) by lia.
    rewrite wrap_unsigned_small; change (2 ^ 32) with 4294967296; lia.
  - rewrite (wrap_unsigned_small (BITS_PER_LONG pf)) by lia.
    rewrite wrap_unsigned_small; change (2 ^ 32) with 4294967296; lia.
Qed.

Lemma spec_alpha_range dt : 3 <= spec_alpha dt <= 100.
Proof. unfold spec_alpha. lia. Qed.

Lemma weighted_mean_bound a i d b :
  0 <= a <= 100 -> 0 <= i < b -> 0 <= d < b ->
  0 <= ((100 - a) * i + a * d) / 100 < b.
Proof.
  intros Ha Hi Hd. split.
  - apply Z.div_pos; nia.
  - apply Z.div_lt_upper_bound; nia.
Qed.

Lemma error_rec_report_follows_formula pf now e :
  32 <= BITS_PER_LONG pf ->
  0 <= now < 2 ^ 32 ->
  0 <= last_report_time_msec e < 2 ^ 32 ->
  0 <= last_occurence_time_msec e < 2 ^ 32 ->
  0 <= exp_avg_interval_msec e < 2 ^ 32 ->
  0 <= unreported_count e ->
  100 * Z.abs (now - last_occurence_time_msec e) < 2 ^ 32 ->
  100 * (exp_avg_interval_msec e + 2 ^ 32) <= 2 ^ BITS_PER_LONG pf ->
  let dt := Z.abs (now - last_occurence_time_msec e) in
  let since_report := Z.abs (now - last_report_time_msec e) in
  let interval' := spec_interval (exp_avg_interval_msec e) dt in
  let rate := 1000 / interval' in
  let prev_rate := 1000 / Z.max (exp_avg_interval_msec e) 1 in
  let threshold := err_per_sec_threshold e in
  let suppressed :=
    (since_report <? SYMSPI_MIN_ERR_REPORT_INTERVAL_MSEC)
    && negb ((prev_rate <? threshold) && (threshold <=? rate)) in
  exp_avg_interval_msec (fst (error_rec_report pf now e)) = interval'
  /\ snd (error_rec_report pf now e) = negb suppressed
  /\ unreported_count (fst (error_rec_report pf now e))
     = (if suppressed then to_uint (unreported_count e + 1) else 0)
  /\ last_report_time_msec (fst (error_rec_report pf now e))
     = (if suppressed then last_report_time_msec e else now).
Proof.
  intros Hb Hn Hr Ho Hi Hu Hdt Hlong dt since_report interval' rate prev_rate
    threshold suppressed.
  assert (H32 : 2 ^ 32 <= 2 ^ BITS_PER_LONG pf) by (apply Z.pow_le_mono_r; lia).
  unfold error_rec_report.
  change (2 ^ 32) with 4294967296 in *.
  cbn [last_report_time_msec last_occurence_time_msec exp_avg_interval_msec
       err_per_sec_threshold set_total_count set_last_occurence_time_msec
       set_exp_avg_interval_msec unreported_count].
  rewrite !(msec_distance_abs pf)
    by (change (2 ^ 32) with 4294967296; assumption).
  fold dt. fold since_report.
  assert (Hdt0 : 0 <= dt) by apply Z.abs_nonneg.
  assert (H50 : to_uint (50 * dt) = 50 * dt)
    by (apply wrap_unsigned_small; change (2 ^ 32) with 4294967296; lia).
  rewrite H50.
  change (Z.max (Z.min (50 * dt / SYMSPI_ERR_RATE_DECAY_RATE_MSEC_PER_HALF) 100)
                SYMSPI_ERR_RATE_DECAY_RATE_MIN)
    with (Z.max (Z.min (50 * dt / 2000) 100) 3).
  replace (Z.max (Z.min (50 * dt / 2000) 100) 3) with (spec_alpha dt)
    by (unfold spec_alpha; lia).
  pose proof (spec_alpha_range dt) as Ha.
  set (a := spec_alpha dt) in *.
  set (i := exp_avg_interval_msec e) in *.
  assert (Hm : 0 <= (100 - a) * i + a * dt < 100 * 2 ^ 32) by nia.
  assert (H1 : to_ulong pf ((100 - a) * i) = (100 - a) * i)
    by (apply wrap_unsigned_small; change (2 ^ 32) with 4294967296; nia).
  assert (H2 : to_uint (a * dt) = a * dt)
    by (apply wrap_unsigned_small; change (2 ^ 32) with 4294967296; nia).
  rewrite H1, H2.
  assert (H3 : to_ulong pf ((100 - a) * i + a * dt) = (100 - a) * i + a * dt)
    by (apply wrap_unsigned_small; change (2 ^ 32) with 4294967296; nia).
  rewrite H3.
  pose proof (weighted_mean_bound a i dt 4294967296
                ltac:(lia) ltac:(lia) ltac:(lia)) as Hw.
  assert (H4 : to_uint (((100 - a) * i + a * dt) / 100)
               = ((100 - a) * i + a * dt) / 100)
    by (apply wrap_unsigned_small; change (2 ^ 32) with 4294967296; lia).
  rewrite H4.
  assert (H5 : to_uint i = i)
    by (apply wrap_unsigned_small; change (2 ^ 32) with 4294967296; lia).
  rewrite H5.
  change (Z.max (((100 - a) * i + a * dt) / 100) 1) with interval'.
  assert (Hip : 1 <= interval') by (unfold interval', spec_interval; lia).
  assert (H6 : to_uint (1000 / interval') = rate).
  { apply wrap_unsigned_small. change (2 ^ 32) with 4294967296.
    unfold rate. split.
    - apply Z.div_pos; lia.
    - apply Z.le_lt_trans with 1000; [|lia].
      apply Z.div_le_upper_bound; nia. }
  rewrite H6.
  fold prev_rate. fold threshold. fold suppressed.
  clearbody suppressed.
  destruct suppressed; cbn; [repeat split|].
  destruct (Z.ltb_spec 0 (unreported_count e)); cbn; repeat split; lia.
Qed.

(** C5: what __symspi_error_report computes differs from the smoothed
    interval of the claim once alpha * dt no longer fits 32 bits.  For the
    first OTHER_SIDE error reported 42949673 ms after boot (interval 0,
    dt = 42949673, alpha = 100) the product 100 * dt wraps to 4, the code
    stores the interval 1 and reports the rate 1000 per second, where the
    claim gives the interval 42949673 and the rate 0. *)
Theorem error_report_interval_wraps :
  ledger_rec SYMSPI_ERROR_OTHER_SIDE idle_machine_after_12_hours
    = Some other_side_rec
  /\ to_uint (100 * 42949673) = 4
  /\ exp_avg_interval_msec
       (fst (error_rec_report demo_platform 42949673 other_side_rec)) = 1
  /\ spec_interval (exp_avg_interval_msec other_side_rec) 42949673 = 42949673
  /\ spec_rate 42949673 = 0
  /\ option_map exp_avg_interval_msec
       (ledger_rec SYMSPI_ERROR_OTHER_SIDE
          (final (__symspi_error_report demo_platform
                    SYMSPI_ERROR_OTHER_SIDE 0 idle_machine_after_12_hours)))
     = Some 1.
Proof. vm_compute. repeat split. Qed.

(** ** Error handler *)

Lemma set_private_same m pr :
  p (symspi m) = Some pr -> set_private (Some pr) m = m.
Proof. intros H. open_machine m H. reflexivity. Qed.

Lemma set_state_same pr : set_state (state pr) pr = pr.
Proof. now destruct pr. Qed.

Lemma error_handle_enters_loop pf fuel race m pr err_no sub_error_no :
  p (symspi m) = Some pr ->
  to_uchar err_no <> SYMSPI_SUCCESS ->
  exists pr',
    ledger_updated pr pr'
    /\ __symspi_error_handle_ pf fuel race err_no sub_error_no m
       = __symspi_error_handle_loop race fuel (to_uchar err_no)
           (set_private (Some pr') m).
Proof.
  intros Hp Hne. apply Z.eqb_neq in Hne.
  unfold __symspi_error_handle_. rewrite Hne.
  open_machine m Hp.
  destruct pr as [nx cx sx sm wq st dc mm hw irq dl cl fc le mg er il prt
                  inf io].
  unfold __symspi_error_report, __symspi_get_error_rec, ktime_now_msec,
    bind, rd, wr, ret, rd_env.
  simpl.
  repeat match goal with
  | |- context [to_uchar err_no =? ?c] =>
      destruct (to_uchar err_no =? c); simpl
  | |- context [negb (mg =? ?c)] => destruct (negb (mg =? c)); simpl
  | |- context [find_error_rec ?a ?b ?c] =>
      destruct (find_error_rec a b c); simpl
  | |- context [er !! ?i] => destruct (er !! i); simpl
  | |- context [error_rec_report ?a ?b ?c] =>
      destruct (error_rec_report a b c); simpl
  end.
  all: eexists; (split; [|reflexivity]); reflexivity.
Qed.

(* symspi_switch_strict when the device is not closing *)
Lemma switch_strict_open m pr expected_state dst_state :
  p (symspi m) = Some pr ->
  close_request pr = false ->
  symspi_switch_strict expected_state dst_state m =
    if state pr =? expected_state
    then Ret true (set_private (Some (set_state dst_state pr)) m)
    else Ret false m.
Proof.
  intros Hp Hc. now rewrite (symspi_switch_strict_eq _ _ _ _ Hp), Hc.
Qed.

(* a pass of the retry loop on a closing device changes nothing and does
   not return *)
Lemma error_handle_pass_closing race m pr err_no :
  p (symspi m) = Some pr ->
  close_request pr = true ->
  __symspi_error_handle_pass race err_no m = Ret false m.
Proof.
  intros Hp Hc.
  unfold __symspi_error_handle_pass, SYMSPI_SWITCH_STRICT, orelse, bind.
  repeat (rewrite (symspi_switch_strict_eq _ _ _ _ Hp), Hc; simpl).
  reflexivity.
Qed.

Lemma error_handle_loop_closing race n m pr err_no :
  p (symspi m) = Some pr ->
  close_request pr = true ->
  __symspi_error_handle_loop race n err_no m = Spin m.
Proof.
  intros Hp Hc. induction n as [|n IH]; [reflexivity|].
  simpl. unfold bind.
  now rewrite (error_handle_pass_closing _ _ _ _ Hp Hc).
Qed.

Ltac open_private pr :=
  destruct pr as [nx cx sx sm wq st dc mm hw irq dl cl fc le mg er il prt
                  inf io];
  simpl in *; subst.

(* the steps of the monad, for running a function on a machine taken
   apart *)
Ltac run_pass :=
  unfold __symspi_error_handle_pass, SYMSPI_SWITCH_STRICT, orelse,
    symspi_switch_strict, __symspi_is_closing, atomic_compare_exchange_state,
    complete_final_leave_xfer, __symspi_schedule_work, emit, bind, rd, wr,
    ret;
  simpl.

Lemma error_handle_pass_direct race m pr err_no :
  p (symspi m) = Some pr ->
  close_request pr = false ->
  goes_to_error_directly (state pr) ->
  __symspi_error_handle_pass race err_no m
    = Ret true
        (set_trace (EvQueueWork recover_work :: trace m)
           (set_private
              (Some (set_last_error err_no
                       (set_state SYMSPI_STATE_ERROR pr))) m)).
Proof.
  intros Hp Hc Hst. open_machine m Hp.
  destruct Hst as [H|[H|[H|[H|H]]]]; open_private pr; run_pass; reflexivity.
Qed.

Lemma error_handle_pass_sink race m pr err_no :
  p (symspi m) = Some pr ->
  close_request pr = false ->
  state pr = SYMSPI_STATE_COLD \/ state pr = SYMSPI_STATE_ERROR ->
  __symspi_error_handle_pass race err_no m = Ret true m.
Proof.
  intros Hp Hc Hst. open_machine m Hp.
  destruct Hst as [H|H]; open_private pr; run_pass; reflexivity.
Qed.

Lemma error_handle_pass_xfer_alone m pr err_no :
  p (symspi m) = Some pr ->
  close_request pr = false ->
  state pr = SYMSPI_STATE_XFER ->
  __symspi_error_handle_pass (ret tt) err_no m
    = Ret true (set_private (Some (set_last_error err_no pr)) m).
Proof.
  intros Hp Hc Hst. open_machine m Hp.
  open_private pr; run_pass; reflexivity.
Qed.

Lemma error_handle_pass_xfer_raced m pr err_no :
  p (symspi m) = Some pr ->
  close_request pr = false ->
  state pr = SYMSPI_STATE_XFER ->
  __symspi_error_handle_pass xfer_done_switch err_no m
    = Ret true
        (set_trace (EvQueueWork recover_work :: trace m)
           (set_private
              (Some (set_last_error err_no
                       (set_state SYMSPI_STATE_ERROR pr))) m)).
Proof.
  intros Hp Hc Hst. open_machine m Hp.
  open_private pr; unfold xfer_done_switch; run_pass; reflexivity.
Qed.

Lemma error_handle_loop_returns race n err_no m m' :
  __symspi_error_handle_pass race err_no m = Ret true m' ->
  __symspi_error_handle_loop race (S n) err_no m = Ret tt m'.
Proof. intros H. simpl. unfold bind. now rewrite H. Qed.

Lemma ledger_updated_state pr pr' :
  ledger_updated pr pr' ->
  state pr' = state pr /\ close_request pr' = close_request pr
  /\ last_error pr' = last_error pr.
Proof. intros H. rewrite H. repeat split. Qed.

Lemma error_handle_loop_latched race n m err_no :
  closing_word m = Some true ->
  __symspi_error_handle_loop race n err_no m = Spin m.
Proof.
  unfold closing_word. intros H.
  destruct (p (symspi m)) as [pr|] eqn:Hp; [|discriminate].
  apply (error_handle_loop_closing _ _ _ pr _ Hp).
  simpl in H. congruence.
Qed.

(** The routing of the error handler while the closing latch is clear: the
    handler called with a non-success kind returns after one pass of its
    loop, for each of the eight states.  From Idle, XferPrepare,
    WaitingPrev, WaitingRdy and Postprocessing it switches the state to
    Error, records last_error = kind and enqueues the recovery work.  In
    Cold and in Error it changes neither state nor last_error and enqueues
    nothing.  In Xfer it records last_error; when the bus-completion
    callback has not moved the state the state stays Xfer and nothing is
    enqueued, and when the callback has meanwhile switched Xfer to
    Postprocessing the handler switches Postprocessing to Error and
    enqueues recovery. *)
Lemma error_handle_routes_by_state
    (pf : platform) (fuel : nat) (m : machine) (pr : symspi_dev_private)
    (err_no sub_error_no : Z) :
  p (symspi m) = Some pr ->
  close_request pr = false ->
  0 < err_no < 256 ->
  (forall race,
     goes_to_error_directly (state pr) ->
     exists m',
       __symspi_error_handle_ pf (S fuel) race err_no sub_error_no m
         = Ret tt m'
       /\ state_word m' = Some SYMSPI_STATE_ERROR
       /\ last_error_word m' = Some err_no
       /\ trace m' = EvQueueWork recover_work :: trace m)
  /\ (forall race,
        state pr = SYMSPI_STATE_COLD \/ state pr = SYMSPI_STATE_ERROR ->
        exists m',
          __symspi_error_handle_ pf (S fuel) race err_no sub_error_no m
            = Ret tt m'
          /\ state_word m' = Some (state pr)
          /\ last_error_word m' = Some (last_error pr)
          /\ trace m' = trace m)
  /\ (state pr = SYMSPI_STATE_XFER ->
      (exists m',
         __symspi_error_handle_ pf (S fuel) (ret tt) err_no sub_error_no m
           = Ret tt m'
         /\ state_word m' = Some SYMSPI_STATE_XFER
         /\ last_error_word m' = Some err_no
         /\ trace m' = trace m)
      /\ (exists m',
            __symspi_error_handle_ pf (S fuel) xfer_done_switch err_no
              sub_error_no m = Ret tt m'
            /\ state_word m' = Some SYMSPI_STATE_ERROR
            /\ last_error_word m' = Some err_no
            /\ trace m' = EvQueueWork recover_work :: trace m)).
Proof.
  intros Hp Hc Herr.
  assert (Hu : to_uchar err_no = err_no).
  { unfold to_uchar, wrap_unsigned. apply Z.mod_small.
    change (2 ^ 8) with 256. lia. }
  assert (Hne : to_uchar err_no <> SYMSPI_SUCCESS).
  { rewrite Hu. unfold SYMSPI_SUCCESS. lia. }
  assert (Henter : forall race,
            exists pr',
              (state pr' = state pr /\ close_request pr' = close_request pr
               /\ last_error pr' = last_error pr)
              /\ __symspi_error_handle_ pf (S fuel) race err_no
                   sub_error_no m
                 = __symspi_error_handle_loop race (S fuel) err_no
                     (set_private (Some pr') m)).
  { intros race.
    destruct (error_handle_enters_loop pf (S fuel) race m pr err_no
                sub_error_no Hp Hne) as [pr' [Hl He]].
    exists pr'. split; [now apply ledger_updated_state|].
    now rewrite He, Hu. }
  split; [|split].
  - intros race Hst.
    destruct (Henter race) as [pr' [[Hs [Hcl Hle]] He]].
    eexists. split.
    + rewrite He. apply error_handle_loop_returns.
      apply (error_handle_pass_direct _ _ pr'); [reflexivity|congruence|].
      now rewrite Hs.
    + repeat split.
  - intros race Hst.
    destruct (Henter race) as [pr' [[Hs [Hcl Hle]] He]].
    eexists. split.
    + rewrite He. apply error_handle_loop_returns.
      apply (error_handle_pass_sink _ _ pr'); [reflexivity|congruence|].
      now rewrite Hs.
    + unfold state_word, last_error_word. simpl. rewrite Hs, Hle.
      repeat split.
  - intros Hst. split.
    + destruct (Henter (ret tt)) as [pr' [[Hs [Hcl Hle]] He]].
      eexists. split.
      * rewrite He. apply error_handle_loop_returns.
        apply (error_handle_pass_xfer_alone _ pr'); [reflexivity|congruence|].
        congruence.
      * unfold state_word, last_error_word. simpl. rewrite Hs, Hst.
        repeat split.
    + destruct (Henter xfer_done_switch) as [pr' [[Hs [Hcl Hle]] He]].
      eexists. split.
      * rewrite He. apply error_handle_loop_returns.
        apply (error_handle_pass_xfer_raced _ pr'); [reflexivity|congruence|].
        congruence.
      * repeat split.
Qed.

Example error_handle_routes_by_state_witness :
  p (symspi idle_machine) = Some idle_private
  /\ close_request idle_private = false
  /\ 0 < SYMSPI_ERROR_OTHER_SIDE < 256
  /\ exists m',
       __symspi_error_handle_ demo_platform 1 (ret tt)
         SYMSPI_ERROR_OTHER_SIDE 0 idle_machine = Ret tt m'
       /\ state_word m' = Some SYMSPI_STATE_ERROR
       /\ last_error_word m' = Some SYMSPI_ERROR_OTHER_SIDE
       /\ trace m' = EvQueueWork recover_work :: trace idle_machine.
Proof.
  split; [reflexivity|].
  split; [reflexivity|].
  split; [split; reflexivity|].
  destruct (error_handle_routes_by_state demo_platform 0 idle_machine
              idle_private SYMSPI_ERROR_OTHER_SIDE 0 eq_refl eq_refl
              (conj eq_refl eq_refl)) as [H _].
  apply (H (ret tt)). left. reflexivity.
Defined.

(** C3: the code at the failing input.  On the idle device on which
    symspi_close has set the closing latch, the error handler called for
    OtherSide does not return, whatever the number of passes of its loop:
    every exit of the loop wants a switch that reports true, and under the
    latch no switch does.  Where it spins the state is still Idle,
    last_error is still SYMSPI_SUCCESS and nothing has been enqueued,
    against the switch to Error, the recorded kind, the recovery work and
    the termination of the loop. *)
Theorem error_handle_closing_never_returns :
  state_word closing_idle_machine = Some SYMSPI_STATE_IDLE
  /\ forall fuel : nat,
       exists m',
         __symspi_error_handle_ demo_platform fuel (ret tt)
           SYMSPI_ERROR_OTHER_SIDE 0 closing_idle_machine = Spin m'
         /\ state_word m' = Some SYMSPI_STATE_IDLE
         /\ last_error_word m' = Some SYMSPI_SUCCESS
         /\ trace m' = [].
Proof.
  split; [reflexivity|]. intros fuel.
  destruct (error_handle_enters_loop demo_platform fuel (ret tt)
              closing_idle_machine (set_close_request true idle_private)
              SYMSPI_ERROR_OTHER_SIDE 0 eq_refl)
    as [pr' [Hl He]]; [discriminate|].
  destruct (ledger_updated_state _ _ Hl) as [Hs [Hc Hle]].
  eexists. split.
  - rewrite He. apply (error_handle_loop_closing _ _ _ pr'); [reflexivity|].
    exact Hc.
  - unfold state_word, last_error_word. simpl. rewrite Hs, Hle.
    repeat split.
Qed.

(** ** Bus completion *)

(** The routing of the bus-completion callback while the closing latch is
    clear: it switches the state from Xfer to Postprocessing by
    compare-and-swap; when the state was not Xfer it calls the error
    handler for Logical, the device untouched; otherwise, when last_error
    is set, it calls the error handler for last_error; otherwise, when the
    status of the SPI message is not zero, it calls the error handler for
    SpiLayer, the status being the sub_error_no argument of the call;
    otherwise it increments the xfers-done-ok counter and enqueues the
    postprocessing work. *)
Lemma xfer_done_callback_routes
    (pf : platform) (fuel : nat) (race : M unit) (m : machine)
    (pr : symspi_dev_private) :
  p (symspi m) = Some pr ->
  close_request pr = false ->
  let m_post :=
    set_private (Some (set_state SYMSPI_STATE_POSTPROCESSING pr)) m in
  (state pr <> SYMSPI_STATE_XFER ->
   symspi_spi_xfer_done_callback pf fuel race m
     = __symspi_error_handle_ pf fuel race SYMSPI_ERROR_LOGICAL 0 m)
  /\ (state pr = SYMSPI_STATE_XFER ->
      last_error pr <> SYMSPI_SUCCESS ->
      symspi_spi_xfer_done_callback pf fuel race m
        = __symspi_error_handle_ pf fuel race (last_error pr) 0 m_post)
  /\ (state pr = SYMSPI_STATE_XFER ->
      last_error pr = SYMSPI_SUCCESS ->
      status (spi_msg pr) <> 0 ->
      symspi_spi_xfer_done_callback pf fuel race m
        = __symspi_error_handle_ pf fuel race SYMSPI_ERROR_SPI
            (status (spi_msg pr)) m_post)
  /\ (state pr = SYMSPI_STATE_XFER ->
      last_error pr = SYMSPI_SUCCESS ->
      status (spi_msg pr) = 0 ->
      symspi_spi_xfer_done_callback pf fuel race m
        = Ret tt
            (set_trace (EvQueueWork postprocessing_work :: trace m)
               (set_private
                  (Some (set_info
                           (set_xfers_done_ok
                              (to_ullong (xfers_done_ok (info pr) + 1))
                              (info pr))
                           (set_state SYMSPI_STATE_POSTPROCESSING pr))) m))).
Proof.
  intros Hp Hc m_post.
  assert (Hsw : symspi_spi_xfer_done_callback pf fuel race m
                = if state pr =? SYMSPI_STATE_XFER
                  then
                    (pending <- rd last_error ;;
                     if negb (pending =? SYMSPI_SUCCESS)
                     then __symspi_error_handle_ pf fuel race pending 0
                     else
                       st <- rd (fun pr => status (spi_msg pr)) ;;
                       if negb (st =? 0)
                       then __symspi_error_handle_ pf fuel race
                              SYMSPI_ERROR_SPI st
                       else
                         wr (fun pr =>
                               set_info
                                 (set_xfers_done_ok
                                    (to_ullong (xfers_done_ok (info pr) + 1))
                                    (info pr)) pr) ;;
                         __symspi_schedule_work postprocessing_work) m_post
                  else __symspi_error_handle_ pf fuel race
                         SYMSPI_ERROR_LOGICAL 0 m).
  { unfold symspi_spi_xfer_done_callback, SYMSPI_SWITCH_STRICT.
    unfold bind at 1. rewrite (switch_strict_open _ _ _ _ Hp Hc).
    now destruct (state pr =? SYMSPI_STATE_XFER). }
  rewrite Hsw. clear Hsw.
  assert (Hpost : p (symspi m_post)
                  = Some (set_state SYMSPI_STATE_POSTPROCESSING pr))
    by reflexivity.
  split; [|split; [|split]].
  - intros Hst. apply Z.eqb_neq in Hst. now rewrite Hst.
  - intros Hst Hle. apply Z.eqb_eq in Hst. apply Z.eqb_neq in Hle.
    rewrite Hst. unfold bind. rewrite (rd_private _ _ _ Hpost).
    cbn [last_error set_state]. now rewrite Hle.
  - intros Hst Hle Hstat. apply Z.eqb_eq in Hst. apply Z.eqb_eq in Hle.
    apply Z.eqb_neq in Hstat.
    rewrite Hst. unfold bind. rewrite (rd_private _ _ _ Hpost).
    cbn [last_error set_state]. rewrite Hle. cbn [negb].
    rewrite (rd_private _ _ _ Hpost).
    cbn [spi_msg set_state]. now rewrite Hstat.
  - intros Hst Hle Hstat. apply Z.eqb_eq in Hst. apply Z.eqb_eq in Hle.
    apply Z.eqb_eq in Hstat.
    rewrite Hst. unfold bind. rewrite (rd_private _ _ _ Hpost).
    cbn [last_error set_state]. rewrite Hle. cbn [negb].
    rewrite (rd_private _ _ _ Hpost).
    cbn [spi_msg set_state]. rewrite Hstat. cbn [negb].
    rewrite (wr_private _ _ _ Hpost). reflexivity.
Qed.

Example xfer_done_callback_routes_witness :
  p (symspi (idle_with (set_state SYMSPI_STATE_XFER)))
    = Some (set_state SYMSPI_STATE_XFER idle_private)
  /\ close_request (set_state SYMSPI_STATE_XFER idle_private) = false
  /\ exists m',
       symspi_spi_xfer_done_callback demo_platform 1 (ret tt)
         (idle_with (set_state SYMSPI_STATE_XFER)) = Ret tt m'
       /\ state_word m' = Some SYMSPI_STATE_POSTPROCESSING
       /\ trace m' = [EvQueueWork postprocessing_work].
Proof.
  split; [reflexivity|]. split; [reflexivity|].
  destruct (xfer_done_callback_routes demo_platform 1 (ret tt)
              (idle_with (set_state SYMSPI_STATE_XFER))
              (set_state SYMSPI_STATE_XFER idle_private) eq_refl eq_refl)
    as [_ [_ [_ H]]].
  eexists. split.
  - apply H; reflexivity.
  - split; reflexivity.
Defined.

(** C2: the code at the failing input.  On the device closed while its
    transfer is on the bus (closing latch set, state Xfer, last_error
    SYMSPI_SUCCESS, status 0), the compare-and-swap of the bus-completion
    callback succeeds - the state becomes Postprocessing - and the
    callback still takes the branch of the failed switch: the ledger
    counts one Logical error, no work is enqueued, and, the error handler
    not returning under the latch, neither does the callback, whatever the
    number of passes. *)
Theorem xfer_done_callback_closing_raises_logical :
  state_word closing_xfer_machine = Some SYMSPI_STATE_XFER
  /\ option_map total_count
       (ledger_rec SYMSPI_ERROR_LOGICAL closing_xfer_machine) = Some 0
  /\ state_word closing_xfer_after_callback
     = Some SYMSPI_STATE_POSTPROCESSING
  /\ option_map total_count
       (ledger_rec SYMSPI_ERROR_LOGICAL closing_xfer_after_callback)
     = Some 1
  /\ trace closing_xfer_after_callback = []
  /\ forall fuel : nat,
       symspi_spi_xfer_done_callback demo_platform fuel (ret tt)
         closing_xfer_machine = Spin closing_xfer_after_callback.
Proof.
  repeat (split; [reflexivity|]). intros fuel.
  transitivity (__symspi_error_handle_loop (ret tt) fuel SYMSPI_ERROR_LOGICAL
                  closing_xfer_after_callback).
  - reflexivity.
  - apply error_handle_loop_latched. reflexivity.
Qed.

(** ** Interrupt glue *)




(** ** init on an initialized device *)

(* the input check reads the device and the xfer and writes nothing *)
Lemma verify_consumer_input_pure pf xfer check_xfer m :
  exists res, symspi_verify_consumer_input pf xfer check_xfer m = Ret res m.
Proof.
  unfold symspi_verify_consumer_input, bind, rd_dev, ret.
  repeat match goal with
  | |- context [if ?c then _ else _] => destruct c
  | |- context [match ?x with Some _ => _ | None => _ end] => destruct x
  end; eexists; reflexivity.
Qed.

(** C10, counterexample: symspi_init on the initialized idle device with a
    NULL default xfer returns the NoXfer error, not success. *)
Lemma init_on_initialized_device_checks_input :
  option_map magic (p (symspi idle_machine)) = Some SYMSPI_PRIVATE_MAGIC
  /\ symspi_init demo_platform 1 (ret tt) None idle_machine
     = Ret (- SYMSPI_ERROR_NO_XFER, None) idle_machine.
Proof. split; reflexivity. Qed.

(** C10, as amended: symspi_init on a device whose private part exists and
    carries the valid magic number first checks the consumer input (SPI
    device, the two flag lines, the default xfer); it returns what the
    check returns, so success at once when the input passes the check and
    the error of the check when not, and in both cases it modifies nothing:
    neither the device nor its private part nor the xfer handed in, and no
    kernel service is called. *)
Theorem init_on_initialized_device
    (pf : platform) (fuel : nat) (race : M unit) (m : machine)
    (pr : symspi_dev_private) (default_xfer : option full_duplex_xfer) :
  p (symspi m) = Some pr ->
  magic pr = SYMSPI_PRIVATE_MAGIC ->
  exists res,
    symspi_verify_consumer_input pf default_xfer true m = Ret res m
    /\ symspi_init pf fuel race default_xfer m = Ret (res, default_xfer) m
    /\ (res = SYMSPI_SUCCESS \/ res = - SYMSPI_ERROR_NO_SPI
        \/ res = - SYMSPI_ERROR_NO_GPIO \/ res = - SYMSPI_ERROR_NO_XFER).
Proof.
  intros Hp Hm. apply Z.eqb_eq in Hm.
  open_machine m Hp.
  unfold symspi_init, symspi_verify_consumer_input, bind, rd_dev, ret.
  simpl.
  repeat first
    [ rewrite Hm; simpl
    | match goal with
      | |- context [if ?c then _ else _] => destruct c; simpl
      | |- context [match ?x with Some _ => _ | None => _ end] =>
          destruct x; simpl
      end ].
  all: eexists; (split; [reflexivity|]); (split; [reflexivity|]); auto.
Qed.

Lemma init_on_initialized_device_witness :
  p (symspi idle_machine) = Some idle_private
  /\ magic idle_private = SYMSPI_PRIVATE_MAGIC
  /\ exists res,
       symspi_verify_consumer_input demo_platform (Some xfer_1_byte) true
         idle_machine = Ret res idle_machine
       /\ symspi_init demo_platform 1 (ret tt) (Some xfer_1_byte)
            idle_machine = Ret (res, Some xfer_1_byte) idle_machine
       /\ (res = SYMSPI_SUCCESS \/ res = - SYMSPI_ERROR_NO_SPI
           \/ res = - SYMSPI_ERROR_NO_GPIO \/ res = - SYMSPI_ERROR_NO_XFER).
Proof.
  split; [reflexivity|]. split; [reflexivity|].
  apply (init_on_initialized_device demo_platform 1 (ret tt) idle_machine
           idle_private (Some xfer_1_byte) eq_refl eq_refl).
Defined.

Example init_on_initialized_device_valid_input :
  symspi_init demo_platform 1 (ret tt) (Some xfer_1_byte) idle_machine
  = Ret (SYMSPI_SUCCESS, Some xfer_1_byte) idle_machine.
Proof. reflexivity. Qed.

(** ** Request API *)

(** C1: on the idle device whose current xfer has 64 bytes,
    symspi_data_xchange with a 1-byte xfer (TX apart, no force) does not
    fail with XferSizeMismatch.  symspi_replace_xfer refuses the xfer
    with that code, symspi_update_xfer_sequence turns the code into
    SYMSPI_SUCCESS on its way out, and the call goes on: it returns the id
    given to the xfer (2), with the state back to Idle, the current xfer
    still the 64-byte one, and our flag left asserted. *)
Theorem data_xchange_size_mismatch_returns_id :
  state_word idle_machine = Some SYMSPI_STATE_IDLE
  /\ current_size idle_machine = Some 64
  /\ (exists m1,
        symspi_replace_xfer demo_platform (set_id 2 xfer_1_byte) false
          (idle_with (set_state SYMSPI_STATE_XFER_PREPARE))
        = Ret (- SYMSPI_ERROR_XFER_SIZE_MISMATCH) m1)
  /\ (exists m1,
        symspi_update_xfer_sequence demo_platform 1 (ret tt)
          (Some xfer_1_byte) SYMSPI_STATE_XFER_PREPARE false
          (idle_with (set_state SYMSPI_STATE_XFER_PREPARE))
        = Ret (SYMSPI_SUCCESS, Some (set_id 2 xfer_1_byte)) m1)
  /\ exists m',
       symspi_data_xchange demo_platform 1 (ret tt) (Some xfer_1_byte) false
         idle_machine
       = Ret (2, Some (set_id 2 xfer_1_byte)) m'
       /\ state_word m' = Some SYMSPI_STATE_IDLE
       /\ current_size m' = Some 64
       /\ our_flag_raw m' = SYMSPI_MASTER_FLAG_ACTIVE_VALUE
       /\ trace m' = [EvGpioSetOurFlag 1; EvDelTimerSync].
Proof.
  split; [reflexivity|]. split; [reflexivity|].
  split; [eexists; vm_compute; reflexivity|].
  split; [eexists; vm_compute; reflexivity|].
  eexists. split; [vm_compute; reflexivity|].
  vm_compute. repeat split.
Qed.

(** ** close *)

Create HintDb symspi_keeps.

Lemma keeps_ret {A} (a : A) : keeps_private (ret a).
Proof. intros m H. exists a, m. now split. Qed.

Lemma keeps_bind {A B} (c : M A) (k : A -> M B) :
  keeps_private c -> (forall a, keeps_private (k a)) ->
  keeps_private (bind c k).
Proof.
  intros Hc Hk m H. destruct (Hc m H) as [a [m1 [E H1]]].
  destruct (Hk a m1 H1) as [b [m2 [E2 H2]]].
  exists b, m2. unfold bind. rewrite E. now split.
Qed.

Lemma keeps_rd {X} (f : symspi_dev_private -> X) : keeps_private (rd f).
Proof.
  intros m [pr H]. exists (f pr), m. rewrite (rd_private _ _ _ H).
  split; [reflexivity|now exists pr].
Qed.

Lemma keeps_wr (f : symspi_dev_private -> symspi_dev_private) :
  keeps_private (wr f).
Proof.
  intros m [pr H]. eexists tt, _. rewrite (wr_private _ _ _ H).
  split; [reflexivity|]. now exists (f pr).
Qed.

Lemma keeps_rd_dev {X} (f : symspi_dev -> X) : keeps_private (rd_dev f).
Proof. intros m H. exists (f (symspi m)), m. now split. Qed.

Lemma keeps_rd_env {X} (f : machine -> X) : keeps_private (rd_env f).
Proof. intros m H. exists (f m), m. now split. Qed.

Lemma keeps_emit (e : event) : keeps_private (emit e).
Proof.
  intros m [pr H]. eexists tt, _. split; [reflexivity|]. now exists pr.
Qed.

Lemma keeps_gpiod_set_raw_value_our_flag level :
  keeps_private (gpiod_set_raw_value_our_flag level).
Proof.
  intros m [pr H]. eexists tt, _. split; [reflexivity|]. now exists pr.
Qed.

Lemma keeps_krealloc_call pf ptr size :
  keeps_private (krealloc_call pf ptr size).
Proof.
  intros m [pr H]. eexists _, _. split; [reflexivity|]. now exists pr.
Qed.

#[local] Hint Resolve keeps_ret keeps_rd keeps_wr keeps_rd_dev keeps_rd_env
  keeps_emit keeps_gpiod_set_raw_value_our_flag keeps_krealloc_call
  : symspi_keeps.

(* one function after the other: binds, branches, then the hints *)
Ltac keeps :=
  repeat first
    [ solve [auto with symspi_keeps]
    | apply keeps_bind; [|intros ?]
    | match goal with
      | |- keeps_private (if ?c then _ else _) => destruct c
      | |- keeps_private (match ?x with _ => _ end) => destruct x
      end ].

Lemma keeps_symspi_our_flag_drop : keeps_private symspi_our_flag_drop.
Proof. unfold symspi_our_flag_drop. keeps. Qed.

Lemma keeps_wait_for_final_leave_xfer_completion :
  keeps_private wait_for_final_leave_xfer_completion.
Proof. unfold wait_for_final_leave_xfer_completion. keeps. Qed.

Lemma keeps_symspi_do_resize_xfer pf xfer n :
  keeps_private (symspi_do_resize_xfer pf xfer n).
Proof. unfold symspi_do_resize_xfer. keeps. Qed.

#[local] Hint Resolve keeps_symspi_our_flag_drop
  keeps_wait_for_final_leave_xfer_completion keeps_symspi_do_resize_xfer
  : symspi_keeps.

Lemma keeps_close_full pf : keeps_private (close_full pf).
Proof.
  unfold close_full, __symspi_info_close, __symspi_procfs_close,
    __SYMSPI_INIT_LEVEL.
  keeps.
Qed.

Lemma keeps_close_gpio_irqs : keeps_private close_gpio_irqs.
Proof.
  unfold close_gpio_irqs, symspi_close_qpio_irqs,
    __symspi_stop_timeout_timer_sync, symspi_switch_state_val_forced,
    __SYMSPI_INIT_LEVEL.
  keeps.
Qed.

Lemma keeps_close_workqueue_init : keeps_private close_workqueue_init.
Proof.
  unfold close_workqueue_init, __symspi_cancel_work_sync,
    __SYMSPI_INIT_LEVEL.
  keeps.
Qed.

Lemma keeps_close_xfer_created pf : keeps_private (close_xfer_created pf).
Proof.
  unfold close_xfer_created, symspi_xfer_free,
    symspi_do_update_native_spi_xfer_data, __SYMSPI_INIT_LEVEL.
  keeps.
Qed.

#[local] Hint Resolve keeps_close_full keeps_close_gpio_irqs
  keeps_close_workqueue_init keeps_close_xfer_created : symspi_keeps.

Lemma keeps_symspi_close_upper_labels pf level :
  keeps_private (symspi_close_upper_labels pf level).
Proof. unfold symspi_close_upper_labels. keeps. Qed.

(* the labels end with the private part freed, whatever the level *)
Lemma close_labels_free_private pf level m :
  has_private m ->
  exists m',
    symspi_close_labels pf level m = Ret tt m'
    /\ p (symspi m') = None
    /\ hd_error (trace m') = Some EvKfreePrivate.
Proof.
  intros H.
  destruct (keeps_symspi_close_upper_labels pf level m H)
    as [[] [m1 [E [pr1 H1]]]].
  unfold symspi_close_labels, bind. rewrite E.
  unfold close_private_allocated, bind, emit.
  rewrite (wr_private _ _ _ H1).
  eexists. split; [reflexivity|]. split; reflexivity.
Qed.

(** C9, counterexample: the idle device is closed once, with success and
    the full teardown (the private part is freed); the second call finds
    no private part and returns -ENODEV, not AlreadyClosing. *)
Lemma close_twice_returns_no_device :
  exists m1,
    symspi_close demo_platform idle_machine = Ret SYMSPI_SUCCESS m1
    /\ p (symspi m1) = None
    /\ symspi_close demo_platform m1 = Ret (- ENODEV) m1
    /\ - ENODEV <> - EALREADY.
Proof.
  eexists. split; [vm_compute; reflexivity|].
  split; [reflexivity|]. split; [reflexivity|discriminate].
Qed.

(** C9, as amended: symspi_close latches close_request by a one-shot
    compare-and-swap.  A call on an initialized device (private part
    there, valid magic) that finds the latch clear sets it and, unless the
    state is Cold, tears the device down to the end: it returns success
    with the private part freed.  A call that finds the private part there
    with the latch already set returns AlreadyClosing and touches nothing.
    A call made after the teardown has ended finds no private part and
    returns -ENODEV, again touching nothing. *)
Theorem close_latch
    (pf : platform) (m : machine) (pr : symspi_dev_private) :
  p (symspi m) = Some pr ->
  magic pr = SYMSPI_PRIVATE_MAGIC ->
  (close_request pr = true -> symspi_close pf m = Ret (- EALREADY) m)
  /\ (close_request pr = false ->
      state pr <> SYMSPI_STATE_COLD ->
      exists m',
        symspi_close pf m = Ret SYMSPI_SUCCESS m'
        /\ p (symspi m') = None
        /\ hd_error (trace m') = Some EvKfreePrivate
        /\ symspi_close pf m' = Ret (- ENODEV) m')
  /\ (close_request pr = false ->
      state pr = SYMSPI_STATE_COLD ->
      symspi_close pf m
        = Ret SYMSPI_SUCCESS
            (set_private (Some (set_close_request true pr)) m)
      /\ symspi_close pf (set_private (Some (set_close_request true pr)) m)
         = Ret (- EALREADY)
             (set_private (Some (set_close_request true pr)) m)).
Proof.
  intros Hp Hm. apply Z.eqb_eq in Hm.
  split; [|split].
  - intros Hc. unfold symspi_close. now rewrite Hp, Hm, Hc.
  - intros Hc Hst. apply Z.eqb_neq in Hst.
    unfold symspi_close at 1. rewrite Hp, Hm, Hc. cbn [negb].
    unfold bind at 1. rewrite (wr_private _ _ _ Hp).
    unfold bind at 1.
    rewrite (rd_private _ _ _ (private_of_set_private _ _)).
    cbn [state set_close_request]. rewrite Hst.
    unfold bind at 1.
    rewrite (rd_private _ _ _ (private_of_set_private _ _)).
    destruct (close_labels_free_private pf
                (init_level (set_close_request true pr))
                (set_private (Some (set_close_request true pr)) m))
      as [m' [E [Hnone Htr]]].
    { eexists. apply private_of_set_private. }
    unfold bind. rewrite E. exists m'.
    split; [reflexivity|]. split; [exact Hnone|]. split; [exact Htr|].
    unfold symspi_close. now rewrite Hnone.
  - intros Hc Hst. apply Z.eqb_eq in Hst. split.
    + unfold symspi_close. rewrite Hp, Hm, Hc. cbn [negb].
      unfold bind at 1. rewrite (wr_private _ _ _ Hp).
      unfold bind at 1.
      rewrite (rd_private _ _ _ (private_of_set_private _ _)).
      cbn [state set_close_request]. now rewrite Hst.
    + unfold symspi_close. rewrite private_of_set_private.
      cbn [magic close_request set_close_request]. now rewrite Hm.
Qed.

Lemma close_latch_witness :
  p (symspi closing_idle_machine) = Some (set_close_request true idle_private)
  /\ magic (set_close_request true idle_private) = SYMSPI_PRIVATE_MAGIC
  /\ symspi_close demo_platform closing_idle_machine
     = Ret (- EALREADY) closing_idle_machine.
Proof.
  split; [reflexivity|]. split; [reflexivity|].
  destruct (close_latch demo_platform closing_idle_machine
              (set_close_request true idle_private) eq_refl eq_refl)
    as [H _].
  apply H. reflexivity.
Defined.

(** ** Drop counter *)

(* bus submission: the counter is stored 0, then spi_async is called *)
Lemma do_xfer_zeroes_drop_counter m :
  has_private m ->
  exists m',
    symspi_do_xfer m
      = Ret (if spi_async_result m =? 0 then SYMSPI_SUCCESS
             else - SYMSPI_ERROR_SPI) m'
    /\ drop_counter_word m' = Some 0
    /\ trace m' = EvSpiAsync :: EvDropCounterStore 0 :: trace m
    /\ state_word m' = state_word m.
Proof.
  intros [pr Hp]. open_machine m Hp.
  unfold symspi_do_xfer, atomic_store_drop_counter, spi_async, bind, wr,
    emit, rd_env, ret.
  simpl.
  destruct (_ =? 0); eexists; repeat split.
Qed.

(* the end of a recovery: the counter is stored 1 and last_error cleared
   before symspi_to_idle_sequence makes the switch from Error *)
Lemma recovery_resume_sets_drop_counter pf fuel race m :
  has_private m ->
  exists m1,
    symspi_recovery_resume pf fuel race m
      = symspi_to_idle_sequence pf fuel race SYMSPI_STATE_ERROR true
          SYMSPI_SUCCESS m1
    /\ drop_counter_word m1 = Some 1
    /\ last_error_word m1 = Some SYMSPI_SUCCESS
    /\ state_word m1 = state_word m
    /\ trace m1 = EvDropCounterStore 1 :: trace m.
Proof.
  intros [pr Hp]. open_machine m Hp.
  unfold symspi_recovery_resume, atomic_store_drop_counter.
  unfold bind at 1. unfold bind at 1. unfold wr at 1. cbn [p symspi].
  unfold emit at 1. unfold bind at 1. unfold wr at 1.
  eexists. split; [reflexivity|]. repeat split.
Qed.

(* the block of init that sets the drop counter leaves it at 1, whatever
   the interrupt set-up answers *)
Lemma init_to_gpio_irqs_sets_drop_counter pf m res m' :
  has_private m ->
  init_to_gpio_irqs pf m = Ret res m' ->
  has_private m' /\ drop_counter_word m' = Some 1.
Proof.
  intros [pr Hp] H. open_machine m Hp.
  unfold init_to_gpio_irqs, __SYMSPI_INIT_LEVEL, symspi_our_flag_drop,
    gpiod_set_raw_value_our_flag, symspi_init_gpio_irqs,
    bind, rd, wr, rd_dev, emit, ret in H.
  simpl in H.
  repeat match type of H with
  | context [if ?c then _ else _] => destruct c; simpl in H
  end.
  all: injection H as _ Hm'; subst m'; split; [eexists|]; reflexivity.
Qed.

Lemma init_to_full_switches_to_idle pf m :
  has_private m ->
  exists m',
    init_to_full pf m = Ret tt m'
    /\ drop_counter_word m' = drop_counter_word m
    /\ state_word m' = Some SYMSPI_STATE_IDLE
    /\ closing_word m' = Some false.
Proof.
  intros [pr Hp]. open_machine m Hp.
  unfold init_to_full, __SYMSPI_INIT_LEVEL, __symspi_procfs_init,
    __symspi_info_init, bind, rd, wr, ret.
  simpl.
  destruct (IS_ERR_OR_NULL pf (proc_mkdir pf)); simpl;
    eexists; (split; [reflexivity|]); repeat split.
Qed.


Lemma keeps_init_to_xfer_created pf default_xfer :
  keeps_private (init_to_xfer_created pf default_xfer).
Proof.
  unfold init_to_xfer_created, __SYMSPI_INIT_LEVEL,
    __symspi_error_report_init, symspi_xfer_init_copy.
  keeps.
Qed.

Lemma keeps_init_to_workqueue_init pf default_xfer :
  keeps_private (init_to_workqueue_init pf default_xfer).
Proof.
  unfold init_to_workqueue_init, __SYMSPI_INIT_LEVEL,
    symspi_get_next_xfer_id, symspi_do_update_native_spi_xfer_data,
    __symspi_init_workqueue.
  keeps.
Qed.

(* init complete: when symspi_init_private returns success the device is
   Idle, not closing, and the drop counter is 1 *)
Lemma init_private_sets_drop_counter pf default_xfer m dx' m' :
  has_private m ->
  symspi_init_private pf default_xfer m = Ret (SYMSPI_SUCCESS, dx') m' ->
  drop_counter_word m' = Some 1
  /\ state_word m' = Some SYMSPI_STATE_IDLE
  /\ closing_word m' = Some false.
Proof.
  intros Hpriv H. unfold symspi_init_private in H.
  unfold bind at 1 in H.
  destruct (keeps_init_to_xfer_created pf default_xfer m Hpriv)
    as [res1 [m1 [E1 H1]]].
  rewrite E1 in H.
  destruct (Z.ltb_spec res1 0) as [Hneg|_].
  { unfold bind, ret in H.
    destruct (symspi_close pf m1); try discriminate.
    injection H as Hres _ _. unfold SYMSPI_SUCCESS in Hres. lia. }
  unfold bind at 1 in H.
  destruct (keeps_init_to_workqueue_init pf default_xfer m1 H1)
    as [[res2 dx2] [m2 [E2 H2]]].
  rewrite E2 in H.
  destruct (Z.ltb_spec res2 0) as [Hneg|_].
  { unfold bind, ret in H.
    destruct (symspi_close pf m2); discriminate. }
  unfold bind at 1 in H.
  destruct (init_to_gpio_irqs pf m2) as [res3 m3| |] eqn:E3;
    try discriminate.
  destruct (init_to_gpio_irqs_sets_drop_counter pf m2 res3 m3 H2 E3)
    as [H3 Hc3].
  destruct (Z.eqb_spec res3 SYMSPI_SUCCESS) as [Hok|Hbad]; cbn [negb] in H.
  2:{ unfold bind, ret in H.
      destruct (symspi_close pf m3); try discriminate.
      injection H as Hres _ _. congruence. }
  destruct (init_to_full_switches_to_idle pf m3 H3)
    as [m4 [E4 [Hc4 [Hs4 Hcl4]]]].
  unfold bind, ret in H. rewrite E4 in H.
  injection H as _ Hm. subst m'.
  split; [congruence|]. split; assumption.
Qed.

Lemma their_flag_is_set_pure m b m' :
  symspi_their_flag_is_set m = Ret b m' -> m' = m.
Proof.
  unfold symspi_their_flag_is_set, bind, rd, rd_env, ret.
  destruct (p (symspi m)); [|discriminate].
  intros H. now injection H.
Qed.

Lemma bind_eq {A B} (c : M A) (k : A -> M B) m a m' :
  c m = Ret a m' -> bind c k m = k a m'.
Proof. intros H. unfold bind. now rewrite H. Qed.

Lemma init_after_allocation pf fuel race dx m :
  p (symspi m) = None ->
  symspi_verify_consumer_input pf (Some dx) true m = Ret SYMSPI_SUCCESS m ->
  kzalloc_private pf (allocs m) = true ->
  symspi_init pf fuel race (Some dx) m
  = (r <- symspi_init_private pf dx ;;
     let (res, dx') := r in
     if negb (res =? SYMSPI_SUCCESS) then ret (res, Some dx')
     else
       set <- symspi_their_flag_is_set ;;
       (if set then symspi_data_xchange pf fuel race None false ;; ret tt
        else ret tt) ;;
       ret (SYMSPI_SUCCESS, Some dx'))
      (set_private (Some zero_private) (set_allocs (S (allocs m)) m)).
Proof.
  intros Hp Hv Hk. unfold symspi_init.
  rewrite (bind_eq _ _ _ _ _ Hv). cbn [negb Z.eqb SYMSPI_SUCCESS].
  rewrite (bind_eq (rd_dev p) _ m (p (symspi m)) m eq_refl), Hp.
  cbv beta iota zeta.
  rewrite (bind_eq (kzalloc_private_call pf) _ m _ _ eq_refl), Hk.
  cbn [negb]. 
  now rewrite (bind_eq (fun m => Ret tt (set_private (Some zero_private) m))
                 _ _ tt _ eq_refl).
Qed.

(* symspi_init on a device without private part: when it returns success
   the private part was allocated and initialised, which leaves the device
   Idle with the counter at 1; the one step after that is the transfer
   started at once when the peer flag is found raised *)
Lemma init_sets_drop_counter pf fuel race dx m res m' :
  p (symspi m) = None ->
  symspi_init pf fuel race (Some dx) m = Ret (SYMSPI_SUCCESS, res) m' ->
  exists dx' m0,
    symspi_init_private pf dx
      (set_private (Some zero_private) (set_allocs (S (allocs m)) m))
      = Ret (SYMSPI_SUCCESS, dx') m0
    /\ drop_counter_word m0 = Some 1
    /\ state_word m0 = Some SYMSPI_STATE_IDLE
    /\ (m' = m0
        \/ m' = final (symspi_data_xchange pf fuel race None false m0)).
Proof.
  intros Hp H.
  destruct (verify_consumer_input_pure pf (Some dx) true m) as [r Er].
  destruct (Z.eqb_spec r SYMSPI_SUCCESS) as [->|Hr].
  2:{ unfold symspi_init in H. rewrite (bind_eq _ _ _ _ _ Er) in H.
      apply Z.eqb_neq in Hr. rewrite Hr in H. cbn [negb] in H.
      unfold ret in H. apply Z.eqb_neq in Hr. congruence. }
  destruct (kzalloc_private pf (allocs m)) eqn:Hk.
  2:{ unfold symspi_init in H. rewrite (bind_eq _ _ _ _ _ Er) in H.
      cbn [negb Z.eqb SYMSPI_SUCCESS] in H.
      rewrite (bind_eq (rd_dev p) _ m (p (symspi m)) m eq_refl), Hp in H.
      cbv beta iota zeta in H.
      rewrite (bind_eq (kzalloc_private_call pf) _ m _ _ eq_refl), Hk in H.
      cbn [negb] in H.
      rewrite (bind_eq (fun m => Ret tt (set_private None m)) _ _ tt _
                 eq_refl) in H.
      unfold bind, ret in H.
      destruct (symspi_close pf _); discriminate. }
  rewrite (init_after_allocation _ _ _ _ _ Hp Er Hk) in H.
  assert (Hz : has_private
            (set_private (Some zero_private) (set_allocs (S (allocs m)) m)))
    by (now exists zero_private).
  revert H Hz.
  generalize (set_private (Some zero_private) (set_allocs (S (allocs m)) m)).
  intros m_new H Hz.
  destruct (symspi_init_private pf dx m_new) as [[r2 dx'] m0| |] eqn:E;
    [|unfold bind in H; rewrite E in H; discriminate..].
  rewrite (bind_eq _ _ _ _ _ E) in H.
  destruct (Z.eqb_spec r2 SYMSPI_SUCCESS) as [->|Hr2]; cbn [negb] in H.
  2:{ unfold ret in H. congruence. }
  destruct (init_private_sets_drop_counter pf dx _ dx' m0 Hz E)
    as [Hc [Hs _]].
  exists dx', m0. split; [reflexivity|]. split; [exact Hc|].
  split; [exact Hs|].
  destruct (symspi_their_flag_is_set m0) as [b m1| |] eqn:Es;
    [|unfold bind in H; rewrite Es in H; discriminate..].
  rewrite (bind_eq _ _ _ _ _ Es) in H.
  apply their_flag_is_set_pure in Es. subst m1.
  destruct b.
  - right.
    destruct (symspi_data_xchange pf fuel race None false m0) eqn:Ex;
      unfold bind at 1 in H; unfold bind at 1 in H; rewrite Ex in H;
      try discriminate.
    unfold final. unfold ret in H. congruence.
  - left. unfold bind, ret in H. congruence.
Qed.

(** ** Steps that leave the state word alone *)

Create HintDb symspi_state.

Lemma ks_ret {A} (a : A) : keeps_state (ret a).
Proof. intros m pr Hp. now exists a, m, pr. Qed.

Lemma ks_bind {A B} (c : M A) (k : A -> M B) :
  keeps_state c -> (forall a, keeps_state (k a)) -> keeps_state (bind c k).
Proof.
  intros Hc Hk m pr Hp. destruct (Hc m pr Hp) as [a [m1 [pr1 [E [Hp1 H1]]]]].
  destruct (Hk a m1 pr1 Hp1) as [b [m2 [pr2 [E2 [Hp2 H2]]]]].
  exists b, m2, pr2. unfold bind. rewrite E. repeat split; congruence.
Qed.

Lemma ks_rd {X} (f : symspi_dev_private -> X) : keeps_state (rd f).
Proof.
  intros m pr Hp. exists (f pr), m, pr. now rewrite (rd_private _ _ _ Hp).
Qed.

Lemma ks_wr (f : symspi_dev_private -> symspi_dev_private) :
  (forall pr, state (f pr) = state pr) -> keeps_state (wr f).
Proof.
  intros Hf m pr Hp. exists tt, (set_private (Some (f pr)) m), (f pr).
  rewrite (wr_private _ _ _ Hp), private_of_set_private. auto.
Qed.

Lemma ks_env {A} (a : machine -> A) (g : machine -> machine) :
  (forall m, symspi (g m) = symspi m) ->
  keeps_state (fun m => Ret (a m) (g m)).
Proof.
  intros Hg m pr Hp. exists (a m), (g m), pr. now rewrite Hg.
Qed.

Lemma ks_rd_dev {X} (f : symspi_dev -> X) : keeps_state (rd_dev f).
Proof. intros m pr Hp. now exists (f (symspi m)), m, pr. Qed.

Lemma ks_rd_env {X} (f : machine -> X) : keeps_state (rd_env f).
Proof. intros m pr Hp. now exists (f m), m, pr. Qed.

Lemma ks_emit (e : event) : keeps_state (emit e).
Proof. apply (ks_env (fun _ => tt)). reflexivity. Qed.

#[local] Hint Resolve ks_ret ks_rd ks_rd_dev ks_rd_env ks_emit : symspi_state.

Ltac keeps_state :=
  repeat first
    [ solve [auto with symspi_state]
    | apply ks_bind; [|intros ?]
    | apply ks_wr; intros ?; reflexivity
    | apply ks_env; intros ?; reflexivity
    | match goal with
      | |- keeps_state (if ?c then _ else _) => destruct c
      | |- keeps_state (match ?x with _ => _ end) => destruct x
      end ].

Lemma ks_symspi_recovery_signal : keeps_state symspi_recovery_signal.
Proof.
  unfold symspi_recovery_signal, __symspi_stop_timeout_timer_sync,
    symspi_our_flag_drop, symspi_our_flag_set,
    symspi_wait_flag_silence_period, gpiod_set_raw_value_our_flag.
  keeps_state.
Qed.

Lemma ks_symspi_recovery_ask_consumer pf error_code :
  keeps_state (symspi_recovery_ask_consumer pf error_code).
Proof. unfold symspi_recovery_ask_consumer. keeps_state. Qed.

Lemma ks_symspi_replace_xfer pf new_xfer force :
  keeps_state (symspi_replace_xfer pf new_xfer force).
Proof.
  unfold symspi_replace_xfer, symspi_do_resize_xfer, krealloc_call,
    symspi_do_update_native_spi_xfer_data.
  keeps_state.
Qed.

Lemma ks_symspi_get_next_xfer_id : keeps_state symspi_get_next_xfer_id.
Proof. unfold symspi_get_next_xfer_id. keeps_state. Qed.

Lemma ks_xfer_accepted x : keeps_state (xfer_accepted x).
Proof. unfold xfer_accepted. keeps_state. Qed.

#[local] Hint Resolve ks_symspi_recovery_signal
  ks_symspi_recovery_ask_consumer ks_symspi_replace_xfer
  ks_symspi_get_next_xfer_id ks_xfer_accepted : symspi_state.

(* the xfer update of the recovery: from the Error state it makes no call
   of symspi_to_idle_sequence *)
Lemma ks_symspi_update_xfer_sequence_in_error pf fuel race x force :
  keeps_state
    (symspi_update_xfer_sequence pf fuel race (Some x) SYMSPI_STATE_ERROR
       force).
Proof.
  unfold symspi_update_xfer_sequence, symspi_update_xfer_sequence_open.
  change (negb (SYMSPI_STATE_ERROR =? SYMSPI_STATE_ERROR)) with false.
  cbv iota. keeps_state.
Qed.

#[local] Hint Resolve ks_symspi_update_xfer_sequence_in_error : symspi_state.

(* a recovery either ends with the device still in Error (the consumer
   halted it, or the xfer it handed back could not be installed) or goes
   through symspi_recovery_resume, entered in Error *)
Lemma recovery_sequence_outcomes pf fuel race m pr :
  p (symspi m) = Some pr ->
  magic pr = SYMSPI_PRIVATE_MAGIC ->
  state pr = SYMSPI_STATE_ERROR ->
  (exists res m',
     symspi_recovery_sequence pf fuel race m = Ret res m'
     /\ state_word m' = Some SYMSPI_STATE_ERROR)
  \/ (exists m0,
        symspi_recovery_sequence pf fuel race m
          = symspi_recovery_resume pf fuel race m0
        /\ state_word m0 = Some SYMSPI_STATE_ERROR).
Proof.
  intros Hp Hm Hst.
  assert (Hk : keeps_state
    (error_code <- rd last_error ;;
     symspi_recovery_signal ;;
     symspi_recovery_ask_consumer pf error_code)) by keeps_state.
  destruct (Hk m pr Hp) as [answer [m1 [pr1 [E1 [Hp1 Hs1]]]]].
  assert (Hsplit : symspi_recovery_sequence pf fuel race m =
    match answer with
    | CbErr => ret SYMSPI_SUCCESS
    | CbXfer x =>
        r <- symspi_update_xfer_sequence pf fuel race (Some x)
               SYMSPI_STATE_ERROR true ;;
        xfer_accepted x ;;
        if negb (fst r =? SYMSPI_SUCCESS) then ret (fst r)
        else symspi_recovery_resume pf fuel race
    | CbNull => symspi_recovery_resume pf fuel race
    end m1).
  { unfold symspi_recovery_sequence. rewrite Hp, Hm, Hst.
    rewrite !Z.eqb_refl. cbn [negb].
    revert E1. unfold bind.
    destruct (rd last_error m); try discriminate.
    destruct (symspi_recovery_signal m0); try discriminate.
    intros E1. now rewrite E1. }
  assert (Herr : state_word m1 = Some SYMSPI_STATE_ERROR).
  { unfold state_word. rewrite Hp1. simpl. congruence. }
  destruct answer as [| |x].
  - right. exists m1. split; [exact Hsplit|exact Herr].
  - left. exists SYMSPI_SUCCESS, m1. split; [exact Hsplit|exact Herr].
  - destruct (ks_symspi_update_xfer_sequence_in_error pf fuel race x true
                m1 pr1 Hp1) as [r [m2 [pr2 [E2 [Hp2 Hs2]]]]].
    destruct (ks_xfer_accepted x m2 pr2 Hp2)
      as [[] [m3 [pr3 [E3 [Hp3 Hs3]]]]].
    assert (Herr3 : state_word m3 = Some SYMSPI_STATE_ERROR).
    { unfold state_word. rewrite Hp3. simpl. congruence. }
    unfold bind at 1 in Hsplit. rewrite E2 in Hsplit.
    unfold bind at 1 in Hsplit. rewrite E3 in Hsplit.
    destruct (negb (fst r =? SYMSPI_SUCCESS)).
    + left. exists (fst r), m3. split; [exact Hsplit|exact Herr3].
    + right. exists m3. split; [exact Hsplit|exact Herr3].
Qed.

(** ** Operations that keep the drop counter in range *)

Create HintDb symspi_counter.

Lemma ok_ret {A} (a : A) : keeps_counter_ok (ret a).
Proof. intros m H. exact H. Qed.

Lemma ok_bind {A B} (c : M A) (k : A -> M B) :
  keeps_counter_ok c -> (forall a, keeps_counter_ok (k a)) ->
  keeps_counter_ok (bind c k).
Proof.
  intros Hc Hk m Hm. unfold bind. specialize (Hc m Hm).
  destruct (c m); simpl in *; auto. now apply Hk.
Qed.

Lemma ok_rd {X} (f : symspi_dev_private -> X) : keeps_counter_ok (rd f).
Proof. intros m H. unfold rd. now destruct (p (symspi m)). Qed.

Lemma ok_wr (f : symspi_dev_private -> symspi_dev_private) :
  (forall pr, 0 <= their_flag_drop_counter pr <= INT_MAX ->
              0 <= their_flag_drop_counter (f pr) <= INT_MAX) ->
  keeps_counter_ok (wr f).
Proof.
  intros Hf m H. unfold wr, counter_ok, drop_counter_word in *.
  destruct (p (symspi m)) as [pr|] eqn:Hp; unfold final;
    [|now rewrite Hp].
  rewrite private_of_set_private. simpl in *. now apply Hf.
Qed.

(* a step that leaves the device record alone *)
Lemma ok_env {A} (a : machine -> A) (g : machine -> machine) :
  (forall m, symspi (g m) = symspi m) ->
  keeps_counter_ok (fun m => Ret (a m) (g m)).
Proof.
  intros Hg m H. unfold counter_ok, drop_counter_word in *. simpl.
  now rewrite Hg.
Qed.

Lemma ok_rd_dev {X} (f : symspi_dev -> X) : keeps_counter_ok (rd_dev f).
Proof. intros m H. exact H. Qed.

Lemma ok_rd_env {X} (f : machine -> X) : keeps_counter_ok (rd_env f).
Proof. intros m H. exact H. Qed.

Lemma ok_emit (e : event) : keeps_counter_ok (emit e).
Proof. intros m H. exact H. Qed.

Lemma ok_spin {A} : keeps_counter_ok (fun m => @Spin A m).
Proof. intros m H. exact H. Qed.

Lemma ok_free_private :
  keeps_counter_ok (fun m => Ret tt (set_private None m)).
Proof.
  intros m _. unfold counter_ok, drop_counter_word, final.
  now rewrite private_of_set_private.
Qed.

Lemma ok_zero_private :
  keeps_counter_ok (fun m => Ret tt (set_private (Some zero_private) m)).
Proof.
  intros m _. unfold counter_ok, drop_counter_word, final.
  rewrite private_of_set_private. simpl. unfold INT_MAX. lia.
Qed.

#[local] Hint Resolve ok_ret ok_rd ok_rd_dev ok_rd_env ok_emit ok_spin
  ok_free_private ok_zero_private : symspi_counter.

Ltac counter_ok :=
  repeat first
    [ solve [auto with symspi_counter]
    | apply ok_bind; [|intros ?]
    | apply ok_wr; intros ? ?; simpl;
      solve [assumption | unfold INT_MAX; lia]
    | apply ok_env; intros ?; reflexivity
    | match goal with
      | |- keeps_counter_ok (if ?c then _ else _) => destruct c
      | |- keeps_counter_ok (match ?x with _ => _ end) => destruct x
      end ].

Lemma ok_gpiod_set_raw_value_our_flag level :
  keeps_counter_ok (gpiod_set_raw_value_our_flag level).
Proof. unfold gpiod_set_raw_value_our_flag. counter_ok. Qed.

#[local] Hint Resolve ok_gpiod_set_raw_value_our_flag : symspi_counter.

Lemma ok_symspi_our_flag_set : keeps_counter_ok symspi_our_flag_set.
Proof. unfold symspi_our_flag_set. counter_ok. Qed.

Lemma ok_symspi_our_flag_drop : keeps_counter_ok symspi_our_flag_drop.
Proof. unfold symspi_our_flag_drop. counter_ok. Qed.

Lemma ok_symspi_their_flag_is_set : keeps_counter_ok symspi_their_flag_is_set.
Proof. unfold symspi_their_flag_is_set. counter_ok. Qed.

Lemma ok_symspi_wait_flag_silence_period :
  keeps_counter_ok symspi_wait_flag_silence_period.
Proof. unfold symspi_wait_flag_silence_period. counter_ok. Qed.

Lemma ok_symspi_restart_timeout_timer :
  keeps_counter_ok __symspi_restart_timeout_timer.
Proof. apply ok_emit. Qed.

Lemma ok_symspi_stop_timeout_timer :
  keeps_counter_ok __symspi_stop_timeout_timer.
Proof. apply ok_emit. Qed.

Lemma ok_symspi_stop_timeout_timer_sync :
  keeps_counter_ok __symspi_stop_timeout_timer_sync.
Proof. apply ok_emit. Qed.

Lemma ok_symspi_schedule_work w : keeps_counter_ok (__symspi_schedule_work w).
Proof. unfold __symspi_schedule_work. counter_ok. Qed.

Lemma ok_symspi_cancel_work_sync w :
  keeps_counter_ok (__symspi_cancel_work_sync w).
Proof. unfold __symspi_cancel_work_sync. counter_ok. Qed.

#[local] Hint Resolve ok_symspi_our_flag_set ok_symspi_our_flag_drop
  ok_symspi_their_flag_is_set ok_symspi_wait_flag_silence_period
  ok_symspi_restart_timeout_timer ok_symspi_stop_timeout_timer
  ok_symspi_stop_timeout_timer_sync ok_symspi_schedule_work
  ok_symspi_cancel_work_sync : symspi_counter.

Lemma ok_symspi_switch_strict e d : keeps_counter_ok (symspi_switch_strict e d).
Proof.
  unfold symspi_switch_strict, __symspi_is_closing,
    atomic_compare_exchange_state, complete_final_leave_xfer.
  counter_ok.
Qed.

Lemma ok_SYMSPI_SWITCH_STRICT e d :
  keeps_counter_ok (SYMSPI_SWITCH_STRICT e d).
Proof. apply ok_symspi_switch_strict. Qed.

Lemma ok_symspi_switch_state_val_forced d :
  keeps_counter_ok (symspi_switch_state_val_forced d).
Proof. unfold symspi_switch_state_val_forced. counter_ok. Qed.

#[local] Hint Resolve ok_symspi_switch_strict ok_SYMSPI_SWITCH_STRICT
  ok_symspi_switch_state_val_forced : symspi_counter.

Lemma ok_symspi_get_error_rec err_no :
  keeps_counter_ok (__symspi_get_error_rec err_no).
Proof.
  intros m H. unfold __symspi_get_error_rec.
  destruct (p (symspi m)); [destruct (negb _)|]; exact H.
Qed.

#[local] Hint Resolve ok_symspi_get_error_rec : symspi_counter.

Lemma ok_symspi_error_report pf err_no sub_error_no :
  keeps_counter_ok (__symspi_error_report pf err_no sub_error_no).
Proof.
  unfold __symspi_error_report, ktime_now_msec. counter_ok.
Qed.

#[local] Hint Resolve ok_symspi_error_report : symspi_counter.

(* the increment of a counter below INT_MAX does not wrap *)
Lemma drop_counter_increment pr :
  0 <= their_flag_drop_counter pr < INT_MAX ->
  to_int (their_flag_drop_counter pr + 1) = their_flag_drop_counter pr + 1.
Proof.
  unfold INT_MAX, to_int, wrap_signed. intros H.
  change (2 ^ (32 - 1)) with 2147483648. change (2 ^ 32) with 4294967296.
  rewrite Z.mod_small; lia.
Qed.

Section CounterOk.

Context (pf : platform) (fuel : nat) (race : M unit).
Hypothesis race_ok : keeps_counter_ok race.

Lemma ok_symspi_error_handle_pass err_no :
  keeps_counter_ok (__symspi_error_handle_pass race err_no).
Proof using race_ok. unfold __symspi_error_handle_pass, orelse. counter_ok. Qed.

Lemma ok_symspi_error_handle_loop n err_no :
  keeps_counter_ok (__symspi_error_handle_loop race n err_no).
Proof using race_ok.
  induction n as [|n IH]; simpl; [apply ok_spin|].
  apply ok_bind; [apply ok_symspi_error_handle_pass|].
  intros [|]; [apply ok_ret|exact IH].
Qed.

Lemma ok_symspi_error_handle_ err_no sub_error_no :
  keeps_counter_ok (__symspi_error_handle_ pf fuel race err_no sub_error_no).
Proof using race_ok.
  pose proof ok_symspi_error_handle_loop.
  unfold __symspi_error_handle_. counter_ok.
Qed.

#[local] Hint Resolve ok_symspi_error_handle_ : symspi_counter.

Lemma ok_atomic_store_drop_counter v :
  0 <= v <= 1 -> keeps_counter_ok (atomic_store_drop_counter v).
Proof. intros Hv. unfold atomic_store_drop_counter. counter_ok. Qed.

Lemma ok_symspi_do_xfer : keeps_counter_ok symspi_do_xfer.
Proof.
  unfold symspi_do_xfer, spi_async.
  apply ok_bind; [apply ok_atomic_store_drop_counter; lia|intros ?].
  counter_ok.
Qed.

#[local] Hint Resolve ok_symspi_do_xfer : symspi_counter.

Lemma ok_symspi_is_their_request : keeps_counter_ok symspi_is_their_request.
Proof. unfold symspi_is_their_request. counter_ok. Qed.

#[local] Hint Resolve ok_symspi_is_their_request : symspi_counter.

Lemma ok_symspi_try_leave_waiting_rdy_sequence :
  keeps_counter_ok symspi_try_leave_waiting_rdy_sequence.
Proof. unfold symspi_try_leave_waiting_rdy_sequence. counter_ok. Qed.

#[local] Hint Resolve ok_symspi_try_leave_waiting_rdy_sequence : symspi_counter.

Lemma ok_symspi_try_leave_waiting_prev_sequence :
  keeps_counter_ok symspi_try_leave_waiting_prev_sequence.
Proof. unfold symspi_try_leave_waiting_prev_sequence. counter_ok. Qed.

#[local] Hint Resolve ok_symspi_try_leave_waiting_prev_sequence
  : symspi_counter.

Lemma ok_symspi_try_to_error_sequence internal_error :
  keeps_counter_ok (symspi_try_to_error_sequence pf fuel race internal_error).
Proof using race_ok. unfold symspi_try_to_error_sequence. counter_ok. Qed.

#[local] Hint Resolve ok_symspi_try_to_error_sequence : symspi_counter.

Lemma ok_symspi_xfer_prepare_to_waiting_prev_sequence :
  keeps_counter_ok (symspi_xfer_prepare_to_waiting_prev_sequence pf fuel race).
Proof using race_ok.
  unfold symspi_xfer_prepare_to_waiting_prev_sequence. counter_ok.
Qed.

#[local] Hint Resolve ok_symspi_xfer_prepare_to_waiting_prev_sequence
  : symspi_counter.

Lemma ok_krealloc_call ptr size : keeps_counter_ok (krealloc_call pf ptr size).
Proof. unfold krealloc_call. counter_ok. Qed.

#[local] Hint Resolve ok_krealloc_call : symspi_counter.

Lemma ok_symspi_do_resize_xfer xfer n :
  keeps_counter_ok (symspi_do_resize_xfer pf xfer n).
Proof. unfold symspi_do_resize_xfer. counter_ok. Qed.

Lemma ok_symspi_do_update_native_spi_xfer_data :
  keeps_counter_ok symspi_do_update_native_spi_xfer_data.
Proof. unfold symspi_do_update_native_spi_xfer_data. counter_ok. Qed.

#[local] Hint Resolve ok_symspi_do_resize_xfer
  ok_symspi_do_update_native_spi_xfer_data : symspi_counter.

Lemma ok_symspi_replace_xfer new_xfer force :
  keeps_counter_ok (symspi_replace_xfer pf new_xfer force).
Proof. unfold symspi_replace_xfer. counter_ok. Qed.

Lemma ok_symspi_get_next_xfer_id : keeps_counter_ok symspi_get_next_xfer_id.
Proof. unfold symspi_get_next_xfer_id. counter_ok. Qed.

Lemma ok_symspi_verify_consumer_input xfer check_xfer :
  keeps_counter_ok (symspi_verify_consumer_input pf xfer check_xfer).
Proof. unfold symspi_verify_consumer_input. counter_ok. Qed.

#[local] Hint Resolve ok_symspi_replace_xfer ok_symspi_get_next_xfer_id
  ok_symspi_verify_consumer_input : symspi_counter.

Lemma ok_symspi_to_idle_sequence_open restart st start err :
  keeps_counter_ok restart ->
  keeps_counter_ok
    (symspi_to_idle_sequence_open pf fuel race restart st start err).
Proof using race_ok.
  intros Hr. unfold symspi_to_idle_sequence_open. counter_ok.
Qed.

Lemma ok_symspi_update_xfer_sequence_open restart xfer st force :
  keeps_counter_ok restart ->
  keeps_counter_ok
    (symspi_update_xfer_sequence_open pf fuel race restart xfer st force).
Proof using race_ok.
  intros Hr. pose proof (ok_symspi_to_idle_sequence_open restart).
  unfold symspi_update_xfer_sequence_open. counter_ok.
Qed.

Lemma ok_symspi_idle_to_xfer_prepare_sequence_open restart xfer force :
  keeps_counter_ok restart ->
  keeps_counter_ok
    (symspi_idle_to_xfer_prepare_sequence_open pf fuel race restart xfer
       force).
Proof using race_ok.
  intros Hr. pose proof (ok_symspi_update_xfer_sequence_open restart).
  unfold symspi_idle_to_xfer_prepare_sequence_open. counter_ok.
Qed.

Lemma ok_symspi_data_xchange_open restart xfer force :
  keeps_counter_ok restart ->
  keeps_counter_ok (symspi_data_xchange_open pf fuel race restart xfer force).
Proof using race_ok.
  intros Hr. pose proof (ok_symspi_idle_to_xfer_prepare_sequence_open restart).
  unfold symspi_data_xchange_open, __symspi_is_closing. counter_ok.
Qed.

Lemma ok_symspi_data_xchange_default :
  keeps_counter_ok (symspi_data_xchange_default pf fuel race).
Proof using race_ok.
  unfold symspi_data_xchange_default.
  apply ok_bind; [|intros ?; apply ok_ret].
  apply ok_symspi_data_xchange_open, ok_ret.
Qed.

Lemma ok_symspi_to_idle_sequence st start err :
  keeps_counter_ok (symspi_to_idle_sequence pf fuel race st start err).
Proof using race_ok.
  apply ok_symspi_to_idle_sequence_open, ok_symspi_data_xchange_default.
Qed.

Lemma ok_symspi_update_xfer_sequence xfer st force :
  keeps_counter_ok (symspi_update_xfer_sequence pf fuel race xfer st force).
Proof using race_ok.
  apply ok_symspi_update_xfer_sequence_open, ok_symspi_data_xchange_default.
Qed.

Lemma ok_symspi_idle_to_xfer_prepare_sequence xfer force :
  keeps_counter_ok
    (symspi_idle_to_xfer_prepare_sequence pf fuel race xfer force).
Proof using race_ok.
  apply ok_symspi_idle_to_xfer_prepare_sequence_open,
    ok_symspi_data_xchange_default.
Qed.

Lemma ok_symspi_data_xchange xfer force :
  keeps_counter_ok (symspi_data_xchange pf fuel race xfer force).
Proof using race_ok.
  apply ok_symspi_data_xchange_open, ok_symspi_data_xchange_default.
Qed.

#[local] Hint Resolve ok_symspi_to_idle_sequence ok_symspi_update_xfer_sequence
  ok_symspi_idle_to_xfer_prepare_sequence ok_symspi_data_xchange
  : symspi_counter.

Lemma ok_symspi_default_data_update xfer force :
  keeps_counter_ok (symspi_default_data_update pf fuel race xfer force).
Proof using race_ok.
  unfold symspi_default_data_update, __symspi_is_closing. counter_ok.
Qed.

Lemma ok_symspi_is_running : keeps_counter_ok symspi_is_running.
Proof.
  intros m H. unfold symspi_is_running. now destruct (p (symspi m)).
Qed.

Lemma ok_symspi_spi_xfer_done_callback :
  keeps_counter_ok (symspi_spi_xfer_done_callback pf fuel race).
Proof using race_ok. unfold symspi_spi_xfer_done_callback. counter_ok. Qed.

Lemma ok_symspi_their_flag_set_isr_sequence :
  keeps_counter_ok (symspi_their_flag_set_isr_sequence pf fuel race).
Proof using race_ok. unfold symspi_their_flag_set_isr_sequence. counter_ok. Qed.

(* a computation followed by steps that keep the counter *)
Lemma ok_bind_at {A B} (c : M A) (k : A -> M B) m :
  counter_ok (final (c m)) -> (forall a, keeps_counter_ok (k a)) ->
  counter_ok (final (bind c k m)).
Proof.
  intros Hc Hk. unfold bind. destruct (c m); simpl in *; auto.
  now apply Hk.
Qed.

(* the one step that can make the counter negative: the increment, at
   INT_MAX *)
Lemma atomic_add_fetch_drop_counter_ok m :
  counter_ok m -> drop_counter_word m <> Some INT_MAX ->
  counter_ok (final (atomic_add_fetch_drop_counter m)).
Proof.
  unfold counter_ok, drop_counter_word. intros H Hmax.
  destruct (p (symspi m)) as [pr|] eqn:Hp.
  - simpl in H, Hmax. unfold atomic_add_fetch_drop_counter.
    unfold bind at 1. rewrite (rd_private _ _ _ Hp).
    unfold bind at 1. rewrite (wr_private _ _ _ Hp).
    unfold bind, emit, ret, final. cbn [symspi set_trace machine_eta].
    rewrite private_of_set_private. simpl.
    assert (their_flag_drop_counter pr <> INT_MAX) by congruence.
    rewrite drop_counter_increment; unfold INT_MAX in *; lia.
  - unfold atomic_add_fetch_drop_counter, bind, rd. rewrite Hp. simpl.
    now rewrite Hp.
Qed.

Lemma symspi_their_flag_drop_isr_sequence_ok m :
  counter_ok m -> drop_counter_word m <> Some INT_MAX ->
  counter_ok (final (symspi_their_flag_drop_isr_sequence pf fuel race m)).
Proof using race_ok.
  intros H Hmax. unfold symspi_their_flag_drop_isr_sequence.
  apply ok_bind_at; [now apply atomic_add_fetch_drop_counter_ok|].
  intros c. counter_ok.
Qed.

Lemma symspi_their_flag_isr_ok m :
  counter_ok m -> drop_counter_word m <> Some INT_MAX ->
  counter_ok (final (symspi_their_flag_isr pf fuel race m)).
Proof using race_ok.
  intros H Hmax. unfold symspi_their_flag_isr.
  destruct (p (symspi m)) as [pr|] eqn:Hp.
  - unfold bind at 1. rewrite (rd_private _ _ _ Hp).
    destruct (state pr =? SYMSPI_STATE_COLD); [exact H|].
    unfold bind at 1. unfold symspi_their_flag_is_set at 1.
    unfold bind at 1. rewrite (rd_private _ _ _ Hp).
    unfold bind at 1. unfold rd_env at 1. unfold ret at 1.
    destruct (_ =? their_flag_raw m).
    + apply ok_bind_at;
        [now apply ok_symspi_their_flag_set_isr_sequence|].
      intros ?. counter_ok.
    + apply ok_bind_at;
        [now apply symspi_their_flag_drop_isr_sequence_ok|].
      intros ?. counter_ok.
  - unfold bind, rd. now rewrite Hp.
Qed.

Lemma ok_xfer_accepted x : keeps_counter_ok (xfer_accepted x).
Proof. unfold xfer_accepted. counter_ok. Qed.

#[local] Hint Resolve ok_xfer_accepted : symspi_counter.

Lemma ok_symspi_recovery_resume :
  keeps_counter_ok (symspi_recovery_resume pf fuel race).
Proof using race_ok.
  unfold symspi_recovery_resume.
  apply ok_bind; [apply ok_atomic_store_drop_counter; lia|intros ?].
  counter_ok.
Qed.

Lemma ok_symspi_recovery_signal : keeps_counter_ok symspi_recovery_signal.
Proof. unfold symspi_recovery_signal. counter_ok. Qed.

Lemma ok_symspi_recovery_ask_consumer error_code :
  keeps_counter_ok (symspi_recovery_ask_consumer pf error_code).
Proof. unfold symspi_recovery_ask_consumer. counter_ok. Qed.

#[local] Hint Resolve ok_symspi_recovery_resume ok_symspi_recovery_signal
  ok_symspi_recovery_ask_consumer : symspi_counter.

Lemma ok_symspi_recovery_sequence :
  keeps_counter_ok (symspi_recovery_sequence pf fuel race).
Proof using race_ok.
  intros m H. unfold symspi_recovery_sequence.
  destruct (p (symspi m)) as [pr|]; [|exact H].
  destruct (negb (magic pr =? _)); [exact H|].
  destruct (negb (state pr =? _)); [exact H|].
  revert m H. change (keeps_counter_ok
    (error_code <- rd last_error ;;
     symspi_recovery_signal ;;
     next_xfer <- symspi_recovery_ask_consumer pf error_code ;;
     match next_xfer with
     | CbErr => ret SYMSPI_SUCCESS
     | CbXfer x =>
         r <- symspi_update_xfer_sequence pf fuel race (Some x)
                SYMSPI_STATE_ERROR true ;;
         xfer_accepted x ;;
         if negb (fst r =? SYMSPI_SUCCESS) then ret (fst r)
         else symspi_recovery_resume pf fuel race
     | CbNull => symspi_recovery_resume pf fuel race
     end)).
  counter_ok.
Qed.

Lemma ok_symspi_inc_current_xfer_counter :
  keeps_counter_ok symspi_inc_current_xfer_counter.
Proof. unfold symspi_inc_current_xfer_counter. counter_ok. Qed.

#[local] Hint Resolve ok_symspi_inc_current_xfer_counter : symspi_counter.

Lemma ok_symspi_postprocessing_sequence :
  keeps_counter_ok (symspi_postprocessing_sequence pf fuel race).
Proof using race_ok. unfold symspi_postprocessing_sequence. counter_ok. Qed.

Lemma ok_symspi_close_labels level :
  keeps_counter_ok (symspi_close_labels pf level).
Proof.
  unfold symspi_close_labels, symspi_close_upper_labels, close_full,
    close_gpio_irqs, close_workqueue_init, close_xfer_created,
    close_private_allocated, __symspi_info_close, __symspi_procfs_close,
    wait_for_final_leave_xfer_completion, symspi_close_qpio_irqs,
    symspi_xfer_free, __SYMSPI_INIT_LEVEL.
  counter_ok.
Qed.

#[local] Hint Resolve ok_symspi_close_labels : symspi_counter.

Lemma ok_symspi_close : keeps_counter_ok (symspi_close pf).
Proof.
  intros m H. unfold symspi_close.
  destruct (p (symspi m)) as [pr|]; [|exact H].
  destruct (negb (magic pr =? _)); [exact H|].
  destruct (close_request pr); [exact H|].
  revert m H. change (keeps_counter_ok
    (wr (set_close_request true) ;;
     st <- rd state ;;
     if st =? SYMSPI_STATE_COLD then ret SYMSPI_SUCCESS
     else
       level <- rd init_level ;;
       symspi_close_labels pf level ;;
       ret SYMSPI_SUCCESS)).
  counter_ok.
Qed.

#[local] Hint Resolve ok_symspi_close : symspi_counter.

Lemma drop_counter_SYMSPI_ERR_REC idx err threshold pr :
  their_flag_drop_counter (SYMSPI_ERR_REC idx err threshold pr)
    = their_flag_drop_counter pr.
Proof. unfold SYMSPI_ERR_REC. now destruct (errors pr !! idx). Qed.

Lemma ok_SYMSPI_ERR_REC idx err threshold :
  keeps_counter_ok (wr (SYMSPI_ERR_REC idx err threshold)).
Proof.
  apply ok_wr. intros pr H. now rewrite drop_counter_SYMSPI_ERR_REC.
Qed.

#[local] Hint Resolve ok_SYMSPI_ERR_REC : symspi_counter.

Lemma ok_symspi_init_private default_xfer :
  keeps_counter_ok (symspi_init_private pf default_xfer).
Proof.
  unfold symspi_init_private, init_to_xfer_created, init_to_workqueue_init,
    init_to_gpio_irqs, init_to_full, __SYMSPI_INIT_LEVEL,
    __symspi_error_report_init, symspi_xfer_init_copy,
    __symspi_init_workqueue, symspi_init_gpio_irqs, __symspi_procfs_init,
    __symspi_info_init.
  counter_ok.
Qed.

#[local] Hint Resolve ok_symspi_init_private : symspi_counter.

Lemma ok_symspi_init default_xfer :
  keeps_counter_ok (symspi_init pf fuel race default_xfer).
Proof using race_ok.
  unfold symspi_init, kzalloc_private_call. counter_ok.
Qed.

#[local] Hint Resolve ok_symspi_init : symspi_counter.

Lemma ok_symspi_is_current_xfer_ok :
  keeps_counter_ok symspi_is_current_xfer_ok.
Proof.
  intros m H. unfold symspi_is_current_xfer_ok. now destruct (p (symspi m)).
Qed.

Lemma ok_symspi_xfer_init_copy_local source :
  keeps_counter_ok (symspi_xfer_init_copy_local pf source).
Proof. unfold symspi_xfer_init_copy_local. counter_ok. Qed.

#[local] Hint Resolve ok_symspi_is_current_xfer_ok
  ok_symspi_xfer_init_copy_local : symspi_counter.

Lemma ok_symspi_reset default_xfer :
  keeps_counter_ok (symspi_reset pf fuel race default_xfer).
Proof using race_ok. unfold symspi_reset. counter_ok. Qed.

Lemma ok_symspi_other_side_wait_timeout :
  keeps_counter_ok (__symspi_other_side_wait_timeout pf fuel race).
Proof using race_ok.
  intros m H. unfold __symspi_other_side_wait_timeout.
  destruct (p (symspi m)) as [pr|]; [|exact H].
  destruct (negb (magic pr =? _)); [exact H|].
  now apply ok_symspi_error_handle_.
Qed.

Lemma ok_symspi_do_xfer_work_wrapper :
  keeps_counter_ok symspi_do_xfer_work_wrapper.
Proof. unfold symspi_do_xfer_work_wrapper. counter_ok. Qed.

(* every operation of [operation] leaves the counter not negative, the
   interrupt of the peer flag provided the counter is not at INT_MAX *)
Lemma operations_keep_counter_ok op m :
  counter_ok m ->
  (op = OpTheirFlagIsr -> drop_counter_word m <> Some INT_MAX) ->
  counter_ok (run_operation pf fuel race op m).
Proof using race_ok.
  intros H Hmax. destruct op; simpl.
  - now apply ok_symspi_init.
  - now apply ok_symspi_close.
  - now apply ok_symspi_reset.
  - now apply ok_symspi_data_xchange.
  - now apply ok_symspi_default_data_update.
  - now apply ok_symspi_is_running.
  - apply symspi_their_flag_isr_ok; auto.
  - now apply ok_symspi_spi_xfer_done_callback.
  - now apply ok_symspi_other_side_wait_timeout.
  - now apply ok_symspi_do_xfer_work_wrapper.
  - now apply ok_symspi_recovery_sequence.
  - now apply ok_symspi_postprocessing_sequence.
Qed.

End CounterOk.

Example halted_machine_is_in_error :
  in_error_with_counter 2 halted_machine.
Proof. eexists. repeat split. Qed.

(* a falling edge of the peer flag on a device in Error: the counter goes
   up by one and nothing else of the protocol moves *)
Lemma edge_in_error pf fuel race c m :
  in_error_with_counter c m ->
  1 <= c < INT_MAX ->
  in_error_with_counter (c + 1)
    (run_operation pf (S fuel) race OpTheirFlagIsr m).
Proof.
  intros [pr [Hp [Hst [Hcl [Hma [Hc Hraw]]]]]] Hrange.
  unfold run_operation, symspi_their_flag_isr.
  unfold bind at 1. rewrite (rd_private _ _ _ Hp), Hst.
  change (SYMSPI_STATE_ERROR =? SYMSPI_STATE_COLD) with false. cbv iota.
  unfold bind at 1. unfold symspi_their_flag_is_set.
  unfold bind at 1. rewrite (rd_private _ _ _ Hp), Hma.
  unfold bind at 1. unfold rd_env at 1. unfold ret at 1. rewrite Hraw.
  change (SYMSPI_SLAVE_FLAG_ACTIVE_VALUE =? 0) with false. cbv iota.
  unfold bind at 1. unfold symspi_their_flag_drop_isr_sequence.
  unfold bind at 1. unfold atomic_add_fetch_drop_counter.
  unfold bind at 1. rewrite (rd_private _ _ _ Hp).
  unfold bind at 1. rewrite (wr_private _ _ _ Hp).
  unfold bind at 1. unfold emit at 1. unfold ret at 1.
  rewrite drop_counter_increment by (rewrite Hc; lia). rewrite Hc.
  set (pr1 := set_their_flag_drop_counter (c + 1) pr).
  set (m1 := set_trace _ _).
  assert (Hp1 : p (symspi m1) = Some pr1) by reflexivity.
  unfold bind at 1. rewrite (rd_private _ _ _ Hp1).
  change (spi_master_mode pr1) with (spi_master_mode pr). rewrite Hma.
  replace (c + 1 =? 1) with false by (symmetry; apply Z.eqb_neq; lia).
  replace (2 <=? c + 1) with true by (symmetry; apply Z.leb_le; lia).
  cbv beta iota. cbn [andb].
  destruct (error_handle_enters_loop pf (S fuel) race m1 pr1
              SYMSPI_ERROR_OTHER_SIDE 0 Hp1) as [pr2 [Hled Eh]];
    [discriminate|].
  rewrite Eh.
  destruct (ledger_updated_state _ _ Hled) as [Hs2 [Hc2 _]].
  set (m2 := set_private (Some pr2) m1) in *.
  assert (Hp2 : p (symspi m2) = Some pr2) by reflexivity.
  rewrite (error_handle_loop_returns race fuel _ m2 m2).
  2:{ apply (error_handle_pass_sink race m2 pr2 _ Hp2).
      - now rewrite Hc2.
      - right. now rewrite Hs2. }
  rewrite (wr_private _ _ _ Hp2). unfold final.
  eexists. split; [apply private_of_set_private|].
  rewrite Hled. cbn. repeat split; assumption.
Qed.

(* [n] falling edges in a row *)
Lemma edges_in_error pf fuel race (n : N) c m :
  in_error_with_counter c m ->
  1 <= c ->
  c + Z.of_N n <= INT_MAX ->
  in_error_with_counter (c + Z.of_N n)
    (N.iter n (run_operation pf (S fuel) race OpTheirFlagIsr) m).
Proof.
  intros Hm Hc. induction n as [|n IH] using N.peano_ind; intros Hn.
  - simpl. now rewrite Z.add_0_r.
  - rewrite N.iter_succ, N2Z.inj_succ.
    replace (c + Z.succ (Z.of_N n)) with (c + Z.of_N n + 1) by lia.
    apply edge_in_error; [apply IH|]; lia.
Qed.

(* the edge that follows INT_MAX edges not answered by a transfer *)
Lemma edge_at_int_max pf fuel race m :
  in_error_with_counter INT_MAX m ->
  drop_counter_word (run_operation pf fuel race OpTheirFlagIsr m)
    = Some INT_MIN.
Proof.
  intros [pr [Hp [Hst [Hcl [Hma [Hc Hraw]]]]]].
  unfold run_operation, symspi_their_flag_isr.
  unfold bind at 1. rewrite (rd_private _ _ _ Hp), Hst.
  change (SYMSPI_STATE_ERROR =? SYMSPI_STATE_COLD) with false. cbv iota.
  unfold bind at 1. unfold symspi_their_flag_is_set.
  unfold bind at 1. rewrite (rd_private _ _ _ Hp), Hma.
  unfold bind at 1. unfold rd_env at 1. unfold ret at 1. rewrite Hraw.
  change (SYMSPI_SLAVE_FLAG_ACTIVE_VALUE =? 0) with false. cbv iota.
  unfold bind at 1. unfold symspi_their_flag_drop_isr_sequence.
  unfold bind at 1. unfold atomic_add_fetch_drop_counter.
  unfold bind at 1. rewrite (rd_private _ _ _ Hp).
  unfold bind at 1. rewrite (wr_private _ _ _ Hp).
  unfold bind at 1. unfold emit at 1. unfold ret at 1.
  rewrite Hc. change (to_int (INT_MAX + 1)) with INT_MIN.
  set (pr1 := set_their_flag_drop_counter INT_MIN pr).
  set (m1 := set_trace _ _).
  assert (Hp1 : p (symspi m1) = Some pr1) by reflexivity.
  unfold bind at 1. rewrite (rd_private _ _ _ Hp1).
  change (INT_MIN =? 1) with false. change (2 <=? INT_MIN) with false.
  cbv beta iota. cbn [andb]. unfold ret at 1.
  rewrite (wr_private _ _ _ Hp1). reflexivity.
Qed.

(** C8: the code at the failing input.  The increment of the falling-edge
    handler assigns a negative value to the drop counter: on the device
    halted by its consumer (state Error, drop counter 2) every further
    falling edge of the peer flag adds one to the counter and nothing
    resets it; after 2147483646 of them the counter, an int, has gone
    from INT_MAX to INT_MIN. *)
Theorem drop_counter_wraps_on_halted_device :
  state_word halted_machine = Some SYMSPI_STATE_ERROR
  /\ drop_counter_word halted_machine = Some 2
  /\ drop_counter_word
       (N.iter 2147483646
          (run_operation halting_platform 1 (ret tt) OpTheirFlagIsr)
          halted_machine)
     = Some INT_MIN
  /\ INT_MIN < 0.
Proof.
  split; [reflexivity|]. split; [reflexivity|]. split; [|reflexivity].
  change 2147483646%N with (N.succ 2147483645).
  rewrite N.iter_succ. apply edge_at_int_max.
  change INT_MAX with (2 + Z.of_N 2147483645).
  apply edges_in_error.
  - apply halted_machine_is_in_error.
  - lia.
  - unfold INT_MAX. lia.
Qed.

(** The set points of the drop counter: symspi_do_xfer stores 0 to the
    drop counter and calls spi_async next; a symspi_init that succeeds on
    a device without private part has initialised the private part with
    the counter at 1 and the state Idle, the one step after that being the
    transfer started at once when the peer flag is found raised; a
    recovery either ends with the device still in Error or goes through
    symspi_recovery_resume, which stores 1 to the counter and clears
    last_error before symspi_to_idle_sequence makes the switch from
    Error.  The stores assign 0 or 1 only, and no operation of
    [operation] leaves a negative counter behind, the falling-edge
    interrupt provided it does not find the counter at INT_MAX. *)
Lemma drop_counter_discipline
    (pf : platform) (fuel : nat) (race : M unit) :
  (forall m,
     has_private m ->
     exists m',
       symspi_do_xfer m
         = Ret (if spi_async_result m =? 0 then SYMSPI_SUCCESS
                else - SYMSPI_ERROR_SPI) m'
       /\ drop_counter_word m' = Some 0
       /\ trace m' = EvSpiAsync :: EvDropCounterStore 0 :: trace m)
  /\ (forall m default_xfer res m',
        p (symspi m) = None ->
        symspi_init pf fuel race (Some default_xfer) m
          = Ret (SYMSPI_SUCCESS, res) m' ->
        exists dx' m0,
          symspi_init_private pf default_xfer
            (set_private (Some zero_private) (set_allocs (S (allocs m)) m))
            = Ret (SYMSPI_SUCCESS, dx') m0
          /\ drop_counter_word m0 = Some 1
          /\ state_word m0 = Some SYMSPI_STATE_IDLE
          /\ (m' = m0
              \/ m' = final (symspi_data_xchange pf fuel race None false
                               m0)))
  /\ (forall m pr,
        p (symspi m) = Some pr ->
        magic pr = SYMSPI_PRIVATE_MAGIC ->
        state pr = SYMSPI_STATE_ERROR ->
        (exists res m',
           symspi_recovery_sequence pf fuel race m = Ret res m'
           /\ state_word m' = Some SYMSPI_STATE_ERROR)
        \/ (exists m0,
              symspi_recovery_sequence pf fuel race m
                = symspi_recovery_resume pf fuel race m0
              /\ state_word m0 = Some SYMSPI_STATE_ERROR))
  /\ (forall m,
        has_private m ->
        exists m1,
          symspi_recovery_resume pf fuel race m
            = symspi_to_idle_sequence pf fuel race SYMSPI_STATE_ERROR true
                SYMSPI_SUCCESS m1
          /\ drop_counter_word m1 = Some 1
          /\ last_error_word m1 = Some SYMSPI_SUCCESS
          /\ state_word m1 = state_word m
          /\ trace m1 = EvDropCounterStore 1 :: trace m)
  /\ (forall m op,
        keeps_counter_ok race ->
        counter_ok m ->
        (op = OpTheirFlagIsr -> drop_counter_word m <> Some INT_MAX) ->
        counter_ok (run_operation pf fuel race op m)).
Proof.
  split; [|split; [|split; [|split]]].
  - intros m Hm.
    destruct (do_xfer_zeroes_drop_counter m Hm) as [m' [E [Hc [Ht _]]]].
    now exists m'.
  - intros m default_xfer res m'. apply init_sets_drop_counter.
  - intros m pr. apply recovery_sequence_outcomes.
  - intros m. apply recovery_resume_sets_drop_counter.
  - intros m op Hrace. now apply operations_keep_counter_ok.
Qed.

(* the five parts on the devices of the scenarios *)
Example drop_counter_discipline_witness :
  (exists m',
     symspi_do_xfer idle_machine = Ret SYMSPI_SUCCESS m'
     /\ drop_counter_word m' = Some 0
     /\ trace m' = [EvSpiAsync; EvDropCounterStore 0])
  /\ (exists dx' m0,
        symspi_init_private demo_platform xfer_64_bytes
          (set_private (Some zero_private)
             (set_allocs (S (allocs cold_machine)) cold_machine))
          = Ret (SYMSPI_SUCCESS, dx') m0
        /\ drop_counter_word m0 = Some 1
        /\ state_word m0 = Some SYMSPI_STATE_IDLE
        /\ (final (symspi_init demo_platform 1 (ret tt) (Some xfer_64_bytes)
                     cold_machine) = m0
            \/ final (symspi_init demo_platform 1 (ret tt)
                        (Some xfer_64_bytes) cold_machine)
               = final (symspi_data_xchange demo_platform 1 (ret tt) None
                          false m0)))
  /\ ((exists res m',
         symspi_recovery_sequence demo_platform 1 (ret tt)
           (idle_with (set_state SYMSPI_STATE_ERROR)) = Ret res m'
         /\ state_word m' = Some SYMSPI_STATE_ERROR)
      \/ (exists m0,
            symspi_recovery_sequence demo_platform 1 (ret tt)
              (idle_with (set_state SYMSPI_STATE_ERROR))
              = symspi_recovery_resume demo_platform 1 (ret tt) m0
            /\ state_word m0 = Some SYMSPI_STATE_ERROR))
  /\ (exists m1,
        symspi_recovery_resume demo_platform 1 (ret tt)
          (idle_with (set_state SYMSPI_STATE_ERROR))
          = symspi_to_idle_sequence demo_platform 1 (ret tt)
              SYMSPI_STATE_ERROR true SYMSPI_SUCCESS m1
        /\ drop_counter_word m1 = Some 1
        /\ last_error_word m1 = Some SYMSPI_SUCCESS
        /\ state_word m1 = Some SYMSPI_STATE_ERROR
        /\ trace m1 = [EvDropCounterStore 1])
  /\ counter_ok
       (run_operation demo_platform 1 (ret tt) OpTheirFlagIsr idle_machine).
Proof.
  destruct (drop_counter_discipline demo_platform 1 (ret tt))
    as [Hxfer [Hinit [Hrecovery [Hresume Hcounter]]]].
  split; [|split; [|split; [|split]]].
  - apply (Hxfer idle_machine). eexists. reflexivity.
  - eapply (Hinit cold_machine xfer_64_bytes);
      [reflexivity|vm_compute; reflexivity].
  - eapply (Hrecovery (idle_with (set_state SYMSPI_STATE_ERROR)));
      reflexivity.
  - apply (Hresume (idle_with (set_state SYMSPI_STATE_ERROR))).
    eexists. reflexivity.
  - apply Hcounter.
    + apply ok_ret.
    + vm_compute. split; discriminate.
    + intros _. vm_compute. discriminate.
Defined.
(** * Further properties of the driver *)

(** ** Xfer ids and counters *)

Lemma to_int_small x : INT_MIN <= x <= INT_MAX -> to_int x = x.
Proof.
  unfold INT_MIN, INT_MAX, to_int, wrap_signed. intros H.
  change (2 ^ (32 - 1)) with 2147483648. change (2 ^ 32) with 4294967296.
  rewrite Z.mod_small; lia.
Qed.

Lemma to_int_after_int_max : to_int (INT_MAX + 1) = INT_MIN.
Proof. reflexivity. Qed.

(* what one call of symspi_get_next_xfer_id hands out and leaves behind *)
Lemma get_next_xfer_id_eq m pr :
  p (symspi m) = Some pr ->
  symspi_get_next_xfer_id m
  = if next_xfer_id pr <=? 0
    then Ret SYMSPI_INITIAL_XFER_ID
           (set_private
              (Some (set_next_xfer_id (SYMSPI_INITIAL_XFER_ID + 1) pr)) m)
    else Ret (next_xfer_id pr)
           (set_private
              (Some (set_next_xfer_id (to_int (next_xfer_id pr + 1)) pr)) m).
Proof.
  intros Hp. unfold symspi_get_next_xfer_id.
  unfold bind at 1. rewrite (rd_private _ _ _ Hp).
  unfold bind at 1. rewrite (wr_private _ _ _ Hp).
  destruct (next_xfer_id pr <=? 0); [|reflexivity].
  unfold bind. rewrite (wr_private _ _ _ (private_of_set_private _ _)).
  unfold ret. rewrite set_private_twice. now destruct pr.
Qed.

(** X1: the ids symspi_get_next_xfer_id hands out are positive ints that
    count up; the id after INT_MAX is 1 again, and a stored next id that
    is zero or negative is answered with 1.  Nothing but next_xfer_id is
    written. *)
Theorem next_xfer_ids_are_positive (m : machine) (pr : symspi_dev_private) :
  p (symspi m) = Some pr ->
  INT_MIN <= next_xfer_id pr <= INT_MAX ->
  exists id1 id2 next,
    (a <- symspi_get_next_xfer_id ;;
     b <- symspi_get_next_xfer_id ;;
     ret (a, b)) m
    = Ret (id1, id2) (set_private (Some (set_next_xfer_id next pr)) m)
    /\ 1 <= id1 <= INT_MAX
    /\ id1 = (if next_xfer_id pr <=? 0 then 1 else next_xfer_id pr)
    /\ id2 = (if id1 =? INT_MAX then 1 else id1 + 1).
Proof.
  intros Hp Hrange.
  unfold bind at 1. rewrite (get_next_xfer_id_eq _ _ Hp).
  destruct (next_xfer_id pr <=? 0) eqn:Hle.
  - unfold bind at 1.
    rewrite (get_next_xfer_id_eq _ _ (private_of_set_private _ _)).
    cbn [next_xfer_id set_next_xfer_id].
    change (SYMSPI_INITIAL_XFER_ID + 1 <=? 0) with false. cbv iota.
    unfold ret. rewrite set_private_twice.
    eexists _, _, _. split; [reflexivity|].
    split; [unfold SYMSPI_INITIAL_XFER_ID, INT_MAX; lia|].
    split; reflexivity.
  - apply Z.leb_gt in Hle. unfold bind at 1.
    rewrite (get_next_xfer_id_eq _ _ (private_of_set_private _ _)).
    cbn [next_xfer_id set_next_xfer_id].
    destruct (next_xfer_id pr =? INT_MAX) eqn:Hmax.
    + apply Z.eqb_eq in Hmax. rewrite Hmax, to_int_after_int_max.
      change (INT_MIN <=? 0) with true. cbv iota.
      unfold ret. rewrite set_private_twice.
      eexists _, _, _. split; [reflexivity|].
      split; [unfold INT_MAX; lia|]. split; reflexivity.
    + pose proof Hmax as Hne. apply Z.eqb_neq in Hne.
      rewrite to_int_small by (unfold INT_MIN, INT_MAX in *; lia).
      replace (next_xfer_id pr + 1 <=? 0) with false
        by (symmetry; apply Z.leb_gt; lia).
      unfold ret. rewrite set_private_twice.
      eexists _, _, _. split; [reflexivity|].
      split; [lia|]. split; [reflexivity|]. now rewrite Hmax.
Qed.

Lemma next_xfer_ids_are_positive_witness :
  exists id1 id2 next,
    (a <- symspi_get_next_xfer_id ;;
     b <- symspi_get_next_xfer_id ;;
     ret (a, b)) (idle_with (set_next_xfer_id INT_MAX))
    = Ret (id1, id2)
        (set_private
           (Some (set_next_xfer_id next
                    (set_next_xfer_id INT_MAX idle_private)))
           (idle_with (set_next_xfer_id INT_MAX)))
    /\ 1 <= id1 <= INT_MAX
    /\ id1 = (if next_xfer_id (set_next_xfer_id INT_MAX idle_private) <=? 0
              then 1
              else next_xfer_id (set_next_xfer_id INT_MAX idle_private))
    /\ id2 = (if id1 =? INT_MAX then 1 else id1 + 1).
Proof.
  apply (next_xfer_ids_are_positive (idle_with (set_next_xfer_id INT_MAX))).
  - reflexivity.
  - vm_compute. split; discriminate.
Defined.

(** X2: symspi_inc_current_xfer_counter never leaves a negative counter:
    the counter of the current xfer goes up by one, and from INT_MAX (or
    from a negative value below -1) it becomes 1; nothing else of the
    device changes. *)
Theorem inc_current_xfer_counter_wraps_to_one
    (m : machine) (pr : symspi_dev_private) :
  p (symspi m) = Some pr ->
  INT_MIN <= xfers_counter (current_xfer pr) <= INT_MAX ->
  let c := xfers_counter (current_xfer pr) in
  let c' := if (c =? INT_MAX) || (c <? -1) then 1 else c + 1 in
  symspi_inc_current_xfer_counter m
  = Ret tt
      (set_private
         (Some (set_current_xfer (set_xfers_counter c' (current_xfer pr)) pr))
         m)
  /\ 0 <= c' <= INT_MAX.
Proof.
  intros Hp Hrange. cbv zeta. unfold symspi_inc_current_xfer_counter.
  rewrite (wr_private _ _ _ Hp).
  set (c := xfers_counter (current_xfer pr)) in *. clearbody c.
  assert (Hc : (if to_int (c + 1) <? 0 then 1 else to_int (c + 1))
               = (if (c =? INT_MAX) || (c <? -1) then 1 else c + 1)).
  { destruct (Z.eqb_spec c INT_MAX) as [->|Hmax]; [reflexivity|].
    rewrite to_int_small by (unfold INT_MIN, INT_MAX in *; lia).
    cbn [orb]. destruct (Z.ltb_spec c (-1)), (Z.ltb_spec (c + 1) 0); lia. }
  rewrite Hc. split; [reflexivity|].
  unfold INT_MIN, INT_MAX in *.
  destruct (Z.eqb_spec c 2147483647), (Z.ltb_spec c (-1)); cbn [orb]; lia.
Qed.

Lemma inc_current_xfer_counter_wraps_to_one_witness :
  symspi_inc_current_xfer_counter
    (idle_with (fun pr =>
       set_current_xfer (set_xfers_counter INT_MAX (current_xfer pr)) pr))
  = Ret tt
      (idle_with (fun pr =>
         set_current_xfer (set_xfers_counter 1 (current_xfer pr)) pr)).
Proof.
  destruct (inc_current_xfer_counter_wraps_to_one
              (idle_with (fun pr =>
                 set_current_xfer
                   (set_xfers_counter INT_MAX (current_xfer pr)) pr))
              _ eq_refl) as [H _].
  - vm_compute. split; discriminate.
  - exact H.
Defined.

(** ** Transfer buffers *)

(** X3: for two regions of at least one byte regions_overlap answers true
    exactly when the regions share an address; the answer does not depend
    on the order of the two regions. *)
Theorem regions_overlap_shares_address (r_1 size_1 r_2 size_2 : Z) :
  0 < size_1 -> 0 < size_2 ->
  (regions_overlap r_1 size_1 r_2 size_2 = true
   <-> exists a, r_1 <= a < r_1 + size_1 /\ r_2 <= a < r_2 + size_2)
  /\ regions_overlap r_1 size_1 r_2 size_2
     = regions_overlap r_2 size_2 r_1 size_1.
Proof.
  intros H1 H2. unfold regions_overlap. split.
  - rewrite andb_true_iff, Z.ltb_lt, Z.leb_le. split.
    + intros [Ha Hb]. exists (Z.max r_1 r_2). lia.
    + intros [a Ha]. lia.
  - destruct (Z.ltb_spec r_2 (r_1 + size_1)),
      (Z.leb_spec r_1 (r_2 + size_2 - 1)),
      (Z.ltb_spec r_1 (r_2 + size_2)),
      (Z.leb_spec r_2 (r_1 + size_1 - 1)); cbn [andb]; lia.
Qed.

Lemma regions_overlap_shares_address_witness :
  (regions_overlap 4096 64 4159 1 = true
   <-> exists a, 4096 <= a < 4096 + 64 /\ 4159 <= a < 4159 + 1)
  /\ regions_overlap 4096 64 4159 1 = regions_overlap 4159 1 4096 64.
Proof. apply regions_overlap_shares_address; lia. Defined.



(* the steps of symspi_do_update_native_spi_xfer_data *)
Lemma do_update_native_spi_xfer_data_eq m pr :
  p (symspi m) = Some pr ->
  symspi_do_update_native_spi_xfer_data m
  = Ret tt
      (set_private
         (Some (set_spi_xfer
                  {| tx_buf := data_tx (current_xfer pr);
                     rx_buf := data_rx_buf (current_xfer pr);
                     len := size_bytes (current_xfer pr) |} pr))
         (if native_transfer_configuration_hook (symspi m) =? 0 then m
          else set_trace (EvNativeHook :: trace m) m)).
Proof.
  intros Hp. unfold symspi_do_update_native_spi_xfer_data.
  unfold bind at 1. unfold rd_dev at 1.
  destruct (native_transfer_configuration_hook (symspi m) =? 0).
  - unfold bind, ret. now rewrite (wr_private _ _ _ Hp).
  - unfold bind, emit.
    assert (Hp' : p (symspi (set_trace (EvNativeHook :: trace m) m))
                  = Some pr) by (now destruct m).
    now rewrite (wr_private _ _ _ Hp').
Qed.

(** X5: symspi_replace_xfer with an xfer of the size of the current one
    (not zero, TX buffers apart) succeeds in every state and whatever
    force_size_change is, without any allocation: the current xfer keeps
    its size and its two buffers, takes the first size bytes of the new
    TX data and the id, the callbacks, the consumer data and the counter
    of the new xfer; the native SPI transfer is set to the buffers and the
    size of the current xfer; the state word is not touched. *)
Theorem replace_xfer_same_size
    (pf : platform) (m : machine) (pr : symspi_dev_private)
    (new_xfer : full_duplex_xfer) (force_size_change : bool) :
  p (symspi m) = Some pr ->
  size_bytes new_xfer <> 0 ->
  regions_overlap (data_tx (current_xfer pr)) (size_bytes (current_xfer pr))
                  (data_tx new_xfer) (size_bytes new_xfer) = false ->
  size_bytes (current_xfer pr) = size_bytes new_xfer ->
  let c := current_xfer pr in
  let c' :=
    {| size_bytes := size_bytes c;
       data_tx := data_tx c;
       tx_bytes := memcpy (tx_bytes c) (tx_bytes new_xfer) (size_bytes c);
       data_rx_buf := data_rx_buf c;
       xfers_counter := xfers_counter new_xfer;
       id := id new_xfer;
       consumer_data := consumer_data new_xfer;
       done_callback := done_callback new_xfer;
       fail_callback := fail_callback new_xfer |} in
  exists m',
    symspi_replace_xfer pf new_xfer force_size_change m = Ret SYMSPI_SUCCESS m'
    /\ p (symspi m')
       = Some (set_spi_xfer {| tx_buf := data_tx c; rx_buf := data_rx_buf c;
                               len := size_bytes c |}
                 (set_current_xfer c' pr))
    /\ allocs m' = allocs m
    /\ state_word m' = state_word m.
Proof.
  intros Hp Hnz Hov Hsame c c'. unfold symspi_replace_xfer.
  unfold bind at 1. rewrite (rd_private _ _ _ Hp).
  apply Z.eqb_neq in Hnz. rewrite Hnz, Hov.
  apply Z.eqb_eq in Hsame. rewrite Hsame. cbn [negb].
  unfold bind at 1. unfold ret at 1.
  unfold bind at 1. rewrite (wr_private _ _ _ Hp).
  unfold bind at 1.
  rewrite (do_update_native_spi_xfer_data_eq _ _
             (private_of_set_private _ _)).
  unfold ret. eexists. split; [reflexivity|].
  unfold state_word. rewrite Hp.
  destruct (native_transfer_configuration_hook _ =? 0);
    (split; [|split; reflexivity]);
    cbn; subst c c'; destruct pr as [nx cx]; destruct cx; reflexivity.
Qed.

Lemma replace_xfer_same_size_witness :
  exists m',
    symspi_replace_xfer demo_platform (set_id 7 xfer_64_bytes) false
      (idle_with (set_state SYMSPI_STATE_ERROR)) = Ret SYMSPI_SUCCESS m'
    /\ option_map (fun pr => id (current_xfer pr)) (p (symspi m')) = Some 7
    /\ current_size m' = Some 64
    /\ state_word m' = Some SYMSPI_STATE_ERROR.
Proof.
  destruct (replace_xfer_same_size demo_platform
              (idle_with (set_state SYMSPI_STATE_ERROR)) _
              (set_id 7 xfer_64_bytes) false eq_refl)
    as [m' [E [Hp [_ Hs]]]].
  - discriminate.
  - reflexivity.
  - reflexivity.
  - exists m'. split; [exact E|]. unfold current_size. rewrite Hp.
    split; [reflexivity|]. split; [reflexivity|exact Hs].
Defined.

(** X6: symspi_replace_xfer refuses an xfer of size 0 with XferSizeZero
    and an xfer whose TX buffer overlaps the current TX buffer with
    Overlap, before anything is written: the device is left as it was. *)
Theorem replace_xfer_refusals
    (pf : platform) (m : machine) (pr : symspi_dev_private)
    (new_xfer : full_duplex_xfer) (force_size_change : bool) :
  p (symspi m) = Some pr ->
  (size_bytes new_xfer = 0 ->
   symspi_replace_xfer pf new_xfer force_size_change m
     = Ret (- SYMSPI_ERROR_XFER_SIZE_ZERO) m)
  /\ (size_bytes new_xfer <> 0 ->
      regions_overlap (data_tx (current_xfer pr))
        (size_bytes (current_xfer pr)) (data_tx new_xfer)
        (size_bytes new_xfer) = true ->
      symspi_replace_xfer pf new_xfer force_size_change m
        = Ret (- SYMSPI_ERROR_OVERLAP) m).
Proof.
  intros Hp. unfold symspi_replace_xfer. split.
  - intros H. apply Z.eqb_eq in H.
    unfold bind at 1. rewrite (rd_private _ _ _ Hp). now rewrite H.
  - intros H Hov. apply Z.eqb_neq in H.
    unfold bind at 1. rewrite (rd_private _ _ _ Hp). now rewrite H, Hov.
Qed.

Lemma replace_xfer_refusals_witness :
  symspi_replace_xfer demo_platform (set_size_bytes 0 xfer_1_byte) true
    idle_machine = Ret (- SYMSPI_ERROR_XFER_SIZE_ZERO) idle_machine.
Proof.
  destruct (replace_xfer_refusals demo_platform idle_machine _
              (set_size_bytes 0 xfer_1_byte) true eq_refl) as [H _].
  apply H. reflexivity.
Defined.

(** ** The transfer pipeline, step by step *)

Lemma verify_consumer_input_valid pf xfer m :
  valid_device pf m ->
  match xfer with Some x => valid_xfer pf x | None => True end ->
  symspi_verify_consumer_input pf xfer (is_some xfer) m
    = Ret SYMSPI_SUCCESS m.
Proof.
  intros [Hs [Ho Ht]] Hx. unfold symspi_verify_consumer_input.
  unfold bind, rd_dev. rewrite Hs, Ho, Ht. cbn [orb].
  destruct xfer as [x|]; [|reflexivity].
  destruct Hx as [Hz Hd]. apply Z.eqb_neq in Hz. cbn [is_some negb].
  now rewrite Hz, Hd.
Qed.

Lemma stepped_private pr' events m :
  p (symspi (stepped pr' events m)) = Some pr'.
Proof. reflexivity. Qed.

Lemma emit_eq e m pr :
  p (symspi m) = Some pr -> emit e m = Ret tt (stepped pr [e] m).
Proof.
  intros H. unfold emit, stepped. now rewrite (set_private_same _ _ H).
Qed.

Lemma our_flag_set_eq m pr :
  p (symspi m) = Some pr ->
  symspi_our_flag_set m
  = Ret tt
      (set_our_flag_raw (our_flag_active pr)
         (stepped pr [EvGpioSetOurFlag (our_flag_active pr)] m)).
Proof.
  intros Hp. unfold symspi_our_flag_set, gpiod_set_raw_value_our_flag.
  unfold bind at 1. rewrite (rd_private _ _ _ Hp).
  unfold bind, emit, stepped, our_flag_active.
  now rewrite (set_private_same _ _ Hp).
Qed.

Lemma our_flag_drop_eq m pr :
  p (symspi m) = Some pr ->
  symspi_our_flag_drop m
  = Ret tt
      (set_our_flag_raw (our_flag_inactive pr)
         (stepped pr [EvGpioSetOurFlag (our_flag_inactive pr)] m)).
Proof.
  intros Hp. unfold symspi_our_flag_drop, gpiod_set_raw_value_our_flag.
  unfold bind at 1. rewrite (rd_private _ _ _ Hp).
  unfold bind, emit, stepped, our_flag_inactive.
  now rewrite (set_private_same _ _ Hp).
Qed.

Lemma their_flag_is_set_eq m pr :
  p (symspi m) = Some pr ->
  symspi_their_flag_is_set m = Ret (their_flag_raised pr m) m.
Proof.
  intros Hp. unfold symspi_their_flag_is_set.
  unfold bind at 1. now rewrite (rd_private _ _ _ Hp).
Qed.

Lemma is_their_request_eq m pr :
  p (symspi m) = Some pr ->
  symspi_is_their_request m
  = Ret ((their_flag_drop_counter pr =? 1) && their_flag_raised pr m) m.
Proof.
  intros Hp. unfold symspi_is_their_request.
  unfold bind at 1. rewrite (rd_private _ _ _ Hp).
  destruct (their_flag_drop_counter pr =? 1); [|reflexivity].
  now rewrite (their_flag_is_set_eq _ _ Hp).
Qed.

(* symspi_do_xfer: the counter zeroed, the message handed to spi_async *)
Lemma do_xfer_eq m pr :
  p (symspi m) = Some pr ->
  symspi_do_xfer m
  = Ret (if spi_async_result m =? 0 then SYMSPI_SUCCESS
         else - SYMSPI_ERROR_SPI)
      (stepped (set_their_flag_drop_counter 0 pr)
         [EvSpiAsync; EvDropCounterStore 0] m).
Proof.
  intros Hp. unfold symspi_do_xfer, atomic_store_drop_counter, spi_async.
  unfold bind at 1. unfold bind at 1. rewrite (wr_private _ _ _ Hp).
  unfold emit at 1. unfold bind at 1. unfold bind at 1. unfold emit at 1.
  unfold rd_env. cbn [spi_async_result set_trace set_private set_symspi
                      machine_eta].
  unfold stepped. now destruct (spi_async_result m =? 0).
Qed.

Lemma try_to_error_sequence_quiet pf fuel race m pr :
  p (symspi m) = Some pr ->
  their_flag_drop_counter pr <= 1 ->
  symspi_try_to_error_sequence pf fuel race SYMSPI_SUCCESS m
    = Ret SYMSPI_SUCCESS m.
Proof.
  intros Hp Hc. unfold symspi_try_to_error_sequence.
  unfold bind at 1. rewrite (rd_private _ _ _ Hp).
  replace (1 <? their_flag_drop_counter pr) with false
    by (symmetry; apply Z.ltb_ge; lia).
  reflexivity.
Qed.

Lemma stepped_nil m pr : p (symspi m) = Some pr -> stepped pr [] m = m.
Proof.
  intros H. unfold stepped. cbn [app]. rewrite <- (set_private_same _ _ H) at 3.
  now destruct m.
Qed.

Lemma try_leave_waiting_rdy_eq m pr :
  p (symspi m) = Some pr ->
  close_request pr = false ->
  symspi_try_leave_waiting_rdy_sequence m
  = if state pr =? SYMSPI_STATE_WAITING_RDY
    then Ret (do_xfer_result m)
           (stepped (submitted pr)
              [EvSpiAsync; EvDropCounterStore 0; EvDelTimer] m)
    else Ret SYMSPI_SUCCESS m.
Proof.
  intros Hp Hc.
  unfold symspi_try_leave_waiting_rdy_sequence, SYMSPI_SWITCH_STRICT.
  unfold bind at 1. rewrite (switch_strict_open _ _ _ _ Hp Hc).
  destruct (state pr =? SYMSPI_STATE_WAITING_RDY); [|reflexivity].
  unfold bind at 1. unfold __symspi_stop_timeout_timer.
  rewrite (emit_eq _ _ _ (private_of_set_private _ _)).
  rewrite (do_xfer_eq _ _ (stepped_private _ _ _)).
  reflexivity.
Qed.

(* on a master; the slave branch of the source makes no switch *)
Lemma try_leave_waiting_prev_eq m pr :
  p (symspi m) = Some pr ->
  close_request pr = false ->
  spi_master_mode pr = true ->
  symspi_try_leave_waiting_prev_sequence m
  = if negb (state pr =? SYMSPI_STATE_WAITING_PREV)
    then Ret SYMSPI_SUCCESS m
    else if hardware_spi_rdy pr
    then Ret (do_xfer_result m)
           (stepped (submitted pr)
              [EvSpiAsync; EvDropCounterStore 0; EvDelTimer] m)
    else if (their_flag_drop_counter pr =? 1) && their_flag_raised pr m
    then Ret (do_xfer_result m)
           (stepped (submitted pr)
              [EvSpiAsync; EvDropCounterStore 0; EvDelTimer; EvModTimer] m)
    else Ret SYMSPI_SUCCESS
           (stepped (set_state SYMSPI_STATE_WAITING_RDY pr) [EvModTimer] m).
Proof.
  intros Hp Hc Hm.
  unfold symspi_try_leave_waiting_prev_sequence, SYMSPI_SWITCH_STRICT.
  unfold bind at 1. rewrite (rd_private _ _ _ Hp), Hm. cbn [negb].
  unfold bind at 1. rewrite (rd_private _ _ _ Hp).
  destruct (hardware_spi_rdy pr).
  - unfold bind at 1. rewrite (switch_strict_open _ _ _ _ Hp Hc).
    destruct (state pr =? SYMSPI_STATE_WAITING_PREV); [|reflexivity].
    cbn [negb]. unfold bind at 1. unfold __symspi_stop_timeout_timer.
    rewrite (emit_eq _ _ _ (private_of_set_private _ _)).
    rewrite (do_xfer_eq _ _ (stepped_private _ _ _)).
    reflexivity.
  - unfold bind at 1. rewrite (switch_strict_open _ _ _ _ Hp Hc).
    destruct (state pr =? SYMSPI_STATE_WAITING_PREV); [|reflexivity].
    cbn [negb]. unfold bind at 1. unfold __symspi_restart_timeout_timer.
    rewrite (emit_eq _ _ _ (private_of_set_private _ _)).
    unfold bind at 1.
    rewrite (is_their_request_eq _ _ (stepped_private _ _ _)).
    cbn [their_flag_drop_counter set_state].
    change (their_flag_raised (set_state SYMSPI_STATE_WAITING_RDY pr)
              (stepped (set_state SYMSPI_STATE_WAITING_RDY pr) [EvModTimer]
                 (set_private
                    (Some (set_state SYMSPI_STATE_WAITING_RDY pr)) m)))
      with (their_flag_raised pr m).
    destruct ((their_flag_drop_counter pr =? 1) && their_flag_raised pr m).
    + rewrite (try_leave_waiting_rdy_eq _
                 (set_state SYMSPI_STATE_WAITING_RDY pr)
                 (stepped_private _ _ _) Hc).
      reflexivity.
    + reflexivity.
Qed.

(* from XferPrepare, on a master whose peer shows no error *)
Lemma xfer_prepare_to_waiting_prev_eq pf fuel race m pr :
  p (symspi m) = Some pr ->
  close_request pr = false ->
  spi_master_mode pr = true ->
  state pr = SYMSPI_STATE_XFER_PREPARE ->
  their_flag_drop_counter pr <= 1 ->
  let raise := EvGpioSetOurFlag (our_flag_active pr) in
  symspi_xfer_prepare_to_waiting_prev_sequence pf fuel race m
  = if negb (their_flag_drop_counter pr =? 1)
    then Ret SYMSPI_SUCCESS
           (set_our_flag_raw (our_flag_active pr)
              (stepped (set_state SYMSPI_STATE_WAITING_PREV pr)
                 [EvModTimer; raise] m))
    else if hardware_spi_rdy pr
    then Ret (do_xfer_result m)
           (set_our_flag_raw (our_flag_active pr)
              (stepped (submitted pr)
                 [EvSpiAsync; EvDropCounterStore 0; EvDelTimer; EvModTimer;
                  raise] m))
    else if their_flag_raised pr m
    then Ret (do_xfer_result m)
           (set_our_flag_raw (our_flag_active pr)
              (stepped (submitted pr)
                 [EvSpiAsync; EvDropCounterStore 0; EvDelTimer; EvModTimer;
                  EvModTimer; raise] m))
    else Ret SYMSPI_SUCCESS
           (set_our_flag_raw (our_flag_active pr)
              (stepped (set_state SYMSPI_STATE_WAITING_RDY pr)
                 [EvModTimer; EvModTimer; raise] m)).
Proof.
  intros Hp Hc Hm Hst Hcnt raise.
  unfold symspi_xfer_prepare_to_waiting_prev_sequence.
  unfold bind at 1. rewrite (our_flag_set_eq _ _ Hp).
  set (m1 := set_our_flag_raw _ _).
  assert (Hp1 : p (symspi m1) = Some pr) by reflexivity.
  unfold bind at 1.
  rewrite (try_to_error_sequence_quiet pf fuel race _ _ Hp1 Hcnt).
  change (negb (SYMSPI_SUCCESS =? SYMSPI_SUCCESS)) with false. cbv iota.
  unfold bind at 1. rewrite (switch_strict_open _ _ _ _ Hp1 Hc), Hst.
  change (SYMSPI_STATE_XFER_PREPARE =? SYMSPI_STATE_XFER_PREPARE) with true.
  cbv iota.
  unfold bind at 1. unfold __symspi_restart_timeout_timer.
  rewrite (emit_eq _ _ _ (private_of_set_private _ _)).
  set (pr2 := set_state SYMSPI_STATE_WAITING_PREV pr).
  set (m2 := stepped pr2 _ _).
  assert (Hp2 : p (symspi m2) = Some pr2) by reflexivity.
  unfold bind at 1. rewrite (rd_private _ _ _ Hp2).
  unfold bind at 1. rewrite (rd_private _ _ _ Hp2).
  change (spi_master_mode pr2) with (spi_master_mode pr). rewrite Hm.
  change (their_flag_drop_counter pr2) with (their_flag_drop_counter pr).
  cbn [negb orb]. rewrite orb_false_r.
  destruct (their_flag_drop_counter pr =? 1) eqn:Hone; cbn [negb];
    [|reflexivity].
  rewrite (try_leave_waiting_prev_eq m2 pr2 Hp2 Hc Hm).
  change (state pr2) with SYMSPI_STATE_WAITING_PREV.
  change (SYMSPI_STATE_WAITING_PREV =? SYMSPI_STATE_WAITING_PREV) with true.
  cbn [negb].
  change (hardware_spi_rdy pr2) with (hardware_spi_rdy pr).
  change (their_flag_drop_counter pr2) with (their_flag_drop_counter pr).
  rewrite Hone. cbn [andb].
  change (their_flag_raised pr2 m2) with (their_flag_raised pr m).
  change (do_xfer_result m2) with (do_xfer_result m).
  destruct (hardware_spi_rdy pr); [reflexivity|].
  destruct (their_flag_raised pr m); reflexivity.
Qed.

(* the way from Idle to XferPrepare, with no xfer handed in *)
Lemma idle_to_xfer_prepare_eq pf fuel race m pr force_size_change :
  p (symspi m) = Some pr ->
  close_request pr = false ->
  state pr = SYMSPI_STATE_IDLE ->
  their_flag_drop_counter pr <= 1 ->
  valid_device pf m ->
  symspi_idle_to_xfer_prepare_sequence pf fuel race None force_size_change m
  = Ret (SYMSPI_SUCCESS, None)
      (set_private (Some (set_state SYMSPI_STATE_XFER_PREPARE pr)) m).
Proof.
  intros Hp Hc Hst Hcnt Hdev.
  unfold symspi_idle_to_xfer_prepare_sequence,
    symspi_idle_to_xfer_prepare_sequence_open.
  unfold bind at 1.
  rewrite (verify_consumer_input_valid pf None m Hdev I).
  change (negb (SYMSPI_SUCCESS =? SYMSPI_SUCCESS)) with false. cbv iota.
  unfold bind at 1. rewrite (switch_strict_open _ _ _ _ Hp Hc), Hst.
  change (SYMSPI_STATE_IDLE =? SYMSPI_STATE_IDLE) with true. cbv iota.
  cbn [negb]. unfold bind at 1.
  rewrite (try_to_error_sequence_quiet pf fuel race _
             (set_state SYMSPI_STATE_XFER_PREPARE pr)
             (private_of_set_private _ _) Hcnt).
  reflexivity.
Qed.

(* symspi_data_xchange with no xfer, from Idle *)
Lemma data_xchange_none_eq pf fuel race m pr force_size_change :
  p (symspi m) = Some pr ->
  close_request pr = false ->
  spi_master_mode pr = true ->
  state pr = SYMSPI_STATE_IDLE ->
  their_flag_drop_counter pr <= 1 ->
  0 < FULL_DUPLEX_ERROR_NOT_READY pf ->
  valid_device pf m ->
  let raise := EvGpioSetOurFlag SYMSPI_MASTER_FLAG_ACTIVE_VALUE in
  let raised (pr' : symspi_dev_private) (events : list event) :=
    set_our_flag_raw SYMSPI_MASTER_FLAG_ACTIVE_VALUE
      (stepped pr' events m) in
  symspi_data_xchange pf fuel race None force_size_change m
  = if negb (their_flag_drop_counter pr =? 1)
    then Ret (SYMSPI_SUCCESS, None)
           (raised (set_state SYMSPI_STATE_WAITING_PREV pr)
              [EvModTimer; raise])
    else if hardware_spi_rdy pr
    then Ret (do_xfer_result m, None)
           (raised (submitted pr)
              [EvSpiAsync; EvDropCounterStore 0; EvDelTimer; EvModTimer;
               raise])
    else if their_flag_raised pr m
    then Ret (do_xfer_result m, None)
           (raised (submitted pr)
              [EvSpiAsync; EvDropCounterStore 0; EvDelTimer; EvModTimer;
               EvModTimer; raise])
    else Ret (SYMSPI_SUCCESS, None)
           (raised (set_state SYMSPI_STATE_WAITING_RDY pr)
              [EvModTimer; EvModTimer; raise]).
Proof.
  intros Hp Hc Hm Hst Hcnt Hnr Hdev raise raised.
  unfold symspi_data_xchange, symspi_data_xchange_open, __symspi_is_closing.
  unfold bind at 1. rewrite (rd_private _ _ _ Hp), Hc.
  unfold bind at 1.
  change (symspi_idle_to_xfer_prepare_sequence_open pf fuel race
            (symspi_data_xchange_default pf fuel race))
    with (symspi_idle_to_xfer_prepare_sequence pf fuel race).
  rewrite (idle_to_xfer_prepare_eq pf fuel race m pr force_size_change
             Hp Hc Hst Hcnt Hdev).
  replace (SYMSPI_SUCCESS =? - FULL_DUPLEX_ERROR_NOT_READY pf) with false
    by (symmetry; apply Z.eqb_neq; unfold SYMSPI_SUCCESS; lia).
  cbn [andb]. change (negb (SYMSPI_SUCCESS =? SYMSPI_SUCCESS)) with false.
  cbv iota.
  set (pr1 := set_state SYMSPI_STATE_XFER_PREPARE pr).
  unfold bind at 1.
  rewrite (xfer_prepare_to_waiting_prev_eq pf fuel race _ pr1
             (private_of_set_private _ _) Hc Hm eq_refl Hcnt).
  change (their_flag_drop_counter pr1) with (their_flag_drop_counter pr).
  change (hardware_spi_rdy pr1) with (hardware_spi_rdy pr).
  change (their_flag_raised pr1 (set_private (Some pr1) m))
    with (their_flag_raised pr m).
  change (do_xfer_result (set_private (Some pr1) m))
    with (do_xfer_result m).
  change (our_flag_active pr1) with (our_flag_active pr).
  unfold our_flag_active. rewrite Hm. subst raise raised. cbv beta.
  destruct (their_flag_drop_counter pr =? 1); cbn [negb]; [|reflexivity].
  destruct (hardware_spi_rdy pr); [reflexivity|].
  destruct (their_flag_raised pr m); reflexivity.
Qed.

Lemma data_xchange_default_eq pf fuel race m :
  symspi_data_xchange_default pf fuel race m
  = (r <- symspi_data_xchange pf fuel race None false ;; ret (fst r)) m.
Proof.
  unfold symspi_data_xchange_default, symspi_data_xchange.
  unfold symspi_data_xchange_open at 1 2.
  unfold bind at 1 3.
  destruct (__symspi_is_closing m) as [[|] m0| |]; reflexivity.
Qed.

(** X7: a transfer started from Idle by symspi_data_xchange with no xfer
    (master, closing latch clear, valid device, no error shown by the
    peer).  Our flag is raised in every case.  When the peer has not yet
    released the previous transfer (drop counter 0) the device waits in
    WaitingPrev with the timeout armed.  When it has (drop counter 1) the
    transfer is submitted at once, the state Xfer and the counter zeroed,
    if the SPI controller handles the ready line or the peer flag is
    already raised; otherwise the device waits in WaitingRdy with the
    timeout armed.  The value returned is 0, or -SYMSPI_ERROR_SPI when
    spi_async refused the message. *)
Theorem data_xchange_from_idle
    (pf : platform) (fuel : nat) (race : M unit) (m : machine)
    (pr : symspi_dev_private) (force_size_change : bool) :
  p (symspi m) = Some pr ->
  close_request pr = false ->
  spi_master_mode pr = true ->
  state pr = SYMSPI_STATE_IDLE ->
  0 <= their_flag_drop_counter pr <= 1 ->
  0 < FULL_DUPLEX_ERROR_NOT_READY pf ->
  valid_device pf m ->
  exists res m' pr',
    symspi_data_xchange pf fuel race None force_size_change m
      = Ret (res, None) m'
    /\ p (symspi m') = Some pr'
    /\ our_flag_raw m' = SYMSPI_MASTER_FLAG_ACTIVE_VALUE
    /\ (their_flag_drop_counter pr = 0 ->
        res = SYMSPI_SUCCESS
        /\ pr' = set_state SYMSPI_STATE_WAITING_PREV pr
        /\ hd_error (trace m') = Some EvModTimer)
    /\ (their_flag_drop_counter pr = 1 ->
        hardware_spi_rdy pr || their_flag_raised pr m = true ->
        res = do_xfer_result m
        /\ pr' = submitted pr
        /\ firstn 3 (trace m')
           = [EvSpiAsync; EvDropCounterStore 0; EvDelTimer])
    /\ (their_flag_drop_counter pr = 1 ->
        hardware_spi_rdy pr || their_flag_raised pr m = false ->
        res = SYMSPI_SUCCESS
        /\ pr' = set_state SYMSPI_STATE_WAITING_RDY pr
        /\ hd_error (trace m') = Some EvModTimer).
Proof.
  intros Hp Hc Hm Hst Hcnt Hnr Hdev.
  rewrite (data_xchange_none_eq pf fuel race m pr force_size_change
             Hp Hc Hm Hst ltac:(lia) Hnr Hdev).
  destruct (Z.eqb_spec (their_flag_drop_counter pr) 1) as [Hone|Hone];
    cbn [negb].
  - destruct (hardware_spi_rdy pr); cbn [orb].
    + eexists _, _, _. split; [reflexivity|].
      split; [reflexivity|]. split; [reflexivity|].
      split; [intros; lia|].
      split; [intros _ _; repeat split|intros _ H; discriminate].
    + destruct (their_flag_raised pr m).
      * eexists _, _, _. split; [reflexivity|].
        split; [reflexivity|]. split; [reflexivity|].
        split; [intros; lia|].
        split; [intros _ _; repeat split|intros _ H; discriminate].
      * eexists _, _, _. split; [reflexivity|].
        split; [reflexivity|]. split; [reflexivity|].
        split; [intros; lia|].
        split; [intros _ H; discriminate|intros _ _; repeat split].
  - eexists _, _, _. split; [reflexivity|].
    split; [reflexivity|]. split; [reflexivity|].
    split; [intros _; repeat split|].
    split; intros; lia.
Qed.

(** ** Request API: gates *)

(** X8: while the closing latch is set symspi_data_xchange and
    symspi_default_data_update return NotReady at once and touch nothing,
    whatever xfer is handed in; on a device without private part both
    dereference the NULL private pointer, where symspi_close returns
    -ENODEV and symspi_is_running answers false. *)
Theorem request_api_gates
    (pf : platform) (fuel : nat) (race : M unit) (m : machine)
    (xfer : option full_duplex_xfer) (force_size_change : bool) :
  (closing_word m = Some true ->
   symspi_data_xchange pf fuel race xfer force_size_change m
     = Ret (- FULL_DUPLEX_ERROR_NOT_READY pf, xfer) m
   /\ symspi_default_data_update pf fuel race xfer force_size_change m
      = Ret (- FULL_DUPLEX_ERROR_NOT_READY pf, xfer) m)
  /\ (p (symspi m) = None ->
      symspi_data_xchange pf fuel race xfer force_size_change m = Oops m
      /\ symspi_default_data_update pf fuel race xfer force_size_change m
         = Oops m
      /\ symspi_close pf m = Ret (- ENODEV) m
      /\ symspi_is_running m = Ret false m).
Proof.
  split.
  - unfold closing_word. intros H.
    destruct (p (symspi m)) as [pr|] eqn:Hp; [|discriminate].
    injection H as Hc.
    unfold symspi_data_xchange, symspi_data_xchange_open,
      symspi_default_data_update, __symspi_is_closing.
    unfold bind at 1. rewrite (rd_private _ _ _ Hp), Hc.
    split; [reflexivity|].
    unfold bind at 1. now rewrite (rd_private _ _ _ Hp), Hc.
  - intros Hp.
    unfold symspi_data_xchange, symspi_data_xchange_open,
      symspi_default_data_update, __symspi_is_closing, symspi_close,
      symspi_is_running, bind, rd.
    now rewrite Hp.
Qed.

Lemma request_api_gates_witness :
  symspi_data_xchange demo_platform 1 (ret tt) (Some xfer_1_byte) true
    closing_idle_machine
  = Ret (- FULL_DUPLEX_ERROR_NOT_READY demo_platform, Some xfer_1_byte)
      closing_idle_machine
  /\ symspi_data_xchange demo_platform 1 (ret tt) None false cold_machine
     = Oops cold_machine.
Proof.
  split.
  - destruct (request_api_gates demo_platform 1 (ret tt)
                closing_idle_machine (Some xfer_1_byte) true) as [H _].
    apply H. reflexivity.
  - destruct (request_api_gates demo_platform 1 (ret tt) cold_machine
                None false) as [_ H].
    apply H. reflexivity.
Defined.

(* a request on a device that is not Idle *)
Lemma request_while_busy_eq pf fuel race m pr xfer force_size_change :
  0 < FULL_DUPLEX_ERROR_NOT_READY pf ->
  p (symspi m) = Some pr ->
  close_request pr = false ->
  state pr <> SYMSPI_STATE_IDLE ->
  valid_device pf m ->
  match xfer with Some x => valid_xfer pf x | None => True end ->
  symspi_data_xchange pf fuel race xfer force_size_change m
  = (if negb (is_some xfer)
     then Ret (- FULL_DUPLEX_ERROR_NOT_READY pf, xfer)
            (set_private (Some (set_delayed_xfer_request true pr)) m)
     else Ret (- FULL_DUPLEX_ERROR_NOT_READY pf, xfer) m)
  /\ symspi_default_data_update pf fuel race xfer force_size_change m
     = Ret (- FULL_DUPLEX_ERROR_NOT_READY pf, xfer) m.
Proof.
  intros Hnr Hp Hc Hst Hdev Hv. apply Z.eqb_neq in Hst.
  assert (Hne : (- FULL_DUPLEX_ERROR_NOT_READY pf =? SYMSPI_SUCCESS) = false)
    by (apply Z.eqb_neq; unfold SYMSPI_SUCCESS; lia).
  assert (Hprep :
    symspi_idle_to_xfer_prepare_sequence pf fuel race xfer
      force_size_change m
    = Ret (- FULL_DUPLEX_ERROR_NOT_READY pf, xfer) m).
  { unfold symspi_idle_to_xfer_prepare_sequence,
      symspi_idle_to_xfer_prepare_sequence_open.
    unfold bind at 1. rewrite (verify_consumer_input_valid _ _ _ Hdev Hv).
    change (negb (SYMSPI_SUCCESS =? SYMSPI_SUCCESS)) with false. cbv iota.
    unfold bind at 1. rewrite (switch_strict_open _ _ _ _ Hp Hc), Hst.
    reflexivity. }
  split.
  - unfold symspi_data_xchange, symspi_data_xchange_open,
      __symspi_is_closing.
    unfold bind at 1. rewrite (rd_private _ _ _ Hp), Hc.
    unfold bind at 1.
    change (symspi_idle_to_xfer_prepare_sequence_open pf fuel race
              (symspi_data_xchange_default pf fuel race))
      with (symspi_idle_to_xfer_prepare_sequence pf fuel race).
    rewrite Hprep. rewrite Z.eqb_refl. cbn [andb].
    destruct xfer as [x|]; cbn [is_some negb].
    + now rewrite Hne.
    + unfold bind. now rewrite (wr_private _ _ _ Hp).
  - unfold symspi_default_data_update, __symspi_is_closing.
    unfold bind at 1. rewrite (rd_private _ _ _ Hp), Hc.
    unfold bind at 1. rewrite Hprep. now rewrite Hne.
Qed.

(** X9: a request made while the device is not Idle (closing latch clear,
    device and xfer valid) is answered NotReady and changes no state.
    symspi_data_xchange with a NULL xfer latches delayed_xfer_request and
    nothing else; with an xfer of its own, and symspi_default_data_update
    with or without one, leave the device exactly as it was: the xfer is
    neither installed nor remembered. *)
Theorem request_while_busy
    (pf : platform) (fuel : nat) (race : M unit) (m : machine)
    (pr : symspi_dev_private) (force_size_change : bool) :
  0 < FULL_DUPLEX_ERROR_NOT_READY pf ->
  p (symspi m) = Some pr ->
  close_request pr = false ->
  state pr <> SYMSPI_STATE_IDLE ->
  valid_device pf m ->
  symspi_data_xchange pf fuel race None force_size_change m
    = Ret (- FULL_DUPLEX_ERROR_NOT_READY pf, None)
        (set_private (Some (set_delayed_xfer_request true pr)) m)
  /\ symspi_default_data_update pf fuel race None force_size_change m
     = Ret (- FULL_DUPLEX_ERROR_NOT_READY pf, None) m
  /\ forall x,
       valid_xfer pf x ->
       symspi_data_xchange pf fuel race (Some x) force_size_change m
         = Ret (- FULL_DUPLEX_ERROR_NOT_READY pf, Some x) m
       /\ symspi_default_data_update pf fuel race (Some x)
            force_size_change m
          = Ret (- FULL_DUPLEX_ERROR_NOT_READY pf, Some x) m.
Proof.
  intros Hnr Hp Hc Hst Hdev.
  pose proof (request_while_busy_eq pf fuel race m pr) as Hx.
  split; [exact (proj1 (Hx None force_size_change Hnr Hp Hc Hst Hdev I))|].
  split; [exact (proj2 (Hx None force_size_change Hnr Hp Hc Hst Hdev I))|].
  intros x Hv. exact (Hx (Some x) force_size_change Hnr Hp Hc Hst Hdev Hv).
Qed.

Lemma request_while_busy_witness :
  symspi_data_xchange demo_platform 1 (ret tt) None false
    (idle_with (set_state SYMSPI_STATE_XFER))
  = Ret (- FULL_DUPLEX_ERROR_NOT_READY demo_platform, None)
      (idle_with (fun pr =>
         set_delayed_xfer_request true (set_state SYMSPI_STATE_XFER pr))).
Proof.
  assert (H0 : 0 < FULL_DUPLEX_ERROR_NOT_READY demo_platform)
    by reflexivity.
  assert (Hd : valid_device demo_platform
                 (idle_with (set_state SYMSPI_STATE_XFER)))
    by (repeat split).
  destruct (request_while_busy demo_platform 1 (ret tt)
              (idle_with (set_state SYMSPI_STATE_XFER))
              (set_state SYMSPI_STATE_XFER idle_private) false
              H0 eq_refl eq_refl ltac:(discriminate) Hd) as [H _].
  exact H.
Defined.

(** ** Interrupts, completion and postprocessing *)

(* the interrupt on a rising edge of the peer flag, the device waiting
   for it *)
Lemma their_flag_isr_rising_in_waiting_rdy pf fuel race m pr :
  p (symspi m) = Some pr ->
  close_request pr = false ->
  spi_master_mode pr = true ->
  hardware_spi_rdy pr = false ->
  state pr = SYMSPI_STATE_WAITING_RDY ->
  their_flag_raised pr m = true ->
  symspi_their_flag_isr pf fuel race m
  = Ret tt
      (stepped (count_edge (submitted pr))
         [EvSpiAsync; EvDropCounterStore 0; EvDelTimer] m).
Proof.
  intros Hp Hc Hm Hhw Hst Hr. unfold symspi_their_flag_isr.
  unfold bind at 1. rewrite (rd_private _ _ _ Hp), Hst.
  change (SYMSPI_STATE_WAITING_RDY =? SYMSPI_STATE_COLD) with false.
  cbv iota.
  unfold bind at 1. rewrite (their_flag_is_set_eq _ _ Hp), Hr.
  unfold bind at 1. unfold symspi_their_flag_set_isr_sequence.
  unfold bind at 1. unfold SYMSPI_SWITCH_STRICT.
  rewrite (switch_strict_open _ _ _ _ Hp Hc), Hst.
  change (SYMSPI_STATE_WAITING_RDY =? SYMSPI_STATE_IDLE) with false.
  cbv iota.
  unfold bind at 1. rewrite (rd_private _ _ _ Hp), Hm.
  unfold bind at 1. rewrite (rd_private _ _ _ Hp), Hhw. cbn [andb negb].
  unfold bind at 1. rewrite (try_leave_waiting_rdy_eq _ _ Hp Hc), Hst.
  change (SYMSPI_STATE_WAITING_RDY =? SYMSPI_STATE_WAITING_RDY) with true.
  cbv iota. unfold ret at 1.
  rewrite (wr_private _ _ _ (stepped_private _ _ _)). reflexivity.
Qed.

(* the interrupt on a falling edge of the peer flag, the device waiting
   for the peer to release the previous transfer *)
Lemma their_flag_isr_falling_in_waiting_prev pf fuel race m pr :
  p (symspi m) = Some pr ->
  close_request pr = false ->
  spi_master_mode pr = true ->
  state pr = SYMSPI_STATE_WAITING_PREV ->
  their_flag_drop_counter pr = 0 ->
  their_flag_raised pr m = false ->
  symspi_their_flag_isr pf fuel race m
  = Ret tt
      (if hardware_spi_rdy pr
       then stepped (count_edge (submitted pr))
              [EvSpiAsync; EvDropCounterStore 0; EvDelTimer;
               EvDropCounterAddFetch 1] m
       else stepped
              (count_edge
                 (set_state SYMSPI_STATE_WAITING_RDY
                    (set_their_flag_drop_counter 1 pr)))
              [EvModTimer; EvDropCounterAddFetch 1] m).
Proof.
  intros Hp Hc Hm Hst Hcnt Hr. unfold symspi_their_flag_isr.
  unfold bind at 1. rewrite (rd_private _ _ _ Hp), Hst.
  change (SYMSPI_STATE_WAITING_PREV =? SYMSPI_STATE_COLD) with false.
  cbv iota.
  unfold bind at 1. rewrite (their_flag_is_set_eq _ _ Hp), Hr.
  unfold bind at 1. unfold symspi_their_flag_drop_isr_sequence.
  unfold bind at 1. unfold atomic_add_fetch_drop_counter.
  unfold bind at 1. rewrite (rd_private _ _ _ Hp), Hcnt.
  change (to_int (0 + 1)) with 1.
  unfold bind at 1. rewrite (wr_private _ _ _ Hp).
  unfold bind at 1.
  rewrite (emit_eq _ _ _ (private_of_set_private _ _)).
  unfold ret at 1.
  set (pr1 := set_their_flag_drop_counter 1 pr).
  set (m1 := stepped pr1 _ _).
  assert (Hp1 : p (symspi m1) = Some pr1) by reflexivity.
  unfold bind at 1. rewrite (rd_private _ _ _ Hp1).
  change (spi_master_mode pr1) with (spi_master_mode pr). rewrite Hm.
  change ((1 =? 1) && true) with true. cbv iota.
  unfold bind at 1.
  rewrite (try_leave_waiting_prev_eq m1 pr1 Hp1 Hc Hm).
  change (state pr1) with (state pr). rewrite Hst.
  change (SYMSPI_STATE_WAITING_PREV =? SYMSPI_STATE_WAITING_PREV) with true.
  cbn [negb].
  change (hardware_spi_rdy pr1) with (hardware_spi_rdy pr).
  change (their_flag_raised pr1 m1) with (their_flag_raised pr m).
  rewrite Hr, andb_false_r.
  destruct (hardware_spi_rdy pr); unfold ret at 1;
    rewrite (wr_private _ _ _ (stepped_private _ _ _)); reflexivity.
Qed.

(* the completion of a bus transfer that went well *)
Lemma xfer_done_callback_ok pf fuel race m pr :
  p (symspi m) = Some pr ->
  close_request pr = false ->
  state pr = SYMSPI_STATE_XFER ->
  last_error pr = SYMSPI_SUCCESS ->
  status (spi_msg pr) = 0 ->
  symspi_spi_xfer_done_callback pf fuel race m
  = Ret tt
      (stepped (count_xfer_done (set_state SYMSPI_STATE_POSTPROCESSING pr))
         [EvQueueWork postprocessing_work] m).
Proof.
  intros Hp Hc Hst Hle Hsp. unfold symspi_spi_xfer_done_callback.
  unfold bind at 1. unfold SYMSPI_SWITCH_STRICT.
  rewrite (switch_strict_open _ _ _ _ Hp Hc), Hst.
  change (SYMSPI_STATE_XFER =? SYMSPI_STATE_XFER) with true.
  cbv iota. cbn [negb].
  unfold bind at 1.
  rewrite (rd_private _ _ _ (private_of_set_private _ _)).
  cbn [last_error set_state]. rewrite Hle.
  change (negb (SYMSPI_SUCCESS =? SYMSPI_SUCCESS)) with false. cbv iota.
  unfold bind at 1.
  rewrite (rd_private _ _ _ (private_of_set_private _ _)).
  cbn [spi_msg set_state]. rewrite Hsp.
  change (negb (0 =? 0)) with false. cbv iota.
  unfold bind at 1.
  rewrite (wr_private _ _ _ (private_of_set_private _ _)).
  unfold __symspi_schedule_work.
  rewrite (emit_eq _ _ _ (private_of_set_private _ _)).
  reflexivity.
Qed.

(* the return to Idle, no error pending *)
Lemma to_idle_sequence_eq pf fuel race m pr start_next_xfer :
  p (symspi m) = Some pr ->
  close_request pr = false ->
  (state pr <> SYMSPI_STATE_ERROR -> their_flag_drop_counter pr <= 1) ->
  let m1 :=
    stepped (set_delayed_xfer_request false
               (set_state SYMSPI_STATE_IDLE pr)) [EvDelTimerSync] m in
  symspi_to_idle_sequence pf fuel race (state pr) start_next_xfer
    SYMSPI_SUCCESS m
  = if start_next_xfer || delayed_xfer_request pr
       || ((their_flag_drop_counter pr =? 1) && their_flag_raised pr m)
    then symspi_data_xchange_default pf fuel race m1
    else Ret SYMSPI_SUCCESS m1.
Proof.
  intros Hp Hc Hcnt m1.
  unfold symspi_to_idle_sequence, symspi_to_idle_sequence_open.
  unfold bind at 1. unfold __symspi_stop_timeout_timer_sync.
  rewrite (emit_eq _ _ _ Hp).
  unfold bind at 1. rewrite (rd_private _ _ _ (stepped_private _ _ _)).
  unfold bind at 1.
  rewrite (switch_strict_open _ _ _ _ (stepped_private _ _ _) Hc).
  rewrite Z.eqb_refl.
  set (pr1 := set_state SYMSPI_STATE_IDLE pr).
  set (m0 := set_private (Some pr1) _).
  assert (Hp0 : p (symspi m0) = Some pr1) by reflexivity.
  assert (Hquiet :
    (if negb (state pr =? SYMSPI_STATE_ERROR)
     then symspi_try_to_error_sequence pf fuel race SYMSPI_SUCCESS
     else ret SYMSPI_SUCCESS) m0 = Ret SYMSPI_SUCCESS m0).
  { destruct (Z.eqb_spec (state pr) SYMSPI_STATE_ERROR) as [E|E];
      cbn [negb]; [reflexivity|].
    apply (try_to_error_sequence_quiet pf fuel race m0 pr1 Hp0).
    now apply Hcnt. }
  unfold bind at 1. rewrite Hquiet.
  change (negb (SYMSPI_SUCCESS =? SYMSPI_SUCCESS)) with false. cbv iota.
  unfold bind at 1. rewrite (rd_private _ _ _ Hp0).
  unfold bind at 1. rewrite (wr_private _ _ _ Hp0).
  change (delayed_xfer_request pr1) with (delayed_xfer_request pr).
  rewrite <- orb_assoc, orb_diag.
  destruct (start_next_xfer || delayed_xfer_request pr).
  - unfold bind at 1. unfold ret at 1. cbn [orb]. reflexivity.
  - unfold bind at 1.
    rewrite (is_their_request_eq _ _ (private_of_set_private _ _)).
    cbn [orb].
    change (their_flag_drop_counter (set_delayed_xfer_request false pr1))
      with (their_flag_drop_counter pr).
    change (their_flag_raised (set_delayed_xfer_request false pr1)
              (set_private (Some (set_delayed_xfer_request false pr1)) m0))
      with (their_flag_raised pr m).
    now destruct ((their_flag_drop_counter pr =? 1)
                  && their_flag_raised pr m).
Qed.

(* the flag silence period: usleep_range(675, 825) *)
Lemma wait_flag_silence_period_eq m pr :
  p (symspi m) = Some pr ->
  symspi_wait_flag_silence_period m
    = Ret tt (stepped pr [EvUsleepRange 675 825] m).
Proof. intros Hp. apply (emit_eq _ _ _ Hp). Qed.

(* the postprocessing work of a consumer without done callback *)
Lemma postprocessing_sequence_eq pf fuel race m pr :
  p (symspi m) = Some pr ->
  close_request pr = false ->
  state pr = SYMSPI_STATE_POSTPROCESSING ->
  done_callback (current_xfer pr) = 0 ->
  their_flag_drop_counter pr <= 1 ->
  let m1 :=
    set_our_flag_raw (our_flag_inactive pr)
      (stepped
         (set_delayed_xfer_request false
            (set_state SYMSPI_STATE_IDLE (count_current_xfer pr)))
         [EvDelTimerSync; EvUsleepRange 675 825;
          EvGpioSetOurFlag (our_flag_inactive pr)] m) in
  symspi_postprocessing_sequence pf fuel race m
  = if delayed_xfer_request pr
       || ((their_flag_drop_counter pr =? 1) && their_flag_raised pr m)
    then (symspi_data_xchange_default pf fuel race ;; ret tt) m1
    else Ret tt m1.
Proof.
  intros Hp Hc Hst Hdone Hcnt m1.
  unfold symspi_postprocessing_sequence.
  unfold bind at 1. rewrite (rd_private _ _ _ Hp), Hst.
  change (negb (SYMSPI_STATE_POSTPROCESSING =? SYMSPI_STATE_POSTPROCESSING))
    with false. cbv iota.
  unfold bind at 1. unfold symspi_inc_current_xfer_counter.
  rewrite (wr_private _ _ _ Hp). fold (count_current_xfer pr).
  set (pr1 := count_current_xfer pr).
  unfold bind at 1. rewrite (rd_private _ _ _ (private_of_set_private _ _)).
  unfold bind at 1. rewrite (rd_private _ _ _ (private_of_set_private _ _)).
  change (done_callback (current_xfer pr1))
    with (done_callback (current_xfer pr)).
  rewrite Hdone. change (0 =? 0) with true. cbv iota.
  unfold bind at 1. unfold ret at 1. cbv iota beta.
  unfold bind at 1.
  rewrite (our_flag_drop_eq _ _ (private_of_set_private _ _)).
  unfold bind at 1.
  set (m2 := set_our_flag_raw _ _).
  assert (Hp2 : p (symspi m2) = Some pr1) by reflexivity.
  rewrite (wait_flag_silence_period_eq _ _ Hp2).
  unfold bind at 1.
  pose proof (to_idle_sequence_eq pf fuel race
                (stepped pr1 [EvUsleepRange 675 825] m2) pr1 false
                (stepped_private _ _ _) Hc (fun _ => Hcnt)) as Eidle.
  change (state pr1) with (state pr) in Eidle. rewrite Hst in Eidle.
  { rewrite Eidle. clear Eidle.
    cbn [orb].
    change (delayed_xfer_request pr1) with (delayed_xfer_request pr).
    change (their_flag_drop_counter pr1) with (their_flag_drop_counter pr).
    change (their_flag_raised pr1 (stepped pr1 [EvUsleepRange 675 825] m2))
      with (their_flag_raised pr m).
    change (our_flag_inactive pr1) with (our_flag_inactive pr) in *.
    destruct (delayed_xfer_request pr
              || (their_flag_drop_counter pr =? 1) && their_flag_raised pr m).
    - unfold bind. reflexivity.
    - reflexivity. }
Qed.

(** ** The handshake, as its users see it *)

(** X10: the edges of the peer flag move a waiting master on.  A rising
    edge taken in WaitingRdy (no ready line handled by the controller)
    submits the transfer: state Xfer, drop counter 0, timeout stopped,
    and this whatever spi_async answers.  A falling edge taken in
    WaitingPrev with the drop counter at 0 makes the counter 1 and leaves
    WaitingPrev: for Xfer, the transfer submitted, when the controller
    handles the ready line, for WaitingRdy with the timeout re-armed when
    not.  Each edge is counted in their_flag_edges. *)
Theorem peer_edges_advance_handshake
    (pf : platform) (fuel : nat) (race : M unit) (m : machine)
    (pr : symspi_dev_private) :
  p (symspi m) = Some pr ->
  close_request pr = false ->
  spi_master_mode pr = true ->
  (hardware_spi_rdy pr = false ->
   state pr = SYMSPI_STATE_WAITING_RDY ->
   their_flag_raised pr m = true ->
   symspi_their_flag_isr pf fuel race m
   = Ret tt
       (stepped (count_edge (submitted pr))
          [EvSpiAsync; EvDropCounterStore 0; EvDelTimer] m))
  /\ (state pr = SYMSPI_STATE_WAITING_PREV ->
      their_flag_drop_counter pr = 0 ->
      their_flag_raised pr m = false ->
      symspi_their_flag_isr pf fuel race m
      = Ret tt
          (if hardware_spi_rdy pr
           then stepped (count_edge (submitted pr))
                  [EvSpiAsync; EvDropCounterStore 0; EvDelTimer;
                   EvDropCounterAddFetch 1] m
           else stepped
                  (count_edge
                     (set_state SYMSPI_STATE_WAITING_RDY
                        (set_their_flag_drop_counter 1 pr)))
                  [EvModTimer; EvDropCounterAddFetch 1] m)).
Proof.
  intros Hp Hc Hm. split.
  - intros Hhw Hst Hr.
    now apply their_flag_isr_rising_in_waiting_rdy.
  - intros Hst Hcnt Hr.
    now apply their_flag_isr_falling_in_waiting_prev.
Qed.

Lemma peer_edges_advance_handshake_witness :
  symspi_their_flag_isr demo_platform 1 (ret tt)
    (peer_raises_flag (idle_with (set_state SYMSPI_STATE_WAITING_RDY)))
  = Ret tt
      (stepped
         (count_edge (submitted (set_state SYMSPI_STATE_WAITING_RDY
                                   idle_private)))
         [EvSpiAsync; EvDropCounterStore 0; EvDelTimer]
         (peer_raises_flag (idle_with (set_state SYMSPI_STATE_WAITING_RDY)))).
Proof.
  destruct (peer_edges_advance_handshake demo_platform 1 (ret tt)
              (peer_raises_flag
                 (idle_with (set_state SYMSPI_STATE_WAITING_RDY)))
              (set_state SYMSPI_STATE_WAITING_RDY idle_private)
              eq_refl eq_refl eq_refl) as [H _].
  apply H; reflexivity.
Defined.

(** X11: the postprocessing work of a consumer without done callback, the
    peer showing no error.  It counts the transfer in the current xfer,
    drops our flag, waits the flag silence period (675 to 825 us), stops
    the timeout and switches Postprocessing to Idle.  When no request was
    latched and the peer is not requesting, that is all and the device is
    Idle; when delayed_xfer_request was latched, the latch is cleared and
    the next transfer is started at once: the work ends with our flag
    raised again and the device in WaitingPrev, WaitingRdy or Xfer. *)
Theorem postprocessing_returns_to_idle
    (pf : platform) (fuel : nat) (race : M unit) (m : machine)
    (pr : symspi_dev_private) :
  p (symspi m) = Some pr ->
  close_request pr = false ->
  spi_master_mode pr = true ->
  state pr = SYMSPI_STATE_POSTPROCESSING ->
  done_callback (current_xfer pr) = 0 ->
  0 <= their_flag_drop_counter pr <= 1 ->
  0 < FULL_DUPLEX_ERROR_NOT_READY pf ->
  valid_device pf m ->
  let idle :=
    set_delayed_xfer_request false
      (set_state SYMSPI_STATE_IDLE (count_current_xfer pr)) in
  let quiet := [EvDelTimerSync; EvUsleepRange 675 825; EvGpioSetOurFlag 0] in
  (delayed_xfer_request pr = false ->
   (their_flag_drop_counter pr =? 1) && their_flag_raised pr m = false ->
   symspi_postprocessing_sequence pf fuel race m
   = Ret tt (set_our_flag_raw 0 (stepped idle quiet m)))
  /\ (delayed_xfer_request pr = true ->
      exists m' st events,
        symspi_postprocessing_sequence pf fuel race m = Ret tt m'
        /\ p (symspi m')
           = Some (set_their_flag_drop_counter
                     (if st =? SYMSPI_STATE_XFER then 0
                      else their_flag_drop_counter pr)
                     (set_state st idle))
        /\ (st = SYMSPI_STATE_WAITING_PREV \/ st = SYMSPI_STATE_WAITING_RDY
            \/ st = SYMSPI_STATE_XFER)
        /\ our_flag_raw m' = SYMSPI_MASTER_FLAG_ACTIVE_VALUE
        /\ trace m'
           = events
             ++ EvGpioSetOurFlag SYMSPI_MASTER_FLAG_ACTIVE_VALUE
                :: quiet ++ trace m).
Proof.
  intros Hp Hc Hm Hst Hdone Hcnt Hnr Hdev idle quiet.
  rewrite (postprocessing_sequence_eq pf fuel race m pr Hp Hc Hst Hdone
             ltac:(lia)).
  unfold our_flag_inactive. rewrite Hm.
  change (if SYMSPI_MASTER_FLAG_ACTIVE_VALUE =? 0 then 1 else 0) with 0.
  fold idle. fold quiet.
  split.
  - intros Hd Hreq. now rewrite Hd, Hreq.
  - intros Hd. rewrite Hd. cbn [orb].
    set (m1 := set_our_flag_raw 0 (stepped idle quiet m)).
    assert (Hp1 : p (symspi m1) = Some idle) by reflexivity.
    unfold bind at 1. rewrite data_xchange_default_eq.
    unfold bind at 1.
    rewrite (data_xchange_none_eq pf fuel race m1 idle false Hp1 Hc Hm
               eq_refl ltac:(cbn; lia) Hnr Hdev).
    change (their_flag_drop_counter idle) with (their_flag_drop_counter pr).
    change (hardware_spi_rdy idle) with (hardware_spi_rdy pr).
    change (their_flag_raised idle m1) with (their_flag_raised pr m).
    destruct (their_flag_drop_counter pr =? 1) eqn:Hone; cbn [negb].
    + destruct (hardware_spi_rdy pr);
        [|destruct (their_flag_raised pr m)].
      * eexists _, SYMSPI_STATE_XFER,
          [EvSpiAsync; EvDropCounterStore 0; EvDelTimer; EvModTimer].
        split; [reflexivity|].
        split; [reflexivity|]. split; [auto|]. split; reflexivity.
      * eexists _, SYMSPI_STATE_XFER,
          [EvSpiAsync; EvDropCounterStore 0; EvDelTimer; EvModTimer;
           EvModTimer].
        split; [reflexivity|].
        split; [reflexivity|]. split; [auto|]. split; reflexivity.
      * eexists _, SYMSPI_STATE_WAITING_RDY, [EvModTimer; EvModTimer].
        split; [reflexivity|].
        split; [|split; [auto|split; reflexivity]].
        cbn. destruct pr as [nx cx]; destruct cx; reflexivity.
    + eexists _, SYMSPI_STATE_WAITING_PREV, [EvModTimer].
      split; [reflexivity|].
      split; [|split; [auto|split; reflexivity]].
      cbn. destruct pr as [nx cx]; destruct cx; reflexivity.
Qed.

(** X12: a complete transfer brings an idle master back to where it was.
    From Idle with the peer released (drop counter 1, peer flag low, no
    ready line handled by the controller, no done callback, no error
    pending), the consumer's request, the rising edge of the peer flag,
    the completion of the bus transfer, the postprocessing work and the
    falling edge of the peer flag leave the private part as it was except
    for three counters: the transfer is counted in the current xfer and in
    xfers_done_ok, and two edges in their_flag_edges.  The state is Idle
    again, the drop counter 1 again, our flag is low, and the kernel was
    called in this order: our flag raised, timeout armed twice and
    stopped, drop counter zeroed, spi_async, postprocessing work queued,
    our flag dropped, silence period, timeout stopped. *)
Theorem nominal_transfer_returns_to_idle
    (pf : platform) (fuel : nat) (race : M unit) (m : machine)
    (pr : symspi_dev_private) :
  p (symspi m) = Some pr ->
  close_request pr = false ->
  spi_master_mode pr = true ->
  hardware_spi_rdy pr = false ->
  state pr = SYMSPI_STATE_IDLE ->
  their_flag_drop_counter pr = 1 ->
  delayed_xfer_request pr = false ->
  last_error pr = SYMSPI_SUCCESS ->
  status (spi_msg pr) = 0 ->
  done_callback (current_xfer pr) = 0 ->
  their_flag_raw m = 0 ->
  0 < FULL_DUPLEX_ERROR_NOT_READY pf ->
  valid_device pf m ->
  let m' := nominal_transfer pf fuel race m in
  p (symspi m')
    = Some (count_edge (count_edge (count_xfer_done (count_current_xfer pr))))
  /\ state_word m' = Some SYMSPI_STATE_IDLE
  /\ drop_counter_word m' = Some 1
  /\ our_flag_raw m' = 0
  /\ their_flag_raw m' = 0
  /\ trace m'
     = [EvDropCounterAddFetch 1; EvDelTimerSync; EvUsleepRange 675 825;
        EvGpioSetOurFlag 0; EvQueueWork postprocessing_work; EvSpiAsync;
        EvDropCounterStore 0; EvDelTimer; EvModTimer; EvModTimer;
        EvGpioSetOurFlag 1] ++ trace m.
Proof.
  intros Hp Hc Hm Hhw Hst Hcnt Hdl Hle Hsp Hdone Hraw Hnr Hdev m'.
  eassert (E : m' = _).
  { subst m'. unfold nominal_transfer, run_operation.
  (* the request *)
  rewrite (data_xchange_none_eq pf fuel race m pr false Hp Hc Hm Hst
             ltac:(lia) Hnr Hdev).
  rewrite Hcnt, Hhw. change (negb (1 =? 1)) with false. cbv iota.
  assert (Hlow : their_flag_raised pr m = false)
    by (unfold their_flag_raised; now rewrite Hm, Hraw).
  rewrite Hlow. unfold final at 5.
  set (pr1 := set_state SYMSPI_STATE_WAITING_RDY pr).
  match goal with
  | |- context [peer_raises_flag ?x] => set (m1 := peer_raises_flag x)
  end.
  (* the rising edge *)
  assert (Hp1 : p (symspi m1) = Some pr1) by reflexivity.
  assert (Hr1 : their_flag_raised pr1 m1 = true)
    by (unfold their_flag_raised; cbn; now rewrite Hm).
  rewrite (their_flag_isr_rising_in_waiting_rdy pf fuel race m1 pr1 Hp1
             Hc Hm Hhw eq_refl Hr1).
  unfold final at 4.
  set (pr2 := count_edge (submitted pr1)).
  set (m2 := stepped pr2 _ m1).
  (* the completion *)
  rewrite (xfer_done_callback_ok pf fuel race m2 pr2 eq_refl Hc eq_refl
             Hle Hsp).
  unfold final at 3.
  set (pr3 := count_xfer_done (set_state SYMSPI_STATE_POSTPROCESSING pr2)).
  set (m3 := stepped pr3 _ m2).
  (* the postprocessing work *)
  rewrite (postprocessing_sequence_eq pf fuel race m3 pr3 eq_refl Hc eq_refl
             Hdone ltac:(cbn; lia)).
  change (delayed_xfer_request pr3) with (delayed_xfer_request pr).
  rewrite Hdl.
  change (their_flag_drop_counter pr3 =? 1) with false.
  cbn [orb andb]. unfold final at 2.
  change (our_flag_inactive pr3) with (our_flag_inactive pr).
  unfold our_flag_inactive. rewrite Hm.
  change (if SYMSPI_MASTER_FLAG_ACTIVE_VALUE =? 0 then 1 else 0) with 0.
  set (pr4 := set_delayed_xfer_request false _).
  match goal with
  | |- context [peer_drops_flag ?x] => set (m4 := peer_drops_flag x)
  end.
  (* the falling edge *)
  assert (Hp4 : p (symspi m4) = Some pr4) by reflexivity.
  unfold symspi_their_flag_isr.
  unfold bind at 1. rewrite (rd_private _ _ _ Hp4).
  change (state pr4 =? SYMSPI_STATE_COLD) with false. cbv iota.
  unfold bind at 1. rewrite (their_flag_is_set_eq _ _ Hp4).
  assert (Hr4 : their_flag_raised pr4 m4 = false)
    by (unfold their_flag_raised; cbn; now rewrite Hm).
  rewrite Hr4.
  unfold bind at 1. unfold symspi_their_flag_drop_isr_sequence.
  unfold bind at 1. unfold atomic_add_fetch_drop_counter.
  unfold bind at 1. rewrite (rd_private _ _ _ Hp4).
  change (to_int (their_flag_drop_counter pr4 + 1)) with 1.
  unfold bind at 1. rewrite (wr_private _ _ _ Hp4).
  unfold bind at 1.
  rewrite (emit_eq _ _ _ (private_of_set_private _ _)).
  unfold ret at 1.
  set (pr5 := set_their_flag_drop_counter 1 pr4).
  unfold bind at 1. rewrite (rd_private _ _ _ (stepped_private _ _ _)).
  change (spi_master_mode pr5) with (spi_master_mode pr). rewrite Hm.
  change ((1 =? 1) && true) with true. cbv iota.
  unfold bind at 1.
  rewrite (try_leave_waiting_prev_eq _ pr5 (stepped_private _ _ _) Hc Hm).
  change (negb (state pr5 =? SYMSPI_STATE_WAITING_PREV)) with true.
  cbv iota. unfold ret at 1.
  rewrite (wr_private _ _ _ (stepped_private _ _ _)).
  unfold final. subst m4 pr5 pr4 m3 pr3 m2 pr2 m1 pr1. reflexivity. }
  rewrite E. clear E m'.
  split.
  { rewrite private_of_set_private. f_equal.
    clear - Hc Hm Hhw Hst Hcnt Hdl Hle Hsp.
    destruct pr as [nx cx sx sm wq st dc mm hw irq dl cl fc le mg er il prt
                    inf io].
    cbn in *. subst. destruct cx, io. reflexivity. }
  split; [reflexivity|]. split; [reflexivity|].
  split; [reflexivity|]. split; [reflexivity|]. reflexivity.
Qed.

(** X13: a message refused by spi_async is reported to the caller and
    recorded nowhere.  symspi_data_xchange started from Idle (peer
    released, transfer submitted at once) returns -SYMSPI_ERROR_SPI, and
    the device is as after a submission that went well: state Xfer, drop
    counter 0, timeout stopped, last_error, ledger and counters untouched,
    no recovery work queued.  A following request is answered NotReady
    and latched. *)
Theorem spi_async_refusal_is_not_recorded
    (pf : platform) (fuel : nat) (race : M unit) (m : machine)
    (pr : symspi_dev_private) :
  p (symspi m) = Some pr ->
  close_request pr = false ->
  spi_master_mode pr = true ->
  state pr = SYMSPI_STATE_IDLE ->
  their_flag_drop_counter pr = 1 ->
  hardware_spi_rdy pr || their_flag_raised pr m = true ->
  spi_async_result m <> 0 ->
  0 < FULL_DUPLEX_ERROR_NOT_READY pf ->
  valid_device pf m ->
  exists m' timer,
    symspi_data_xchange pf fuel race None false m
      = Ret (- SYMSPI_ERROR_SPI, None) m'
    /\ p (symspi m') = Some (submitted pr)
    /\ trace m'
       = [EvSpiAsync; EvDropCounterStore 0; EvDelTimer] ++ timer
         ++ EvGpioSetOurFlag SYMSPI_MASTER_FLAG_ACTIVE_VALUE :: trace m
    /\ Forall (eq EvModTimer) timer
    /\ symspi_data_xchange pf fuel race None false m'
       = Ret (- FULL_DUPLEX_ERROR_NOT_READY pf, None)
           (set_private
              (Some (set_delayed_xfer_request true (submitted pr))) m').
Proof.
  intros Hp Hc Hm Hst Hcnt Hgo Hspi Hnr Hdev.
  rewrite (data_xchange_none_eq pf fuel race m pr false Hp Hc Hm Hst
             ltac:(lia) Hnr Hdev).
  rewrite Hcnt. change (negb (1 =? 1)) with false. cbv iota.
  assert (Hres : do_xfer_result m = - SYMSPI_ERROR_SPI).
  { unfold do_xfer_result. apply Z.eqb_neq in Hspi. now rewrite Hspi. }
  rewrite Hres.
  assert (Hbusy : forall m1,
    p (symspi m1) = Some (submitted pr) ->
    valid_device pf m1 ->
    symspi_data_xchange pf fuel race None false m1
    = Ret (- FULL_DUPLEX_ERROR_NOT_READY pf, None)
        (set_private
           (Some (set_delayed_xfer_request true (submitted pr))) m1)).
  { intros m1 Hp1 Hd1.
    apply (request_while_busy_eq pf fuel race m1 (submitted pr) None false
             Hnr Hp1 Hc ltac:(discriminate) Hd1 I). }
  destruct (hardware_spi_rdy pr); cbn [orb] in Hgo.
  - eexists _, [EvModTimer]. split; [reflexivity|].
    split; [reflexivity|]. split; [reflexivity|].
    split; [repeat constructor|]. now apply Hbusy.
  - rewrite Hgo. eexists _, [EvModTimer; EvModTimer].
    split; [reflexivity|].
    split; [reflexivity|]. split; [reflexivity|].
    split; [repeat constructor|]. now apply Hbusy.
Qed.

Lemma demo_device_is_valid (f : symspi_dev_private -> symspi_dev_private) :
  valid_device demo_platform (idle_with f).
Proof. repeat split. Qed.

Lemma data_xchange_from_idle_witness :
  exists res m' pr',
    symspi_data_xchange demo_platform 1 (ret tt) None false idle_machine
      = Ret (res, None) m'
    /\ p (symspi m') = Some pr'
    /\ our_flag_raw m' = SYMSPI_MASTER_FLAG_ACTIVE_VALUE
    /\ (their_flag_drop_counter idle_private = 0 ->
        res = SYMSPI_SUCCESS
        /\ pr' = set_state SYMSPI_STATE_WAITING_PREV idle_private
        /\ hd_error (trace m') = Some EvModTimer)
    /\ (their_flag_drop_counter idle_private = 1 ->
        hardware_spi_rdy idle_private
        || their_flag_raised idle_private idle_machine = true ->
        res = do_xfer_result idle_machine
        /\ pr' = submitted idle_private
        /\ firstn 3 (trace m')
           = [EvSpiAsync; EvDropCounterStore 0; EvDelTimer])
    /\ (their_flag_drop_counter idle_private = 1 ->
        hardware_spi_rdy idle_private
        || their_flag_raised idle_private idle_machine = false ->
        res = SYMSPI_SUCCESS
        /\ pr' = set_state SYMSPI_STATE_WAITING_RDY idle_private
        /\ hd_error (trace m') = Some EvModTimer).
Proof.
  apply (data_xchange_from_idle demo_platform 1 (ret tt) idle_machine
           idle_private false); try reflexivity.
  - vm_compute. split; discriminate.
  - apply (demo_device_is_valid (fun pr => pr)).
Defined.

Lemma postprocessing_returns_to_idle_witness :
  symspi_postprocessing_sequence demo_platform 1 (ret tt)
    (idle_with (fun pr =>
       set_their_flag_drop_counter 0
         (set_state SYMSPI_STATE_POSTPROCESSING pr)))
  = Ret tt
      (set_our_flag_raw 0
         (stepped
            (set_delayed_xfer_request false
               (set_state SYMSPI_STATE_IDLE
                  (count_current_xfer
                     (set_their_flag_drop_counter 0
                        (set_state SYMSPI_STATE_POSTPROCESSING
                           idle_private)))))
            [EvDelTimerSync; EvUsleepRange 675 825; EvGpioSetOurFlag 0]
            (idle_with (fun pr =>
               set_their_flag_drop_counter 0
                 (set_state SYMSPI_STATE_POSTPROCESSING pr))))).
Proof.
  assert (Hc : 0 <= 0 <= 1) by lia.
  destruct (postprocessing_returns_to_idle demo_platform 1 (ret tt)
              (idle_with (fun pr =>
                 set_their_flag_drop_counter 0
                   (set_state SYMSPI_STATE_POSTPROCESSING pr)))
              (set_their_flag_drop_counter 0
                 (set_state SYMSPI_STATE_POSTPROCESSING idle_private))
              eq_refl eq_refl eq_refl eq_refl eq_refl Hc eq_refl
              (demo_device_is_valid _)) as [H _].
  apply H; reflexivity.
Defined.

Lemma nominal_transfer_returns_to_idle_witness :
  p (symspi (nominal_transfer demo_platform 1 (ret tt) idle_machine))
    = Some (count_edge
              (count_edge (count_xfer_done (count_current_xfer idle_private))))
  /\ state_word (nominal_transfer demo_platform 1 (ret tt) idle_machine)
     = Some SYMSPI_STATE_IDLE
  /\ drop_counter_word (nominal_transfer demo_platform 1 (ret tt) idle_machine)
     = Some 1
  /\ our_flag_raw (nominal_transfer demo_platform 1 (ret tt) idle_machine) = 0
  /\ their_flag_raw (nominal_transfer demo_platform 1 (ret tt) idle_machine)
     = 0
  /\ trace (nominal_transfer demo_platform 1 (ret tt) idle_machine)
     = [EvDropCounterAddFetch 1; EvDelTimerSync; EvUsleepRange 675 825;
        EvGpioSetOurFlag 0; EvQueueWork postprocessing_work; EvSpiAsync;
        EvDropCounterStore 0; EvDelTimer; EvModTimer; EvModTimer;
        EvGpioSetOurFlag 1] ++ trace idle_machine.
Proof.
  apply (nominal_transfer_returns_to_idle demo_platform 1 (ret tt)
           idle_machine idle_private); try reflexivity.
  apply (demo_device_is_valid (fun pr => pr)).
Defined.

Lemma spi_async_refusal_is_not_recorded_witness :
  exists m' timer,
    symspi_data_xchange demo_platform 1 (ret tt) None false
      (set_spi_async_result (-5) (idle_with (set_hardware_spi_rdy true)))
      = Ret (- SYMSPI_ERROR_SPI, None) m'
    /\ p (symspi m') = Some (submitted (set_hardware_spi_rdy true idle_private))
    /\ trace m'
       = [EvSpiAsync; EvDropCounterStore 0; EvDelTimer] ++ timer
         ++ EvGpioSetOurFlag SYMSPI_MASTER_FLAG_ACTIVE_VALUE
            :: trace
                 (set_spi_async_result (-5)
                    (idle_with (set_hardware_spi_rdy true)))
    /\ Forall (eq EvModTimer) timer
    /\ symspi_data_xchange demo_platform 1 (ret tt) None false m'
       = Ret (- FULL_DUPLEX_ERROR_NOT_READY demo_platform, None)
           (set_private
              (Some (set_delayed_xfer_request true
                       (submitted (set_hardware_spi_rdy true idle_private))))
              m').
Proof.
  apply (spi_async_refusal_is_not_recorded demo_platform 1 (ret tt)
           (set_spi_async_result (-5) (idle_with (set_hardware_spi_rdy true)))
           (set_hardware_spi_rdy true idle_private));
    try reflexivity.
  - discriminate.
  - repeat split.
Defined.

(** ** An init that fails half-way *)

Section KeepsProp.

Context (P : symspi_dev_private -> Prop).

Lemma kp_ret {A} (a : A) : keeps_prop P (ret a).
Proof. intros m pr Hp HP. now exists a, m, pr. Qed.

Lemma kp_bind {A B} (c : M A) (k : A -> M B) :
  keeps_prop P c -> (forall a, keeps_prop P (k a)) -> keeps_prop P (bind c k).
Proof.
  intros Hc Hk m pr Hp HP.
  destruct (Hc m pr Hp HP) as [a [m1 [pr1 [E [Hp1 [HP1 F1]]]]]].
  destruct (Hk a m1 pr1 Hp1 HP1) as [b [m2 [pr2 [E2 [Hp2 [HP2 F2]]]]]].
  exists b, m2, pr2. unfold bind. rewrite E.
  repeat split; try assumption. congruence.
Qed.

Lemma kp_rd {X} (f : symspi_dev_private -> X) : keeps_prop P (rd f).
Proof.
  intros m pr Hp HP. exists (f pr), m, pr.
  now rewrite (rd_private _ _ _ Hp).
Qed.

Lemma kp_wr (f : symspi_dev_private -> symspi_dev_private) :
  (forall pr, P pr -> P (f pr)) -> keeps_prop P (wr f).
Proof.
  intros Hf m pr Hp HP. exists tt, (set_private (Some (f pr)) m), (f pr).
  rewrite (wr_private _ _ _ Hp). repeat split; auto.
Qed.

Lemma kp_env {A} (a : machine -> A) (g : machine -> machine) :
  (forall m, symspi (g m) = symspi m) ->
  keeps_prop P (fun m => Ret (a m) (g m)).
Proof.
  intros Hg m pr Hp HP. exists (a m), (g m), pr. rewrite Hg. auto.
Qed.

Lemma kp_rd_dev {X} (f : symspi_dev -> X) : keeps_prop P (rd_dev f).
Proof. intros m pr Hp HP. now exists (f (symspi m)), m, pr. Qed.

Lemma kp_rd_env {X} (f : machine -> X) : keeps_prop P (rd_env f).
Proof. intros m pr Hp HP. now exists (f m), m, pr. Qed.

Lemma kp_emit (e : event) : keeps_prop P (emit e).
Proof. apply (kp_env (fun _ => tt)). reflexivity. Qed.

End KeepsProp.

Create HintDb symspi_prop.

#[local] Hint Resolve kp_ret kp_rd kp_rd_dev kp_rd_env kp_emit : symspi_prop.

Lemma latch_SYMSPI_ERR_REC idx err threshold pr :
  magic (SYMSPI_ERR_REC idx err threshold pr) = magic pr
  /\ close_request (SYMSPI_ERR_REC idx err threshold pr) = close_request pr
  /\ state (SYMSPI_ERR_REC idx err threshold pr) = state pr.
Proof. unfold SYMSPI_ERR_REC. now destruct (errors pr !! idx). Qed.

Lemma kp_SYMSPI_ERR_REC idx err threshold :
  keeps_prop init_unfinished (wr (SYMSPI_ERR_REC idx err threshold)).
Proof.
  apply kp_wr. intros pr. unfold init_unfinished.
  destruct (latch_SYMSPI_ERR_REC idx err threshold pr) as [-> [-> ->]].
  auto.
Qed.

#[local] Hint Resolve kp_SYMSPI_ERR_REC : symspi_prop.

Ltac keeps_prop :=
  repeat first
    [ solve [auto with symspi_prop]
    | apply kp_bind; [|intros ?]
    | apply kp_wr; intros ? ?;
      first [ assumption
            | match goal with
              | H : init_unfinished _ |- _ =>
                  destruct H as (? & ? & ?); repeat split;
                  first [assumption | reflexivity]
              end ]
    | apply kp_env; intros ?; reflexivity
    | match goal with
      | |- keeps_prop _ (if ?c then _ else _) => destruct c
      | |- keeps_prop _ (match ?x with _ => _ end) => destruct x
      end ].

(* the first block of init sets the magic and the latch; the state is
   the Cold of the zeroed allocation *)
Lemma init_to_xfer_created_unfinished pf default_xfer m pr :
  p (symspi m) = Some pr ->
  state pr = SYMSPI_STATE_COLD ->
  exists res m' pr',
    init_to_xfer_created pf default_xfer m = Ret res m'
    /\ p (symspi m') = Some pr' /\ init_unfinished pr'
    /\ set_p None (symspi m') = set_p None (symspi m).
Proof.
  intros Hp Hst. unfold init_to_xfer_created, __SYMSPI_INIT_LEVEL.
  unfold bind at 1. rewrite (wr_private _ _ _ Hp).
  unfold bind at 1.
  rewrite (wr_private _ _ _ (private_of_set_private _ _)).
  unfold bind at 1.
  rewrite (wr_private _ _ _ (private_of_set_private _ _)).
  rewrite !set_private_twice.
  set (pr1 := set_close_request true _).
  assert (H1 : init_unfinished pr1) by (now repeat split).
  assert (Hk : keeps_prop init_unfinished
    (wr (set_last_error SYMSPI_SUCCESS) ;;
     wr (set_next_xfer_id SYMSPI_INITIAL_XFER_ID) ;;
     __symspi_error_report_init ;;
     symspi_xfer_init_copy pf default_xfer)).
  { unfold __symspi_error_report_init, symspi_xfer_init_copy,
      symspi_do_resize_xfer, krealloc_call.
    keeps_prop. }
  destruct (Hk (set_private (Some pr1) m) pr1 (private_of_set_private _ _)
              H1) as [res [m' [pr' [E [Hp' [HP' F]]]]]].
  exists res, m', pr'. split; [exact E|]. repeat split; try apply HP'.
  - exact Hp'.
  - rewrite F. reflexivity.
Qed.

Lemma kp_init_to_workqueue_init pf default_xfer :
  keeps_prop init_unfinished (init_to_workqueue_init pf default_xfer).
Proof.
  unfold init_to_workqueue_init, __SYMSPI_INIT_LEVEL,
    symspi_get_next_xfer_id, symspi_do_update_native_spi_xfer_data,
    __symspi_init_workqueue.
  keeps_prop.
Qed.

Lemma kp_init_to_gpio_irqs pf :
  keeps_prop init_unfinished (init_to_gpio_irqs pf).
Proof.
  unfold init_to_gpio_irqs, __SYMSPI_INIT_LEVEL, symspi_our_flag_drop,
    gpiod_set_raw_value_our_flag, symspi_init_gpio_irqs.
  keeps_prop.
Qed.

(* symspi_close on a device whose latch is set *)
Lemma close_latched pf m pr :
  p (symspi m) = Some pr ->
  magic pr = SYMSPI_PRIVATE_MAGIC ->
  close_request pr = true ->
  symspi_close pf m = Ret (- EALREADY) m.
Proof.
  intros Hp Hm Hc. unfold symspi_close.
  apply Z.eqb_eq in Hm. now rewrite Hp, Hm, Hc.
Qed.

(* symspi_init_private when it fails: the symspi_close it calls is
   refused by the latch init itself has set *)
Lemma init_private_failure pf default_xfer m pr res dx' m' :
  p (symspi m) = Some pr ->
  state pr = SYMSPI_STATE_COLD ->
  symspi_init_private pf default_xfer m = Ret (res, dx') m' ->
  res <> SYMSPI_SUCCESS ->
  exists pr',
    p (symspi m') = Some pr' /\ init_unfinished pr'
    /\ set_p None (symspi m') = set_p None (symspi m).
Proof.
  intros Hp Hst H Hres. unfold symspi_init_private in H.
  destruct (init_to_xfer_created_unfinished pf default_xfer m pr Hp Hst)
    as [r1 [m1 [pr1 [E1 [Hp1 [HP1 F1]]]]]].
  rewrite (bind_eq _ _ _ _ _ E1) in H.
  assert (Hclose : forall m0 pr0, p (symspi m0) = Some pr0 ->
            init_unfinished pr0 ->
            symspi_close pf m0 = Ret (- EALREADY) m0).
  { intros m0 pr0 H0 [Hm0 [Hc0 _]]. now apply (close_latched pf m0 pr0). }
  destruct (r1 <? 0).
  { rewrite (bind_eq _ _ _ _ _ (Hclose m1 pr1 Hp1 HP1)) in H.
    unfold ret in H. injection H as _ _ <-. now exists pr1. }
  destruct (kp_init_to_workqueue_init pf default_xfer m1 pr1 Hp1 HP1)
    as [[r2 dx2] [m2 [pr2 [E2 [Hp2 [HP2 F2]]]]]].
  rewrite (bind_eq _ _ _ _ _ E2) in H.
  destruct (r2 <? 0).
  { rewrite (bind_eq _ _ _ _ _ (Hclose m2 pr2 Hp2 HP2)) in H.
    unfold ret in H. injection H as _ _ <-. exists pr2.
    repeat split; try apply HP2; [exact Hp2|congruence]. }
  destruct (kp_init_to_gpio_irqs pf m2 pr2 Hp2 HP2)
    as [r3 [m3 [pr3 [E3 [Hp3 [HP3 F3]]]]]].
  rewrite (bind_eq _ _ _ _ _ E3) in H.
  destruct (negb (r3 =? SYMSPI_SUCCESS)).
  { rewrite (bind_eq _ _ _ _ _ (Hclose m3 pr3 Hp3 HP3)) in H.
    unfold ret in H. injection H as _ _ <-. exists pr3.
    repeat split; try apply HP3; [exact Hp3|congruence]. }
  unfold bind, ret in H.
  destruct (init_to_full pf m3); try discriminate.
  injection H as H _ _. congruence.
Qed.

Lemma valid_device_same pf m m' :
  set_p None (symspi m') = set_p None (symspi m) ->
  valid_device pf m -> valid_device pf m'.
Proof.
  intros F. unfold valid_device.
  assert (spi (symspi m') = spi (symspi m)
          /\ gpiod_our_flag (symspi m') = gpiod_our_flag (symspi m)
          /\ gpiod_their_flag (symspi m') = gpiod_their_flag (symspi m))
    as [-> [-> ->]]; [|auto].
  destruct (symspi m'), (symspi m). cbn in F.
  now injection F as -> -> -> -> -> -> ->.
Qed.

(* symspi_init on a device that carries the magic: the input is checked
   and that is all *)
Lemma init_reuses_private pf fuel race m pr x :
  p (symspi m) = Some pr ->
  magic pr = SYMSPI_PRIVATE_MAGIC ->
  valid_device pf m -> valid_xfer pf x ->
  symspi_init pf fuel race (Some x) m = Ret (SYMSPI_SUCCESS, Some x) m.
Proof.
  intros Hp Hm Hdev Hx. unfold symspi_init.
  rewrite (bind_eq _ _ _ _ _
             (verify_consumer_input_valid pf (Some x) m Hdev Hx)).
  change (negb (SYMSPI_SUCCESS =? SYMSPI_SUCCESS)) with false. cbv iota.
  rewrite (bind_eq (rd_dev p) _ m (p (symspi m)) m eq_refl), Hp.
  apply Z.eqb_eq in Hm. now rewrite Hm.
Qed.

(** X14: an init that fails after the private part was allocated cannot
    be undone.  symspi_init sets close_request before it builds the
    device, so the symspi_close it calls on failure (xfer copy, work
    queue, interrupt) is refused by that latch: init returns its error
    with the private part still allocated, the magic valid, the latch set
    and the state Cold.  From then on symspi_close returns -EALREADY,
    symspi_is_running answers false, and a new symspi_init with valid
    input reports success without initialising anything. *)
Theorem failed_init_cannot_be_undone
    (pf : platform) (fuel : nat) (race : M unit) (m : machine)
    (default_xfer : full_duplex_xfer) (res : Z)
    (x : option full_duplex_xfer) (m' : machine) :
  p (symspi m) = None ->
  valid_device pf m ->
  valid_xfer pf default_xfer ->
  kzalloc_private pf (allocs m) = true ->
  symspi_init pf fuel race (Some default_xfer) m = Ret (res, x) m' ->
  res <> SYMSPI_SUCCESS ->
  exists pr',
    p (symspi m') = Some pr'
    /\ init_unfinished pr'
    /\ symspi_close pf m' = Ret (- EALREADY) m'
    /\ symspi_is_running m' = Ret false m'
    /\ forall x',
         valid_xfer pf x' ->
         symspi_init pf fuel race (Some x') m'
           = Ret (SYMSPI_SUCCESS, Some x') m'.
Proof.
  intros Hp Hdev Hx Hk H Hres.
  rewrite (init_after_allocation pf fuel race default_xfer m Hp
             (verify_consumer_input_valid pf (Some default_xfer) m Hdev Hx)
             Hk) in H.
  revert H.
  assert (Hz : p (symspi (set_private (Some zero_private)
                            (set_allocs (S (allocs m)) m)))
               = Some zero_private) by reflexivity.
  assert (Hf : set_p None
                 (symspi (set_private (Some zero_private)
                            (set_allocs (S (allocs m)) m)))
               = set_p None (symspi m)).
  { destruct m as [d]. destruct d. cbn in *. now subst. }
  revert Hz Hf.
  generalize (set_private (Some zero_private) (set_allocs (S (allocs m)) m)).
  intros m0 Hz Hf H.
  destruct (symspi_init_private pf default_xfer m0) as [[r dx'] m1| |] eqn:E;
    [|unfold bind in H; rewrite E in H; discriminate..].
  rewrite (bind_eq _ _ _ _ _ E) in H.
  destruct (Z.eqb_spec r SYMSPI_SUCCESS) as [->|Hr]; cbn [negb] in H.
  { unfold bind in H.
    destruct (symspi_their_flag_is_set m1) as [[|] m2| |]; try discriminate.
    - destruct (symspi_data_xchange pf fuel race None false m2);
        try discriminate.
      unfold ret in H. congruence.
    - unfold ret in H. congruence. }
  unfold ret in H. injection H as <- _ <-.
  destruct (init_private_failure pf default_xfer m0 zero_private r dx' m1
              Hz eq_refl E Hr) as [pr' [Hp' [HP' F']]].
  exists pr'. split; [exact Hp'|]. split; [exact HP'|].
  destruct HP' as [Hmg [Hcl Hst]].
  split; [now apply (close_latched pf m1 pr')|].
  split.
  - unfold symspi_is_running. now rewrite Hp', Hst.
  - intros x' Hx'. apply (init_reuses_private pf fuel race m1 pr' x' Hp' Hmg);
      [|exact Hx'].
    apply (valid_device_same pf m m1); [congruence|exact Hdev].
Qed.

Lemma failed_init_cannot_be_undone_witness :
  exists x m' pr',
    symspi_init no_workqueue_platform 1 (ret tt) (Some xfer_64_bytes)
      cold_machine
      = Ret (- SYMSPI_ERROR_WORKQUEUE_INIT, x) m'
    /\ p (symspi m') = Some pr'
    /\ init_unfinished pr'
    /\ symspi_close no_workqueue_platform m' = Ret (- EALREADY) m'
    /\ symspi_is_running m' = Ret false m'
    /\ forall x',
         valid_xfer no_workqueue_platform x' ->
         symspi_init no_workqueue_platform 1 (ret tt) (Some x') m'
           = Ret (SYMSPI_SUCCESS, Some x') m'.
Proof.
  eexists. eexists.
  assert (E : symspi_init no_workqueue_platform 1 (ret tt)
                (Some xfer_64_bytes) cold_machine
              = Ret (- SYMSPI_ERROR_WORKQUEUE_INIT, _) _)
    by (vm_compute; reflexivity).
  destruct (failed_init_cannot_be_undone no_workqueue_platform 1 (ret tt)
              cold_machine xfer_64_bytes _ _ _ eq_refl
              ltac:(repeat split) ltac:(split; [discriminate|reflexivity])
              eq_refl E ltac:(discriminate)) as [pr' H].
  exists pr'. split; [exact E|exact H].
Defined.


(** ** close: the teardown *)

Ltac run_close :=
  unfold close_full, close_gpio_irqs, close_workqueue_init,
    close_xfer_created, close_private_allocated, __symspi_info_close,
    __symspi_procfs_close, __SYMSPI_INIT_LEVEL, symspi_close_qpio_irqs,
    symspi_our_flag_drop, gpiod_set_raw_value_our_flag,
    __symspi_stop_timeout_timer_sync, symspi_switch_state_val_forced,
    __symspi_cancel_work_sync, symspi_xfer_free,
    wait_for_final_leave_xfer_completion,
    symspi_do_update_native_spi_xfer_data, symspi_do_resize_xfer,
    emit, bind, rd, wr, rd_dev, ret, final;
  cbn.

(* label full: the info file and the proc directory go, a transfer on the
   wire is waited for; nothing is seen from outside *)
Lemma close_full_eq pf m pr :
  p (symspi m) = Some pr ->
  exists pr',
    close_full pf m = Ret tt (stepped pr' [] m)
    /\ their_flag_irq_number pr' = their_flag_irq_number pr
    /\ spi_master_mode pr' = spi_master_mode pr.
Proof.
  intros Hp. open_machine m Hp. open_private pr. run_close.
  destruct (IS_ERR_OR_NULL pf inf); cbn;
    destruct (IS_ERR_OR_NULL pf prt); cbn;
    destruct (st =? SYMSPI_STATE_XFER); cbn; try destruct fc; cbn;
    eexists; cbv; (split; [reflexivity | split; reflexivity]).
Qed.

(* label gpio_irqs: interrupt line, our flag, timer, state *)
Lemma close_gpio_irqs_eq m pr :
  p (symspi m) = Some pr ->
  0 <= their_flag_irq_number pr ->
  exists pr',
    close_gpio_irqs m
    = Ret tt
        (set_our_flag_raw (our_flag_inactive pr)
           (stepped pr'
              [EvDelTimerSync; EvGpioSetOurFlag (our_flag_inactive pr);
               EvFreeIrq (their_flag_irq_number pr)] m)).
Proof.
  intros Hp Hirq. open_machine m Hp. open_private pr.
  apply Z.ltb_ge in Hirq. run_close. rewrite Hirq. cbn.
  eexists; cbv; reflexivity.
Qed.

(* label workqueue_init: the three works, then the queue *)
Lemma close_workqueue_init_eq m pr :
  p (symspi m) = Some pr ->
  exists pr',
    close_workqueue_init m
    = Ret tt
        (stepped pr'
           [EvDestroyWorkqueue; EvCancelWorkSync recover_work;
            EvCancelWorkSync postprocessing_work;
            EvCancelWorkSync xfer_work] m).
Proof.
  intros Hp. open_machine m Hp. open_private pr. run_close.
  eexists; cbv; reflexivity.
Qed.

(* label xfer_created: the current xfer is freed and the native transfer
   brought in line with it *)
Lemma close_xfer_created_eq pf m pr :
  p (symspi m) = Some pr ->
  exists pr',
    close_xfer_created pf m
    = Ret tt
        (stepped pr'
           (if native_transfer_configuration_hook (symspi m) =? 0
            then [] else [EvNativeHook]) m).
Proof.
  intros Hp. open_machine m Hp. open_private pr. run_close.
  destruct (size_bytes cx =? 0); cbn;
    match goal with
    | |- context [if ?hook =? 0 then _ else _] => destruct (hook =? 0)
    end; cbn; eexists; cbv; reflexivity.
Qed.

Lemma close_upper_labels_full pf m pr :
  p (symspi m) = Some pr ->
  0 <= their_flag_irq_number pr ->
  exists pr',
    symspi_close_upper_labels pf SYMSPI_INIT_LEVEL_FULL m
    = Ret tt
        (set_our_flag_raw (our_flag_inactive pr)
           (stepped pr'
              ((if native_transfer_configuration_hook (symspi m) =? 0
                then [] else [EvNativeHook])
               ++ [EvDestroyWorkqueue; EvCancelWorkSync recover_work;
                   EvCancelWorkSync postprocessing_work;
                   EvCancelWorkSync xfer_work; EvDelTimerSync;
                   EvGpioSetOurFlag (our_flag_inactive pr);
                   EvFreeIrq (their_flag_irq_number pr)]) m)).
Proof.
  intros Hp Hirq.
  change (symspi_close_upper_labels pf SYMSPI_INIT_LEVEL_FULL)
    with (close_full pf ;; close_gpio_irqs ;; close_workqueue_init ;;
          close_xfer_created pf).
  destruct (close_full_eq pf m pr Hp) as (pr1 & E1 & Hirq1 & Hmm1).
  unfold bind at 1. rewrite E1.
  rewrite <- Hirq1 in Hirq.
  destruct (close_gpio_irqs_eq _ pr1 (stepped_private pr1 [] m) Hirq)
    as (pr2 & E2).
  unfold bind at 1. rewrite E2.
  set (m2 := set_our_flag_raw _ _).
  assert (Hp2 : p (symspi m2) = Some pr2) by reflexivity.
  destruct (close_workqueue_init_eq m2 pr2 Hp2) as (pr3 & E3).
  unfold bind at 1. rewrite E3.
  set (m3 := stepped pr3 _ m2).
  assert (Hp3 : p (symspi m3) = Some pr3) by reflexivity.
  destruct (close_xfer_created_eq pf m3 pr3 Hp3) as (pr4 & E4).
  rewrite E4. exists pr4. subst m3 m2.
  unfold our_flag_inactive. rewrite Hmm1, Hirq1.
  destruct (native_transfer_configuration_hook (symspi m) =? 0) eqn:Hh;
    destruct m as [dev ? ? ? ? ? ?]; cbn in Hh |- *; rewrite Hh; reflexivity.
Qed.

(* symspi_close on a fully initialized device that is not Cold *)
Lemma close_of_full_device pf m pr :
  p (symspi m) = Some pr ->
  magic pr = SYMSPI_PRIVATE_MAGIC ->
  close_request pr = false ->
  state pr <> SYMSPI_STATE_COLD ->
  init_level pr = SYMSPI_INIT_LEVEL_FULL ->
  0 <= their_flag_irq_number pr ->
  symspi_close pf m
  = Ret SYMSPI_SUCCESS
      (set_our_flag_raw (our_flag_inactive pr)
         (set_trace
            ((EvKfreePrivate
              :: (if native_transfer_configuration_hook (symspi m) =? 0
                  then [] else [EvNativeHook]))
             ++ [EvDestroyWorkqueue; EvCancelWorkSync recover_work;
                 EvCancelWorkSync postprocessing_work;
                 EvCancelWorkSync xfer_work; EvDelTimerSync;
                 EvGpioSetOurFlag (our_flag_inactive pr);
                 EvFreeIrq (their_flag_irq_number pr)]
             ++ trace m)
            (set_private None m))).
Proof.
  intros Hp Hmagic Hcl Hst Hlevel Hirq.
  unfold symspi_close. rewrite Hp, Hmagic, Z.eqb_refl, Hcl. cbn [negb].
  unfold bind at 1. rewrite (wr_private _ _ _ Hp).
  set (pr0 := set_close_request true pr).
  set (m0 := set_private (Some pr0) m).
  assert (Hp0 : p (symspi m0) = Some pr0) by apply private_of_set_private.
  unfold bind at 1. rewrite (rd_private _ _ _ Hp0).
  replace (state pr0 =? SYMSPI_STATE_COLD) with false
    by (symmetry; apply Z.eqb_neq; destruct pr; exact Hst).
  unfold bind at 1. rewrite (rd_private _ _ _ Hp0).
  replace (init_level pr0) with SYMSPI_INIT_LEVEL_FULL
    by (destruct pr; symmetry; exact Hlevel).
  unfold symspi_close_labels.
  assert (Hirq0 : 0 <= their_flag_irq_number pr0)
    by (destruct pr; exact Hirq).
  destruct (close_upper_labels_full pf m0 pr0 Hp0 Hirq0) as (pr1 & E1).
  unfold bind at 1. unfold bind at 1. rewrite E1.
  replace (our_flag_inactive pr0) with (our_flag_inactive pr)
    by (destruct pr; reflexivity).
  replace (their_flag_irq_number pr0) with (their_flag_irq_number pr)
    by (destruct pr; reflexivity).
  subst m0. destruct m as [dev ? ? ? ? ? ?]. destruct dev.
  cbn. rewrite <- app_assoc. reflexivity.
Qed.

(** X15: symspi_close on a fully initialized device that is not Cold takes
    it down from the outside in and reports success: the interrupt line of
    the peer flag is released, our flag is dropped, the timeout timer is
    stopped, the xfer, postprocessing and recovery works are cancelled, the
    workqueue is destroyed, the native transfer is brought in line with the
    freed xfer, and last the private part is freed and detached. *)
Theorem close_tears_down_in_order pf m pr :
  p (symspi m) = Some pr ->
  magic pr = SYMSPI_PRIVATE_MAGIC ->
  close_request pr = false ->
  state pr <> SYMSPI_STATE_COLD ->
  init_level pr = SYMSPI_INIT_LEVEL_FULL ->
  0 <= their_flag_irq_number pr ->
  exists m',
    symspi_close pf m = Ret SYMSPI_SUCCESS m'
    /\ p (symspi m') = None
    /\ our_flag_raw m' = our_flag_inactive pr
    /\ trace m'
       = [EvKfreePrivate]
         ++ (if native_transfer_configuration_hook (symspi m) =? 0
             then [] else [EvNativeHook])
         ++ [EvDestroyWorkqueue; EvCancelWorkSync recover_work;
             EvCancelWorkSync postprocessing_work;
             EvCancelWorkSync xfer_work; EvDelTimerSync;
             EvGpioSetOurFlag (our_flag_inactive pr);
             EvFreeIrq (their_flag_irq_number pr)]
         ++ trace m.
Proof.
  intros Hp Hmagic Hcl Hst Hlevel Hirq.
  rewrite (close_of_full_device pf m pr Hp Hmagic Hcl Hst Hlevel Hirq).
  eexists. split; [reflexivity|].
  destruct m as [dev ? ? ? ? ? ?]. destruct dev.
  repeat split.
Qed.

Lemma close_tears_down_in_order_witness :
  exists m',
    symspi_close demo_platform idle_machine = Ret SYMSPI_SUCCESS m'
    /\ p (symspi m') = None
    /\ our_flag_raw m' = our_flag_inactive idle_private
    /\ trace m'
       = [EvKfreePrivate]
         ++ (if native_transfer_configuration_hook (symspi idle_machine) =? 0
             then [] else [EvNativeHook])
         ++ [EvDestroyWorkqueue; EvCancelWorkSync recover_work;
             EvCancelWorkSync postprocessing_work;
             EvCancelWorkSync xfer_work; EvDelTimerSync;
             EvGpioSetOurFlag (our_flag_inactive idle_private);
             EvFreeIrq (their_flag_irq_number idle_private)]
         ++ trace idle_machine.
Proof.
  apply (close_tears_down_in_order demo_platform idle_machine idle_private);
    try reflexivity.
  - vm_compute. discriminate.
  - vm_compute. discriminate.
Defined.


(** ** Recovery *)

(* the pulses on our flag that tell the peer of the error, newest first *)
Lemma recovery_signal_eq m pr :
  p (symspi m) = Some pr ->
  symspi_recovery_signal m
  = Ret tt
      (set_our_flag_raw (our_flag_inactive pr)
         (stepped pr
            [EvUsleepRange 9500 10500;
             EvUsleepRange 675 825; EvGpioSetOurFlag (our_flag_inactive pr);
             EvUsleepRange 675 825; EvGpioSetOurFlag (our_flag_active pr);
             EvUsleepRange 675 825; EvGpioSetOurFlag (our_flag_inactive pr);
             EvUsleepRange 675 825; EvGpioSetOurFlag (our_flag_active pr);
             EvUsleepRange 675 825; EvGpioSetOurFlag (our_flag_inactive pr);
             EvDelTimerSync] m)).
Proof.
  intros Hp. open_machine m Hp. open_private pr.
  destruct mm; reflexivity.
Qed.

Lemma recovery_ask_consumer_null pf m pr :
  p (symspi m) = Some pr ->
  IS_ERR_OR_NULL pf (fail_callback (current_xfer pr)) = true ->
  forall error_code,
    symspi_recovery_ask_consumer pf error_code m = Ret CbNull m.
Proof.
  intros Hp Hcb error_code. unfold symspi_recovery_ask_consumer.
  unfold bind at 1. rewrite (rd_private _ _ _ Hp).
  unfold bind at 1. rewrite (rd_private _ _ _ Hp).
  now rewrite Hcb.
Qed.

(* the recovery of a master whose consumer has no fail callback *)
Lemma recovery_sequence_null_eq pf fuel race m pr :
  p (symspi m) = Some pr ->
  magic pr = SYMSPI_PRIVATE_MAGIC ->
  state pr = SYMSPI_STATE_ERROR ->
  close_request pr = false ->
  IS_ERR_OR_NULL pf (fail_callback (current_xfer pr)) = true ->
  let signal :=
    [EvUsleepRange 9500 10500;
     EvUsleepRange 675 825; EvGpioSetOurFlag (our_flag_inactive pr);
     EvUsleepRange 675 825; EvGpioSetOurFlag (our_flag_active pr);
     EvUsleepRange 675 825; EvGpioSetOurFlag (our_flag_inactive pr);
     EvUsleepRange 675 825; EvGpioSetOurFlag (our_flag_active pr);
     EvUsleepRange 675 825; EvGpioSetOurFlag (our_flag_inactive pr);
     EvDelTimerSync] in
  let idle :=
    set_delayed_xfer_request false
      (set_state SYMSPI_STATE_IDLE
         (set_last_error SYMSPI_SUCCESS
            (set_their_flag_drop_counter 1 pr))) in
  symspi_recovery_sequence pf fuel race m
  = symspi_data_xchange_default pf fuel race
      (set_our_flag_raw (our_flag_inactive pr)
         (stepped idle
            ([EvDelTimerSync; EvDropCounterStore 1] ++ signal) m)).
Proof.
  intros Hp Hmagic Hst Hc Hcb signal idle.
  unfold symspi_recovery_sequence. rewrite Hp, Hmagic, Hst.
  rewrite !Z.eqb_refl. cbn [negb].
  unfold bind at 1. rewrite (rd_private _ _ _ Hp).
  unfold bind at 1. rewrite (recovery_signal_eq _ _ Hp).
  fold signal.
  set (m1 := set_our_flag_raw _ _).
  assert (Hp1 : p (symspi m1) = Some pr) by reflexivity.
  unfold bind at 1. rewrite (recovery_ask_consumer_null pf m1 pr Hp1 Hcb).
  unfold symspi_recovery_resume, atomic_store_drop_counter.
  unfold bind at 1. unfold bind at 1. rewrite (wr_private _ _ _ Hp1).
  set (pr2 := set_their_flag_drop_counter 1 pr).
  rewrite (emit_eq _ _ pr2 (private_of_set_private _ _)).
  unfold bind at 1. rewrite (wr_private _ _ _ (stepped_private _ _ _)).
  set (pr3 := set_last_error SYMSPI_SUCCESS pr2).
  set (m3 := set_private (Some pr3) _).
  assert (Hp3 : p (symspi m3) = Some pr3) by reflexivity.
  assert (Hc3 : close_request pr3 = false) by (destruct pr; exact Hc).
  assert (Hst3 : state pr3 = SYMSPI_STATE_ERROR) by (destruct pr; exact Hst).
  pose proof (to_idle_sequence_eq pf fuel race m3 pr3 true Hp3 Hc3) as E.
  rewrite Hst3 in E. rewrite E by (intros H; now elim H).
  cbn [orb]. subst m3 m1 idle pr3 pr2.
  destruct m as [dev ? ? ? ? ? ?]. destruct dev. reflexivity.
Qed.

(** X16: the recovery of a master in the Error state whose consumer has no
    fail callback.  The timeout timer is stopped, the error is signalled to
    the peer by dropping, raising, dropping, raising and dropping our flag
    with a pause of 675 to 825 us after each edge, the line is then kept
    silent for 9.5 to 10.5 ms, the drop counter is set to 1 and last_error
    cleared; then the transfer of the current xfer is started again at
    once: our flag is raised and the device ends in Xfer (the SPI
    controller handles the ready line, or the peer flag is raised) or in
    WaitingRdy. *)
Theorem recovery_signals_and_restarts
    (pf : platform) (fuel : nat) (race : M unit) (m : machine)
    (pr : symspi_dev_private) :
  p (symspi m) = Some pr ->
  magic pr = SYMSPI_PRIVATE_MAGIC ->
  state pr = SYMSPI_STATE_ERROR ->
  close_request pr = false ->
  spi_master_mode pr = true ->
  IS_ERR_OR_NULL pf (fail_callback (current_xfer pr)) = true ->
  0 < FULL_DUPLEX_ERROR_NOT_READY pf ->
  valid_device pf m ->
  exists res m' pr' events,
    symspi_recovery_sequence pf fuel race m = Ret res m'
    /\ p (symspi m') = Some pr'
    /\ last_error pr' = SYMSPI_SUCCESS
    /\ our_flag_raw m' = SYMSPI_MASTER_FLAG_ACTIVE_VALUE
    /\ trace m'
       = events
         ++ [EvGpioSetOurFlag 1; EvDelTimerSync; EvDropCounterStore 1;
             EvUsleepRange 9500 10500;
             EvUsleepRange 675 825; EvGpioSetOurFlag 0;
             EvUsleepRange 675 825; EvGpioSetOurFlag 1;
             EvUsleepRange 675 825; EvGpioSetOurFlag 0;
             EvUsleepRange 675 825; EvGpioSetOurFlag 1;
             EvUsleepRange 675 825; EvGpioSetOurFlag 0;
             EvDelTimerSync]
         ++ trace m
    /\ (if hardware_spi_rdy pr || their_flag_raised pr m
        then res = do_xfer_result m
             /\ state pr' = SYMSPI_STATE_XFER
             /\ their_flag_drop_counter pr' = 0
        else res = SYMSPI_SUCCESS
             /\ state pr' = SYMSPI_STATE_WAITING_RDY
             /\ their_flag_drop_counter pr' = 1).
Proof.
  intros Hp Hmagic Hst Hc Hm Hcb Hnr Hdev.
  rewrite (recovery_sequence_null_eq pf fuel race m pr Hp Hmagic Hst Hc Hcb).
  rewrite data_xchange_default_eq.
  unfold our_flag_inactive, our_flag_active. rewrite Hm.
  set (idle := set_delayed_xfer_request false _).
  set (m1 := set_our_flag_raw _ _).
  assert (Hp1 : p (symspi m1) = Some idle) by reflexivity.
  assert (Hdev1 : valid_device pf m1).
  { subst m1. destruct m as [dev ? ? ? ? ? ?]. destruct dev. exact Hdev. }
  unfold bind.
  rewrite (data_xchange_none_eq pf fuel race m1 idle false Hp1
             ltac:(destruct pr; exact Hc) ltac:(destruct pr; exact Hm)
             ltac:(destruct pr; reflexivity) ltac:(destruct pr; cbn; lia)
             Hnr Hdev1).
  replace (their_flag_drop_counter idle) with 1 by (destruct pr; reflexivity).
  change (negb (1 =? 1)) with false. cbv iota.
  replace (hardware_spi_rdy idle) with (hardware_spi_rdy pr)
    by (destruct pr; reflexivity).
  replace (their_flag_raised idle m1) with (their_flag_raised pr m)
    by (subst m1 idle; destruct pr, m; reflexivity).
  replace (do_xfer_result m1) with (do_xfer_result m)
    by (subst m1; destruct m; reflexivity).
  destruct (hardware_spi_rdy pr); cbn [orb].
  - eexists _, _, _,
      [EvSpiAsync; EvDropCounterStore 0; EvDelTimer; EvModTimer].
    split; [reflexivity|]. split; [reflexivity|].
    split; [destruct pr; reflexivity|]. split; [reflexivity|].
    split; [destruct m; reflexivity|].
    repeat split; destruct pr; reflexivity.
  - destruct (their_flag_raised pr m).
    + eexists _, _, _,
        [EvSpiAsync; EvDropCounterStore 0; EvDelTimer; EvModTimer;
         EvModTimer].
      split; [reflexivity|]. split; [reflexivity|].
      split; [destruct pr; reflexivity|]. split; [reflexivity|].
      split; [destruct m; reflexivity|].
      repeat split; destruct pr; reflexivity.
    + eexists _, _, _, [EvModTimer; EvModTimer].
      split; [reflexivity|]. split; [reflexivity|].
      split; [destruct pr; reflexivity|]. split; [reflexivity|].
      split; [destruct m; reflexivity|].
      repeat split; destruct pr; reflexivity.
Qed.

Lemma recovery_signals_and_restarts_witness :
  exists res m' pr' events,
    symspi_recovery_sequence demo_platform 1 (ret tt)
      (idle_with (set_state SYMSPI_STATE_ERROR)) = Ret res m'
    /\ p (symspi m') = Some pr'
    /\ last_error pr' = SYMSPI_SUCCESS
    /\ our_flag_raw m' = SYMSPI_MASTER_FLAG_ACTIVE_VALUE
    /\ trace m'
       = events
         ++ [EvGpioSetOurFlag 1; EvDelTimerSync; EvDropCounterStore 1;
             EvUsleepRange 9500 10500;
             EvUsleepRange 675 825; EvGpioSetOurFlag 0;
             EvUsleepRange 675 825; EvGpioSetOurFlag 1;
             EvUsleepRange 675 825; EvGpioSetOurFlag 0;
             EvUsleepRange 675 825; EvGpioSetOurFlag 1;
             EvUsleepRange 675 825; EvGpioSetOurFlag 0;
             EvDelTimerSync]
         ++ trace (idle_with (set_state SYMSPI_STATE_ERROR))
    /\ (if hardware_spi_rdy (set_state SYMSPI_STATE_ERROR idle_private)
           || their_flag_raised (set_state SYMSPI_STATE_ERROR idle_private)
                (idle_with (set_state SYMSPI_STATE_ERROR))
        then res = do_xfer_result (idle_with (set_state SYMSPI_STATE_ERROR))
             /\ state pr' = SYMSPI_STATE_XFER
             /\ their_flag_drop_counter pr' = 0
        else res = SYMSPI_SUCCESS
             /\ state pr' = SYMSPI_STATE_WAITING_RDY
             /\ their_flag_drop_counter pr' = 1).
Proof.
  apply (recovery_signals_and_restarts demo_platform 1 (ret tt)
           (idle_with (set_state SYMSPI_STATE_ERROR))
           (set_state SYMSPI_STATE_ERROR idle_private));
    try reflexivity.
  apply (demo_device_is_valid (set_state SYMSPI_STATE_ERROR)).
Defined.


(** ** The error ledger *)

Lemma find_error_rec_found recs kind i j :
  find_error_rec recs kind i = Some j ->
  (i <= j)%nat
  /\ exists e, recs !! (j - i)%nat = Some e /\ err_num e = kind.
Proof.
  revert i. induction recs as [|e rest IH]; intros i H; [discriminate|].
  cbn [find_error_rec] in H.
  destruct (Z.eqb_spec (err_num e) kind) as [He|He].
  - injection H as <-. split; [lia|]. exists e.
    now rewrite Nat.sub_diag.
  - destruct (IH (S i) H) as (Hle & e0 & Hl & Hk).
    split; [lia|]. exists e0. split; [|exact Hk].
    replace (j - i)%nat with (S (j - S i)) by lia. exact Hl.
Qed.

(* a record replaced by one of the same kind changes no lookup *)
Lemma find_error_rec_insert recs k e e' kind i :
  recs !! k = Some e ->
  err_num e' = err_num e ->
  find_error_rec (<[k := e']> recs) kind i = find_error_rec recs kind i.
Proof.
  revert k i. induction recs as [|e0 rest IH]; intros k i Hl He;
    [reflexivity|].
  destruct k as [|k].
  - change (<[0%nat := e']> (e0 :: rest)) with (e' :: rest).
    cbn in Hl. injection Hl as ->. cbn [find_error_rec]. now rewrite He.
  - change (<[S k := e']> (e0 :: rest)) with (e0 :: <[k := e']> rest).
    cbn [find_error_rec]. now rewrite (IH k (S i) Hl He).
Qed.

(* what error_rec_report does to the record whatever the times are *)
Lemma error_rec_report_fields pf now e :
  let e' := fst (error_rec_report pf now e) in
  err_num e' = err_num e
  /\ err_per_sec_threshold e' = err_per_sec_threshold e
  /\ total_count e' = to_uint (total_count e + 1)
  /\ last_occurence_time_msec e' = now
  /\ 1 <= exp_avg_interval_msec e'.
Proof.
  unfold error_rec_report. cbv zeta.
  match goal with
  | |- context [if ?c then _ else _] => destruct c
  end.
  - cbn. repeat split. apply Z.le_max_r.
  - match goal with
    | |- context [if ?c then _ else _] => destruct c
    end; cbn; repeat split; apply Z.le_max_r.
Qed.

(** X17: __symspi_error_report touches the record of the kind reported and
    nothing else.  For a kind that has a record in the ledger, the record
    keeps its kind and its threshold, its total count goes up by one
    (modulo 2^32), its last occurrence becomes the current time in
    milliseconds and its smoothed interval is at least 1; the other
    records, the length of the ledger and every later lookup are as
    before.  For a kind without record, the report changes nothing and
    asks for the message to be printed. *)
Theorem error_report_touches_one_record
    (pf : platform) (m : machine) (pr : symspi_dev_private)
    (err_no sub_error_no : Z) :
  p (symspi m) = Some pr ->
  magic pr = SYMSPI_PRIVATE_MAGIC ->
  match find_error_rec (errors pr) (to_uchar err_no) 0 with
  | None => __symspi_error_report pf err_no sub_error_no m = Ret true m
  | Some i =>
      exists e e' verbose,
        errors pr !! i = Some e
        /\ err_num e = to_uchar err_no
        /\ __symspi_error_report pf err_no sub_error_no m
           = Ret verbose
               (set_private
                  (Some (set_errors (<[i := e']> (errors pr)) pr)) m)
        /\ err_num e' = err_num e
        /\ err_per_sec_threshold e' = err_per_sec_threshold e
        /\ total_count e' = to_uint (total_count e + 1)
        /\ last_occurence_time_msec e' = to_uint (ktime_ns m / 1000000)
        /\ 1 <= exp_avg_interval_msec e'
        /\ length (<[i := e']> (errors pr)) = length (errors pr)
        /\ (forall j, j <> i -> <[i := e']> (errors pr) !! j = errors pr !! j)
        /\ (forall kind,
              find_error_rec (<[i := e']> (errors pr)) kind 0
              = find_error_rec (errors pr) kind 0)
  end.
Proof.
  intros Hp Hmagic.
  assert (Eget : __symspi_get_error_rec err_no m
                 = Ret (find_error_rec (errors pr) (to_uchar err_no) 0) m).
  { unfold __symspi_get_error_rec. rewrite Hp, Hmagic, Z.eqb_refl.
    reflexivity. }
  unfold __symspi_error_report. rewrite (bind_eq _ _ _ _ _ Eget).
  destruct (find_error_rec (errors pr) (to_uchar err_no) 0) as [i|] eqn:Hf;
    [|reflexivity].
  destruct (find_error_rec_found _ _ _ _ Hf) as (_ & e & Hl & Hk).
  rewrite Nat.sub_0_r in Hl.
  unfold bind at 1. rewrite (rd_private _ _ _ Hp), Hl.
  unfold bind at 1. unfold ktime_now_msec, bind at 1, rd_env, ret at 1.
  set (now := to_uint (ktime_ns m / 1000000)).
  destruct (error_rec_report_fields pf now e) as (H1 & H2 & H3 & H4 & H5).
  destruct (error_rec_report pf now e) as [e' verbose]. cbn [fst] in *.
  unfold bind at 1. rewrite (wr_private _ _ _ Hp).
  exists e, e', verbose.
  repeat match goal with |- _ /\ _ => split end;
    first [ assumption | reflexivity | apply length_insert
          | intros j Hj; apply list_lookup_insert_ne; congruence
          | intros kind; now apply (find_error_rec_insert _ _ e) ].
Qed.

Lemma error_report_touches_one_record_witness :
  match find_error_rec (errors idle_private)
          (to_uchar SYMSPI_ERROR_OTHER_SIDE) 0 with
  | None =>
      __symspi_error_report demo_platform SYMSPI_ERROR_OTHER_SIDE 0
        idle_machine = Ret true idle_machine
  | Some i =>
      exists e e' verbose,
        errors idle_private !! i = Some e
        /\ err_num e = to_uchar SYMSPI_ERROR_OTHER_SIDE
        /\ __symspi_error_report demo_platform SYMSPI_ERROR_OTHER_SIDE 0
             idle_machine
           = Ret verbose
               (set_private
                  (Some (set_errors (<[i := e']> (errors idle_private))
                           idle_private)) idle_machine)
        /\ err_num e' = err_num e
        /\ err_per_sec_threshold e' = err_per_sec_threshold e
        /\ total_count e' = to_uint (total_count e + 1)
        /\ last_occurence_time_msec e'
           = to_uint (ktime_ns idle_machine / 1000000)
        /\ 1 <= exp_avg_interval_msec e'
        /\ length (<[i := e']> (errors idle_private))
           = length (errors idle_private)
        /\ (forall j, j <> i ->
              <[i := e']> (errors idle_private) !! j
              = errors idle_private !! j)
        /\ (forall kind,
              find_error_rec (<[i := e']> (errors idle_private)) kind 0
              = find_error_rec (errors idle_private) kind 0)
  end.
Proof.
  apply (error_report_touches_one_record demo_platform idle_machine
           idle_private SYMSPI_ERROR_OTHER_SIDE 0); reflexivity.
Defined.

(* the ledger as __symspi_error_report_init leaves it; the record of index
   14 lies behind the array *)
Lemma error_report_init_eq m pr :
  p (symspi m) = Some pr ->
  __symspi_error_report_init m
  = Ret tt
      (set_private
         (Some (set_init_level (to_uchar SYMSPI_ERROR_WORKQUEUE_INIT)
                  (set_errors initial_ledger pr))) m).
Proof.
  intros Hp. open_machine m Hp. open_private pr.
  vm_compute. reflexivity.
Qed.

(** X18: the ledger __symspi_error_report_init builds has 14 records, and
    each of the 14 kinds from Logical to WaitOtherSide is found by the
    lookup of __symspi_get_error_rec at a record of its own kind with all
    counters zero and the threshold 5 errors per second for OtherSide and
    WaitOtherSide, 0 for the others.  The fifteenth kind registered,
    WorkqueueInit, has no record in the ledger. *)
Theorem error_report_init_registers
    (m : machine) (pr : symspi_dev_private) :
  p (symspi m) = Some pr ->
  exists pr',
    __symspi_error_report_init m = Ret tt (set_private (Some pr') m)
    /\ length (errors pr') = 14%nat
    /\ (forall kind,
          In kind
            [SYMSPI_ERROR_LOGICAL; SYMSPI_ERROR_XFER_SIZE_MISMATCH;
             SYMSPI_ERROR_XFER_SIZE_ZERO; SYMSPI_ERROR_NO_MEMORY;
             SYMSPI_ERROR_OTHER_SIDE; SYMSPI_ERROR_STATE;
             SYMSPI_ERROR_OVERLAP; SYMSPI_ERROR_SPI; SYMSPI_ERROR_NO_SPI;
             SYMSPI_ERROR_NO_GPIO; SYMSPI_ERROR_NO_XFER;
             SYMSPI_ERROR_IRQ_ACQUISITION; SYMSPI_ERROR_ISR_SETUP;
             SYMSPI_ERROR_WAIT_OTHER_SIDE] ->
          exists i e,
            find_error_rec (errors pr') (to_uchar kind) 0 = Some i
            /\ errors pr' !! i = Some e
            /\ err_num e = kind
            /\ total_count e = 0
            /\ unreported_count e = 0
            /\ exp_avg_interval_msec e = 0
            /\ err_per_sec_threshold e
               = (if (kind =? SYMSPI_ERROR_OTHER_SIDE)
                     || (kind =? SYMSPI_ERROR_WAIT_OTHER_SIDE)
                  then 5 else 0))
    /\ find_error_rec (errors pr') (to_uchar SYMSPI_ERROR_WORKQUEUE_INIT) 0
       = None.
Proof.
  intros Hp.
  exists (set_init_level (to_uchar SYMSPI_ERROR_WORKQUEUE_INIT)
            (set_errors initial_ledger pr)).
  split; [exact (error_report_init_eq m pr Hp)|].
  split; [reflexivity|]. split; [|reflexivity].
  intros kind Hin. cbn [In] in Hin.
  repeat (destruct Hin as [<-|Hin];
          [eexists _, _; vm_compute; repeat split; reflexivity|]).
  contradiction.
Qed.

Lemma error_report_init_registers_witness :
  exists pr',
    __symspi_error_report_init idle_machine
      = Ret tt (set_private (Some pr') idle_machine)
    /\ length (errors pr') = 14%nat
    /\ (forall kind,
          In kind
            [SYMSPI_ERROR_LOGICAL; SYMSPI_ERROR_XFER_SIZE_MISMATCH;
             SYMSPI_ERROR_XFER_SIZE_ZERO; SYMSPI_ERROR_NO_MEMORY;
             SYMSPI_ERROR_OTHER_SIDE; SYMSPI_ERROR_STATE;
             SYMSPI_ERROR_OVERLAP; SYMSPI_ERROR_SPI; SYMSPI_ERROR_NO_SPI;
             SYMSPI_ERROR_NO_GPIO; SYMSPI_ERROR_NO_XFER;
             SYMSPI_ERROR_IRQ_ACQUISITION; SYMSPI_ERROR_ISR_SETUP;
             SYMSPI_ERROR_WAIT_OTHER_SIDE] ->
          exists i e,
            find_error_rec (errors pr') (to_uchar kind) 0 = Some i
            /\ errors pr' !! i = Some e
            /\ err_num e = kind
            /\ total_count e = 0
            /\ unreported_count e = 0
            /\ exp_avg_interval_msec e = 0
            /\ err_per_sec_threshold e
               = (if (kind =? SYMSPI_ERROR_OTHER_SIDE)
                     || (kind =? SYMSPI_ERROR_WAIT_OTHER_SIDE)
                  then 5 else 0))
    /\ find_error_rec (errors pr') (to_uchar SYMSPI_ERROR_WORKQUEUE_INIT) 0
       = None.
Proof.
  apply (error_report_init_registers idle_machine idle_private).
  reflexivity.
Defined.


(** ** init and close, one after the other *)

Lemma verify_consumer_input_ok pf xfer check_xfer m res m' :
  symspi_verify_consumer_input pf xfer check_xfer m = Ret res m' ->
  res = SYMSPI_SUCCESS -> valid_device pf m.
Proof.
  unfold symspi_verify_consumer_input, valid_device, bind, rd_dev, ret.
  destruct (IS_ERR_OR_NULL pf (spi (symspi m)));
    [intros H; injection H as <- _; discriminate|].
  destruct (IS_ERR_OR_NULL pf (gpiod_our_flag (symspi m)));
    [intros H; injection H as <- _; discriminate|].
  destruct (IS_ERR_OR_NULL pf (gpiod_their_flag (symspi m)));
    [intros H; injection H as <- _; discriminate|].
  auto.
Qed.

(* the third block of init when it succeeds *)
Lemma init_to_gpio_irqs_ok pf m pr :
  p (symspi m) = Some pr ->
  exists res m' pr',
    init_to_gpio_irqs pf m = Ret res m'
    /\ p (symspi m') = Some pr'
    /\ magic pr' = magic pr
    /\ current_xfer pr' = current_xfer pr
    /\ set_p None (symspi m') = set_p None (symspi m)
    /\ (res = SYMSPI_SUCCESS ->
        0 <= their_flag_irq_number pr'
        /\ spi_master_mode pr' = true
        /\ their_flag_drop_counter pr' = 1).
Proof.
  intros Hp. open_machine m Hp. open_private pr.
  unfold init_to_gpio_irqs, __SYMSPI_INIT_LEVEL, symspi_our_flag_drop,
    gpiod_set_raw_value_our_flag, symspi_init_gpio_irqs,
    bind, rd, wr, rd_dev, emit, ret.
  cbn.
  match goal with
  | |- context [if ?irq <? 0 then _ else _] => destruct (Z.ltb_spec irq 0)
  end; cbn.
  - eexists _, _, _. split; [reflexivity|]. cbn.
    repeat split; try reflexivity; discriminate.
  - match goal with
    | |- context [if ?r <? 0 then _ else _] => destruct (r <? 0)
    end; cbn.
    + eexists _, _, _. split; [reflexivity|]. cbn.
      repeat split; try reflexivity; discriminate.
    + eexists _, _, _. split; [reflexivity|]. cbn.
      repeat split; try reflexivity. assumption.
Qed.

(* the last block of init *)
Lemma init_to_full_ok pf m pr :
  p (symspi m) = Some pr ->
  exists pr',
    init_to_full pf m = Ret tt (set_private (Some pr') m)
    /\ magic pr' = magic pr
    /\ close_request pr' = false
    /\ state pr' = SYMSPI_STATE_IDLE
    /\ init_level pr' = SYMSPI_INIT_LEVEL_FULL
    /\ their_flag_irq_number pr' = their_flag_irq_number pr
    /\ spi_master_mode pr' = spi_master_mode pr
    /\ their_flag_drop_counter pr' = their_flag_drop_counter pr
    /\ current_xfer pr' = current_xfer pr.
Proof.
  intros Hp. open_machine m Hp. open_private pr.
  unfold init_to_full, __SYMSPI_INIT_LEVEL, __symspi_procfs_init,
    __symspi_info_init, bind, rd, wr, ret.
  cbn.
  destruct (IS_ERR_OR_NULL pf (proc_mkdir pf)); cbn;
    eexists; (split; [reflexivity|]); repeat split.
Qed.

(* the resize of the empty xfer symspi_xfer_init_copy starts from *)
Lemma do_resize_from_empty pf new_size_bytes m :
  exists target n,
    symspi_do_resize_xfer pf (set_id SYMSPI_INITIAL_XFER_ID zero_xfer)
      new_size_bytes m
      = Ret target (set_allocs (n + allocs m)%nat m)
    /\ (size_bytes target <> 0 ->
        size_bytes target = new_size_bytes
        /\ tx_bytes target = []
        /\ done_callback target = 0
        /\ consumer_data target = 0
        /\ fail_callback target = 0).
Proof.
  unfold symspi_do_resize_xfer.
  set (empty := set_id SYMSPI_INITIAL_XFER_ID zero_xfer).
  destruct (Z.eqb_spec (size_bytes empty) new_size_bytes) as [Hsame|Hdiff].
  { exists empty, 0%nat. split; [now destruct m|]. intros H. now elim H. }
  destruct (Z.eqb_spec new_size_bytes 0) as [Hzero|Hnz].
  { eexists _, 0%nat. split; [unfold ret; now destruct m|].
    intros H. now elim H. }
  unfold bind at 1. unfold krealloc_call at 1.
  match goal with
  | |- context [krealloc pf ?n ?ptr ?sz =? 0] =>
      destruct (Z.eqb_spec (krealloc pf n ptr sz) 0) as [Htx|Htx]
  end.
  { eexists _, 1%nat. split; [unfold ret; now destruct m|].
    intros H. now elim H. }
  unfold bind at 1. unfold krealloc_call at 1.
  match goal with
  | |- context [krealloc pf ?n ?ptr ?sz =? 0] =>
      destruct (Z.eqb_spec (krealloc pf n ptr sz) 0) as [Hrx|Hrx]
  end.
  { eexists _, 2%nat. split; [unfold ret; now destruct m|].
    intros H. now elim H. }
  eexists _, 2%nat. split; [unfold ret; now destruct m|].
  intros _. cbn. rewrite firstn_nil. repeat split.
Qed.

(* symspi_xfer_init_copy into the current xfer *)
Lemma xfer_init_copy_ok pf x m pr :
  p (symspi m) = Some pr ->
  exists res m' c,
    symspi_xfer_init_copy pf x m = Ret res m'
    /\ p (symspi m') = Some (set_current_xfer c pr)
    /\ (0 <= res -> copy_of x c)
    /\ set_p None (symspi m') = set_p None (symspi m).
Proof.
  intros Hp. unfold symspi_xfer_init_copy.
  destruct (do_resize_from_empty pf (size_bytes x) m)
    as (target & n & E & Htarget).
  rewrite (bind_eq _ _ _ _ _ E).
  set (m1 := set_allocs (n + allocs m) m).
  assert (Hp1 : p (symspi m1) = Some pr) by (destruct m; exact Hp).
  assert (F1 : set_p None (symspi m1) = set_p None (symspi m))
    by (now destruct m).
  unfold bind at 1. rewrite (wr_private _ _ _ Hp1).
  destruct (Z.eqb_spec (size_bytes target) 0) as [Hz|Hz].
  { eexists _, _, target. split; [reflexivity|].
    split; [reflexivity|].
    split; [unfold SYMSPI_ERROR_NO_MEMORY, ENOMEM; lia|exact F1]. }
  destruct (Htarget Hz) as (Hsz & Htx & Hdone & Hdata & Hfail).
  unfold bind. rewrite (wr_private _ _ _ (private_of_set_private _ _)).
  unfold ret. rewrite set_private_twice.
  eexists _, _, _. split; [reflexivity|].
  split; [destruct pr; reflexivity|].
  split; [|exact F1].
  intros _. unfold copy_of, memcpy. rewrite Htx, skipn_nil, app_nil_r.
  destruct target. cbn in *. now repeat split.
Qed.

(* the first block of init: magic, latch, ledger, and the copy of the
   default xfer when the value is not negative *)
Lemma init_to_xfer_created_copy pf default_xfer m pr :
  p (symspi m) = Some pr ->
  state pr = SYMSPI_STATE_COLD ->
  exists res m' pr',
    init_to_xfer_created pf default_xfer m = Ret res m'
    /\ p (symspi m') = Some pr' /\ init_unfinished pr'
    /\ (0 <= res -> copy_of default_xfer (current_xfer pr'))
    /\ set_p None (symspi m') = set_p None (symspi m).
Proof.
  intros Hp Hst. unfold init_to_xfer_created, __SYMSPI_INIT_LEVEL.
  unfold bind at 1. rewrite (wr_private _ _ _ Hp).
  unfold bind at 1.
  rewrite (wr_private _ _ _ (private_of_set_private _ _)).
  unfold bind at 1.
  rewrite (wr_private _ _ _ (private_of_set_private _ _)).
  unfold bind at 1.
  rewrite (wr_private _ _ _ (private_of_set_private _ _)).
  unfold bind at 1.
  rewrite (wr_private _ _ _ (private_of_set_private _ _)).
  unfold bind at 1.
  rewrite (error_report_init_eq _ _ (private_of_set_private _ _)).
  rewrite !set_private_twice.
  set (pr1 := set_init_level (to_uchar SYMSPI_ERROR_WORKQUEUE_INIT) _).
  assert (H1 : init_unfinished pr1) by (now repeat split).
  destruct (xfer_init_copy_ok pf default_xfer (set_private (Some pr1) m)
              pr1 (private_of_set_private _ _))
    as (res & m' & c & E & Hp' & Hcopy & F).
  exists res, m', (set_current_xfer c pr1).
  split; [exact E|]. split; [exact Hp'|].
  split; [destruct H1 as (? & ? & ?); now repeat split|].
  split; [exact Hcopy|]. rewrite F. reflexivity.
Qed.

Ltac keeps_under_way :=
  repeat first
    [ apply kp_ret | apply kp_rd | apply kp_rd_dev | apply kp_rd_env
    | apply kp_emit
    | apply kp_bind; [|intros ?]
    | apply kp_wr; intros ? [(? & ? & ?) (? & ? & ? & ? & ?)];
      repeat split; assumption
    | apply kp_env; intros ?; reflexivity
    | match goal with
      | |- keeps_prop _ (if ?c then _ else _) => destruct c
      | |- keeps_prop _ (match ?x with _ => _ end) => destruct x
      end ].

Lemma kp_init_to_workqueue_init_copy pf x default_xfer :
  keeps_prop (init_under_way x) (init_to_workqueue_init pf default_xfer).
Proof.
  unfold init_to_workqueue_init, __SYMSPI_INIT_LEVEL,
    symspi_get_next_xfer_id, symspi_do_update_native_spi_xfer_data,
    __symspi_init_workqueue.
  keeps_under_way.
Qed.

(* symspi_init_private when it succeeds *)
Lemma init_private_success pf default_xfer m pr dx' m' :
  p (symspi m) = Some pr ->
  state pr = SYMSPI_STATE_COLD ->
  symspi_init_private pf default_xfer m = Ret (SYMSPI_SUCCESS, dx') m' ->
  exists pr',
    p (symspi m') = Some pr' /\ brought_up pr'
    /\ state pr' = SYMSPI_STATE_IDLE
    /\ spi_master_mode pr' = true
    /\ their_flag_drop_counter pr' = 1
    /\ copy_of default_xfer (current_xfer pr')
    /\ set_p None (symspi m') = set_p None (symspi m).
Proof.
  intros Hp Hst H. unfold symspi_init_private in H.
  destruct (init_to_xfer_created_copy pf default_xfer m pr Hp Hst)
    as [r1 [m1 [pr1 [E1 [Hp1 [HP1 [Hcopy1 F1]]]]]]].
  rewrite (bind_eq _ _ _ _ _ E1) in H.
  assert (Hclose : forall m0 pr0, p (symspi m0) = Some pr0 ->
            init_unfinished pr0 ->
            symspi_close pf m0 = Ret (- EALREADY) m0).
  { intros m0 pr0 H0 [Hm0 [Hc0 _]]. now apply (close_latched pf m0 pr0). }
  destruct (Z.ltb_spec r1 0) as [Hneg|Hpos].
  { rewrite (bind_eq _ _ _ _ _ (Hclose m1 pr1 Hp1 HP1)) in H.
    unfold ret in H. injection H as Hr _ _. unfold SYMSPI_SUCCESS in Hr.
    lia. }
  destruct (kp_init_to_workqueue_init_copy pf default_xfer default_xfer
              m1 pr1 Hp1 (conj HP1 (Hcopy1 Hpos)))
    as [[r2 dx2] [m2 [pr2 [E2 [Hp2 [[HP2 Hcopy2] F2]]]]]].
  rewrite (bind_eq _ _ _ _ _ E2) in H.
  destruct (r2 <? 0).
  { rewrite (bind_eq _ _ _ _ _ (Hclose m2 pr2 Hp2 HP2)) in H.
    unfold ret in H. injection H as Hr _ _. discriminate Hr. }
  destruct (init_to_gpio_irqs_ok pf m2 pr2 Hp2)
    as [r3 [m3 [pr3 [E3 [Hp3 [Hm3 [Hx3 [F3 Hok]]]]]]]].
  rewrite (bind_eq _ _ _ _ _ E3) in H.
  destruct (Z.eqb_spec r3 SYMSPI_SUCCESS) as [Hr3|Hr3]; cbn [negb] in H.
  2:{ unfold bind, ret in H.
      destruct (symspi_close pf m3); try discriminate.
      injection H as Hr _ _. contradiction. }
  destruct (Hok Hr3) as (Hirq & Hmm & Hdc).
  destruct (init_to_full_ok pf m3 pr3 Hp3)
    as (pr4 & E4 & Hm4 & Hc4 & Hs4 & Hl4 & Hi4 & Hmm4 & Hd4 & Hx4).
  rewrite (bind_eq _ _ _ _ _ E4) in H.
  unfold ret in H. injection H as _ <-.
  exists pr4. split; [reflexivity|].
  split.
  { unfold brought_up. rewrite Hm4, Hm3, Hc4, Hs4, Hl4, Hi4.
    destruct HP2 as (Hmagic & _). repeat split; try assumption.
    discriminate. }
  split; [exact Hs4|]. split; [congruence|]. split; [congruence|].
  split; [rewrite Hx4, Hx3; exact Hcopy2|].
  change (set_p None (symspi m3) = set_p None (symspi m)). congruence.
Qed.

Lemma brought_up_submitted pr : brought_up pr -> brought_up (submitted pr).
Proof.
  intros (H1 & H2 & H3 & H4 & H5). destruct pr. repeat split; try assumption.
  discriminate.
Qed.

Lemma brought_up_set_state s pr :
  s <> SYMSPI_STATE_COLD -> brought_up pr -> brought_up (set_state s pr).
Proof.
  intros Hs (H1 & H2 & H3 & H4 & H5). destruct pr.
  repeat split; assumption.
Qed.

(* symspi_init when it succeeds on a device without private part *)
Lemma init_success pf fuel race m dx r m1 :
  p (symspi m) = None ->
  0 < FULL_DUPLEX_ERROR_NOT_READY pf ->
  symspi_init pf fuel race (Some dx) m = Ret r m1 ->
  fst r = SYMSPI_SUCCESS ->
  exists pr1,
    p (symspi m1) = Some pr1 /\ brought_up pr1
    /\ copy_of dx (current_xfer pr1).
Proof.
  intros Hp Hnr H Hr.
  destruct (verify_consumer_input_pure pf (Some dx) true m) as [res Ev].
  destruct (Z.eqb_spec res SYMSPI_SUCCESS) as [Hres|Hres].
  2:{ unfold symspi_init in H. rewrite (bind_eq _ _ _ _ _ Ev) in H.
      apply Z.eqb_neq in Hres. rewrite Hres in H. cbn [negb] in H.
      unfold ret in H. injection H as <- _. cbn in Hr.
      apply Z.eqb_neq in Hres. contradiction. }
  subst res.
  pose proof (verify_consumer_input_ok pf _ _ _ _ _ Ev eq_refl) as Hdev.
  destruct (kzalloc_private pf (allocs m)) eqn:Hk.
  2:{ unfold symspi_init in H. rewrite (bind_eq _ _ _ _ _ Ev) in H.
      cbn [negb Z.eqb SYMSPI_SUCCESS] in H.
      rewrite (bind_eq (rd_dev p) _ m (p (symspi m)) m eq_refl), Hp in H.
      cbv beta iota zeta in H.
      rewrite (bind_eq (kzalloc_private_call pf) _ m _ _ eq_refl), Hk in H.
      cbn [negb] in H. unfold bind, ret in H.
      destruct (symspi_close pf _); try discriminate.
      injection H as <- _. discriminate Hr. }
  rewrite (init_after_allocation pf fuel race dx m Hp Ev Hk) in H.
  assert (Hdev0 : valid_device pf
            (set_private (Some zero_private)
               (set_allocs (S (allocs m)) m))).
  { destruct m as [dev ? ? ? ? ? ?]. destruct dev. exact Hdev. }
  revert H Hdev0.
  generalize (private_of_set_private (Some zero_private)
                (set_allocs (S (allocs m)) m)).
  generalize (set_private (Some zero_private)
                (set_allocs (S (allocs m)) m)).
  intros m0 Hp0 H Hdev0.
  destruct (symspi_init_private pf dx m0) as [[res dx'] m2|m2|m2] eqn:Ei;
    try (unfold bind in H; rewrite Ei in H; discriminate).
  rewrite (bind_eq _ _ _ _ _ Ei) in H.
  destruct (Z.eqb_spec res SYMSPI_SUCCESS) as [Hres|Hres]; cbn [negb] in H.
  2:{ unfold ret in H. injection H as <- _. contradiction. }
  subst res.
  destruct (init_private_success pf dx m0 zero_private dx' m2 Hp0 eq_refl Ei)
    as (pr2 & Hp2 & Hup & Hst2 & Hmm2 & Hdc2 & Hcopy & F2).
  rewrite (bind_eq _ _ _ _ _ (their_flag_is_set_eq m2 pr2 Hp2)) in H.
  destruct (their_flag_raised pr2 m2).
  2:{ unfold bind, ret in H. injection H as _ <-. now exists pr2. }
  assert (Hdev2 : valid_device pf m2)
    by exact (valid_device_same _ _ _ F2 Hdev0).
  destruct Hup as (Hmagic & Hc2 & Hup).
  pose proof (data_xchange_none_eq pf fuel race m2 pr2 false Hp2 Hc2 Hmm2
                Hst2 ltac:(lia) Hnr Hdev2) as E.
  cbv zeta in E. rewrite Hdc2 in E.
  change (negb (1 =? 1)) with false in E. cbv iota in E.
  assert (Hup2 : brought_up pr2) by (now repeat split).
  unfold bind at 1 in H. unfold bind at 1 in H. rewrite E in H.
  destruct (hardware_spi_rdy pr2).
  { unfold ret in H. injection H as _ <-. exists (submitted pr2).
    split; [reflexivity|]. split; [now apply brought_up_submitted|].
    destruct pr2; exact Hcopy. }
  destruct (their_flag_raised pr2 m2).
  { unfold ret in H. injection H as _ <-. exists (submitted pr2).
    split; [reflexivity|]. split; [now apply brought_up_submitted|].
    destruct pr2; exact Hcopy. }
  unfold ret in H. injection H as _ <-.
  exists (set_state SYMSPI_STATE_WAITING_RDY pr2).
  split; [reflexivity|].
  split; [apply brought_up_set_state; [discriminate|assumption]|].
  destruct pr2; exact Hcopy.
Qed.

(** X19: what symspi_init has brought up symspi_close takes down.  When
    symspi_init succeeds on a device without private part, the device is
    running, and a symspi_close that follows returns success, frees and
    detaches the private part, and leaves a device that is not running. *)
Theorem init_then_close
    (pf : platform) (fuel : nat) (race : M unit) (m : machine)
    (dx : full_duplex_xfer) (r : Z * option full_duplex_xfer)
    (m1 : machine) :
  p (symspi m) = None ->
  0 < FULL_DUPLEX_ERROR_NOT_READY pf ->
  symspi_init pf fuel race (Some dx) m = Ret r m1 ->
  fst r = SYMSPI_SUCCESS ->
  symspi_is_running m1 = Ret true m1
  /\ exists m2,
       symspi_close pf m1 = Ret SYMSPI_SUCCESS m2
       /\ p (symspi m2) = None
       /\ symspi_is_running m2 = Ret false m2
       /\ hd_error (trace m2) = Some EvKfreePrivate.
Proof.
  intros Hp Hnr H Hr.
  destruct (init_success pf fuel race m dx r m1 Hp Hnr H Hr)
    as (pr1 & Hp1 & (Hmagic & Hc & Hst & Hlevel & Hirq) & _).
  split.
  { unfold symspi_is_running. rewrite Hp1.
    apply Z.eqb_neq in Hst. now rewrite Hst. }
  rewrite (close_of_full_device pf m1 pr1 Hp1 Hmagic Hc Hst Hlevel Hirq).
  eexists. split; [reflexivity|].
  destruct m1 as [dev ? ? ? ? ? ?]. destruct dev.
  repeat split.
Qed.

Lemma init_then_close_witness :
  symspi_is_running
    (final (symspi_init demo_platform 1 (ret tt) (Some xfer_64_bytes)
              cold_machine))
    = Ret true
        (final (symspi_init demo_platform 1 (ret tt) (Some xfer_64_bytes)
                  cold_machine))
  /\ exists m2,
       symspi_close demo_platform
         (final (symspi_init demo_platform 1 (ret tt) (Some xfer_64_bytes)
                   cold_machine))
         = Ret SYMSPI_SUCCESS m2
       /\ p (symspi m2) = None
       /\ symspi_is_running m2 = Ret false m2
       /\ hd_error (trace m2) = Some EvKfreePrivate.
Proof.
  apply (init_then_close demo_platform 1 (ret tt) cold_machine xfer_64_bytes
           (SYMSPI_SUCCESS, Some (set_id 1 xfer_64_bytes))).
  - reflexivity.
  - reflexivity.
  - vm_compute. reflexivity.
  - reflexivity.
Defined.

(** X20: what a successful symspi_init takes from the default xfer.  When
    symspi_init succeeds on a device without private part, the current
    xfer of the device has the size of the default xfer, its first
    size_bytes bytes of TX data, its done callback and its consumer data.
    The fail callback is not taken over: the current xfer has none,
    whatever the default xfer carries. *)
Theorem init_takes_default_xfer
    (pf : platform) (fuel : nat) (race : M unit) (m : machine)
    (dx : full_duplex_xfer) (r : Z * option full_duplex_xfer)
    (m1 : machine) :
  p (symspi m) = None ->
  0 < FULL_DUPLEX_ERROR_NOT_READY pf ->
  symspi_init pf fuel race (Some dx) m = Ret r m1 ->
  fst r = SYMSPI_SUCCESS ->
  exists pr1,
    p (symspi m1) = Some pr1
    /\ size_bytes (current_xfer pr1) = size_bytes dx
    /\ tx_bytes (current_xfer pr1)
       = firstn (Z.to_nat (size_bytes dx)) (tx_bytes dx)
    /\ done_callback (current_xfer pr1) = done_callback dx
    /\ consumer_data (current_xfer pr1) = consumer_data dx
    /\ fail_callback (current_xfer pr1) = 0.
Proof.
  intros Hp Hnr H Hr.
  destruct (init_success pf fuel race m dx r m1 Hp Hnr H Hr)
    as (pr1 & Hp1 & _ & Hcopy).
  exists pr1. split; [exact Hp1|exact Hcopy].
Qed.

Lemma init_takes_default_xfer_witness :
  exists pr1,
    p (symspi
         (final (symspi_init demo_platform 1 (ret tt)
                   (Some xfer_with_fail_callback) cold_machine)))
      = Some pr1
    /\ size_bytes (current_xfer pr1) = size_bytes xfer_with_fail_callback
    /\ tx_bytes (current_xfer pr1)
       = firstn (Z.to_nat (size_bytes xfer_with_fail_callback))
           (tx_bytes xfer_with_fail_callback)
    /\ done_callback (current_xfer pr1)
       = done_callback xfer_with_fail_callback
    /\ consumer_data (current_xfer pr1)
       = consumer_data xfer_with_fail_callback
    /\ fail_callback (current_xfer pr1) = 0.
Proof.
  apply (init_takes_default_xfer demo_platform 1 (ret tt) cold_machine
           xfer_with_fail_callback
           (SYMSPI_SUCCESS, Some (set_id 1 xfer_with_fail_callback))).
  - reflexivity.
  - reflexivity.
  - vm_compute. reflexivity.
  - reflexivity.
Defined.


(** ** reset *)

Lemma verify_consumer_input_no_xfer pf xfer m :
  valid_device pf m ->
  match xfer with
  | Some x => size_bytes x = 0 \/ IS_ERR_OR_NULL pf (data_tx x) = true
  | None => True
  end ->
  symspi_verify_consumer_input pf xfer true m
    = Ret (- SYMSPI_ERROR_NO_XFER) m.
Proof.
  intros [Hs [Ho Ht]] Hx. unfold symspi_verify_consumer_input.
  unfold bind, rd_dev. rewrite Hs, Ho, Ht. cbn [orb negb].
  destruct xfer as [x|]; [|reflexivity].
  destruct (Z.eqb_spec (size_bytes x) 0) as [_|Hz]; [reflexivity|].
  destruct Hx as [Hx|Hx]; [contradiction|]. now rewrite Hx.
Qed.

(** X21: symspi_reset checks its input before it closes anything.  On a
    valid device, an xfer of size 0 or without TX buffer, and a NULL xfer
    when the device has no usable current xfer (no private part, or size
    0, or a buffer missing), are answered with -SYMSPI_ERROR_NO_XFER and
    the device is left exactly as it was. *)
Theorem reset_refuses_unusable_input
    (pf : platform) (fuel : nat) (race : M unit) (m : machine)
    (default_xfer : option full_duplex_xfer) :
  valid_device pf m ->
  match default_xfer with
  | Some x => size_bytes x = 0 \/ IS_ERR_OR_NULL pf (data_tx x) = true
  | None =>
      match p (symspi m) with
      | Some pr =>
          size_bytes (current_xfer pr) = 0
          \/ data_tx (current_xfer pr) = 0
          \/ data_rx_buf (current_xfer pr) = 0
      | None => True
      end
  end ->
  symspi_reset pf fuel race default_xfer m
    = Ret (- SYMSPI_ERROR_NO_XFER, default_xfer) m.
Proof.
  intros Hdev Hx. unfold symspi_reset.
  assert (Hok : exists ok,
            symspi_is_current_xfer_ok m = Ret ok m
            /\ ok && negb (is_some default_xfer) = false).
  { unfold symspi_is_current_xfer_ok.
    destruct default_xfer as [x|].
    - destruct (p (symspi m)); eexists; (split; [reflexivity|]);
        cbn [is_some negb]; rewrite ?andb_false_r; reflexivity.
    - destruct (p (symspi m)) as [pr|]; eexists;
        (split; [reflexivity|]); [|reflexivity].
      cbn [is_some negb]. rewrite andb_true_r.
      destruct Hx as [H|[H|H]]; rewrite H; cbn;
        rewrite ?andb_false_r; reflexivity. }
  destruct Hok as (ok & Eok & Hno).
  rewrite (bind_eq _ _ _ _ _ Eok), Hno.
  assert (Hv : symspi_verify_consumer_input pf default_xfer true m
               = Ret (- SYMSPI_ERROR_NO_XFER) m).
  { apply verify_consumer_input_no_xfer; [exact Hdev|].
    destruct default_xfer; [exact Hx|exact I]. }
  now rewrite (bind_eq _ _ _ _ _ Hv).
Qed.

Lemma reset_refuses_unusable_input_witness :
  symspi_reset demo_platform 1 (ret tt)
    (Some (set_size_bytes 0 xfer_64_bytes)) idle_machine
    = Ret (- SYMSPI_ERROR_NO_XFER, Some (set_size_bytes 0 xfer_64_bytes))
        idle_machine.
Proof.
  apply (reset_refuses_unusable_input demo_platform 1 (ret tt) idle_machine
           (Some (set_size_bytes 0 xfer_64_bytes))).
  - apply (demo_device_is_valid (fun pr => pr)).
  - left. reflexivity.
Defined.

(** X22: symspi_reset does not revive a device whose init failed.  On a
    device that a failed symspi_init has left behind (private part
    attached, magic valid, closing latch set, state Cold), symspi_reset
    with a valid xfer returns success and changes nothing: its
    symspi_close is refused by the latch and its symspi_init takes the
    device for initialized.  symspi_is_running still answers false and a
    request is still answered NotReady. *)
Theorem reset_keeps_failed_init
    (pf : platform) (fuel : nat) (race : M unit) (m : machine)
    (pr : symspi_dev_private) (x : full_duplex_xfer) :
  p (symspi m) = Some pr ->
  init_unfinished pr ->
  valid_device pf m ->
  valid_xfer pf x ->
  symspi_reset pf fuel race (Some x) m = Ret (SYMSPI_SUCCESS, Some x) m
  /\ symspi_is_running m = Ret false m
  /\ symspi_data_xchange pf fuel race None false m
     = Ret (- FULL_DUPLEX_ERROR_NOT_READY pf, None) m.
Proof.
  intros Hp (Hmagic & Hlatch & Hst) Hdev Hx. split; [|split].
  - unfold symspi_reset.
    assert (Eok : exists ok, symspi_is_current_xfer_ok m = Ret ok m).
    { unfold symspi_is_current_xfer_ok. rewrite Hp. eauto. }
    destruct Eok as (ok & Eok).
    rewrite (bind_eq _ _ _ _ _ Eok).
    cbn [is_some negb]. rewrite andb_false_r.
    rewrite (bind_eq _ _ _ _ _
               (verify_consumer_input_valid pf (Some x) m Hdev Hx)).
    change (negb (SYMSPI_SUCCESS =? SYMSPI_SUCCESS)) with false. cbv iota.
    rewrite (bind_eq _ _ _ _ _ (close_latched pf m pr Hp Hmagic Hlatch)).
    now rewrite (bind_eq _ _ _ _ _
                   (init_reuses_private pf fuel race m pr x Hp Hmagic
                      Hdev Hx)).
  - unfold symspi_is_running. rewrite Hp, Hst. reflexivity.
  - unfold symspi_data_xchange, symspi_data_xchange_open,
      __symspi_is_closing.
    unfold bind at 1. now rewrite (rd_private _ _ _ Hp), Hlatch.
Qed.

Lemma reset_keeps_failed_init_witness :
  symspi_reset no_workqueue_platform 1 (ret tt) (Some xfer_64_bytes)
    unfinished_machine
    = Ret (SYMSPI_SUCCESS, Some xfer_64_bytes) unfinished_machine
  /\ symspi_is_running unfinished_machine = Ret false unfinished_machine
  /\ symspi_data_xchange no_workqueue_platform 1 (ret tt) None false
       unfinished_machine
     = Ret (- FULL_DUPLEX_ERROR_NOT_READY no_workqueue_platform, None)
         unfinished_machine.
Proof.
  apply (reset_keeps_failed_init no_workqueue_platform 1 (ret tt)
           unfinished_machine unfinished_private xfer_64_bytes).
  - reflexivity.
  - repeat split.
  - repeat split.
  - split; [discriminate|reflexivity].
Defined.

(* the copy symspi_reset makes of the current xfer *)
Lemma xfer_init_copy_local_ok pf x m :
  exists res tmp n,
    symspi_xfer_init_copy_local pf x m
      = Ret (res, tmp) (set_allocs (n + allocs m)%nat m)
    /\ (0 <= res -> copy_of x tmp).
Proof.
  unfold symspi_xfer_init_copy_local.
  destruct (do_resize_from_empty pf (size_bytes x) m)
    as (target & n & E & Htarget).
  rewrite (bind_eq _ _ _ _ _ E).
  destruct (Z.eqb_spec (size_bytes target) 0) as [Hz|Hz].
  { eexists _, _, n. split; [reflexivity|].
    unfold SYMSPI_ERROR_NO_MEMORY, ENOMEM. lia. }
  destruct (Htarget Hz) as (Hsz & Htx & Hdone & Hdata & Hfail).
  eexists _, _, n. split; [reflexivity|].
  intros _. unfold copy_of, memcpy. rewrite Htx, skipn_nil, app_nil_r.
  destruct target. cbn in *. now repeat split.
Qed.

Lemma verify_consumer_input_needs_xfer pf m res m' :
  symspi_verify_consumer_input pf None true m = Ret res m' ->
  res <> SYMSPI_SUCCESS.
Proof.
  unfold symspi_verify_consumer_input, bind, rd_dev, ret.
  destruct (IS_ERR_OR_NULL pf (spi (symspi m)));
    [intros H; injection H as <- _; discriminate|].
  destruct (IS_ERR_OR_NULL pf (gpiod_our_flag (symspi m))
            || IS_ERR_OR_NULL pf (gpiod_their_flag (symspi m)));
    intros H; injection H as <- _; discriminate.
Qed.

Lemma copy_of_copy x tmp c :
  copy_of x tmp -> copy_of tmp c ->
  size_bytes c = size_bytes x
  /\ tx_bytes c = firstn (Z.to_nat (size_bytes x)) (tx_bytes x)
  /\ done_callback c = done_callback x
  /\ consumer_data c = consumer_data x
  /\ fail_callback c = 0.
Proof.
  intros (H1 & H2 & H3 & H4 & H5) (G1 & G2 & G3 & G4 & G5).
  repeat split; try congruence.
  rewrite G2, H1, H2, firstn_firstn. now rewrite Nat.min_id.
Qed.

(** X23: the data of the device survive a symspi_reset without xfer.  When
    symspi_reset with a NULL xfer succeeds on a device that symspi_init
    has brought up, the device is brought up again and its current xfer
    has the size, the TX data, the done callback and the consumer data of
    the current xfer there was before; the fail callback is lost. *)
Theorem reset_keeps_default_data
    (pf : platform) (fuel : nat) (race : M unit) (m : machine)
    (pr : symspi_dev_private) (r : Z * option full_duplex_xfer)
    (m1 : machine) :
  p (symspi m) = Some pr ->
  brought_up pr ->
  0 < FULL_DUPLEX_ERROR_NOT_READY pf ->
  symspi_reset pf fuel race None m = Ret r m1 ->
  fst r = SYMSPI_SUCCESS ->
  exists pr1,
    p (symspi m1) = Some pr1
    /\ brought_up pr1
    /\ size_bytes (current_xfer pr1) = size_bytes (current_xfer pr)
    /\ tx_bytes (current_xfer pr1)
       = firstn (Z.to_nat (size_bytes (current_xfer pr)))
           (tx_bytes (current_xfer pr))
    /\ done_callback (current_xfer pr1) = done_callback (current_xfer pr)
    /\ consumer_data (current_xfer pr1) = consumer_data (current_xfer pr)
    /\ fail_callback (current_xfer pr1) = 0.
Proof.
  intros Hp (Hmagic & Hc & Hst & Hlevel & Hirq) Hnr H Hr.
  unfold symspi_reset in H. cbv zeta in H.
  assert (Eok : symspi_is_current_xfer_ok m
                = Ret (negb (size_bytes (current_xfer pr) =? 0)
                       && negb (data_tx (current_xfer pr) =? 0)
                       && negb (data_rx_buf (current_xfer pr) =? 0)) m).
  { unfold symspi_is_current_xfer_ok. now rewrite Hp. }
  rewrite (bind_eq _ _ _ _ _ Eok) in H. cbn [is_some negb] in H.
  rewrite andb_true_r in H.
  destruct (negb (size_bytes (current_xfer pr) =? 0)
            && negb (data_tx (current_xfer pr) =? 0)
            && negb (data_rx_buf (current_xfer pr) =? 0)).
  2:{ destruct (verify_consumer_input_pure pf None true m) as [res Ev].
      rewrite (bind_eq _ _ _ _ _ Ev) in H.
      pose proof (verify_consumer_input_needs_xfer pf m res m Ev) as Hne.
      apply Z.eqb_neq in Hne. rewrite Hne in H. cbn [negb] in H.
      unfold ret in H. injection H as <- _. cbn in Hr.
      apply Z.eqb_neq in Hne. contradiction. }
  rewrite (bind_eq _ _ _ _ _ (rd_private current_xfer _ _ Hp)) in H.
  destruct (xfer_init_copy_local_ok pf (current_xfer pr) m)
    as (res & tmp & n & Ecopy & Hcopy).
  rewrite (bind_eq _ _ _ _ _ Ecopy) in H.
  destruct (Z.ltb_spec res 0) as [Hneg|Hpos].
  { unfold ret in H. injection H as <- _. cbn in Hr.
    unfold SYMSPI_SUCCESS in Hr. lia. }
  set (m0 := set_allocs (n + allocs m) m) in *.
  assert (Hp0 : p (symspi m0) = Some pr) by (destruct m; exact Hp).
  destruct (verify_consumer_input_pure pf (Some tmp) true m0) as [res1 Ev].
  rewrite (bind_eq _ _ _ _ _ Ev) in H.
  destruct (Z.eqb_spec res1 SYMSPI_SUCCESS) as [Hres1|Hres1];
    cbn [negb] in H.
  2:{ unfold ret in H. injection H as <- _. contradiction. }
  rewrite (bind_eq _ _ _ _ _
             (close_of_full_device pf m0 pr Hp0 Hmagic Hc Hst Hlevel Hirq))
    in H.
  unfold bind at 1 in H. revert H.
  match goal with
  | |- context [symspi_init pf fuel race (Some tmp) ?M] =>
      generalize (eq_refl : p (symspi M) = None); generalize M
  end.
  intros m2 Hp2 H.
  destruct (symspi_init pf fuel race (Some tmp) m2) as [r2 m3|m3|m3] eqn:Ei;
    try discriminate.
  unfold ret in H. injection H as <- <-. cbn [fst] in Hr.
  destruct (init_success pf fuel race m2 tmp r2 m3 Hp2 Hnr Ei Hr)
    as (pr1 & Hp1 & Hup & Hcopy1).
  exists pr1. split; [exact Hp1|]. split; [exact Hup|].
  exact (copy_of_copy _ _ _ (Hcopy Hpos) Hcopy1).
Qed.

Lemma reset_keeps_default_data_witness :
  exists pr1,
    p (symspi (final (symspi_reset demo_platform 1 (ret tt) None
                        idle_machine))) = Some pr1
    /\ brought_up pr1
    /\ size_bytes (current_xfer pr1) = size_bytes (current_xfer idle_private)
    /\ tx_bytes (current_xfer pr1)
       = firstn (Z.to_nat (size_bytes (current_xfer idle_private)))
           (tx_bytes (current_xfer idle_private))
    /\ done_callback (current_xfer pr1)
       = done_callback (current_xfer idle_private)
    /\ consumer_data (current_xfer pr1)
       = consumer_data (current_xfer idle_private)
    /\ fail_callback (current_xfer pr1) = 0.
Proof.
  apply (reset_keeps_default_data demo_platform 1 (ret tt) idle_machine
           idle_private (SYMSPI_SUCCESS, None)).
  - reflexivity.
  - repeat split; [discriminate|vm_compute; discriminate].
  - reflexivity.
  - vm_compute. reflexivity.
  - reflexivity.
Defined.


(** X24: a size change symspi_replace_xfer cannot get the memory for.  When
    the sizes differ, the change is allowed (state Xfer, or
    force_size_change) and one of the two krealloc calls fails, the call
    returns -SYMSPI_ERROR_NO_MEMORY and the current xfer is left with
    size 0; its id, counter, callbacks and consumer data are the old ones
    (the new xfer is not installed), its RX pointer is not cleared when
    the TX buffer could not be had, and the native SPI transfer is not
    updated: it keeps the buffers and the length it had. *)
Theorem replace_xfer_out_of_memory
    (pf : platform) (m : machine) (pr : symspi_dev_private)
    (new_xfer : full_duplex_xfer) (force_size_change : bool) :
  p (symspi m) = Some pr ->
  size_bytes new_xfer <> 0 ->
  regions_overlap (data_tx (current_xfer pr)) (size_bytes (current_xfer pr))
                  (data_tx new_xfer) (size_bytes new_xfer) = false ->
  size_bytes (current_xfer pr) <> size_bytes new_xfer ->
  state pr = SYMSPI_STATE_XFER \/ force_size_change = true ->
  krealloc pf (allocs m) (data_tx (current_xfer pr)) (size_bytes new_xfer)
    = 0
  \/ krealloc pf (S (allocs m)) (data_rx_buf (current_xfer pr))
       (size_bytes new_xfer) = 0 ->
  exists x' n,
    symspi_replace_xfer pf new_xfer force_size_change m
      = Ret (- SYMSPI_ERROR_NO_MEMORY)
          (set_allocs (n + allocs m)%nat
             (set_private (Some (set_current_xfer x' pr)) m))
    /\ size_bytes x' = 0
    /\ data_tx x'
       = krealloc pf (allocs m) (data_tx (current_xfer pr))
           (size_bytes new_xfer)
    /\ data_rx_buf x'
       = (if data_tx x' =? 0 then data_rx_buf (current_xfer pr) else 0)
    /\ id x' = id (current_xfer pr)
    /\ xfers_counter x' = xfers_counter (current_xfer pr)
    /\ done_callback x' = done_callback (current_xfer pr)
    /\ fail_callback x' = fail_callback (current_xfer pr)
    /\ consumer_data x' = consumer_data (current_xfer pr)
    /\ spi_xfer (set_current_xfer x' pr) = spi_xfer pr.
Proof.
  intros Hp Hnz Hov Hdiff Hgo Hfail. unfold symspi_replace_xfer.
  unfold bind at 1. rewrite (rd_private _ _ _ Hp).
  apply Z.eqb_neq in Hnz. rewrite Hnz, Hov.
  pose proof Hdiff as Hd. apply Z.eqb_neq in Hd. rewrite Hd. cbn [negb].
  unfold bind at 1. unfold bind at 1. rewrite (rd_private _ _ _ Hp).
  assert (Hgate : negb (state pr =? SYMSPI_STATE_XFER)
                  && negb force_size_change = false).
  { destruct Hgo as [->| ->]; [reflexivity|apply andb_false_r]. }
  rewrite Hgate.
  unfold symspi_do_resize_xfer. rewrite Hd, Hnz.
  unfold bind at 1. unfold bind at 1. unfold krealloc_call at 1.
  cbn [data_tx set_size_bytes full_duplex_xfer_eta].
  destruct (Z.eqb_spec
              (krealloc pf (allocs m) (data_tx (current_xfer pr))
                 (size_bytes new_xfer)) 0) as [Htx|Htx].
  - unfold ret at 1.
    assert (Hp1 : p (symspi (set_allocs (S (allocs m)) m)) = Some pr)
      by (destruct m; exact Hp).
    unfold bind at 1. rewrite (wr_private _ _ _ Hp1).
    cbn [size_bytes set_size_bytes full_duplex_xfer_eta].
    change (0 =? 0) with true. cbv iota. unfold ret, bind.
    eexists _, 1%nat. split; [destruct m; reflexivity|].
    cbn. rewrite Htx. repeat split; destruct pr; reflexivity.
  - destruct Hfail as [Hfail|Hrx]; [contradiction|].
    unfold bind at 1. unfold krealloc_call at 1.
    cbn [allocs set_allocs machine_eta data_rx_buf set_tx_bytes set_data_tx
         set_size_bytes full_duplex_xfer_eta].
    replace (allocs (set_allocs (S (allocs m)) m)) with (S (allocs m))
      by (destruct m; reflexivity).
    rewrite Hrx. change (0 =? 0) with true. cbv iota.
    unfold ret at 1.
    set (m2 := set_allocs _ (set_allocs _ m)).
    assert (Hp2 : p (symspi m2) = Some pr) by (destruct m; exact Hp).
    unfold bind at 1. rewrite (wr_private _ _ _ Hp2).
    cbn [size_bytes set_size_bytes full_duplex_xfer_eta].
    change (0 =? 0) with true. cbv iota. unfold ret, bind.
    eexists _, 2%nat. split; [subst m2; destruct m; reflexivity|].
    apply Z.eqb_neq in Htx. cbn. rewrite Htx.
    repeat split; destruct pr; reflexivity.
Qed.

Lemma replace_xfer_out_of_memory_witness :
  exists x' n,
    symspi_replace_xfer no_memory_platform xfer_1_byte true idle_machine
      = Ret (- SYMSPI_ERROR_NO_MEMORY)
          (set_allocs (n + allocs idle_machine)%nat
             (set_private (Some (set_current_xfer x' idle_private))
                idle_machine))
    /\ size_bytes x' = 0
    /\ data_tx x'
       = krealloc no_memory_platform (allocs idle_machine)
           (data_tx (current_xfer idle_private)) (size_bytes xfer_1_byte)
    /\ data_rx_buf x'
       = (if data_tx x' =? 0 then data_rx_buf (current_xfer idle_private)
          else 0)
    /\ id x' = id (current_xfer idle_private)
    /\ xfers_counter x' = xfers_counter (current_xfer idle_private)
    /\ done_callback x' = done_callback (current_xfer idle_private)
    /\ fail_callback x' = fail_callback (current_xfer idle_private)
    /\ consumer_data x' = consumer_data (current_xfer idle_private)
    /\ spi_xfer (set_current_xfer x' idle_private) = spi_xfer idle_private.
Proof.
  apply (replace_xfer_out_of_memory no_memory_platform idle_machine
           idle_private xfer_1_byte true).
  - reflexivity.
  - discriminate.
  - reflexivity.
  - discriminate.
  - right. reflexivity.
  - left. reflexivity.
Defined.


(** X25: a transfer the peer asks for is started like one the consumer
    asks for.  On an idle master (closing latch clear, valid device, peer
    showing no error) the interrupt on a rising edge of the peer flag
    leaves the device exactly as symspi_data_xchange with a NULL xfer
    does (same state, same flag level, same kernel calls in the same
    order), but for the edge counted in their_flag_edges. *)
Theorem peer_request_starts_transfer
    (pf : platform) (fuel : nat) (race : M unit) (m : machine)
    (pr : symspi_dev_private) :
  p (symspi m) = Some pr ->
  close_request pr = false ->
  spi_master_mode pr = true ->
  state pr = SYMSPI_STATE_IDLE ->
  their_flag_drop_counter pr <= 1 ->
  their_flag_raised pr m = true ->
  0 < FULL_DUPLEX_ERROR_NOT_READY pf ->
  valid_device pf m ->
  exists res m1 pr1,
    symspi_data_xchange pf fuel race None false m = Ret (res, None) m1
    /\ p (symspi m1) = Some pr1
    /\ symspi_their_flag_isr pf fuel race m
       = Ret tt (set_private (Some (count_edge pr1)) m1).
Proof.
  intros Hp Hc Hm Hst Hcnt Hr Hnr Hdev.
  rewrite (data_xchange_none_eq pf fuel race m pr false Hp Hc Hm Hst Hcnt
             Hnr Hdev).
  unfold symspi_their_flag_isr.
  unfold bind at 1. rewrite (rd_private _ _ _ Hp), Hst.
  change (SYMSPI_STATE_IDLE =? SYMSPI_STATE_COLD) with false. cbv iota.
  unfold bind at 1. rewrite (their_flag_is_set_eq _ _ Hp), Hr.
  unfold bind at 1. unfold symspi_their_flag_set_isr_sequence.
  unfold bind at 1. unfold SYMSPI_SWITCH_STRICT.
  rewrite (switch_strict_open _ _ _ _ Hp Hc), Hst.
  change (SYMSPI_STATE_IDLE =? SYMSPI_STATE_IDLE) with true. cbv iota.
  set (pr1 := set_state SYMSPI_STATE_XFER_PREPARE pr).
  unfold bind at 1.
  rewrite (xfer_prepare_to_waiting_prev_eq pf fuel race _ pr1
             (private_of_set_private _ _) Hc Hm eq_refl Hcnt).
  change (their_flag_drop_counter pr1) with (their_flag_drop_counter pr).
  change (hardware_spi_rdy pr1) with (hardware_spi_rdy pr).
  change (their_flag_raised pr1 (set_private (Some pr1) m))
    with (their_flag_raised pr m).
  change (do_xfer_result (set_private (Some pr1) m))
    with (do_xfer_result m).
  change (our_flag_active pr1) with (our_flag_active pr).
  unfold our_flag_active. rewrite Hm, Hr. cbv zeta.
  destruct (their_flag_drop_counter pr =? 1); cbn [negb].
  - destruct (hardware_spi_rdy pr); unfold ret at 1;
      eexists _, _, _; (split; [reflexivity|]);
      (split; [reflexivity|]);
      (erewrite wr_private by reflexivity); reflexivity.
  - unfold ret at 1. eexists _, _, _. split; [reflexivity|].
    split; [reflexivity|].
    erewrite wr_private by reflexivity. reflexivity.
Qed.

Lemma peer_request_starts_transfer_witness :
  exists res m1 pr1,
    symspi_data_xchange demo_platform 1 (ret tt) None false
      (peer_raises_flag idle_machine) = Ret (res, None) m1
    /\ p (symspi m1) = Some pr1
    /\ symspi_their_flag_isr demo_platform 1 (ret tt)
         (peer_raises_flag idle_machine)
       = Ret tt (set_private (Some (count_edge pr1)) m1).
Proof.
  apply (peer_request_starts_transfer demo_platform 1 (ret tt)
           (peer_raises_flag idle_machine) idle_private);
    try reflexivity.
  repeat split.
Defined.


(** ** Requests that bring an xfer *)

Lemma replace_xfer_same_size_eq pf m pr x force_size_change :
  p (symspi m) = Some pr ->
  fits x pr ->
  symspi_replace_xfer pf x force_size_change m
  = Ret SYMSPI_SUCCESS (stepped (installed x pr) (hook_events m) m).
Proof.
  intros Hp (Hnz & Hsame & Hov). unfold symspi_replace_xfer.
  unfold bind at 1. rewrite (rd_private _ _ _ Hp).
  apply Z.eqb_neq in Hnz. rewrite Hnz, Hov.
  apply Z.eqb_eq in Hsame. rewrite Hsame. cbn [negb].
  unfold bind at 1. unfold ret at 1.
  unfold bind at 1. rewrite (wr_private _ _ _ Hp).
  unfold bind at 1.
  rewrite (do_update_native_spi_xfer_data_eq _ _
             (private_of_set_private _ _)).
  match goal with
  | |- context [native_transfer_configuration_hook (symspi ?M) =? 0] =>
      change (native_transfer_configuration_hook (symspi M))
        with (native_transfer_configuration_hook (symspi m))
  end.
  unfold ret, hook_events.
  destruct (native_transfer_configuration_hook (symspi m) =? 0);
    destruct m as [dev ? ? ? ? ? ?]; destruct dev; reflexivity.
Qed.

Lemma update_xfer_sequence_same_size_eq pf fuel race m pr x original_state
    force_size_change :
  p (symspi m) = Some pr ->
  fits x pr ->
  symspi_update_xfer_sequence pf fuel race (Some x) original_state
    force_size_change m
  = Ret (SYMSPI_SUCCESS, Some (stamped pr x))
      (stepped (installed (stamped pr x) (id_taken pr)) (hook_events m) m).
Proof.
  intros Hp Hfit.
  unfold symspi_update_xfer_sequence, symspi_update_xfer_sequence_open.
  unfold bind at 1. rewrite (get_next_xfer_id_eq _ _ Hp).
  assert (E : (if next_xfer_id pr <=? 0
               then Ret SYMSPI_INITIAL_XFER_ID
                      (set_private
                         (Some (set_next_xfer_id
                                  (SYMSPI_INITIAL_XFER_ID + 1) pr)) m)
               else Ret (next_xfer_id pr)
                      (set_private
                         (Some (set_next_xfer_id
                                  (to_int (next_xfer_id pr + 1)) pr)) m))
              = Ret (next_id pr) (set_private (Some (id_taken pr)) m)).
  { unfold next_id, id_taken. now destruct (next_xfer_id pr <=? 0). }
  rewrite E. clear E. fold (stamped pr x).
  assert (Hfit' : fits (stamped pr x) (id_taken pr)).
  { destruct Hfit as (H1 & H2 & H3). destruct pr, x.
    repeat split; assumption. }
  unfold bind at 1.
  rewrite (replace_xfer_same_size_eq pf _ (id_taken pr) (stamped pr x)
             force_size_change (private_of_set_private _ _) Hfit').
  change (negb (SYMSPI_SUCCESS =? SYMSPI_SUCCESS)) with false. cbv iota.
  unfold ret. destruct m as [dev ? ? ? ? ? ?]. destruct dev. reflexivity.
Qed.

Lemma idle_to_xfer_prepare_some_eq pf fuel race m pr x force_size_change :
  p (symspi m) = Some pr ->
  close_request pr = false ->
  state pr = SYMSPI_STATE_IDLE ->
  their_flag_drop_counter pr <= 1 ->
  valid_device pf m ->
  valid_xfer pf x ->
  fits x pr ->
  symspi_idle_to_xfer_prepare_sequence pf fuel race (Some x)
    force_size_change m
  = Ret (SYMSPI_SUCCESS, Some (stamped pr x))
      (stepped
         (set_state SYMSPI_STATE_XFER_PREPARE
            (installed (stamped pr x) (id_taken pr)))
         (hook_events m) m).
Proof.
  intros Hp Hc Hst Hcnt Hdev Hx Hfit.
  unfold symspi_idle_to_xfer_prepare_sequence,
    symspi_idle_to_xfer_prepare_sequence_open.
  unfold bind at 1.
  rewrite (verify_consumer_input_valid pf (Some x) m Hdev Hx).
  change (negb (SYMSPI_SUCCESS =? SYMSPI_SUCCESS)) with false. cbv iota.
  unfold bind at 1. rewrite (switch_strict_open _ _ _ _ Hp Hc), Hst.
  change (SYMSPI_STATE_IDLE =? SYMSPI_STATE_IDLE) with true. cbv iota.
  cbn [negb]. unfold bind at 1.
  set (pr1 := set_state SYMSPI_STATE_XFER_PREPARE pr).
  rewrite (try_to_error_sequence_quiet pf fuel race _ pr1
             (private_of_set_private _ _) Hcnt).
  change (negb (SYMSPI_SUCCESS =? SYMSPI_SUCCESS)) with false. cbv iota.
  assert (Hfit1 : fits x pr1).
  { destruct Hfit as (H1 & H2 & H3). destruct pr. repeat split; assumption. }
  pose proof (update_xfer_sequence_same_size_eq pf fuel race _ pr1 x
                SYMSPI_STATE_XFER_PREPARE force_size_change
                (private_of_set_private _ m) Hfit1) as E.
  unfold symspi_update_xfer_sequence in E. rewrite E.
  subst pr1. destruct m as [dev ? ? ? ? ? ?]. destruct dev, pr.
  reflexivity.
Qed.

(** X26: symspi_default_data_update replaces the default data and starts
    nothing.  On an idle device (closing latch clear, valid device, peer
    showing no error and not requesting, no request latched) an xfer of
    the size of the current one, valid and with its TX buffer apart, is
    taken over: the current xfer keeps its buffers and takes the TX data,
    the callbacks and the consumer data of the new one, with the next id
    and the counter 0, which are also written to the xfer of the caller;
    the native transfer is set to the buffers; the timeout timer is
    stopped; the state is Idle again.  The value returned is 0, not the
    id. *)
Theorem default_data_update_installs
    (pf : platform) (fuel : nat) (race : M unit) (m : machine)
    (pr : symspi_dev_private) (x : full_duplex_xfer)
    (force_size_change : bool) :
  p (symspi m) = Some pr ->
  close_request pr = false ->
  state pr = SYMSPI_STATE_IDLE ->
  their_flag_drop_counter pr <= 1 ->
  delayed_xfer_request pr = false ->
  (their_flag_drop_counter pr =? 1) && their_flag_raised pr m = false ->
  valid_device pf m ->
  valid_xfer pf x ->
  fits x pr ->
  symspi_default_data_update pf fuel race (Some x) force_size_change m
  = Ret (SYMSPI_SUCCESS, Some (stamped pr x))
      (stepped (installed (stamped pr x) (id_taken pr))
         (EvDelTimerSync :: hook_events m) m).
Proof.
  intros Hp Hc Hst Hcnt Hdl Hreq Hdev Hx Hfit.
  unfold symspi_default_data_update, __symspi_is_closing.
  unfold bind at 1. rewrite (rd_private _ _ _ Hp), Hc.
  unfold bind at 1.
  rewrite (idle_to_xfer_prepare_some_eq pf fuel race m pr x
             force_size_change Hp Hc Hst Hcnt Hdev Hx Hfit).
  change (negb (SYMSPI_SUCCESS =? SYMSPI_SUCCESS)) with false. cbv iota.
  set (pr1 := set_state SYMSPI_STATE_XFER_PREPARE _).
  set (m1 := stepped pr1 _ m).
  assert (Hp1 : p (symspi m1) = Some pr1) by reflexivity.
  assert (Hc1 : close_request pr1 = false) by (destruct pr; exact Hc).
  assert (Hcnt1 : their_flag_drop_counter pr1 <= 1)
    by (destruct pr; exact Hcnt).
  pose proof (to_idle_sequence_eq pf fuel race m1 pr1 false Hp1 Hc1
                (fun _ => Hcnt1)) as E.
  change (state pr1) with SYMSPI_STATE_XFER_PREPARE in E.
  unfold bind at 1. rewrite E. clear E.
  replace (delayed_xfer_request pr1) with false
    by (destruct pr; symmetry; exact Hdl).
  replace (their_flag_drop_counter pr1) with (their_flag_drop_counter pr)
    by (destruct pr; reflexivity).
  replace (their_flag_raised pr1 m1) with (their_flag_raised pr m)
    by (subst m1 pr1; destruct pr, m; reflexivity).
  rewrite Hreq. cbn [orb]. unfold ret.
  subst m1 pr1. destruct m as [dev ? ? ? ? ? ?]. destruct dev, pr.
  cbn in Hst, Hdl. subst. reflexivity.
Qed.

(** X27: symspi_data_xchange with an xfer is the xfer taken over and then
    symspi_data_xchange without one.  On an idle master (closing latch
    clear, valid device, peer showing no error) and for a valid xfer of
    the size of the current one with its TX buffer apart, the call leaves
    the device as the call with a NULL xfer leaves the device in which the
    xfer is installed, hands back the xfer with the new id and the counter
    0, and returns that id where the call with NULL returns 0. *)
Theorem data_xchange_with_xfer
    (pf : platform) (fuel : nat) (race : M unit) (m : machine)
    (pr : symspi_dev_private) (x : full_duplex_xfer)
    (force_size_change : bool) :
  p (symspi m) = Some pr ->
  close_request pr = false ->
  spi_master_mode pr = true ->
  state pr = SYMSPI_STATE_IDLE ->
  their_flag_drop_counter pr <= 1 ->
  0 < FULL_DUPLEX_ERROR_NOT_READY pf ->
  valid_device pf m ->
  valid_xfer pf x ->
  fits x pr ->
  exists res m',
    symspi_data_xchange pf fuel race None force_size_change
      (stepped (installed (stamped pr x) (id_taken pr)) (hook_events m) m)
      = Ret (res, None) m'
    /\ symspi_data_xchange pf fuel race (Some x) force_size_change m
       = Ret (if res =? SYMSPI_SUCCESS then next_id pr else res,
              Some (stamped pr x)) m'.
Proof.
  intros Hp Hc Hm Hst Hcnt Hnr Hdev Hx Hfit.
  set (pri := installed (stamped pr x) (id_taken pr)).
  set (mi := stepped pri (hook_events m) m).
  assert (Hpi : p (symspi mi) = Some pri) by reflexivity.
  assert (Hdevi : valid_device pf mi).
  { subst mi. destruct m as [dev ? ? ? ? ? ?]. destruct dev. exact Hdev. }
  rewrite (data_xchange_none_eq pf fuel race mi pri force_size_change Hpi
             ltac:(destruct pr; exact Hc) ltac:(destruct pr; exact Hm)
             ltac:(destruct pr; exact Hst) ltac:(destruct pr; exact Hcnt)
             Hnr Hdevi).
  unfold symspi_data_xchange, symspi_data_xchange_open, __symspi_is_closing.
  unfold bind at 1. rewrite (rd_private _ _ _ Hp), Hc.
  unfold bind at 1.
  change (symspi_idle_to_xfer_prepare_sequence_open pf fuel race
            (symspi_data_xchange_default pf fuel race))
    with (symspi_idle_to_xfer_prepare_sequence pf fuel race).
  rewrite (idle_to_xfer_prepare_some_eq pf fuel race m pr x
             force_size_change Hp Hc Hst Hcnt Hdev Hx Hfit).
  replace (SYMSPI_SUCCESS =? - FULL_DUPLEX_ERROR_NOT_READY pf) with false
    by (symmetry; apply Z.eqb_neq; unfold SYMSPI_SUCCESS; lia).
  cbn [andb]. change (negb (SYMSPI_SUCCESS =? SYMSPI_SUCCESS)) with false.
  cbv iota.
  fold pri.
  set (pr1 := set_state SYMSPI_STATE_XFER_PREPARE pri).
  set (m1 := stepped pr1 (hook_events m) m).
  assert (Hp1 : p (symspi m1) = Some pr1) by reflexivity.
  unfold bind at 1.
  rewrite (xfer_prepare_to_waiting_prev_eq pf fuel race m1 pr1 Hp1
             ltac:(destruct pr; exact Hc) ltac:(destruct pr; exact Hm)
             eq_refl ltac:(destruct pr; exact Hcnt)).
  cbv zeta.
  replace (their_flag_drop_counter pr1) with (their_flag_drop_counter pri)
    by (destruct pr; reflexivity).
  replace (hardware_spi_rdy pr1) with (hardware_spi_rdy pri)
    by (destruct pr; reflexivity).
  replace (their_flag_raised pr1 m1) with (their_flag_raised pri mi)
    by (subst m1 mi pr1 pri; destruct pr, m; reflexivity).
  replace (do_xfer_result m1) with (do_xfer_result mi)
    by (subst m1 mi; destruct m; reflexivity).
  replace (our_flag_active pr1) with SYMSPI_MASTER_FLAG_ACTIVE_VALUE
    by (unfold our_flag_active; destruct pr; cbn in Hm |- *;
        now rewrite Hm).
  assert (Hid : id (stamped pr x) = next_id pr) by (now destruct x).
  rewrite Hid.
  destruct (their_flag_drop_counter pri =? 1); cbn [negb];
    [destruct (hardware_spi_rdy pri);
     [|destruct (their_flag_raised pri mi)]|];
    eexists _, _; (split; [reflexivity|]); unfold ret;
    subst m1 mi pr1; destruct m as [dev ? ? ? ? ? ?]; destruct dev, pri;
    reflexivity.
Qed.

Lemma default_data_update_installs_witness :
  symspi_default_data_update demo_platform 1 (ret tt) (Some xfer_64_bytes)
    false idle_machine
  = Ret (SYMSPI_SUCCESS, Some (stamped idle_private xfer_64_bytes))
      (stepped
         (installed (stamped idle_private xfer_64_bytes)
            (id_taken idle_private))
         (EvDelTimerSync :: hook_events idle_machine) idle_machine).
Proof.
  apply (default_data_update_installs demo_platform 1 (ret tt) idle_machine
           idle_private xfer_64_bytes false); try reflexivity.
  - repeat split.
  - split; [discriminate|reflexivity].
  - split; [discriminate|]. split; reflexivity.
Defined.

Lemma data_xchange_with_xfer_witness :
  exists res m',
    symspi_data_xchange demo_platform 1 (ret tt) None false
      (stepped
         (installed (stamped idle_private xfer_64_bytes)
            (id_taken idle_private))
         (hook_events idle_machine) idle_machine)
      = Ret (res, None) m'
    /\ symspi_data_xchange demo_platform 1 (ret tt) (Some xfer_64_bytes)
         false idle_machine
       = Ret (if res =? SYMSPI_SUCCESS then next_id idle_private else res,
              Some (stamped idle_private xfer_64_bytes)) m'.
Proof.
  apply (data_xchange_with_xfer demo_platform 1 (ret tt) idle_machine
           idle_private xfer_64_bytes false); try reflexivity.
  - repeat split.
  - split; [discriminate|reflexivity].
  - split; [discriminate|]. split; reflexivity.
Defined.


(** ** A peer error and the recovery from it *)

(* the interrupt on a falling edge that makes the drop counter 2 *)
Lemma their_flag_isr_second_drop pf n race m pr :
  p (symspi m) = Some pr ->
  close_request pr = false ->
  spi_master_mode pr = true ->
  goes_to_error_directly (state pr) ->
  their_flag_drop_counter pr = 1 ->
  their_flag_raised pr m = false ->
  exists pr',
    ledger_updated (set_their_flag_drop_counter 2 pr) pr'
    /\ symspi_their_flag_isr pf (S n) race m
       = Ret tt
           (stepped
              (count_edge
                 (set_last_error SYMSPI_ERROR_OTHER_SIDE
                    (set_state SYMSPI_STATE_ERROR pr')))
              [EvQueueWork recover_work; EvDropCounterAddFetch 2] m).
Proof.
  intros Hp Hc Hm Hst Hcnt Hr.
  assert (Hcold : (state pr =? SYMSPI_STATE_COLD) = false).
  { apply Z.eqb_neq. destruct Hst as [H|[H|[H|[H|H]]]]; rewrite H;
      discriminate. }
  unfold symspi_their_flag_isr.
  unfold bind at 1. rewrite (rd_private _ _ _ Hp), Hcold.
  unfold bind at 1. rewrite (their_flag_is_set_eq _ _ Hp), Hr.
  unfold bind at 1. unfold symspi_their_flag_drop_isr_sequence.
  unfold bind at 1. unfold atomic_add_fetch_drop_counter.
  unfold bind at 1. rewrite (rd_private _ _ _ Hp), Hcnt.
  change (to_int (1 + 1)) with 2.
  unfold bind at 1. rewrite (wr_private _ _ _ Hp).
  unfold bind at 1.
  rewrite (emit_eq _ _ _ (private_of_set_private _ _)).
  unfold ret at 1.
  set (pr1 := set_their_flag_drop_counter 2 pr).
  set (m1 := stepped pr1 _ _).
  assert (Hp1 : p (symspi m1) = Some pr1) by reflexivity.
  unfold bind at 1. rewrite (rd_private _ _ _ Hp1).
  change ((2 =? 1) && spi_master_mode pr1) with false. cbv iota.
  change (2 <=? 2) with true. cbv iota.
  destruct (error_handle_enters_loop pf (S n) race m1 pr1
              SYMSPI_ERROR_OTHER_SIDE 0 Hp1 ltac:(discriminate))
    as (pr2 & Hledger & E).
  rewrite E. clear E.
  destruct (ledger_updated_state _ _ Hledger) as (Hst2 & Hc2 & _).
  assert (Hpass :
    __symspi_error_handle_pass race (to_uchar SYMSPI_ERROR_OTHER_SIDE)
      (set_private (Some pr2) m1)
    = Ret true
        (set_trace (EvQueueWork recover_work
                    :: trace (set_private (Some pr2) m1))
           (set_private
              (Some (set_last_error (to_uchar SYMSPI_ERROR_OTHER_SIDE)
                       (set_state SYMSPI_STATE_ERROR pr2)))
              (set_private (Some pr2) m1)))).
  { apply (error_handle_pass_direct race _ pr2);
      [reflexivity|rewrite Hc2; destruct pr; exact Hc|].
    rewrite Hst2. destruct pr; exact Hst. }
  rewrite (error_handle_loop_returns race n _ _ _ Hpass).
  exists pr2. split; [exact Hledger|].
  erewrite wr_private by reflexivity.
  subst m1. destruct m as [dev ? ? ? ? ? ?]. destruct dev. reflexivity.
Qed.

(** X28: an error signalled by the peer is recovered from without the
    consumer.  On a master outside Cold, Xfer and Error whose xfer has no
    fail callback, a falling edge of the peer flag that makes the drop
    counter 2 puts the device into Error with last_error OtherSide and
    queues the recovery work; the recovery work then signals the error
    back, clears last_error and starts the transfer of the current xfer
    again: the device ends in Xfer, the drop counter 0, when the SPI
    controller handles the ready line, and in WaitingRdy, the drop counter
    1, when not. *)
Theorem peer_error_is_recovered
    (pf : platform) (n : nat) (race : M unit) (m : machine)
    (pr : symspi_dev_private) :
  p (symspi m) = Some pr ->
  magic pr = SYMSPI_PRIVATE_MAGIC ->
  close_request pr = false ->
  spi_master_mode pr = true ->
  goes_to_error_directly (state pr) ->
  their_flag_drop_counter pr = 1 ->
  their_flag_raised pr m = false ->
  IS_ERR_OR_NULL pf (fail_callback (current_xfer pr)) = true ->
  0 < FULL_DUPLEX_ERROR_NOT_READY pf ->
  valid_device pf m ->
  exists m1 pr1,
    symspi_their_flag_isr pf (S n) race m = Ret tt m1
    /\ p (symspi m1) = Some pr1
    /\ state pr1 = SYMSPI_STATE_ERROR
    /\ last_error pr1 = SYMSPI_ERROR_OTHER_SIDE
    /\ their_flag_drop_counter pr1 = 2
    /\ trace m1
       = [EvQueueWork recover_work; EvDropCounterAddFetch 2] ++ trace m
    /\ exists res m2 pr2,
         symspi_recovery_sequence pf (S n) race m1 = Ret res m2
         /\ p (symspi m2) = Some pr2
         /\ last_error pr2 = SYMSPI_SUCCESS
         /\ our_flag_raw m2 = SYMSPI_MASTER_FLAG_ACTIVE_VALUE
         /\ (if hardware_spi_rdy pr
             then res = do_xfer_result m
                  /\ state pr2 = SYMSPI_STATE_XFER
                  /\ their_flag_drop_counter pr2 = 0
             else res = SYMSPI_SUCCESS
                  /\ state pr2 = SYMSPI_STATE_WAITING_RDY
                  /\ their_flag_drop_counter pr2 = 1).
Proof.
  intros Hp Hmagic Hc Hm Hst Hcnt Hr Hcb Hnr Hdev.
  destruct (their_flag_isr_second_drop pf n race m pr Hp Hc Hm Hst Hcnt Hr)
    as (pr' & Hledger & E).
  rewrite E. clear E.
  assert (Hsame : magic pr' = magic pr
                  /\ close_request pr' = close_request pr
                  /\ spi_master_mode pr' = spi_master_mode pr
                  /\ hardware_spi_rdy pr' = hardware_spi_rdy pr
                  /\ current_xfer pr' = current_xfer pr
                  /\ their_flag_drop_counter pr' = 2).
  { rewrite Hledger. destruct pr. repeat split. }
  destruct Hsame as (Hmagic' & Hc' & Hm' & Hhw' & Hx' & Hcnt').
  set (pr1 := count_edge _).
  set (m1 := stepped pr1 _ m).
  exists m1, pr1.
  split; [reflexivity|]. split; [reflexivity|].
  split; [destruct pr'; reflexivity|].
  split; [destruct pr'; reflexivity|].
  split; [destruct pr'; exact Hcnt'|].
  split; [destruct m; reflexivity|].
  assert (Hp1 : p (symspi m1) = Some pr1) by reflexivity.
  rewrite (recovery_sequence_null_eq pf (S n) race m1 pr1 Hp1
             ltac:(destruct pr'; cbn in *; congruence)
             ltac:(destruct pr'; reflexivity)
             ltac:(destruct pr'; cbn in *; congruence)
             ltac:(destruct pr'; cbn in *; congruence)).
  rewrite data_xchange_default_eq.
  assert (Hm1 : spi_master_mode pr1 = true)
    by (destruct pr'; cbn in *; congruence).
  unfold our_flag_inactive, our_flag_active. rewrite Hm1.
  set (idle := set_delayed_xfer_request false _).
  set (m2 := set_our_flag_raw _ _).
  assert (Hp2 : p (symspi m2) = Some idle) by reflexivity.
  assert (Hdev2 : valid_device pf m2).
  { subst m2 m1. destruct m as [dev ? ? ? ? ? ?]. destruct dev. exact Hdev. }
  unfold bind.
  rewrite (data_xchange_none_eq pf (S n) race m2 idle false Hp2
             ltac:(destruct pr'; cbn in *; congruence)
             ltac:(destruct pr'; cbn in *; congruence)
             ltac:(destruct pr'; reflexivity)
             ltac:(destruct pr'; cbn; lia)
             Hnr Hdev2).
  replace (their_flag_drop_counter idle) with 1
    by (destruct pr'; reflexivity).
  change (negb (1 =? 1)) with false. cbv iota.
  replace (hardware_spi_rdy idle) with (hardware_spi_rdy pr)
    by (destruct pr'; cbn in *; congruence).
  replace (their_flag_raised idle m2) with false.
  2:{ rewrite <- Hr. unfold their_flag_raised.
      replace (spi_master_mode idle) with (spi_master_mode pr)
        by (destruct pr'; cbn in *; congruence).
      subst m2 m1. now destruct m. }
  replace (do_xfer_result m2) with (do_xfer_result m)
    by (subst m2 m1; destruct m; reflexivity).
  destruct (hardware_spi_rdy pr).
  - eexists _, _, _. split; [reflexivity|]. split; [reflexivity|].
    split; [destruct pr'; reflexivity|]. split; [reflexivity|].
    repeat split; destruct pr'; reflexivity.
  - eexists _, _, _. split; [reflexivity|]. split; [reflexivity|].
    split; [destruct pr'; reflexivity|]. split; [reflexivity|].
    repeat split; destruct pr'; reflexivity.
Qed.

Lemma peer_error_is_recovered_witness :
  exists m1 pr1,
    symspi_their_flag_isr demo_platform 1 (ret tt) idle_machine = Ret tt m1
    /\ p (symspi m1) = Some pr1
    /\ state pr1 = SYMSPI_STATE_ERROR
    /\ last_error pr1 = SYMSPI_ERROR_OTHER_SIDE
    /\ their_flag_drop_counter pr1 = 2
    /\ trace m1
       = [EvQueueWork recover_work; EvDropCounterAddFetch 2]
         ++ trace idle_machine
    /\ exists res m2 pr2,
         symspi_recovery_sequence demo_platform 1 (ret tt) m1 = Ret res m2
         /\ p (symspi m2) = Some pr2
         /\ last_error pr2 = SYMSPI_SUCCESS
         /\ our_flag_raw m2 = SYMSPI_MASTER_FLAG_ACTIVE_VALUE
         /\ (if hardware_spi_rdy idle_private
             then res = do_xfer_result idle_machine
                  /\ state pr2 = SYMSPI_STATE_XFER
                  /\ their_flag_drop_counter pr2 = 0
             else res = SYMSPI_SUCCESS
                  /\ state pr2 = SYMSPI_STATE_WAITING_RDY
                  /\ their_flag_drop_counter pr2 = 1).
Proof.
  apply (peer_error_is_recovered demo_platform 0 (ret tt) idle_machine
           idle_private); try reflexivity.
  - left. reflexivity.
  - repeat split.
Defined.


(** ** The done callback *)

Lemma xfer_accepted_eq x m pr :
  p (symspi m) = Some pr ->
  xfer_accepted x m = Ret tt (stepped pr (accepted_events m) m).
Proof.
  intros Hp. unfold xfer_accepted, accepted_events.
  unfold bind, rd_dev.
  destruct (xfer_accepted_callback (symspi m) =? 0).
  - unfold ret. now rewrite (stepped_nil _ _ Hp).
  - apply (emit_eq _ _ _ Hp).
Qed.

(* the postprocessing work up to the answer of the done callback *)
Lemma postprocessing_with_callback_eq pf fuel race m pr :
  p (symspi m) = Some pr ->
  state pr = SYMSPI_STATE_POSTPROCESSING ->
  done_callback (current_xfer pr) <> 0 ->
  symspi_postprocessing_sequence pf fuel race m
  = (let (next_xfer, start_immediately) :=
       call_done_callback pf (done_callback (current_xfer pr))
         (current_xfer (count_current_xfer pr)) (next_xfer_id pr)
         (consumer_data (current_xfer pr)) in
     let finish :=
       symspi_our_flag_drop ;;
       symspi_wait_flag_silence_period ;;
       symspi_to_idle_sequence pf fuel race SYMSPI_STATE_POSTPROCESSING
         start_immediately SYMSPI_SUCCESS ;;
       ret tt in
     match next_xfer with
     | CbErr => ret tt
     | CbXfer x =>
         r <- symspi_update_xfer_sequence pf fuel race (Some x)
                SYMSPI_STATE_POSTPROCESSING true ;;
         xfer_accepted x ;;
         if negb (fst r =? SYMSPI_SUCCESS) then
           symspi_our_flag_drop ;;
           symspi_wait_flag_silence_period
         else finish
     | CbNull => finish
     end)
      (stepped (count_current_xfer pr) [EvDoneCallback (next_xfer_id pr)] m).
Proof.
  intros Hp Hst Hdone. unfold symspi_postprocessing_sequence.
  unfold bind at 1. rewrite (rd_private _ _ _ Hp), Hst.
  change (negb (SYMSPI_STATE_POSTPROCESSING =? SYMSPI_STATE_POSTPROCESSING))
    with false. cbv iota.
  unfold bind at 1. unfold symspi_inc_current_xfer_counter.
  rewrite (wr_private _ _ _ Hp). fold (count_current_xfer pr).
  set (pr1 := count_current_xfer pr).
  unfold bind at 1. rewrite (rd_private _ _ _ (private_of_set_private _ _)).
  unfold bind at 1. rewrite (rd_private _ _ _ (private_of_set_private _ _)).
  change (done_callback (current_xfer pr1))
    with (done_callback (current_xfer pr)).
  change (consumer_data (current_xfer pr1))
    with (consumer_data (current_xfer pr)).
  change (next_xfer_id pr1) with (next_xfer_id pr).
  apply Z.eqb_neq in Hdone. rewrite Hdone.
  unfold bind at 1. unfold bind at 1.
  rewrite (emit_eq _ _ _ (private_of_set_private _ _)).
  unfold ret at 1.
  destruct m as [dev ? ? ? ? ? ?]. destruct dev. reflexivity.
Qed.

(** X29: a done callback that answers with an error pointer halts the
    device.  The postprocessing work counts the transfer, calls the done
    callback with the id of the next xfer, and returns: the state stays
    Postprocessing, our flag is not dropped, no timer is touched.  A
    request that follows is answered NotReady and only latched. *)
Theorem done_callback_halts_device
    (pf : platform) (fuel : nat) (race : M unit) (m : machine)
    (pr : symspi_dev_private) (start_immediately : bool) :
  p (symspi m) = Some pr ->
  close_request pr = false ->
  state pr = SYMSPI_STATE_POSTPROCESSING ->
  done_callback (current_xfer pr) <> 0 ->
  call_done_callback pf (done_callback (current_xfer pr))
    (current_xfer (count_current_xfer pr)) (next_xfer_id pr)
    (consumer_data (current_xfer pr)) = (CbErr, start_immediately) ->
  0 < FULL_DUPLEX_ERROR_NOT_READY pf ->
  valid_device pf m ->
  let m' :=
    stepped (count_current_xfer pr) [EvDoneCallback (next_xfer_id pr)] m in
  symspi_postprocessing_sequence pf fuel race m = Ret tt m'
  /\ state_word m' = Some SYMSPI_STATE_POSTPROCESSING
  /\ our_flag_raw m' = our_flag_raw m
  /\ symspi_data_xchange pf fuel race None false m'
     = Ret (- FULL_DUPLEX_ERROR_NOT_READY pf, None)
         (set_private
            (Some (set_delayed_xfer_request true (count_current_xfer pr)))
            m').
Proof.
  intros Hp Hc Hst Hdone Hcb Hnr Hdev m'.
  rewrite (postprocessing_with_callback_eq pf fuel race m pr Hp Hst Hdone).
  rewrite Hcb. fold m'.
  split; [reflexivity|].
  split; [unfold state_word; cbn; now rewrite Hst|].
  split; [subst m'; now destruct m|].
  assert (Hdev' : valid_device pf m').
  { subst m'. destruct m as [dev ? ? ? ? ? ?]. destruct dev. exact Hdev. }
  apply (proj1 (request_while_busy_eq pf fuel race m' (count_current_xfer pr)
                  None false Hnr eq_refl
                  ltac:(destruct pr; exact Hc)
                  ltac:(destruct pr; cbn in *; rewrite Hst; discriminate)
                  Hdev' I)).
Qed.

Lemma done_callback_halts_device_witness :
  symspi_postprocessing_sequence refusing_platform 1 (ret tt)
    postprocessing_machine
  = Ret tt
      (stepped (count_current_xfer postprocessing_private)
         [EvDoneCallback (next_xfer_id postprocessing_private)]
         postprocessing_machine)
  /\ state_word
       (stepped (count_current_xfer postprocessing_private)
          [EvDoneCallback (next_xfer_id postprocessing_private)]
          postprocessing_machine)
     = Some SYMSPI_STATE_POSTPROCESSING
  /\ our_flag_raw
       (stepped (count_current_xfer postprocessing_private)
          [EvDoneCallback (next_xfer_id postprocessing_private)]
          postprocessing_machine)
     = our_flag_raw postprocessing_machine
  /\ symspi_data_xchange refusing_platform 1 (ret tt) None false
       (stepped (count_current_xfer postprocessing_private)
          [EvDoneCallback (next_xfer_id postprocessing_private)]
          postprocessing_machine)
     = Ret (- FULL_DUPLEX_ERROR_NOT_READY refusing_platform, None)
         (set_private
            (Some (set_delayed_xfer_request true
                     (count_current_xfer postprocessing_private)))
            (stepped (count_current_xfer postprocessing_private)
               [EvDoneCallback (next_xfer_id postprocessing_private)]
               postprocessing_machine)).
Proof.
  apply (done_callback_halts_device refusing_platform 1 (ret tt)
           postprocessing_machine postprocessing_private false);
    try reflexivity.
  - discriminate.
  - repeat split.
Defined.

(** X30: a done callback that answers with its next xfer.  When the xfer
    has the size of the current one and its TX buffer apart, the
    postprocessing work counts the transfer, calls the done callback with
    the id of the next xfer, takes the answered xfer over under that id
    (when the id is positive) with the counter 0, calls
    xfer_accepted_callback if there is one, drops our flag, waits 675 to
    825 us, stops the timeout and switches to Idle; with no start asked
    for, nothing latched and the peer not requesting, the device stays
    Idle. *)
Theorem done_callback_feeds_next_xfer
    (pf : platform) (fuel : nat) (race : M unit) (m : machine)
    (pr : symspi_dev_private) (x : full_duplex_xfer) :
  p (symspi m) = Some pr ->
  close_request pr = false ->
  state pr = SYMSPI_STATE_POSTPROCESSING ->
  done_callback (current_xfer pr) <> 0 ->
  call_done_callback pf (done_callback (current_xfer pr))
    (current_xfer (count_current_xfer pr)) (next_xfer_id pr)
    (consumer_data (current_xfer pr)) = (CbXfer x, false) ->
  fits x pr ->
  their_flag_drop_counter pr <= 1 ->
  delayed_xfer_request pr = false ->
  (their_flag_drop_counter pr =? 1) && their_flag_raised pr m = false ->
  exists m' pr',
    symspi_postprocessing_sequence pf fuel race m = Ret tt m'
    /\ p (symspi m') = Some pr'
    /\ pr' = set_state SYMSPI_STATE_IDLE
               (installed (stamped pr x) (id_taken (count_current_xfer pr)))
    /\ (0 < next_xfer_id pr -> id (current_xfer pr') = next_xfer_id pr)
    /\ our_flag_raw m' = our_flag_inactive pr
    /\ trace m'
       = [EvDelTimerSync; EvUsleepRange 675 825;
          EvGpioSetOurFlag (our_flag_inactive pr)]
         ++ accepted_events m ++ hook_events m
         ++ [EvDoneCallback (next_xfer_id pr)] ++ trace m.
Proof.
  intros Hp Hc Hst Hdone Hcb Hfit Hcnt Hdl Hreq.
  rewrite (postprocessing_with_callback_eq pf fuel race m pr Hp Hst Hdone).
  rewrite Hcb. cbv zeta.
  set (pr1 := count_current_xfer pr).
  set (m1 := stepped pr1 _ m).
  assert (Hp1 : p (symspi m1) = Some pr1) by reflexivity.
  assert (Hfit1 : fits x pr1).
  { destruct Hfit as (H1 & H2 & H3). destruct pr as [nx cx]. destruct cx.
    repeat split; assumption. }
  unfold bind at 1.
  rewrite (update_xfer_sequence_same_size_eq pf fuel race m1 pr1 x
             SYMSPI_STATE_POSTPROCESSING true Hp1 Hfit1).
  cbn [fst].
  set (pr2 := installed _ _).
  set (m2 := stepped pr2 _ m1).
  assert (Hp2 : p (symspi m2) = Some pr2) by reflexivity.
  unfold bind at 1. rewrite (xfer_accepted_eq x m2 pr2 Hp2).
  change (negb (SYMSPI_SUCCESS =? SYMSPI_SUCCESS)) with false. cbv iota.
  set (m3 := stepped pr2 _ m2).
  assert (Hp3 : p (symspi m3) = Some pr2) by reflexivity.
  unfold bind at 1. rewrite (our_flag_drop_eq _ _ Hp3).
  set (m4 := set_our_flag_raw _ _).
  assert (Hp4 : p (symspi m4) = Some pr2) by reflexivity.
  unfold bind at 1. rewrite (wait_flag_silence_period_eq _ _ Hp4).
  set (m5 := stepped pr2 _ m4).
  assert (Hp5 : p (symspi m5) = Some pr2) by reflexivity.
  assert (Hc2 : close_request pr2 = false) by (destruct pr; exact Hc).
  assert (Hcnt2 : their_flag_drop_counter pr2 <= 1)
    by (destruct pr; exact Hcnt).
  pose proof (to_idle_sequence_eq pf fuel race m5 pr2 false Hp5 Hc2
                (fun _ => Hcnt2)) as E.
  replace (state pr2) with SYMSPI_STATE_POSTPROCESSING in E
    by (destruct pr; cbn in *; congruence).
  unfold bind at 1. rewrite E. clear E.
  replace (delayed_xfer_request pr2) with false
    by (destruct pr; symmetry; exact Hdl).
  replace (their_flag_drop_counter pr2) with (their_flag_drop_counter pr)
    by (destruct pr; reflexivity).
  replace (their_flag_raised pr2 m5) with (their_flag_raised pr m)
    by (subst m5 m4 m3 m2 m1 pr2 pr1; destruct pr, m; reflexivity).
  rewrite Hreq. cbn [orb]. unfold ret.
  eexists _, _. split; [reflexivity|]. split; [reflexivity|].
  split.
  { subst pr2 pr1. destruct pr as [nx cx]. cbn in Hdl. subst.
    reflexivity. }
  split.
  { intros Hpos. subst pr2 pr1. unfold stamped, next_id.
    replace (next_xfer_id (count_current_xfer pr)) with (next_xfer_id pr)
      by (now destruct pr).
    replace (next_xfer_id pr <=? 0) with false
      by (symmetry; apply Z.leb_gt; exact Hpos).
    destruct pr, x. reflexivity. }
  split.
  { replace (our_flag_inactive pr2) with (our_flag_inactive pr)
      by (destruct pr; reflexivity).
    reflexivity. }
  replace (our_flag_inactive pr2) with (our_flag_inactive pr)
    by (destruct pr; reflexivity).
  subst m5 m4 m3 m2 m1.
  repeat match goal with
  | |- context [accepted_events ?M] =>
      lazymatch M with
      | m => fail
      | _ => change (accepted_events M) with (accepted_events m)
      end
  | |- context [hook_events ?M] =>
      lazymatch M with
      | m => fail
      | _ => change (hook_events M) with (hook_events m)
      end
  end.
  destruct (accepted_events m), (hook_events m);
    destruct m as [dev ? ? ? ? ? ?]; reflexivity.
Qed.

Lemma done_callback_feeds_next_xfer_witness :
  exists m' pr',
    symspi_postprocessing_sequence feeding_platform 1 (ret tt)
      postprocessing_machine = Ret tt m'
    /\ p (symspi m') = Some pr'
    /\ pr' = set_state SYMSPI_STATE_IDLE
               (installed
                  (stamped postprocessing_private
                     (set_done_callback 20480 xfer_64_bytes))
                  (id_taken (count_current_xfer postprocessing_private)))
    /\ (0 < next_xfer_id postprocessing_private ->
        id (current_xfer pr') = next_xfer_id postprocessing_private)
    /\ our_flag_raw m' = our_flag_inactive postprocessing_private
    /\ trace m'
       = [EvDelTimerSync; EvUsleepRange 675 825;
          EvGpioSetOurFlag (our_flag_inactive postprocessing_private)]
         ++ accepted_events postprocessing_machine
         ++ hook_events postprocessing_machine
         ++ [EvDoneCallback (next_xfer_id postprocessing_private)]
         ++ trace postprocessing_machine.
Proof.
  apply (done_callback_feeds_next_xfer feeding_platform 1 (ret tt)
           postprocessing_machine postprocessing_private
           (set_done_callback 20480 xfer_64_bytes)); try reflexivity.
  - discriminate.
  - split; [discriminate|]. split; reflexivity.
Defined.

